(** * Multi-layer search server: the four-stage retrieval cascade

    A shallow embedding of the TypeScript sources

    - [layers/layer1-inverted-index]  (class [Layer1InvertedIndex]),
    - [layers/layer2-bm25]            (class [Layer2BM25]),
    - [layers/layer3-vector-search]   (class [Layer3VectorSearch]),
    - [layers/layer4-personalization] (class [Layer4Personalization]),
    - [services/search-service]       (class [SearchService]),
    - [types] and [config],

    followed by the properties of the specification that are checked
    against them.

    Conventions of the embedding.

    - A JavaScript [number] is a real number ([R]); [NaN], the
      infinities and the signed zero of IEEE 754 are abstracted away.
      The score computations of stages 2 and 3 round: their
      operations are those of an arithmetic that the definitions take
      as a parameter ([Arith]), and a statement about them holds in
      every arithmetic unless it names the one of the real numbers.
      The boosts of stage 4, sums of a few constants that are cut by
      [Math.min], are computed over the real numbers.
      Counters that only ever hold integers ([documentCount], term
      frequencies, ...) are kept in [Z] and injected with [IZR] where the
      source mixes them with fractional values.
      A division by zero and the logarithm of a number that is not
      positive take the values the real numbers of Rocq give them
      ([x / 0 = 0], [ln x = 0]) where JavaScript has an infinity or
      [NaN].  The sources divide by what they have tested
      ([documentCount > 0], the norms of the vectors) and by constants;
      in the BM25 score, the average document length and the argument
      of the logarithm are positive in every state the operations of
      stage 2 reach, and so is the denominator for parameters
      [k1 >= 0] and [0 <= b <= 1] (lemmas [Layer2_reachable_defined]
      and [termScore_denominator_positive]).
    - A JavaScript [string] is a Rocq [string]; one character stands for
      one UTF-16 code unit, which is exact for ASCII text.
    - [Map<string, V>] is [gmap string V] and [Set<string>] is
      [gset string]; the insertion order that JavaScript keeps for
      iteration is not part of the model.
    - A mutable class instance is a record that is passed in and returned.
    - Values of type [any] ([metadata], the data of a recorded
      behavior) are values of [JsValue]: the values of JSON and dates.
      Where the sources convert such a value to a property key, the
      conversion is modelled ([Layer4.propertyKey]).
    - [Date.now()] / [new Date()] read a clock oracle, exceptions are
      values: see the monad [M]. *)

From Stdlib Require Import Reals Lra ZArith Ascii String List Sorted Permutation.
From stdpp Require Import gmap strings list fin_maps.

Open Scope Z_scope.

Set Warnings "-register-all,-clear-no-such-hyp".

(** ** JavaScript values *)

(** Free-form values as they occur in [Record<string, any>] metadata. *)
Inductive JsValue : Type :=
| JsUndefined
| JsNull
| JsBool (b : bool)
| JsNum (x : R)
| JsStr (s : string)
| JsDate (ms : Z)
| JsArr (xs : list JsValue)
| JsObj (fields : list (string * JsValue)).

(** Truthiness, as tested by [if (v)], [v && ...] and [v || ...]. *)
Definition truthy (v : JsValue) : bool :=
  match v with
  | JsUndefined | JsNull => false
  | JsBool b => b
  | JsNum x => if Req_dec_T x 0%R then false else true
  | JsStr s => if decide (s = "") then false else true
  | JsDate _ | JsArr _ | JsObj _ => true
  end.

(** Comparisons of numbers are decided. *)
#[global] Instance Rlt_decision (x y : R) : Decision (x < y)%R := Rlt_dec x y.

#[global] Instance Req_decision (x y : R) : Decision (x = y) := Req_dec_T x y.

(** ** Machine arithmetic

    The score computations of stages 2 and 3 (the BM25 and TF-IDF
    loops, the cosine similarity, the fusion of the two scores) take
    the arithmetic as a parameter: where the sources write [x + y] on
    two numbers, the machine returns the number it rounds the sum to.
    An arithmetic gives the rounding of a real number to a number of
    the machine, and what [Math.log] and [Math.sqrt] return (the
    language leaves their last digits to the implementation).
    Comparisons of two numbers are exact.  Overflow and [NaN] are
    abstracted away. *)
Class Arith : Type := mkArith {
  rnd : R -> R;
  fln : R -> R;
  fsqrt : R -> R
}.

Definition fadd {fl : Arith} (x y : R) : R := rnd (x + y).

Definition fsub {fl : Arith} (x y : R) : R := rnd (x - y).

Definition fmul {fl : Arith} (x y : R) : R := rnd (x * y).

Definition fdiv {fl : Arith} (x y : R) : R := rnd (x / y).

(** The arithmetic of the real numbers: nothing is rounded.  A
    statement that names no arithmetic is about this one. *)
#[global] Instance exact_arith : Arith :=
  {| rnd := fun x => x; fln := ln; fsqrt := sqrt |}.

(** [x || 0] on numbers. *)
Definition num_or_zero (x : R) : R :=
  if Req_dec_T x 0%R then 0%R else x.

(** [o || 0] where [o] is [undefined] or an integer counter. *)
Definition int_or_zero (o : option Z) : Z :=
  match o with
  | Some n => if n =? 0 then 0 else n
  | None => 0
  end.

(** [optional string] tested for truthiness: defined and not empty. *)
Definition truthy_str (o : option string) : bool :=
  match o with
  | Some s => if decide (s = "") then false else true
  | None => false
  end.

(** [Array.prototype.slice(0, n)]; a negative [n] counts from the end. *)
Definition slice0 {A : Type} (n : Z) (l : list A) : list A :=
  if n <? 0 then take (Z.to_nat (Z.of_nat (length l) + n)) l
  else take (Z.to_nat n) l.

(** [metadata?.[key]]: a missing object and a missing key both read as
    [undefined]. *)
Definition meta_get (m : gmap string JsValue) (key : string) : JsValue :=
  default JsUndefined (m !! key).

(** ** Types ([types/index.ts]) *)

(** A missing [metadata] object is the empty map: every use in the
    sources is a spread or an optional-chaining read. *)
Record Document : Type := mkDocument {
  doc_id : string;
  doc_title : string;
  doc_content : string;
  doc_url : option string;
  doc_category : option string;
  doc_tags : option (list string);
  doc_createdAt : Z;
  doc_updatedAt : Z;
  doc_metadata : gmap string JsValue
}.

Record SearchResult : Type := mkSearchResult {
  sr_id : string;
  sr_title : string;
  sr_content : string;
  sr_url : option string;
  sr_score : R;
  sr_metadata : gmap string JsValue
}.

Record SearchContext : Type := mkSearchContext {
  ctx_location : option (R * R * option R);
  ctx_timestamp : option Z;
  ctx_device : option string;
  ctx_sessionId : option string;
  ctx_previousQueries : option (list string)
}.

Record SearchRequest : Type := mkSearchRequest {
  req_query : string;
  req_userId : option string;
  req_limit : option Z;
  req_offset : option Z;
  req_context : option SearchContext
}.

Record Layer1Result : Type := mkLayer1Result {
  l1r_documentIds : list string;
  l1r_totalCount : Z;
  l1r_executionTime : Z
}.

Record Layer2Result : Type := mkLayer2Result {
  l2r_results : list SearchResult;
  l2r_totalCount : Z;
  l2r_executionTime : Z
}.

Record Layer3Result : Type := mkLayer3Result {
  l3r_results : list SearchResult;
  l3r_totalCount : Z;
  l3r_executionTime : Z;
  l3r_vectorScores : list R
}.

Record Layer4Result : Type := mkLayer4Result {
  l4r_results : list SearchResult;
  l4r_totalCount : Z;
  l4r_executionTime : Z;
  l4r_personalizationScore : R
}.

Record BM25Params : Type := mkBM25Params { k1 : R; b : R }.

Record BM25Score : Type := mkBM25Score {
  bs_documentId : string;
  bs_score : R;
  bs_termScores : list (string * R)
}.

Record VectorEmbedding : Type := mkVectorEmbedding {
  ve_documentId : string;
  ve_vector : list R;
  ve_metadata : gmap string JsValue
}.

Record VectorSearchResult : Type := mkVectorSearchResult {
  vs_documentId : string;
  vs_similarity : R;
  vs_vector : list R
}.

(** Errors.  The message texts of the sources are not kept; a
    [LayerError] keeps its layer tag, a [SearchError] its code. *)
Inductive Error : Type :=
| JsError
| LayerError (layer : string)
| SearchError (code : string).

(** ** Configuration ([config/index.ts]) *)

Record Config : Type := mkConfig {
  vectorDimension : Z;
  maxResultsLayer1 : Z;
  maxResultsLayer2 : Z;
  maxResultsLayer3 : Z;
  maxFinalResults : Z;
  userProfileWeight : R;
  contextWeight : R;
  temporalWeight : R
}.

(** The values used when no environment variable overrides them. *)
Definition default_config : Config :=
  {| vectorDimension := 768;
     maxResultsLayer1 := 10000;
     maxResultsLayer2 := 1000;
     maxResultsLayer3 := 100;
     maxFinalResults := 20;
     userProfileWeight := 0.3;
     contextWeight := 0.2;
     temporalWeight := 0.1 |}.

(** ** Effects: clock and exceptions *)

(** The external world of a call: the successive readings of the system
    clock (milliseconds), and the local-time calendar functions. *)
Record World : Type := mkWorld {
  clock : nat -> Z;
  getHours : Z -> Z;
  getDay : Z -> Z
}.

(** A computation reads the clock (the state is the number of readings
    taken so far) and either returns or throws. *)
Definition M (A : Type) : Type := World -> nat -> (Error + A) * nat.

Definition ret {A : Type} (a : A) : M A := fun _ n => (inr a, n).

Definition throw {A : Type} (e : Error) : M A := fun _ n => (inl e, n).

Definition bind {A B : Type} (m : M A) (k : A -> M B) : M B :=
  fun w n =>
    match m w n with
    | (inr a, n') => k a w n'
    | (inl e, n') => (inl e, n')
    end.

(** [Date.now()] and [new Date().getTime()]. *)
Definition Date_now : M Z := fun w n => (inr (clock w n), S n).

(** [try { body } catch (error) { throw handler }]. *)
Definition try_catch {A : Type} (body : M A) (handler : Error) : M A :=
  fun w n =>
    match body w n with
    | (inr a, n') => (inr a, n')
    | (inl _, n') => (inl handler, n')
    end.

Notation "x <- m ;; k" := (bind m (fun x => k))
  (at level 100, m at next level, right associativity).

(** [for (const x of l)] / [l.map(async ...)] run in sequence. *)
Fixpoint mapM {A B : Type} (f : A -> M B) (l : list A) : M (list B) :=
  match l with
  | [] => ret []
  | x :: l' => y <- f x ;; ys <- mapM f l' ;; ret (y :: ys)
  end.

(** A loop whose body may throw, outside of the clock: the results in
    order, or the first exception. *)
Fixpoint mapE {A B : Type} (f : A -> Error + B) (l : list A)
  : Error + list B :=
  match l with
  | [] => inr []
  | x :: l' =>
      match f x with
      | inl e => inl e
      | inr y =>
          match mapE f l' with
          | inl e => inl e
          | inr ys => inr (y :: ys)
          end
      end
  end.

(** ** Sorting

    [arr.sort((a, b) => key(b) - key(a))]: a stable sort by decreasing
    key.  The elements are inserted from the last to the first, each one
    in front of the first element whose key is not larger than its own,
    so that elements with equal keys keep their order. *)
Section Sort.
Context {A : Type} (key : A -> R).

Fixpoint insert_desc (x : A) (l : list A) : list A :=
  match l with
  | [] => [x]
  | y :: l' =>
      if Rlt_dec (key x) (key y) then y :: insert_desc x l'
      else x :: y :: l'
  end.

Definition sort_desc (l : list A) : list A :=
  foldr insert_desc [] l.

(** Decreasing order. *)
Definition sorted_desc (l : list A) : Prop :=
  StronglySorted (fun x y => (key y <= key x)%R) l.
End Sort.

(** ** Tokenizer/normalizer (shared by stage 1 and stage 2) *)

Module Tokenizer.

Definition is_upper (c : ascii) : bool :=
  let n := nat_of_ascii c in (65 <=? n)%nat && (n <=? 90)%nat.

(** The character class [\w] of JavaScript regular expressions. *)
Definition is_word_char (c : ascii) : bool :=
  let n := nat_of_ascii c in
  ((65 <=? n)%nat && (n <=? 90)%nat)
  || ((97 <=? n)%nat && (n <=? 122)%nat)
  || ((48 <=? n)%nat && (n <=? 57)%nat)
  || (n =? 95)%nat.

Definition lower_char (c : ascii) : ascii :=
  if is_upper c then ascii_of_nat (nat_of_ascii c + 32) else c.

(** [text.toLowerCase()] on ASCII text. *)
Fixpoint toLowerCase (s : string) : string :=
  match s with
  | EmptyString => EmptyString
  | String c s' => String (lower_char c) (toLowerCase s')
  end.

Fixpoint filter_chars (p : ascii -> bool) (s : string) : string :=
  match s with
  | EmptyString => EmptyString
  | String c s' =>
      if p c then String c (filter_chars p s') else filter_chars p s'
  end.

Fixpoint split_words (cur : string) (s : string) : list string :=
  match s with
  | EmptyString => if decide (cur = "") then [] else [cur]
  | String c s' =>
      if is_word_char c then split_words (cur +:+ String c "") s'
      else if decide (cur = "") then split_words "" s'
      else cur :: split_words "" s'
  end.

(** Modelled from the spec: [natural.WordTokenizer], the tokenizer of
    the third-party package the layers instantiate, is not among the
    sources.  The spec has it split on word boundaries (whitespace and
    non-word transitions); the tokens are the maximal runs of word
    characters, in order, and empty pieces are discarded. *)
Definition WordTokenizer_tokenize (text : string) : list string :=
  split_words "" text.

Definition stopWords : list string :=
  [ "the"; "a"; "an"; "and"; "or"; "but"; "in"; "on"; "at"; "to"; "for";
    "of"; "with"; "by"; "is"; "are"; "was"; "were"; "be"; "been"; "have";
    "has"; "had"; "do"; "does"; "did"; "will"; "would"; "could";
    "should"; "may"; "might"; "can"; "this"; "that"; "these"; "those";
    "i"; "you"; "he"; "she"; "it"; "we"; "they"; "me"; "him"; "her";
    "us"; "them" ].

Definition isStopWord (token : string) : bool :=
  bool_decide (token ∈ stopWords).

(** [tokenizeAndNormalize], identical in [Layer1InvertedIndex] and
    [Layer2BM25]. *)
Definition tokenizeAndNormalize (text : string) : list string :=
  let tokens := WordTokenizer_tokenize (toLowerCase text) in
  filter
    (fun token : string =>
       (2 <? String.length token)%nat && negb (isStopWord token) = true)
    (map (filter_chars is_word_char) tokens).

End Tokenizer.

(** ** Stage 1: the inverted index ([Layer1InvertedIndex]) *)

Module Layer1.
Import Tokenizer.

Record InvertedIndexEntry : Type := mkEntry {
  term : string;
  documentIds : gset string;
  termFrequency : gmap string Z;
  documentFrequency : Z
}.

Record InvertedIndex : Type := mkIndex {
  index : gmap string InvertedIndexEntry;
  documentCount : Z;
  totalTerms : Z
}.

(** The fields of the class ([tokenizer] has no state). *)
Record State : Type := mkState {
  st_index : InvertedIndex;
  documents : gmap string Document
}.

(** The constructor. *)
Definition init : State :=
  {| st_index := {| index := ∅; documentCount := 0; totalTerms := 0 |};
     documents := ∅ |}.

(** Title tokens followed by content tokens. *)
Definition allTokens (document : Document) : list string :=
  tokenizeAndNormalize (doc_title document)
  ++ tokenizeAndNormalize (doc_content document).

(** The body of the [allTokens.forEach] loop of [addDocument]. *)
Definition addToken (documentId : string)
    (idx : gmap string InvertedIndexEntry) (token : string)
  : gmap string InvertedIndexEntry :=
  let entry :=
    default {| term := token; documentIds := ∅; termFrequency := ∅;
               documentFrequency := 0 |} (idx !! token) in
  let ids := {[documentId]} ∪ documentIds entry in
  let currentTf := int_or_zero (termFrequency entry !! documentId) in
  <[token := {| term := term entry;
                documentIds := ids;
                termFrequency :=
                  <[documentId := currentTf + 1]> (termFrequency entry);
                documentFrequency := Z.of_nat (size ids) |}]> idx.

(** [addDocument]; nothing in its [try] block can throw. *)
Definition addDocument (document : Document) (st : State) : State :=
  let tokens := allTokens document in
  {| documents := <[doc_id document := document]> (documents st);
     st_index :=
       {| index :=
            fold_left (addToken (doc_id document)) tokens
              (index (st_index st));
          documentCount := documentCount (st_index st) + 1;
          totalTerms :=
            totalTerms (st_index st) + Z.of_nat (length tokens) |} |}.

(** The body of the [allTokens.forEach] loop of [removeDocument]. *)
Definition removeToken (documentId : string)
    (idx : gmap string InvertedIndexEntry) (token : string)
  : gmap string InvertedIndexEntry :=
  match idx !! token with
  | None => idx
  | Some entry =>
      let ids := documentIds entry ∖ {[documentId]} in
      if (size ids =? 0)%nat then delete token idx
      else
        <[token := {| term := term entry;
                      documentIds := ids;
                      termFrequency :=
                        delete documentId (termFrequency entry);
                      documentFrequency := Z.of_nat (size ids) |}]> idx
  end.

(** [removeDocument] returns its boolean and the state it leaves. *)
Definition removeDocument (documentId : string) (st : State)
  : bool * State :=
  match documents st !! documentId with
  | None => (false, st)
  | Some document =>
      let tokens := allTokens document in
      (true,
       {| documents := delete documentId (documents st);
          st_index :=
            {| index :=
                 fold_left (removeToken documentId) tokens
                   (index (st_index st));
               documentCount := documentCount (st_index st) - 1;
               totalTerms := totalTerms (st_index st) |} |})
  end.

(** The posting set of a token; no entry reads as no postings. *)
Definition postings (st : State) (token : string) : gset string :=
  match index (st_index st) !! token with
  | Some entry => documentIds entry
  | None => ∅
  end.

(** [unionDocuments]. *)
Definition unionDocuments (st : State) (tokens : list string)
  : gset string :=
  fold_left
    (fun result token =>
       match index (st_index st) !! token with
       | Some entry => result ∪ documentIds entry
       | None => result
       end)
    tokens ∅.

(** The [for] loop of [intersectDocuments], from index 1 on; [break]
    ends it with the cleared set. *)
Fixpoint intersectLoop (st : State) (result : gset string)
    (tokens : list string) : gset string :=
  match tokens with
  | [] => result
  | token :: rest =>
      match index (st_index st) !! token with
      | Some entry =>
          intersectLoop st
            (filter (fun docId => docId ∈ documentIds entry) result) rest
      | None => ∅
      end
  end.

(** [intersectDocuments]. *)
Definition intersectDocuments (st : State) (tokens : list string)
  : gset string :=
  match tokens with
  | [] => ∅
  | firstToken :: rest =>
      let result :=
        match index (st_index st) !! firstToken with
        | Some firstEntry => documentIds firstEntry
        | None => ∅
        end in
      intersectLoop st result rest
  end.

(** [excludeDocuments]. *)
Definition excludeDocuments (st : State) (tokens : list string)
  : gset string :=
  let allDocuments := dom (documents st) in
  let excluded := unionDocuments st tokens in
  filter (fun docId => docId ∉ excluded) allDocuments.

Inductive Operator : Type := AND | OR | NOT.

(** The set [resultDocuments] of [booleanSearch], before it is cut to
    [maxResultsLayer1]; [None] stands for the early return taken when
    the query has no accepted token. *)
Definition booleanResult (st : State) (query : string) (operator : Operator)
  : option (gset string) :=
  let queryTokens := tokenizeAndNormalize query in
  if (length queryTokens =? 0)%nat then None
  else Some
         match operator with
         | AND => intersectDocuments st queryTokens
         | OR => unionDocuments st queryTokens
         | NOT => excludeDocuments st queryTokens
         end.

Section WithConfig.
Variable config : Config.

(** [booleanSearch]. *)
Definition booleanSearch (st : State) (query : string)
    (operator : Operator) : M Layer1Result :=
  startTime <- Date_now ;;
  try_catch
    (match booleanResult st query operator with
     | None =>
         now <- Date_now ;;
         ret {| l1r_documentIds := []; l1r_totalCount := 0;
                l1r_executionTime := now - startTime |}
     | Some resultDocuments =>
         let documentIds :=
           slice0 (maxResultsLayer1 config) (elements resultDocuments) in
         now <- Date_now ;;
         ret {| l1r_documentIds := documentIds;
                l1r_totalCount := Z.of_nat (size resultDocuments);
                l1r_executionTime := now - startTime |}
     end)
    (LayerError "Layer1").

(** [search]: the union of the postings of the query tokens. *)
Definition search (st : State) (request : SearchRequest)
  : M Layer1Result :=
  startTime <- Date_now ;;
  try_catch
    (let queryTokens := tokenizeAndNormalize (req_query request) in
     if (length queryTokens =? 0)%nat then
       now <- Date_now ;;
       ret {| l1r_documentIds := []; l1r_totalCount := 0;
              l1r_executionTime := now - startTime |}
     else
       let candidateDocuments := unionDocuments st queryTokens in
       let documentIds :=
         slice0 (maxResultsLayer1 config) (elements candidateDocuments) in
       now <- Date_now ;;
       ret {| l1r_documentIds := documentIds;
              l1r_totalCount := Z.of_nat (size candidateDocuments);
              l1r_executionTime := now - startTime |})
    (LayerError "Layer1").
End WithConfig.

(** [booleanSearch] returns normally, whatever the clock reads, with
    the size of the set [resultDocuments] as total count and the
    elements of the set, cut to [maxResultsLayer1], as document ids. *)
Definition booleanSearchYields (config : Config) (st : State)
    (query : string) (operator : Operator) (resultDocuments : gset string)
  : Prop :=
  forall w n,
    exists out,
      booleanSearch config st query operator w n = (inr out, S (S n))
      ∧ l1r_documentIds out
        = slice0 (maxResultsLayer1 config) (elements resultDocuments)
      ∧ l1r_totalCount out = Z.of_nat (size resultDocuments).

(** [getIndexStats]. *)
Record IndexStats : Type := mkIndexStats {
  stats_totalDocuments : Z;
  stats_totalTerms : Z;
  stats_uniqueTerms : Z;
  stats_averageTermsPerDocument : R
}.

Definition getIndexStats (st : State) : IndexStats :=
  {| stats_totalDocuments := documentCount (st_index st);
     stats_totalTerms := totalTerms (st_index st);
     stats_uniqueTerms := Z.of_nat (size (index (st_index st)));
     stats_averageTermsPerDocument :=
       if 0 <? documentCount (st_index st)
       then (IZR (totalTerms (st_index st))
             / IZR (documentCount (st_index st)))%R
       else 0%R |}.

(** The term frequency the index holds for a token and a document;
    a missing entry and a missing counter read as 0. *)
Definition termFrequencyOf (st : State) (token documentId : string) : Z :=
  int_or_zero (index (st_index st) !! token
                 ≫= fun entry => termFrequency entry !! documentId).

(** The number of occurrences of a token in a token list. *)
Definition occurrences (token : string) (tokens : list string) : Z :=
  Z.of_nat (length (filter (fun t => t = token) tokens)).

(** The entry of a token that occurs [c] times among the tokens added
    for [documentId], from what the index held for it. *)
Definition entryAfterAdd (documentId token : string) (c : Z)
    (o : option InvertedIndexEntry) : InvertedIndexEntry :=
  let entry :=
    default {| term := token; documentIds := ∅; termFrequency := ∅;
               documentFrequency := 0 |} o in
  {| term := term entry;
     documentIds := {[documentId]} ∪ documentIds entry;
     termFrequency :=
       <[documentId := int_or_zero (termFrequency entry !! documentId) + c]>
         (termFrequency entry);
     documentFrequency :=
       Z.of_nat (size ({[documentId]} ∪ documentIds entry)) |}.

(** What is left of an entry once [documentId] is taken out of it. *)
Definition entryAfterRemove (documentId : string)
    (entry : InvertedIndexEntry)
  : option InvertedIndexEntry :=
  if decide (documentIds entry ∖ {[documentId]} = ∅) then None
  else Some {| term := term entry;
               documentIds := documentIds entry ∖ {[documentId]};
               termFrequency := delete documentId (termFrequency entry);
               documentFrequency :=
                 Z.of_nat (size (documentIds entry ∖ {[documentId]})) |}.

(** Integrity of an index entry (the invariant of the data model):
    the document frequency is the size of the posting set, that set
    is not empty, and it is the key set of the term-frequency map. *)
Definition entry_wf (entry : InvertedIndexEntry) : Prop :=
  documentFrequency entry = Z.of_nat (size (documentIds entry))
  ∧ documentIds entry ≠ ∅
  ∧ dom (termFrequency entry) = documentIds entry.

(** Integrity of the index: every entry is well formed, and the
    postings of a token are exactly the stored documents, filed under
    their own id, whose token list has the token. *)
Definition wf (st : State) : Prop :=
  (∀ token entry,
      index (st_index st) !! token = Some entry → entry_wf entry)
  ∧ (∀ documentId document,
      documents st !! documentId = Some document →
      doc_id document = documentId)
  ∧ (∀ token documentId,
      documentId ∈ postings st token ↔
      ∃ document,
        documents st !! documentId = Some document
        ∧ token ∈ allTokens document).

(** The states reached from the constructor by adding documents
    under ids that are not stored and by removing documents. *)
Inductive reachable : State -> Prop :=
| reachable_init : reachable init
| reachable_add document st :
    reachable st ->
    documents st !! doc_id document = None ->
    reachable (addDocument document st)
| reachable_remove documentId st :
    reachable st ->
    reachable (removeDocument documentId st).2.

(** The claims of the specification about [booleanSearch], as
    predicates on a document id: [tokens] are the query tokens. *)
Definition spec_AND (st : State) (tokens : list string) (x : string) : Prop :=
  ∀ t, t ∈ tokens → x ∈ postings st t.

Definition spec_OR (st : State) (tokens : list string) (x : string) : Prop :=
  ∃ t, t ∈ tokens ∧ x ∈ postings st t.

Definition spec_NOT (st : State) (tokens : list string) (x : string) : Prop :=
  x ∈ dom (documents st) ∧ ∀ t, t ∈ tokens → x ∉ postings st t.

(** [getDocument]. *)
Definition getDocument (st : State) (documentId : string) : option Document :=
  documents st !! documentId.

(** The stored documents that have a token, and those that have one of
    the tokens of a list. *)
Definition withToken (st : State) (token : string) : gmap string Document :=
  filter (fun kv : string * Document => token ∈ allTokens kv.2)
    (documents st).

Definition matching (st : State) (tokens : list string)
  : gmap string Document :=
  filter
    (fun kv : string * Document =>
       Exists (fun token => token ∈ allTokens kv.2) tokens)
    (documents st).

End Layer1.

(** ** Stage 2: the BM25 scorer ([Layer2BM25]) *)

Module Layer2.
Import Tokenizer.

(** The fields of the class. *)
Record State : Type := mkState {
  documents : gmap string Document;
  documentLengths : gmap string Z;
  averageDocumentLength : R;
  termDocumentFrequency : gmap string Z;
  totalDocuments : Z;
  bm25Params : BM25Params
}.

(** The constructor; [p?.k1 || 1.2] and [p?.b || 0.75]. *)
Definition init (k1_opt b_opt : option R) : State :=
  {| documents := ∅;
     documentLengths := ∅;
     averageDocumentLength := 0;
     termDocumentFrequency := ∅;
     totalDocuments := 0;
     bm25Params :=
       {| k1 := match k1_opt with
                | Some x => if Req_dec_T x 0%R then 1.2%R else x
                | None => 1.2%R
                end;
          b := match b_opt with
               | Some x => if Req_dec_T x 0%R then 0.75%R else x
               | None => 0.75%R
               end |} |}.

(** The text [`${document.title} ${document.content}`]. *)
Definition documentText (document : Document) : string :=
  doc_title document +:+ " " +:+ doc_content document.

Definition documentTokens (document : Document) : list string :=
  tokenizeAndNormalize (documentText document).

(** [new Set(tokens)] as the list of its elements in insertion order:
    the first occurrence of every token. *)
Definition uniqueTokens (tokens : list string) : list string :=
  fold_left
    (fun seen token => if decide (token ∈ seen) then seen else seen ++ [token])
    tokens [].

(** The sum taken by [reduce] over [documentLengths.values()]. *)
Definition totalLength (lengths : gmap string Z) : Z :=
  map_fold (fun _ len sum => sum + len) 0 lengths.

(** The value [updateAverageDocumentLength] stores, from the fields it
    reads. *)
Definition averageOf (lengths : gmap string Z) (total : Z) : R :=
  if total =? 0 then 0%R
  else (IZR (totalLength lengths) / IZR total)%R.

(** [updateAverageDocumentLength]. *)
Definition updateAverageDocumentLength (st : State) : State :=
  {| documents := documents st;
     documentLengths := documentLengths st;
     averageDocumentLength :=
       averageOf (documentLengths st) (totalDocuments st);
     termDocumentFrequency := termDocumentFrequency st;
     totalDocuments := totalDocuments st;
     bm25Params := bm25Params st |}.

(** The body of the [uniqueTokens.forEach] loop of [addDocument]. *)
Definition incrementDf (df : gmap string Z) (token : string)
  : gmap string Z :=
  let currentDf := int_or_zero (df !! token) in
  <[token := currentDf + 1]> df.

(** [addDocument]; nothing in its [try] block can throw. *)
Definition addDocument (document : Document) (st : State) : State :=
  let tokens := documentTokens document in
  let documentLength := Z.of_nat (length tokens) in
  let st1 :=
    updateAverageDocumentLength
      {| documents := <[doc_id document := document]> (documents st);
         documentLengths :=
           <[doc_id document := documentLength]> (documentLengths st);
         averageDocumentLength := averageDocumentLength st;
         termDocumentFrequency := termDocumentFrequency st;
         totalDocuments := totalDocuments st + 1;
         bm25Params := bm25Params st |} in
  {| documents := documents st1;
     documentLengths := documentLengths st1;
     averageDocumentLength := averageDocumentLength st1;
     termDocumentFrequency :=
       fold_left incrementDf (uniqueTokens tokens)
         (termDocumentFrequency st1);
     totalDocuments := totalDocuments st1;
     bm25Params := bm25Params st1 |}.

(** The body of the [uniqueTokens.forEach] loop of [removeDocument]. *)
Definition decrementDf (df : gmap string Z) (token : string)
  : gmap string Z :=
  let currentDf := int_or_zero (df !! token) in
  if 1 <? currentDf then <[token := currentDf - 1]> df
  else delete token df.

(** [removeDocument] returns its boolean and the state it leaves. *)
Definition removeDocument (documentId : string) (st : State)
  : bool * State :=
  match documents st !! documentId with
  | None => (false, st)
  | Some document =>
      let tokens := documentTokens document in
      (true,
       updateAverageDocumentLength
         {| documents := delete documentId (documents st);
            documentLengths := delete documentId (documentLengths st);
            averageDocumentLength := averageDocumentLength st;
            termDocumentFrequency :=
              fold_left decrementDf (uniqueTokens tokens)
                (termDocumentFrequency st);
            totalDocuments := totalDocuments st - 1;
            bm25Params := bm25Params st |})
  end.

(** [updateBM25Params]: the fields that are given replace the stored
    ones. *)
Definition updateBM25Params (k1_opt b_opt : option R) (st : State) : State :=
  {| documents := documents st;
     documentLengths := documentLengths st;
     averageDocumentLength := averageDocumentLength st;
     termDocumentFrequency := termDocumentFrequency st;
     totalDocuments := totalDocuments st;
     bm25Params :=
       {| k1 := default (k1 (bm25Params st)) k1_opt;
          b := default (b (bm25Params st)) b_opt |} |}.

(** [getTermFrequency]: the document is tokenized again on every call. *)
Definition getTermFrequency (st : State) (term documentId : string) : Z :=
  match documents st !! documentId with
  | None => 0
  | Some document =>
      Z.of_nat
        (length (filter (fun token => token = term)
                   (documentTokens document)))
  end.

Section Scoring.
Context {fl : Arith}.

(** The score one query term adds for one document, when the guard
    [tf > 0 && df > 0] lets it through. *)
Definition termScore (st : State) (documentLength : Z)
    (term documentId : string) : option R :=
  let tf := getTermFrequency st term documentId in
  let df := int_or_zero (termDocumentFrequency st !! term) in
  if (0 <? tf) && (0 <? df) then
    let idf :=
      fln (fdiv (fadd (fsub (IZR (totalDocuments st)) (IZR df)) 0.5)
             (fadd (IZR df) 0.5)) in
    let numerator := fmul (IZR tf) (fadd (k1 (bm25Params st)) 1) in
    let denominator :=
      fadd (IZR tf)
        (fmul (k1 (bm25Params st))
           (fadd (fsub 1 (b (bm25Params st)))
              (fmul (b (bm25Params st))
                 (fdiv (IZR documentLength)
                    (averageDocumentLength st))))) in
    Some (fmul idf (fdiv numerator denominator))
  else None.

(** [termScores[term] = termScore] on an object kept as the list of its
    properties in creation order. *)
Fixpoint setProperty (key : string) (value : R) (obj : list (string * R))
  : list (string * R) :=
  match obj with
  | [] => [(key, value)]
  | (k, v) :: rest =>
      if decide (k = key) then (k, value) :: rest
      else (k, v) :: setProperty key value rest
  end.

(** The body of the [queryTokens.forEach] loop: the running
    [totalScore] and [termScores]. *)
Definition scoreStep (st : State) (documentLength : Z) (documentId : string)
    (acc : R * list (string * R)) (term : string) : R * list (string * R) :=
  match termScore st documentLength term documentId with
  | Some ts => (fadd acc.1 ts, setProperty term ts acc.2)
  | None => acc
  end.

(** One round of the [documentIds.forEach] loop: the scores pushed
    for [documentId] (none or one). *)
Definition scoreDocument (st : State) (queryTokens : list string)
    (documentId : string) : list BM25Score :=
  let documentLength := int_or_zero (documentLengths st !! documentId) in
  let '(totalScore, termScores) :=
    fold_left (scoreStep st documentLength documentId) queryTokens
      (0%R, []) in
  if Rlt_dec 0 totalScore then
    [ {| bs_documentId := documentId;
         bs_score := totalScore;
         bs_termScores := termScores |} ]
  else [].

(** [calculateBM25Scores]. *)
Definition calculateBM25Scores (st : State) (queryTokens : list string)
    (documentIds : list string) : list BM25Score :=
  flat_map (scoreDocument st queryTokens) documentIds.
End Scoring.

(** [truncateContent]. *)
Definition truncateContent (content : string) (maxLength : nat) : string :=
  if (String.length content <=? maxLength)%nat then content
  else substring 0 maxLength content +:+ "...".

(** The object literal returned by the callback of
    [limitedScores.map] in [search]. *)
Definition resultOf (st : State) (document : Document) (score : BM25Score)
  : SearchResult :=
  {| sr_id := doc_id document;
     sr_title := doc_title document;
     sr_content := truncateContent (doc_content document) 200;
     sr_url := doc_url document;
     sr_score := bs_score score;
     sr_metadata :=
       doc_metadata document
       ∪ <["bm25Score" := JsNum (bs_score score)]>
           (<["termScores" :=
                JsObj (map (fun kv => (kv.1, JsNum kv.2))
                         (bs_termScores score))]>
              (<["documentLength" :=
                   JsNum
                     (IZR (int_or_zero
                             (documentLengths st !! doc_id document)))]>
                 ∅)) |}.

(** The callback of [limitedScores.map] in [search]: it throws when
    the document of the score is not stored. *)
Definition materialize (st : State) (score : BM25Score) : M SearchResult :=
  match documents st !! bs_documentId score with
  | None => throw JsError
  | Some document => ret (resultOf st document score)
  end.

Section WithConfig.
Variable config : Config.
Context {fl : Arith}.

(** [search]. *)
Definition search (st : State) (request : SearchRequest)
    (layer1Results : Layer1Result) : M Layer2Result :=
  startTime <- Date_now ;;
  try_catch
    (let queryTokens := tokenizeAndNormalize (req_query request) in
     if (length queryTokens =? 0)%nat
        || (length (l1r_documentIds layer1Results) =? 0)%nat
     then
       now <- Date_now ;;
       ret {| l2r_results := []; l2r_totalCount := 0;
              l2r_executionTime := now - startTime |}
     else
       let bm25Scores :=
         sort_desc bs_score
           (calculateBM25Scores st queryTokens
              (l1r_documentIds layer1Results)) in
       let limitedScores :=
         slice0 (maxResultsLayer2 config) bm25Scores in
       results <- mapM (materialize st) limitedScores ;;
       now <- Date_now ;;
       ret {| l2r_results := results;
              l2r_totalCount := Z.of_nat (length bm25Scores);
              l2r_executionTime := now - startTime |})
    (LayerError "Layer2").
End WithConfig.

(** The score of the specification, written as its formula reads: the
    sum, over the tokens [t] of the query with [tf(t,d) > 0] and
    [df(t) > 0], of
    [idf(t) * (tf * (k1 + 1)) / (tf + k1 * (1 - b + b * |d| / avgdl))]
    where [idf(t) = ln ((N - df + 0.5) / (df + 0.5))]. *)
Definition spec_idf (st : State) (t : string) : R :=
  ln ((IZR (totalDocuments st)
       - IZR (int_or_zero (termDocumentFrequency st !! t)) + 0.5)
      / (IZR (int_or_zero (termDocumentFrequency st !! t)) + 0.5)).

Definition spec_term (st : State) (d t : string) : R :=
  let tf := IZR (getTermFrequency st t d) in
  let dl := IZR (int_or_zero (documentLengths st !! d)) in
  (spec_idf st t
   * (tf * (k1 (bm25Params st) + 1))
   / (tf + k1 (bm25Params st)
           * (1 - b (bm25Params st)
              + b (bm25Params st) * dl / averageDocumentLength st)))%R.

Definition spec_score (st : State) (d : string) (Q : list string) : R :=
  foldr Rplus 0%R
    (map (spec_term st d)
       (filter
          (fun t =>
             0 < getTermFrequency st t d
             ∧ 0 < int_or_zero (termDocumentFrequency st !! t))
          Q)).

(** The same score as the machine computes it: every operation of the
    formula is that of the arithmetic, the quotient is taken before the
    product with [idf], and the terms are added to the total one after
    the other, in the order of the query, from 0. *)
Section MachineScore.
Context {fl : Arith}.

Definition machine_idf (st : State) (t : string) : R :=
  fln (fdiv
         (fadd
            (fsub (IZR (totalDocuments st))
               (IZR (int_or_zero (termDocumentFrequency st !! t))))
            0.5)
         (fadd (IZR (int_or_zero (termDocumentFrequency st !! t))) 0.5)).

Definition machine_term (st : State) (d t : string) : R :=
  let tf := IZR (getTermFrequency st t d) in
  let dl := IZR (int_or_zero (documentLengths st !! d)) in
  fmul (machine_idf st t)
    (fdiv (fmul tf (fadd (k1 (bm25Params st)) 1))
       (fadd tf
          (fmul (k1 (bm25Params st))
             (fadd (fsub 1 (b (bm25Params st)))
                (fmul (b (bm25Params st))
                   (fdiv dl (averageDocumentLength st))))))).

Definition machine_score (st : State) (d : string) (Q : list string) : R :=
  fold_left
    (fun total t => fadd total (machine_term st d t))
    (filter
       (fun t =>
          0 < getTermFrequency st t d
          ∧ 0 < int_or_zero (termDocumentFrequency st !! t))
       Q)
    0%R.
End MachineScore.

(** The document frequency held for a term; no entry reads as 0. *)
Definition documentFrequencyOf (st : State) (token : string) : Z :=
  int_or_zero (termDocumentFrequency st !! token).

(** Integrity of the corpus statistics: a length is kept for exactly
    the stored documents, every stored document frequency is at least
    1, and the stored average is the one [updateAverageDocumentLength]
    computes. *)
Definition wf (st : State) : Prop :=
  dom (documentLengths st) = dom (documents st)
  ∧ (∀ token df, termDocumentFrequency st !! token = Some df → 1 <= df)
  ∧ averageDocumentLength st
    = averageOf (documentLengths st) (totalDocuments st).

(** The states reached from the constructor by adding and removing
    documents and by updating the parameters. *)
Inductive reachable : State -> Prop :=
| reachable_init k1_opt b_opt : reachable (init k1_opt b_opt)
| reachable_add document st :
    reachable st -> reachable (addDocument document st)
| reachable_remove documentId st :
    reachable st -> reachable (removeDocument documentId st).2
| reachable_params k1_opt b_opt st :
    reachable st -> reachable (updateBM25Params k1_opt b_opt st).

(** The stored documents that have a token, and those that do not. *)
Definition withToken (st : State) (token : string) : gmap string Document :=
  filter (fun kv : string * Document => token ∈ documentTokens kv.2)
    (documents st).

Definition withoutToken (st : State) (token : string)
  : gmap string Document :=
  filter (fun kv : string * Document => token ∉ documentTokens kv.2)
    (documents st).

(** What the statistics bound: the length kept for a stored document is
    the number of its tokens, the document frequency of a term is at
    least the number of stored documents that have it, and together
    with the number of stored documents that do not have it, it is at
    most the document count. *)
Definition bounded (st : State) : Prop :=
  (∀ documentId document,
      documents st !! documentId = Some document →
      documentLengths st !! documentId
      = Some (Z.of_nat (length (documentTokens document))))
  ∧ (∀ token,
      Z.of_nat (size (withToken st token)) <= documentFrequencyOf st token)
  ∧ (∀ token,
      documentFrequencyOf st token + Z.of_nat (size (withoutToken st token))
      <= totalDocuments st).

(** The excerpt of the specification: the content cut to 200
    characters, with the one-character ellipsis U+2026 appended when
    it was cut.  U+2026 lies outside the 8-bit characters of a Rocq
    string; it is represented by the character of code 133, the
    horizontal ellipsis of Windows-1252.  All that matters is that it
    is one character and not a full stop. *)
Definition spec_ellipsis : string :=
  String (ascii_of_nat 133) EmptyString.

Definition spec_excerpt (content : string) : string :=
  if (String.length content <=? 200)%nat then content
  else substring 0 200 content +:+ spec_ellipsis.

Section ScoringTFIDF.
Context {fl : Arith}.

(** The score one query term adds for one document in
    [calculateTFIDFScores], when the guard [tf > 0 && df > 0] lets it
    through. *)
Definition tfidfTermScore (st : State) (documentLength : Z)
    (term documentId : string) : option R :=
  let tf := getTermFrequency st term documentId in
  let df := int_or_zero (termDocumentFrequency st !! term) in
  if (0 <? tf) && (0 <? df) then
    let normalizedTf := fdiv (IZR tf) (IZR documentLength) in
    let idf := fln (fdiv (IZR (totalDocuments st)) (IZR df)) in
    Some (fmul normalizedTf idf)
  else None.

(** The body of the [queryTokens.forEach] loop of
    [calculateTFIDFScores]. *)
Definition tfidfStep (st : State) (documentLength : Z) (documentId : string)
    (acc : R * list (string * R)) (term : string) : R * list (string * R) :=
  match tfidfTermScore st documentLength term documentId with
  | Some ts => (fadd acc.1 ts, setProperty term ts acc.2)
  | None => acc
  end.

(** One round of the [documentIds.forEach] loop of
    [calculateTFIDFScores]. *)
Definition tfidfDocument (st : State) (queryTokens : list string)
    (documentId : string) : list BM25Score :=
  let documentLength := int_or_zero (documentLengths st !! documentId) in
  let '(totalScore, termScores) :=
    fold_left (tfidfStep st documentLength documentId) queryTokens
      (0%R, []) in
  if Rlt_dec 0 totalScore then
    [ {| bs_documentId := documentId;
         bs_score := totalScore;
         bs_termScores := termScores |} ]
  else [].

(** [calculateTFIDFScores]. *)
Definition calculateTFIDFScores (st : State) (queryTokens : list string)
    (documentIds : list string) : list BM25Score :=
  flat_map (tfidfDocument st queryTokens) documentIds.
End ScoringTFIDF.

(** The object literal returned by the callback of
    [limitedScores.map] in [calculateTFIDF]. *)
Definition tfidfResultOf (st : State) (document : Document)
    (score : BM25Score) : SearchResult :=
  {| sr_id := doc_id document;
     sr_title := doc_title document;
     sr_content := truncateContent (doc_content document) 200;
     sr_url := doc_url document;
     sr_score := bs_score score;
     sr_metadata :=
       doc_metadata document
       ∪ <["tfidfScore" := JsNum (bs_score score)]>
           (<["termScores" :=
                JsObj (map (fun kv => (kv.1, JsNum kv.2))
                         (bs_termScores score))]>
              (<["documentLength" :=
                   JsNum
                     (IZR (int_or_zero
                             (documentLengths st !! doc_id document)))]>
                 ∅)) |}.

Definition tfidfMaterialize (st : State) (score : BM25Score)
  : M SearchResult :=
  match documents st !! bs_documentId score with
  | None => throw JsError
  | Some document => ret (tfidfResultOf st document score)
  end.

(** [getStats]. *)
Record Stats : Type := mkStats {
  stats_totalDocuments : Z;
  stats_averageDocumentLength : R;
  stats_uniqueTerms : Z;
  stats_bm25Params : BM25Params
}.

Definition getStats (st : State) : Stats :=
  {| stats_totalDocuments := totalDocuments st;
     stats_averageDocumentLength := averageDocumentLength st;
     stats_uniqueTerms := Z.of_nat (size (termDocumentFrequency st));
     stats_bm25Params := bm25Params st |}.

(** The states reached from the constructor when no document is added
    under an id that is stored. *)
Inductive reachable_fresh : State -> Prop :=
| fresh_init k1_opt b_opt : reachable_fresh (init k1_opt b_opt)
| fresh_add document st :
    reachable_fresh st ->
    documents st !! doc_id document = None ->
    reachable_fresh (addDocument document st)
| fresh_remove documentId st :
    reachable_fresh st -> reachable_fresh (removeDocument documentId st).2
| fresh_params k1_opt b_opt st :
    reachable_fresh st -> reachable_fresh (updateBM25Params k1_opt b_opt st).

(** The number of tokens of the stored documents. *)
Definition storedTokens (st : State) : Z :=
  totalLength
    ((fun document => Z.of_nat (length (documentTokens document)))
     <$> documents st).

Section WithConfigTFIDF.
Variable config : Config.
Context {fl : Arith}.

(** [calculateTFIDF]. *)
Definition calculateTFIDF (st : State) (request : SearchRequest)
    (layer1Results : Layer1Result) : M Layer2Result :=
  startTime <- Date_now ;;
  try_catch
    (let queryTokens := tokenizeAndNormalize (req_query request) in
     if (length queryTokens =? 0)%nat
        || (length (l1r_documentIds layer1Results) =? 0)%nat
     then
       now <- Date_now ;;
       ret {| l2r_results := []; l2r_totalCount := 0;
              l2r_executionTime := now - startTime |}
     else
       let tfidfScores :=
         sort_desc bs_score
           (calculateTFIDFScores st queryTokens
              (l1r_documentIds layer1Results)) in
       let limitedScores :=
         slice0 (maxResultsLayer2 config) tfidfScores in
       results <- mapM (tfidfMaterialize st) limitedScores ;;
       now <- Date_now ;;
       ret {| l2r_results := results;
              l2r_totalCount := Z.of_nat (length tfidfScores);
              l2r_executionTime := now - startTime |})
    (LayerError "Layer2").
End WithConfigTFIDF.

End Layer2.

(** ** Stage 3: the semantic re-ranker ([Layer3VectorSearch]) *)

(** The embedding model, an external collaborator: whether the
    [pipeline] call that loads it succeeds, and the vector it returns
    for a text ([None] when the call throws). *)
Record Embedder : Type := mkEmbedder {
  pipeline_loads : bool;
  embed : string -> option (list R)
}.

Module Layer3.

(** The fields of the class; [model] is non-null exactly when
    [isModelLoaded] holds. *)
Record State : Type := mkState {
  embeddings : gmap string VectorEmbedding;
  isModelLoaded : bool;
  st_vectorDimension : Z
}.

(** The constructor. *)
Definition init (config : Config) : State :=
  {| embeddings := ∅; isModelLoaded := false;
     st_vectorDimension := vectorDimension config |}.

Definition setLoaded (st : State) : State :=
  {| embeddings := embeddings st; isModelLoaded := true;
     st_vectorDimension := st_vectorDimension st |}.

Section Similarity.
Context {fl : Arith}.

(** The loop of [calculateCosineSimilarity]: the running
    [dotProduct], [normA] and [normB]. *)
Fixpoint cosineLoop (vectorA vectorB : list R) (acc : R * R * R)
  : R * R * R :=
  match vectorA, vectorB with
  | x :: restA, y :: restB =>
      let '(dotProduct, normA, normB) := acc in
      cosineLoop restA restB
        (fadd dotProduct (fmul x y), fadd normA (fmul x x),
         fadd normB (fmul y y))
  | _, _ => acc
  end.

(** [calculateCosineSimilarity]; vectors of different lengths throw. *)
Definition calculateCosineSimilarity (vectorA vectorB : list R)
  : Error + R :=
  if negb (length vectorA =? length vectorB)%nat then inl JsError
  else
    let '(dotProduct, normA, normB) :=
      cosineLoop vectorA vectorB (0%R, 0%R, 0%R) in
    if Req_dec_T normA 0%R then inr 0%R
    else if Req_dec_T normB 0%R then inr 0%R
    else inr (fdiv dotProduct (fmul (fsqrt normA) (fsqrt normB))).
End Similarity.

Section WithModel.
Variable model : Embedder.
Variable config : Config.
Context {fl : Arith}.

(** The state after [if (!this.isModelLoaded) await
    this.initializeModel()], whether or not the load succeeds. *)
Definition ensureModel (st : State) : State :=
  if isModelLoaded st then st
  else if pipeline_loads model then setLoaded st
  else st.

(** [initializeModel], as called from a guarded position. *)
Definition initializeModel : M unit :=
  if pipeline_loads model then ret tt else throw (LayerError "Layer3").

(** [createEmbedding]. *)
Definition createEmbedding (st : State) (text : string) : M (list R) :=
  if negb (isModelLoaded st) then throw (LayerError "Layer3")
  else
    match embed model text with
    | Some embedding => ret embedding
    | None => throw (LayerError "Layer3")
    end.

(** [addDocument] returns the state it leaves and whether it threw.
    The store is only written when the embedding was obtained. *)
Definition addDocument (document : Document) (st : State)
  : State * (Error + unit) :=
  let st1 := ensureModel st in
  if negb (isModelLoaded st1) then (st1, inl (LayerError "Layer3"))
  else
    match embed model (doc_title document +:+ " " +:+ doc_content document)
    with
    | None => (st1, inl (LayerError "Layer3"))
    | Some vector =>
        let embedding :=
          {| ve_documentId := doc_id document;
             ve_vector := vector;
             ve_metadata :=
               doc_metadata document
               ∪ <["title" := JsStr (doc_title document)]>
                   (<["category" :=
                        match doc_category document with
                        | Some c => JsStr c
                        | None => JsUndefined
                        end]>
                      (<["createdAt" :=
                           JsDate (doc_createdAt document)]> ∅)) |} in
        ({| embeddings :=
              <[doc_id document := embedding]> (embeddings st1);
            isModelLoaded := isModelLoaded st1;
            st_vectorDimension := st_vectorDimension st1 |},
         inr tt)
    end.

(** The [for (const result of layer2Results.results)] loop of
    [search]: one similarity for every result that has a stored
    vector. *)
Fixpoint vectorScoresOf (st : State) (queryEmbedding : list R)
    (results : list SearchResult) : M (list VectorSearchResult) :=
  match results with
  | [] => ret []
  | result :: rest =>
      match embeddings st !! sr_id result with
      | Some embedding =>
          match calculateCosineSimilarity queryEmbedding
                  (ve_vector embedding) with
          | inl e => throw e
          | inr similarity =>
              scores <- vectorScoresOf st queryEmbedding rest ;;
              ret ({| vs_documentId := sr_id result;
                      vs_similarity := similarity;
                      vs_vector := ve_vector embedding |} :: scores)
          end
      | None => vectorScoresOf st queryEmbedding rest
      end
  end.

(** The map [vectorScoreMap] built by [combineScores]. *)
Definition vectorScoreMap (vectorResults : list VectorSearchResult)
  : gmap string R :=
  fold_left
    (fun m vr => <[vs_documentId vr := vs_similarity vr]> m)
    vectorResults ∅.

(** [combineScores]; the literals [0.6] and [0.4] are the numbers of
    the machine they round to. *)
Definition combineScores (bm25Results : list SearchResult)
    (vectorResults : list VectorSearchResult) : list SearchResult :=
  let scoreMap := vectorScoreMap vectorResults in
  map
    (fun result =>
       let vectorScore :=
         match scoreMap !! sr_id result with
         | Some x => num_or_zero x
         | None => 0%R
         end in
       let bm25Score := sr_score result in
       let combinedScore :=
         fadd (fmul (rnd 0.6) bm25Score) (fmul (rnd 0.4) vectorScore) in
       {| sr_id := sr_id result;
          sr_title := sr_title result;
          sr_content := sr_content result;
          sr_url := sr_url result;
          sr_score := combinedScore;
          sr_metadata :=
            <["combinedScore" := JsNum combinedScore]>
              (<["vectorSimilarity" := JsNum vectorScore]>
                 (sr_metadata result)) |})
    bm25Results.

(** [search]: the result of the call.  The state it leaves is
    [ensureModel st]. *)
Definition search (st : State) (request : SearchRequest)
    (layer2Results : Layer2Result) : M Layer3Result :=
  startTime <- Date_now ;;
  try_catch
    (_ <- (if isModelLoaded st then ret tt else initializeModel) ;;
     let st1 := ensureModel st in
     if (length (l2r_results layer2Results) =? 0)%nat then
       now <- Date_now ;;
       ret {| l3r_results := []; l3r_totalCount := 0;
              l3r_executionTime := now - startTime;
              l3r_vectorScores := [] |}
     else
       queryEmbedding <- createEmbedding st1 (req_query request) ;;
       scores <- vectorScoresOf st1 queryEmbedding
                   (l2r_results layer2Results) ;;
       let vectorScores := sort_desc vs_similarity scores in
       let combinedResults :=
         sort_desc sr_score
           (combineScores (l2r_results layer2Results) vectorScores) in
       let limitedResults :=
         slice0 (maxResultsLayer3 config) combinedResults in
       now <- Date_now ;;
       ret {| l3r_results := limitedResults;
              l3r_totalCount := Z.of_nat (length combinedResults);
              l3r_executionTime := now - startTime;
              l3r_vectorScores := map vs_similarity vectorScores |})
    (LayerError "Layer3").
End WithModel.

(** [removeEmbedding]: [Map.prototype.delete] tells whether the key
    was present. *)
Definition removeEmbedding (documentId : string) (st : State)
  : bool * State :=
  (bool_decide (is_Some (embeddings st !! documentId)),
   {| embeddings := delete documentId (embeddings st);
      isModelLoaded := isModelLoaded st;
      st_vectorDimension := st_vectorDimension st |}).

(** The cosine similarity of the specification: the inner product of
    the two vectors divided by the product of their norms, and 0 when
    one of the norms is 0. *)
Definition dot (vectorA vectorB : list R) : R :=
  foldr Rplus 0%R (zip_with Rmult vectorA vectorB).

Definition spec_cosine (vectorA vectorB : list R) : R :=
  if decide (dot vectorA vectorA = 0%R ∨ dot vectorB vectorB = 0%R)
  then 0%R
  else (dot vectorA vectorB
        / (sqrt (dot vectorA vectorA) * sqrt (dot vectorB vectorB)))%R.

(** The similarity of the specification for a document id: the cosine
    of the query embedding and the stored vector, and 0 for a document
    without a stored vector. *)
Definition spec_similarity (st : State) (queryEmbedding : list R)
    (documentId : string) : R :=
  match embeddings st !! documentId with
  | Some embedding => spec_cosine queryEmbedding (ve_vector embedding)
  | None => 0%R
  end.

(** The re-ranked result of the specification for a stage-2 result:
    its score is 0.6 times the incoming score plus 0.4 times the
    similarity. *)
Definition spec_fused (st : State) (queryEmbedding : list R)
    (result : SearchResult) : SearchResult :=
  let similarity := spec_similarity st queryEmbedding (sr_id result) in
  let score := (0.6 * sr_score result + 0.4 * similarity)%R in
  {| sr_id := sr_id result;
     sr_title := sr_title result;
     sr_content := sr_content result;
     sr_url := sr_url result;
     sr_score := score;
     sr_metadata :=
       <["combinedScore" := JsNum score]>
         (<["vectorSimilarity" := JsNum similarity]>
            (sr_metadata result)) |}.

(** [getEmbedding]. *)
Definition getEmbedding (st : State) (documentId : string)
  : option VectorEmbedding :=
  embeddings st !! documentId.

(** [getStats]. *)
Record Stats : Type := mkStats {
  stats_totalEmbeddings : Z;
  stats_vectorDimension : Z;
  stats_isModelLoaded : bool;
  stats_modelName : string
}.

Definition getStats (st : State) : Stats :=
  {| stats_totalEmbeddings := Z.of_nat (size (embeddings st));
     stats_vectorDimension := st_vectorDimension st;
     stats_isModelLoaded := isModelLoaded st;
     stats_modelName := "Xenova/all-MiniLM-L6-v2" |}.

Section SimilaritySearch.
Context {fl : Arith}.

(** The loop [for (const [documentId, embedding] of this.embeddings)]
    of [semanticSearch]: one similarity for every entry of the store;
    a stored vector of another dimension than the query embedding
    makes [calculateCosineSimilarity] throw. *)
Fixpoint similaritiesOf (queryEmbedding : list R)
    (entries : list (string * VectorEmbedding))
  : Error + list VectorSearchResult :=
  match entries with
  | [] => inr []
  | (documentId, embedding) :: rest =>
      match calculateCosineSimilarity queryEmbedding (ve_vector embedding)
      with
      | inl e => inl e
      | inr similarity =>
          match similaritiesOf queryEmbedding rest with
          | inl e => inl e
          | inr similarities =>
              inr ({| vs_documentId := documentId;
                      vs_similarity := similarity;
                      vs_vector := ve_vector embedding |} :: similarities)
          end
      end
  end.

(** The loop of [findSimilarDocuments]: the entry of the source
    document is passed over. *)
Fixpoint similaritiesExcept (documentId : string) (sourceVector : list R)
    (entries : list (string * VectorEmbedding))
  : Error + list VectorSearchResult :=
  match entries with
  | [] => inr []
  | (id, embedding) :: rest =>
      if decide (id = documentId)
      then similaritiesExcept documentId sourceVector rest
      else
        match calculateCosineSimilarity sourceVector (ve_vector embedding)
        with
        | inl e => inl e
        | inr similarity =>
            match similaritiesExcept documentId sourceVector rest with
            | inl e => inl e
            | inr similarities =>
                inr ({| vs_documentId := id;
                        vs_similarity := similarity;
                        vs_vector := ve_vector embedding |} :: similarities)
            end
        end
  end.

(** [findSimilarDocuments]; the [limit] of the callers is an integer.
    Every exception, the one raised for an id without stored vector
    included, is caught and thrown again as a [LayerError]. *)
Definition findSimilarDocuments (st : State) (documentId : string)
    (limit : Z) : Error + list VectorSearchResult :=
  match embeddings st !! documentId with
  | None => inl (LayerError "Layer3")
  | Some sourceEmbedding =>
      match similaritiesExcept documentId (ve_vector sourceEmbedding)
              (map_to_list (embeddings st)) with
      | inl _ => inl (LayerError "Layer3")
      | inr similarities =>
          inr (slice0 limit (sort_desc vs_similarity similarities))
      end
  end.
End SimilaritySearch.

Section WithModelOnly.
Variable model : Embedder.
Context {fl : Arith}.

(** [semanticSearch]: the result of the call.  The state it leaves is
    [ensureModel st]. *)
Definition semanticSearch (st : State) (query : string) (limit : Z)
  : M (list VectorSearchResult) :=
  try_catch
    (_ <- (if isModelLoaded st then ret tt else initializeModel model) ;;
     let st1 := ensureModel model st in
     queryEmbedding <- createEmbedding model st1 query ;;
     match similaritiesOf queryEmbedding (map_to_list (embeddings st1)) with
     | inl e => throw e
     | inr similarities =>
         ret (slice0 limit (sort_desc vs_similarity similarities))
     end)
    (LayerError "Layer3").
End WithModelOnly.

(** The vectors [calculateSimilarityMatrix] works on: those of the ids
    that have a stored vector, in the order of the ids. *)
Definition storedVectors (st : State) (documentIds : list string)
  : list (list R) :=
  omap (fun id => ve_vector <$> embeddings st !! id) documentIds.

Section SimilarityMatrix.
Context {fl : Arith}.

(** One row of the matrix: the inner loop over [j]. *)
Definition matrixRow (vectors : list (list R)) (i : nat)
  : Error + list R :=
  mapE
    (fun j =>
       if (i =? j)%nat then inr 1%R
       else calculateCosineSimilarity (default [] (vectors !! i))
              (default [] (vectors !! j)))
    (seq 0 (length vectors)).

(** [calculateSimilarityMatrix]; it has no [try] block, the exception
    of [calculateCosineSimilarity] goes to the caller as it is. *)
Definition calculateSimilarityMatrix (st : State)
    (documentIds : list string) : Error + list (list R) :=
  let vectors := storedVectors st documentIds in
  mapE (matrixRow vectors) (seq 0 (length vectors)).
End SimilarityMatrix.

End Layer3.

(** ** Stage 4: the personalization re-ranker ([Layer4Personalization]) *)

Module Layer4.

(** A stored profile, with the properties of [preferences], [behavior]
    and [demographics] side by side.  The properties have their
    declared types, but for the search history: [recordUserBehavior]
    appends to it whatever its caller passes as [data.query].  A
    profile is held as a value: this is exact as long as no array of a
    stored profile is shared with another profile or with another
    property, as is the case for the profiles that [recordUserBehavior]
    creates and for those that are parsed from the body of a
    request. *)
Record UserProfile : Type := mkUserProfile {
  up_userId : string;
  up_categories : list string;
  up_languages : list string;
  up_topics : list string;
  up_clickHistory : list string;
  up_searchHistory : list JsValue;
  up_timeSpent : gmap string R;
  up_age : option R;
  up_location : option string;
  up_interests : option (list string);
  up_lastUpdated : Z
}.

Record ContextWeights : Type := mkContextWeights {
  cw_userProfile : R;
  cw_context : R;
  cw_temporal : R;
  cw_location : R
}.

(** The fields of the class. *)
Record State : Type := mkState {
  userProfiles : gmap string UserProfile;
  contextWeights : ContextWeights
}.

(** The constructor. *)
Definition init (config : Config) : State :=
  {| userProfiles := ∅;
     contextWeights :=
       {| cw_userProfile := userProfileWeight config;
          cw_context := contextWeight config;
          cw_temporal := temporalWeight config;
          cw_location := 0.1 |} |}.

(** [getUserProfile]. *)
Definition getUserProfile (st : State) (userId : string)
  : option UserProfile :=
  userProfiles st !! userId.

(** [result.score + result.score * boost * weight], with the two
    observability fields written into the metadata. *)
Definition boosted (result : SearchResult) (boost weight : R)
    (boostKey relevanceKey : string) : SearchResult :=
  {| sr_id := sr_id result;
     sr_title := sr_title result;
     sr_content := sr_content result;
     sr_url := sr_url result;
     sr_score := (sr_score result + sr_score result * boost * weight)%R;
     sr_metadata :=
       <[relevanceKey := JsNum boost]>
         (<[boostKey := JsNum boost]> (sr_metadata result)) |}.

(** The property key that [table[v]] reads for a value [v]: the string
    [v] converts to.  [inr None] stands for a text that names no
    property of the tables below nor of their prototype: the digits of
    a number, the text of a date, the elements of an array joined by
    commas.  A plain object converts to ["[object Object]"], unless it
    has an own property [toString]: the values of the model are not
    functions, the conversion then finds nothing to call and throws.
    An array converts to its elements joined by [","], where
    [undefined] and [null] give the empty text. *)
Fixpoint propertyKey (v : JsValue) : Error + option string :=
  match v with
  | JsUndefined => inr (Some "undefined")
  | JsNull => inr (Some "null")
  | JsBool b => inr (Some (if b then "true" else "false"))
  | JsNum _ => inr None
  | JsStr s => inr (Some s)
  | JsDate _ => inr None
  | JsArr xs =>
      (fix join (xs : list JsValue) : Error + option string :=
         match xs with
         | [] => inr (Some "")
         | x :: rest =>
             let first :=
               match x with
               | JsUndefined | JsNull => inr (Some "")
               | _ => propertyKey x
               end in
             match rest with
             | [] => first
             | _ :: _ =>
                 match first, join rest with
                 | inl e, _ => inl e
                 | inr _, inl e => inl e
                 | inr _, inr _ => inr None
                 end
             end
         end) xs
  | JsObj fields =>
      if bool_decide ("toString" ∈ fields.*1) then inl JsError
      else inr (Some "[object Object]")
  end.

(** The names [timePreferences[category]] and
    [dayPreferences[category]] find on the prototype of the table
    object; what they name has no [includes] method, so the call
    throws. *)
Definition prototypeKeys : list string :=
  [ "constructor"; "__proto__"; "hasOwnProperty"; "isPrototypeOf";
    "propertyIsEnumerable"; "toLocaleString"; "toString"; "valueOf";
    "__defineGetter__"; "__defineSetter__"; "__lookupGetter__";
    "__lookupSetter__" ].

(** What makes a table lookup throw: the value cannot be converted to
    a property key, or it converts to the name of a property that the
    table inherits. *)
Definition keyThrows (v : JsValue) : Prop :=
  match propertyKey v with
  | inl _ => True
  | inr (Some c) => c ∈ prototypeKeys
  | inr None => False
  end.

Definition timePreferences : list (string * list Z) :=
  [ ("news", [6; 7; 8; 18; 19; 20]);
    ("entertainment", [19; 20; 21; 22; 23]);
    ("work", [9; 10; 11; 14; 15; 16]);
    ("shopping", [10; 11; 12; 15; 16; 17; 20; 21]) ].

Definition dayPreferences : list (string * list Z) :=
  [ ("work", [1; 2; 3; 4; 5]);
    ("entertainment", [5; 6; 0]);
    ("shopping", [6; 0]);
    ("news", [1; 2; 3; 4; 5; 6; 0]) ].

Fixpoint lookupTable (table : list (string * list Z)) (key : string)
  : option (list Z) :=
  match table with
  | [] => None
  | (k, v) :: rest => if decide (k = key) then Some v else lookupTable rest key
  end.

(** [table[category] || []] followed by [.includes(value) ? boost : 0];
    the category is converted to a property key first. *)
Definition tableBoost (table : list (string * list Z)) (category : JsValue)
    (value : Z) (boost : R) : Error + R :=
  match propertyKey category with
  | inl e => inl e
  | inr (Some c) =>
      if bool_decide (c ∈ prototypeKeys) then inl JsError
      else
        let preferred := default [] (lookupTable table c) in
        inr (if bool_decide (value ∈ preferred) then boost else 0%R)
  | inr None => inr 0%R
  end.

(** [calculateTimeOfDayBoost]. *)
Definition calculateTimeOfDayBoost (category : JsValue) (hour : Z)
  : Error + R :=
  tableBoost timePreferences category hour 0.05%R.

(** [calculateDayOfWeekBoost]. *)
Definition calculateDayOfWeekBoost (category : JsValue) (dayOfWeek : Z)
  : Error + R :=
  tableBoost dayPreferences category dayOfWeek 0.03%R.

(** [calculateRecencyBoost], given the reading [now] of its own
    [new Date()]; [getTime] exists on dates only. *)
Definition calculateRecencyBoost (createdAt : JsValue) (now : Z)
  : Error + R :=
  match createdAt with
  | JsDate created =>
      let hoursDiff := (IZR (now - created) / (1000 * 60 * 60))%R in
      inr (if Rlt_dec hoursDiff 1 then 0.1%R
           else if Rlt_dec hoursDiff 24 then 0.05%R
           else if Rlt_dec hoursDiff 168 then 0.02%R
           else 0%R)
  | _ => inl JsError
  end.

(** The value of [temporalBoost] for one result, given the hour and
    the day read once for the whole list and the reading [now] that
    the recency rule takes for this result. *)
Definition temporalBoostOf (hour dayOfWeek now : Z) (result : SearchResult)
  : Error + R :=
  let category := meta_get (sr_metadata result) "category" in
  let createdAt := meta_get (sr_metadata result) "createdAt" in
  match (if truthy category then calculateTimeOfDayBoost category hour
         else inr 0%R) with
  | inl e => inl e
  | inr timeBoost =>
      match (if truthy category
             then calculateDayOfWeekBoost category dayOfWeek
             else inr 0%R) with
      | inl e => inl e
      | inr dayBoost =>
          match (if truthy createdAt
                 then calculateRecencyBoost createdAt now
                 else inr 0%R) with
          | inl e => inl e
          | inr recencyBoost =>
              inr (0 + timeBoost + dayBoost + recencyBoost)%R
          end
      end
  end.

Definition lift {A : Type} (r : Error + A) : M A :=
  match r with
  | inl e => throw e
  | inr a => ret a
  end.

Definition getWorld : M World := fun w n => (inr w, n).

Section WithConfig.
Variable config : Config.

(** The boost rules of the user-profile phase and of the context
    phase (categories, click memory, histories, demographics,
    location, device, previous queries): the value they give one
    result, or the exception they raise.  They are parameters of the
    development. *)
Variable userBoostOf : UserProfile -> SearchResult -> Error + R.
Variable contextBoostOf : SearchContext -> SearchResult -> Error + R.

(** [applyUserPersonalization]. *)
Definition applyUserPersonalization (st : State) (userId : string)
    (results : list SearchResult) : M (list SearchResult) :=
  match getUserProfile st userId with
  | None => ret results
  | Some userProfile =>
      mapM
        (fun result =>
           personalizationBoost <- lift (userBoostOf userProfile result) ;;
           ret (boosted result personalizationBoost
                  (cw_userProfile (contextWeights st))
                  "personalizationBoost" "userRelevance"))
        results
  end.

(** [applyContextualPersonalization]. *)
Definition applyContextualPersonalization (st : State)
    (results : list SearchResult) (context : SearchContext)
  : M (list SearchResult) :=
  mapM
    (fun result =>
       contextBoost <- lift (contextBoostOf context result) ;;
       ret (boosted result contextBoost (cw_context (contextWeights st))
              "contextBoost" "contextualRelevance"))
    results.

(** The callback of [results.map] in [applyTemporalPersonalization]:
    the clock is read by the recency rule, for a result that carries
    [createdAt]. *)
Definition temporalStep (st : State) (hour dayOfWeek : Z)
    (result : SearchResult) : M SearchResult :=
  let category := meta_get (sr_metadata result) "category" in
  let createdAt := meta_get (sr_metadata result) "createdAt" in
  let temporalBoost := 0%R in
  timeBoost <-
    (if truthy category
     then lift (calculateTimeOfDayBoost category hour) else ret 0%R) ;;
  let temporalBoost := (temporalBoost + timeBoost)%R in
  dayBoost <-
    (if truthy category
     then lift (calculateDayOfWeekBoost category dayOfWeek)
     else ret 0%R) ;;
  let temporalBoost := (temporalBoost + dayBoost)%R in
  recencyBoost <-
    (if truthy createdAt
     then now <- Date_now ;; lift (calculateRecencyBoost createdAt now)
     else ret 0%R) ;;
  let temporalBoost := (temporalBoost + recencyBoost)%R in
  ret (boosted result temporalBoost (cw_temporal (contextWeights st))
         "temporalBoost" "temporalRelevance").

(** [applyTemporalPersonalization]. *)
Definition applyTemporalPersonalization (st : State)
    (results : list SearchResult) : M (list SearchResult) :=
  now <- Date_now ;;
  w <- getWorld ;;
  mapM (temporalStep st (getHours w now) (getDay w now)) results.

(** [calculatePersonalizationScore]. *)
Definition calculatePersonalizationScore (st : State)
    (userId : option string) (context : option SearchContext) : R :=
  let score := 0%R in
  let score :=
    if truthy_str userId
    then (score + cw_userProfile (contextWeights st))%R else score in
  let score :=
    match context with
    | Some _ => (score + cw_context (contextWeights st))%R
    | None => score
    end in
  let score := (score + cw_temporal (contextWeights st))%R in
  Rmin score 1.0.

(** [personalize]. *)
Definition personalize (st : State) (request : SearchRequest)
    (layer3Results : Layer3Result) : M Layer4Result :=
  startTime <- Date_now ;;
  try_catch
    (if (length (l3r_results layer3Results) =? 0)%nat then
       now <- Date_now ;;
       ret {| l4r_results := []; l4r_totalCount := 0;
              l4r_executionTime := now - startTime;
              l4r_personalizationScore := 0 |}
     else
       let personalizedResults := l3r_results layer3Results in
       personalizedResults <-
         (match req_userId request with
          | Some userId =>
              if truthy_str (Some userId)
              then applyUserPersonalization st userId personalizedResults
              else ret personalizedResults
          | None => ret personalizedResults
          end) ;;
       personalizedResults <-
         (match req_context request with
          | Some context =>
              applyContextualPersonalization st personalizedResults
                context
          | None => ret personalizedResults
          end) ;;
       personalizedResults <-
         applyTemporalPersonalization st personalizedResults ;;
       let personalizedResults := sort_desc sr_score personalizedResults in
       let finalResults :=
         slice0 (maxFinalResults config) personalizedResults in
       let personalizationScore :=
         calculatePersonalizationScore st (req_userId request)
           (req_context request) in
       now <- Date_now ;;
       ret {| l4r_results := finalResults;
              l4r_totalCount := Z.of_nat (length personalizedResults);
              l4r_executionTime := now - startTime;
              l4r_personalizationScore := personalizationScore |})
    (LayerError "Layer4").
End WithConfig.

(** [getStats]. *)
Record Stats : Type := mkStats {
  stats_totalUserProfiles : Z;
  stats_contextWeights : ContextWeights
}.

Definition getStats (st : State) : Stats :=
  {| stats_totalUserProfiles := Z.of_nat (size (userProfiles st));
     stats_contextWeights := contextWeights st |}.

(** *** The user profiles

    The values have their declared types: a [Partial<UserProfile>]
    gives each of the five top-level properties of a profile or leaves
    it out. *)
Record ProfileUpdate : Type := mkProfileUpdate {
  pu_userId : option string;
  pu_preferences : option (list string * list string * list string);
  pu_behavior : option (list string * list JsValue * gmap string R);
  pu_demographics :
    option (option R * option string * option (list string));
  pu_lastUpdated : option Z
}.

(** The properties the object literal of [updateUserProfile] starts
    with, [now] being the reading of [new Date()]. *)
Definition blankProfile (userId : string) (now : Z) : UserProfile :=
  {| up_userId := userId;
     up_categories := []; up_languages := []; up_topics := [];
     up_clickHistory := []; up_searchHistory := []; up_timeSpent := ∅;
     up_age := None; up_location := None; up_interests := None;
     up_lastUpdated := now |}.

(** [{ ...base, ...profile }]: the properties that [profile] gives
    replace those of [base], each one as a whole. *)
Definition spreadProfile (base : UserProfile) (profile : ProfileUpdate)
  : UserProfile :=
  {| up_userId := default (up_userId base) (pu_userId profile);
     up_categories :=
       match pu_preferences profile with
       | Some (categories, _, _) => categories
       | None => up_categories base
       end;
     up_languages :=
       match pu_preferences profile with
       | Some (_, languages, _) => languages
       | None => up_languages base
       end;
     up_topics :=
       match pu_preferences profile with
       | Some (_, _, topics) => topics
       | None => up_topics base
       end;
     up_clickHistory :=
       match pu_behavior profile with
       | Some (clickHistory, _, _) => clickHistory
       | None => up_clickHistory base
       end;
     up_searchHistory :=
       match pu_behavior profile with
       | Some (_, searchHistory, _) => searchHistory
       | None => up_searchHistory base
       end;
     up_timeSpent :=
       match pu_behavior profile with
       | Some (_, _, timeSpent) => timeSpent
       | None => up_timeSpent base
       end;
     up_age :=
       match pu_demographics profile with
       | Some (age, _, _) => age
       | None => up_age base
       end;
     up_location :=
       match pu_demographics profile with
       | Some (_, location, _) => location
       | None => up_location base
       end;
     up_interests :=
       match pu_demographics profile with
       | Some (_, _, interests) => interests
       | None => up_interests base
       end;
     up_lastUpdated := default (up_lastUpdated base) (pu_lastUpdated profile)
  |}.

(** [updateUserProfile]: the state it leaves.  [new Date()] is
    evaluated whether or not its value is kept: the properties of an
    existing profile, [lastUpdated] included, come after it in the
    object literal. *)
Definition updateUserProfile (st : State) (userId : string)
    (profile : ProfileUpdate) : M State :=
  let existingProfile := getUserProfile st userId in
  now <- Date_now ;;
  let updatedProfile :=
    spreadProfile (default (blankProfile userId now) existingProfile)
      profile in
  ret {| userProfiles := <[userId := updatedProfile]> (userProfiles st);
         contextWeights := contextWeights st |}.

(** A whole profile passed where a [Partial<UserProfile>] is expected. *)
Definition asUpdate (profile : UserProfile) : ProfileUpdate :=
  {| pu_userId := Some (up_userId profile);
     pu_preferences :=
       Some (up_categories profile, up_languages profile,
             up_topics profile);
     pu_behavior :=
       Some (up_clickHistory profile, up_searchHistory profile,
             up_timeSpent profile);
     pu_demographics :=
       Some (up_age profile, up_location profile, up_interests profile);
     pu_lastUpdated := Some (up_lastUpdated profile) |}.

(** The three actions of [recordUserBehavior], each with the
    properties of [data] that it reads.  [data.query] is any value
    ([undefined] when the data has no such property).  The document id
    of a click and the two properties of [time_spent] are taken to have
    the types of the documents they refer to, a string and a number:
    [includes] compares values of other types by identity, which the
    values of the model do not have. *)
Inductive Behavior : Type :=
| click (documentId : string)
| search (query : JsValue)
| time_spent (documentId : string) (timeSpent : R).

(** [history.slice(-n)]: the last [n] elements. *)
Definition lastN {A : Type} (n : nat) (l : list A) : list A :=
  drop (length l - n) l.

(** The [switch] of [recordUserBehavior]: what it makes of the stored
    profile.  (The keys of [timeSpent] are taken not to name a property
    of [Object.prototype].) *)
Definition recordOn (updatedProfile : UserProfile) (action : Behavior)
  : UserProfile :=
  match action with
  | click documentId =>
      let clickHistory :=
        if bool_decide (documentId ∈ up_clickHistory updatedProfile)
        then up_clickHistory updatedProfile
        else
          let pushed := up_clickHistory updatedProfile ++ [documentId] in
          if (100 <? length pushed)%nat then lastN 100 pushed else pushed in
      {| up_userId := up_userId updatedProfile;
         up_categories := up_categories updatedProfile;
         up_languages := up_languages updatedProfile;
         up_topics := up_topics updatedProfile;
         up_clickHistory := clickHistory;
         up_searchHistory := up_searchHistory updatedProfile;
         up_timeSpent := up_timeSpent updatedProfile;
         up_age := up_age updatedProfile;
         up_location := up_location updatedProfile;
         up_interests := up_interests updatedProfile;
         up_lastUpdated := up_lastUpdated updatedProfile |}
  | search query =>
      let pushed := up_searchHistory updatedProfile ++ [query] in
      let searchHistory :=
        if (50 <? length pushed)%nat then lastN 50 pushed else pushed in
      {| up_userId := up_userId updatedProfile;
         up_categories := up_categories updatedProfile;
         up_languages := up_languages updatedProfile;
         up_topics := up_topics updatedProfile;
         up_clickHistory := up_clickHistory updatedProfile;
         up_searchHistory := searchHistory;
         up_timeSpent := up_timeSpent updatedProfile;
         up_age := up_age updatedProfile;
         up_location := up_location updatedProfile;
         up_interests := up_interests updatedProfile;
         up_lastUpdated := up_lastUpdated updatedProfile |}
  | time_spent documentId timeSpent =>
      let before :=
        num_or_zero (default 0%R (up_timeSpent updatedProfile !! documentId))
      in
      {| up_userId := up_userId updatedProfile;
         up_categories := up_categories updatedProfile;
         up_languages := up_languages updatedProfile;
         up_topics := up_topics updatedProfile;
         up_clickHistory := up_clickHistory updatedProfile;
         up_searchHistory := up_searchHistory updatedProfile;
         up_timeSpent :=
           <[documentId := (before + timeSpent)%R]>
             (up_timeSpent updatedProfile);
         up_age := up_age updatedProfile;
         up_location := up_location updatedProfile;
         up_interests := up_interests updatedProfile;
         up_lastUpdated := up_lastUpdated updatedProfile |}
  end.

(** [recordUserBehavior]: the state it leaves.  The profile that
    [getUserProfile] returns is the stored object; the [switch]
    changes it in place, before [updateUserProfile] stores a copy of
    its top-level properties.  Only the profile of [userId] is
    written: see [UserProfile] for the arrays that two profiles could
    share. *)
Definition recordUserBehavior (st : State) (userId : string)
    (action : Behavior) : M State :=
  st1 <-
    (match getUserProfile st userId with
     | None =>
         updateUserProfile st userId
           {| pu_userId := Some userId;
              pu_preferences := Some ([], [], []);
              pu_behavior := Some ([], [], ∅);
              pu_demographics := None;
              pu_lastUpdated := None |}
     | Some _ => ret st
     end) ;;
  match getUserProfile st1 userId with
  | None => ret st1
  | Some updatedProfile =>
      let changed := recordOn updatedProfile action in
      let st2 :=
        {| userProfiles := <[userId := changed]> (userProfiles st1);
           contextWeights := contextWeights st1 |} in
      updateUserProfile st2 userId (asUpdate changed)
  end.

(** *** The boost rules of the user-profile phase *)

(** [text.split(" ")]. *)
Fixpoint splitOnSpace (current : string) (text : string) : list string :=
  match text with
  | EmptyString => [current]
  | String c rest =>
      if Ascii.eqb c " "%char then current :: splitOnSpace "" rest
      else splitOnSpace (current +:+ String c "") rest
  end.

(** [text.includes(word)]. *)
Fixpoint includes (text word : string) : bool :=
  String.prefix word text
  || match text with
     | EmptyString => false
     | String _ rest => includes rest word
     end.

(** The nested [forEach] loops of [calculateSearchHistoryBoost] and
    [calculateQueryContextBoost]: [step] is added for every word of
    every query that the text of the result includes. *)
Definition keywordBoost (step : R) (resultText : string)
    (queries : list string) : R :=
  fold_left
    (fun boost query =>
       fold_left
         (fun boost word =>
            if includes resultText word then (boost + step)%R else boost)
         (splitOnSpace "" (Tokenizer.toLowerCase query)) boost)
    queries 0%R.

Definition resultText (result : SearchResult) : string :=
  Tokenizer.toLowerCase (sr_title result +:+ " " +:+ sr_content result).

(** The entries of a history when all of them are strings. *)
Fixpoint stringsOf (values : list JsValue) : option (list string) :=
  match values with
  | [] => Some []
  | JsStr s :: rest => cons s <$> stringsOf rest
  | _ :: _ => None
  end.

(** [calculateSearchHistoryBoost].  [query.toLowerCase] exists on
    strings only: an entry that is not a string makes the loop throw,
    whatever was added before. *)
Definition calculateSearchHistoryBoost (result : SearchResult)
    (searchHistory : list JsValue) : Error + R :=
  if (length searchHistory =? 0)%nat then inr 0%R
  else
    match stringsOf searchHistory with
    | Some queries =>
        inr (Rmin (keywordBoost 0.05 (resultText result) queries) 0.2)
    | None => inl JsError
    end.

(** [calculateQueryContextBoost]. *)
Definition calculateQueryContextBoost (result : SearchResult)
    (previousQueries : list string) : R :=
  Rmin (keywordBoost 0.03 (resultText result) previousQueries) 0.1.

Definition ageGroups : list (string * (R * R)) :=
  [ ("teen", (13, 19)%R); ("young_adult", (20, 30)%R);
    ("adult", (31, 50)%R); ("senior", (51, 100)%R) ].

Fixpoint lookupAgeGroup (table : list (string * (R * R))) (key : string)
  : option (R * R) :=
  match table with
  | [] => None
  | (k, v) :: rest =>
      if decide (k = key) then Some v else lookupAgeGroup rest key
  end.

(** [calculateAgeMatch]; the age group is converted to a property key
    first.  What [ageGroups[ageGroup]] finds on the prototype of the
    table cannot be destructured: the call throws. *)
Definition calculateAgeMatch (userAge : R) (ageGroup : JsValue)
  : Error + R :=
  let matchRange (range : R * R) : R :=
    let '(min, max) := range in
    if Rle_dec min userAge
    then if Rle_dec userAge max then 1%R else 0%R
    else 0%R in
  match propertyKey ageGroup with
  | inl e => inl e
  | inr (Some group) =>
      if bool_decide (group ∈ prototypeKeys) then inl JsError
      else
        inr (matchRange
               (default (0%R, 100%R) (lookupAgeGroup ageGroups group)))
  | inr None => inr (matchRange (0%R, 100%R))
  end.

(** [resultTags.some(tag => tag.toLowerCase().includes(interest
    .toLowerCase()))]: the tags are visited until one matches; a tag
    that is not a string has no [toLowerCase]. *)
Fixpoint someTag (interest : string) (tags : list JsValue)
  : Error + bool :=
  match tags with
  | [] => inr false
  | JsStr tag :: rest =>
      if includes (Tokenizer.toLowerCase tag) (Tokenizer.toLowerCase interest)
      then inr true
      else someTag interest rest
  | _ :: _ => inl JsError
  end.

(** The length of [matches] in [calculateInterestMatch]; tags that are
    not an array have no [some]. *)
Fixpoint countMatches (userInterests : list string) (resultTags : JsValue)
  : Error + nat :=
  match userInterests with
  | [] => inr 0%nat
  | interest :: rest =>
      match resultTags with
      | JsArr tags =>
          match someTag interest tags with
          | inl e => inl e
          | inr matched =>
              match countMatches rest resultTags with
              | inl e => inl e
              | inr count => inr (if matched then S count else count)
              end
          end
      | _ => inl JsError
      end
  end.

(** [calculateInterestMatch]. *)
Definition calculateInterestMatch (userInterests : list string)
    (resultTags : JsValue) : Error + R :=
  match countMatches userInterests resultTags with
  | inl e => inl e
  | inr count =>
      inr (IZR (Z.of_nat count)
           / Rmax (IZR (Z.of_nat (length userInterests))) 1)%R
  end.

(** [calculateDemographicsBoost], on the demographics of a profile. *)
Definition calculateDemographicsBoost (result : SearchResult)
    (userProfile : UserProfile) : Error + R :=
  let ageGroup := meta_get (sr_metadata result) "ageGroup" in
  let tags := meta_get (sr_metadata result) "tags" in
  match
    (match up_age userProfile with
     | Some age =>
         if negb (bool_decide (age = 0%R)) && truthy ageGroup
         then
           match calculateAgeMatch age ageGroup with
           | inl e => inl e
           | inr ageMatch => inr (0 + ageMatch * 0.1)%R
           end
         else inr 0%R
     | None => inr 0%R
     end)
  with
  | inl e => inl e
  | inr boost =>
      match up_interests userProfile with
      | Some interests =>
          if truthy tags
          then
            match calculateInterestMatch interests tags with
            | inl e => inl e
            | inr interestMatch => inr (boost + interestMatch * 0.15)%R
            end
          else inr boost
      | None => inr boost
      end
  end.

(** Tags that are an array of strings. *)
Definition stringTags (tags : JsValue) : Prop :=
  exists xs, tags = JsArr xs ∧ Forall (fun x => exists s, x = JsStr s) xs.

(** What makes [calculateDemographicsBoost] throw: the profile has an
    age other than 0 and the age group of the result is truthy and
    makes the lookup in [ageGroups] throw; or the profile has a
    non-empty list of interests and the tags of the result are truthy
    and not an array of strings. *)
Definition demographicsThrow (userProfile : UserProfile)
    (result : SearchResult) : Prop :=
  let ageGroup := meta_get (sr_metadata result) "ageGroup" in
  let tags := meta_get (sr_metadata result) "tags" in
  (exists age,
      up_age userProfile = Some age ∧ age ≠ 0%R
      ∧ truthy ageGroup = true ∧ keyThrows ageGroup)
  ∨ (exists interests,
        up_interests userProfile = Some interests ∧ interests ≠ []
        ∧ truthy tags = true ∧ ¬ stringTags tags).

(** The value of [personalizationBoost] that the callback of
    [applyUserPersonalization] computes for one result. *)
Definition userBoost (userProfile : UserProfile) (result : SearchResult)
  : Error + R :=
  let category := meta_get (sr_metadata result) "category" in
  let personalizationBoost := 0%R in
  let personalizationBoost :=
    if truthy category
       && match category with
          | JsStr c => bool_decide (c ∈ up_categories userProfile)
          | _ => false
          end
    then (personalizationBoost + 0.2)%R else personalizationBoost in
  let personalizationBoost :=
    if bool_decide (sr_id result ∈ up_clickHistory userProfile)
    then (personalizationBoost + 0.15)%R else personalizationBoost in
  match calculateSearchHistoryBoost result (up_searchHistory userProfile)
  with
  | inl e => inl e
  | inr searchHistoryBoost =>
      let personalizationBoost :=
        (personalizationBoost + searchHistoryBoost)%R in
      let timeSpent :=
        num_or_zero (default 0%R (up_timeSpent userProfile !! sr_id result))
      in
      let personalizationBoost :=
        if Rlt_dec 0 timeSpent
        then (personalizationBoost + Rmin (timeSpent / 1000) 0.1)%R
        else personalizationBoost in
      match calculateDemographicsBoost result userProfile with
      | inl e => inl e
      | inr demographicsBoost =>
          inr (personalizationBoost + demographicsBoost)%R
      end
  end.

End Layer4.

(** ** The aggregating service ([SearchService]) *)

Module Service.

(** The fields of the class. *)
Record State : Type := mkState {
  layer1 : Layer1.State;
  layer2 : Layer2.State;
  layer3 : Layer3.State;
  layer4 : Layer4.State;
  isInitialized : bool
}.

Record LayerStats : Type := mkLayerStats {
  ls_layer1 : Layer1Result;
  ls_layer2 : Layer2Result;
  ls_layer3 : Layer3Result;
  ls_layer4 : Layer4Result
}.

Record SearchOutput : Type := mkSearchOutput {
  out_results : list SearchResult;
  out_totalCount : Z;
  out_executionTime : Z;
  out_layerStats : LayerStats
}.

(** The constructor. *)
Definition init (config : Config) : State :=
  {| layer1 := Layer1.init;
     layer2 := Layer2.init None None;
     layer3 := Layer3.init config;
     layer4 := Layer4.init config;
     isInitialized := false |}.

(** The literal records reported for the stages that did not run. *)
Definition noLayer2 : Layer2Result :=
  {| l2r_results := []; l2r_totalCount := 0; l2r_executionTime := 0 |}.

Definition noLayer3 : Layer3Result :=
  {| l3r_results := []; l3r_totalCount := 0; l3r_executionTime := 0;
     l3r_vectorScores := [] |}.

Definition noLayer4 : Layer4Result :=
  {| l4r_results := []; l4r_totalCount := 0; l4r_executionTime := 0;
     l4r_personalizationScore := 0 |}.

(** [removeDocument] returns its boolean and the state it leaves: the
    three removals run before their results are combined, and nothing
    in the [try] block throws. *)
Definition removeDocument (documentId : string) (st : State)
  : bool * State :=
  let '(layer1Removed, l1) := Layer1.removeDocument documentId (layer1 st) in
  let '(layer2Removed, l2) := Layer2.removeDocument documentId (layer2 st) in
  let '(layer3Removed, l3) := Layer3.removeEmbedding documentId (layer3 st) in
  let success := layer1Removed && layer2Removed && layer3Removed in
  (success,
   {| layer1 := l1; layer2 := l2; layer3 := l3; layer4 := layer4 st;
      isInitialized := isInitialized st |}).

Section WithModel.
Variable model : Embedder.
Variable config : Config.
Variable userBoostOf : Layer4.UserProfile -> SearchResult -> Error + R.
Variable contextBoostOf : SearchContext -> SearchResult -> Error + R.
Context {fl : Arith}.

(** [addDocument] returns the state it leaves and whether it threw:
    a failure in stage 3 does not undo stages 1 and 2. *)
Definition addDocument (document : Document) (st : State)
  : State * (Error + unit) :=
  let l1 := Layer1.addDocument document (layer1 st) in
  let l2 := Layer2.addDocument document (layer2 st) in
  let '(l3, outcome) := Layer3.addDocument model document (layer3 st) in
  ({| layer1 := l1; layer2 := l2; layer3 := l3; layer4 := layer4 st;
      isInitialized := isInitialized st |},
   match outcome with
   | inr _ => inr tt
   | inl _ => inl (SearchError "ADD_DOCUMENT_ERROR")
   end).

(** [search]: the result of the call.  The guard on [isInitialized]
    stands before the [try] block. *)
Definition search (st : State) (request : SearchRequest)
  : M SearchOutput :=
  if negb (isInitialized st) then throw (SearchError "NOT_INITIALIZED")
  else
    totalStartTime <- Date_now ;;
    try_catch
      (layer1Result <- Layer1.search config (layer1 st) request ;;
       if (length (l1r_documentIds layer1Result) =? 0)%nat then
         now <- Date_now ;;
         ret {| out_results := []; out_totalCount := 0;
                out_executionTime := now - totalStartTime;
                out_layerStats :=
                  {| ls_layer1 := layer1Result; ls_layer2 := noLayer2;
                     ls_layer3 := noLayer3; ls_layer4 := noLayer4 |} |}
       else
         layer2Result <-
           Layer2.search config (layer2 st) request layer1Result ;;
         if (length (l2r_results layer2Result) =? 0)%nat then
           now <- Date_now ;;
           ret {| out_results := []; out_totalCount := 0;
                  out_executionTime := now - totalStartTime;
                  out_layerStats :=
                    {| ls_layer1 := layer1Result;
                       ls_layer2 := layer2Result;
                       ls_layer3 := noLayer3; ls_layer4 := noLayer4 |} |}
         else
           layer3Result <-
             Layer3.search model config (layer3 st) request
               layer2Result ;;
           if (length (l3r_results layer3Result) =? 0)%nat then
             now <- Date_now ;;
             ret {| out_results := []; out_totalCount := 0;
                    out_executionTime := now - totalStartTime;
                    out_layerStats :=
                      {| ls_layer1 := layer1Result;
                         ls_layer2 := layer2Result;
                         ls_layer3 := layer3Result;
                         ls_layer4 := noLayer4 |} |}
           else
             layer4Result <-
               Layer4.personalize config userBoostOf contextBoostOf
                 (layer4 st) request layer3Result ;;
             totalExecutionTime <- Date_now ;;
             ret {| out_results := l4r_results layer4Result;
                    out_totalCount := l4r_totalCount layer4Result;
                    out_executionTime :=
                      totalExecutionTime - totalStartTime;
                    out_layerStats :=
                      {| ls_layer1 := layer1Result;
                         ls_layer2 := layer2Result;
                         ls_layer3 := layer3Result;
                         ls_layer4 := layer4Result |} |})
      (SearchError "SEARCH_ERROR").
(** [initialize]: the state it leaves and whether it threw.
    [initializeModel] of stage 3 is called whether or not the model is
    loaded; when it throws, nothing has been changed. *)
Definition initialize (st : State) : State * (Error + unit) :=
  if pipeline_loads model then
    ({| layer1 := layer1 st; layer2 := layer2 st;
        layer3 := Layer3.setLoaded (layer3 st); layer4 := layer4 st;
        isInitialized := true |},
     inr tt)
  else (st, inl (SearchError "INITIALIZATION_ERROR")).

(** [addDocuments]: the loop ends at the first document whose
    [addDocument] throws. *)
Fixpoint addDocuments (documents : list Document) (st : State)
  : State * (Error + unit) :=
  match documents with
  | [] => (st, inr tt)
  | document :: rest =>
      let '(st1, outcome) := addDocument document st in
      match outcome with
      | inl e => (st1, inl e)
      | inr _ => addDocuments rest st1
      end
  end.

(** [quickSearch], [booleanSearch], [semanticSearch] and
    [findSimilarDocuments] hand over to a stage. *)
Definition quickSearch (st : State) (request : SearchRequest)
  : M Layer1Result :=
  Layer1.search config (layer1 st) request.

Definition booleanSearch (st : State) (query : string)
    (operator : Layer1.Operator) : M Layer1Result :=
  Layer1.booleanSearch config (layer1 st) query operator.

Definition semanticSearch (st : State) (query : string) (limit : Z)
  : M (list VectorSearchResult) :=
  Layer3.semanticSearch model (layer3 st) query limit.

Definition findSimilarDocuments (st : State) (documentId : string)
    (limit : Z) : Error + list VectorSearchResult :=
  Layer3.findSimilarDocuments (layer3 st) documentId limit.
End WithModel.

(** [removeDocuments]: the running [successCount] and the state. *)
Definition removeDocuments (documentIds : list string) (st : State)
  : Z * State :=
  fold_left
    (fun (acc : Z * State) documentId =>
       let '(success, st1) := removeDocument documentId acc.2 in
       (if success then acc.1 + 1 else acc.1, st1))
    documentIds (0, st).

(** [recordUserBehavior] and [updateUserProfile] hand over to stage 4:
    the state they leave. *)
Definition withLayer4 (st : State) (l4 : Layer4.State) : State :=
  {| layer1 := layer1 st; layer2 := layer2 st; layer3 := layer3 st;
     layer4 := l4; isInitialized := isInitialized st |}.

Definition recordUserBehavior (st : State) (userId : string)
    (action : Layer4.Behavior) : M State :=
  l4 <- Layer4.recordUserBehavior (layer4 st) userId action ;;
  ret (withLayer4 st l4).

Definition updateUserProfile (st : State) (userId : string)
    (profile : Layer4.ProfileUpdate) : M State :=
  l4 <- Layer4.updateUserProfile (layer4 st) userId profile ;;
  ret (withLayer4 st l4).

(** [getStats]. *)
Record Stats : Type := mkStats {
  stats_layer1 : Layer1.IndexStats;
  stats_layer2 : Layer2.Stats;
  stats_layer3 : Layer3.Stats;
  stats_layer4 : Layer4.Stats;
  stats_isInitialized : bool
}.

Definition getStats (st : State) : Stats :=
  {| stats_layer1 := Layer1.getIndexStats (layer1 st);
     stats_layer2 := Layer2.getStats (layer2 st);
     stats_layer3 := Layer3.getStats (layer3 st);
     stats_layer4 := Layer4.getStats (layer4 st);
     stats_isInitialized := isInitialized st |}.

(** [healthCheck]; nothing in its [try] block throws. *)
Inductive HealthStatus : Type := healthy | unhealthy.

Record Health : Type := mkHealth {
  health_status : HealthStatus;
  health_layer1 : bool;
  health_layer2 : bool;
  health_layer3 : bool;
  health_layer4 : bool;
  health_details : Stats
}.

Definition healthCheck (st : State) : Health :=
  let stats := getStats st in
  let l1 := 0 <? Layer1.stats_totalDocuments (stats_layer1 stats) in
  let l2 := 0 <? Layer2.stats_totalDocuments (stats_layer2 stats) in
  let l3 := Layer3.stats_isModelLoaded (stats_layer3 stats) in
  let l4 := true in
  let allHealthy := forallb (fun status : bool => status) [l1; l2; l3; l4] in
  {| health_status := if allHealthy then healthy else unhealthy;
     health_layer1 := l1; health_layer2 := l2;
     health_layer3 := l3; health_layer4 := l4;
     health_details := stats |}.

(** The states of the service reached from the constructor by
    [initialize], by [addDocument] under an id that stage 1 does not
    hold (whether or not the call throws), by [removeDocument], and by
    [recordUserBehavior] and [updateUserProfile]. *)
Inductive reachable (model : Embedder) (config : Config) : State -> Prop :=
| reachable_init : reachable model config (init config)
| reachable_initialize st :
    reachable model config st ->
    reachable model config (initialize model st).1
| reachable_add document st :
    reachable model config st ->
    Layer1.getDocument (layer1 st) (doc_id document) = None ->
    reachable model config (addDocument model document st).1
| reachable_remove documentId st :
    reachable model config st ->
    reachable model config (removeDocument documentId st).2
| reachable_behavior userId action w n st st' n' :
    reachable model config st ->
    recordUserBehavior st userId action w n = (inr st', n') ->
    reachable model config st'
| reachable_profile userId profile w n st st' n' :
    reachable model config st ->
    updateUserProfile st userId profile w n = (inr st', n') ->
    reachable model config st'.

End Service.

(** ** Sample data

    The two documents of the scenarios of the specification, and a world
    whose clock advances by one millisecond per reading. *)

Definition sampleD1 : Document :=
  {| doc_id := "d1"; doc_title := "Machine Learning";
     doc_content := "algorithms that learn from data";
     doc_url := None; doc_category := None; doc_tags := None;
     doc_createdAt := 0; doc_updatedAt := 0; doc_metadata := ∅ |}.

Definition sampleD2 : Document :=
  {| doc_id := "d2"; doc_title := "Deep Learning";
     doc_content := "neural networks with multiple layers";
     doc_url := None; doc_category := None; doc_tags := None;
     doc_createdAt := 0; doc_updatedAt := 0; doc_metadata := ∅ |}.

(** A second document filed under the id of the first. *)
Definition sampleD1' : Document :=
  {| doc_id := "d1"; doc_title := "Deep Learning";
     doc_content := "neural networks with multiple layers";
     doc_url := None; doc_category := None; doc_tags := None;
     doc_createdAt := 0; doc_updatedAt := 0; doc_metadata := ∅ |}.

(** The index and the corpus that hold the first document, the second
    one, and both. *)
Definition index1 : Layer1.State := Layer1.addDocument sampleD1 Layer1.init.

Definition index2 : Layer1.State := Layer1.addDocument sampleD2 Layer1.init.

Definition index12 : Layer1.State := Layer1.addDocument sampleD2 index1.

(** The index after the second document was filed under the id of the
    first: it holds one document, and the postings of both. *)
Definition index1' : Layer1.State := Layer1.addDocument sampleD1' index1.

Definition corpus1 : Layer2.State :=
  Layer2.addDocument sampleD1 (Layer2.init None None).

Definition corpus2 : Layer2.State :=
  Layer2.addDocument sampleD2 (Layer2.init None None).

Definition corpus12 : Layer2.State := Layer2.addDocument sampleD2 corpus1.

(** A document whose content has 201 characters. *)
Fixpoint repeat_char (c : ascii) (n : nat) : string :=
  match n with
  | O => EmptyString
  | S n' => String c (repeat_char c n')
  end.

Definition sampleLong : Document :=
  {| doc_id := "long"; doc_title := "Long";
     doc_content := repeat_char "a" 201;
     doc_url := None; doc_category := None; doc_tags := None;
     doc_createdAt := 0; doc_updatedAt := 0; doc_metadata := ∅ |}.

Definition corpusLong : Layer2.State :=
  Layer2.addDocument sampleLong (Layer2.init None None).

(** An embedding model that maps every text to the same unit vector, a
    vector store that holds a vector for the first document only, and
    two stage-2 results. *)
Definition sampleModel : Embedder :=
  {| pipeline_loads := true; embed := fun _ => Some [1%R; 0%R] |}.

Definition vectors1 : Layer3.State :=
  {| Layer3.embeddings :=
       {[ "d1" := {| ve_documentId := "d1"; ve_vector := [1%R; 0%R];
                     ve_metadata := ∅ |} ]};
     Layer3.isModelLoaded := true;
     Layer3.st_vectorDimension := 2 |}.

Definition sampleResult (documentId : string) (score : R) : SearchResult :=
  {| sr_id := documentId; sr_title := documentId; sr_content := "";
     sr_url := None; sr_score := score; sr_metadata := ∅ |}.

Definition sampleLayer2 : Layer2Result :=
  {| l2r_results := [sampleResult "d1" 2; sampleResult "d2" 1];
     l2r_totalCount := 2; l2r_executionTime := 1 |}.

(** Boost rules that give no boost, a stage-3 result list in
    decreasing order of score, and requests that carry a user id. *)
Definition noUserBoost : Layer4.UserProfile -> SearchResult -> Error + R :=
  fun _ _ => inr 0%R.

Definition noContextBoost : SearchContext -> SearchResult -> Error + R :=
  fun _ _ => inr 0%R.

Definition sampleLayer3 : Layer3Result :=
  {| l3r_results := [sampleResult "d1" 2; sampleResult "d2" 1];
     l3r_totalCount := 2; l3r_executionTime := 1;
     l3r_vectorScores := [] |}.

Definition emptyLayer3 : Layer3Result :=
  {| l3r_results := []; l3r_totalCount := 0; l3r_executionTime := 1;
     l3r_vectorScores := [] |}.

Definition sampleRequestOf (query : string) (userId : option string)
  : SearchRequest :=
  {| req_query := query; req_userId := userId; req_limit := None;
     req_offset := None; req_context := None |}.

(** A service that was initialized and holds the two sample documents
    in stage 1. *)
Definition sampleService : Service.State :=
  {| Service.layer1 := index12;
     Service.layer2 := corpus12;
     Service.layer3 := vectors1;
     Service.layer4 := Layer4.init default_config;
     Service.isInitialized := true |}.

Definition sampleWorld : World :=
  {| clock := fun n => Z.of_nat n;
     getHours := fun _ => 3;
     getDay := fun _ => 0 |}.

Definition sampleRequest (query : string) : SearchRequest :=
  {| req_query := query; req_userId := None; req_limit := None;
     req_offset := None; req_context := None |}.

(** * Properties *)

(** Statements about the arithmetic of the reals: its operations are
    those of [R]. *)
Ltac exact_arith :=
  cbn [fadd fsub fmul fdiv rnd fln fsqrt exact_arith] in *.

(** ** The monad *)

Lemma bind_ret_run {A B : Type} (a : A) (k : A -> M B) w n :
  (x <- ret a ;; k x) w n = k a w n.
Proof. reflexivity. Qed.

Lemma bind_Date_now_run {B : Type} (k : Z -> M B) w n :
  (x <- Date_now ;; k x) w n = k (clock w n) w (S n).
Proof. reflexivity. Qed.

Lemma mapM_ret_run {A B : Type} (f : A -> B) (l : list A) w n :
  mapM (fun x => ret (f x)) l w n = (inr (map f l), n).
Proof.
  induction l as [|x l IH]; [reflexivity|].
  cbn [mapM map]. unfold bind at 1. cbn [ret].
  unfold bind at 1. rewrite IH. reflexivity.
Qed.

(** ** Sorting *)

Section SortFacts.
Context {A : Type} (key : A -> R).

Lemma insert_desc_perm x l : Permutation (insert_desc key x l) (x :: l).
Proof.
  induction l as [|y l IH]; cbn [insert_desc]; [reflexivity|].
  destruct (Rlt_dec (key x) (key y)); [|reflexivity].
  rewrite IH. apply perm_swap.
Qed.

Lemma sort_desc_perm l : Permutation (sort_desc key l) l.
Proof.
  induction l as [|x l IH]; [reflexivity|].
  unfold sort_desc in *. cbn [foldr].
  rewrite insert_desc_perm. by constructor.
Qed.

Lemma sort_desc_length l : length (sort_desc key l) = length l.
Proof. apply Permutation_length, sort_desc_perm. Qed.

Lemma insert_desc_sorted x l :
  sorted_desc key l -> sorted_desc key (insert_desc key x l).
Proof.
  unfold sorted_desc.
  induction 1 as [|y l Hs IH Hy]; cbn [insert_desc].
  - repeat constructor.
  - destruct (Rlt_dec (key x) (key y)) as [Hlt|Hge].
    + constructor; [exact IH|].
      eapply Permutation_Forall; [symmetry; apply insert_desc_perm|].
      constructor; [lra|exact Hy].
    + assert (key y <= key x)%R by lra.
      constructor; [by constructor|].
      constructor; [done|].
      eapply Forall_impl; [exact Hy|]. cbn. intros z Hz. lra.
Qed.

Lemma sort_desc_sorted l : sorted_desc key (sort_desc key l).
Proof.
  induction l as [|x l IH]; [constructor|].
  unfold sort_desc in *. cbn [foldr]. by apply insert_desc_sorted.
Qed.

(** A list that is already in decreasing order is left as it is: the
    sort is stable. *)
Lemma sort_desc_sorted_id l : sorted_desc key l -> sort_desc key l = l.
Proof.
  unfold sorted_desc.
  induction 1 as [|x l Hs IH Hx]; [reflexivity|].
  unfold sort_desc in *. cbn [foldr]. rewrite IH.
  destruct l as [|y l]; [reflexivity|]. cbn [insert_desc].
  apply Forall_cons in Hx as [Hy _].
  destruct (Rlt_dec (key x) (key y)); [lra|reflexivity].
Qed.

Lemma sorted_desc_take n l : sorted_desc key l -> sorted_desc key (take n l).
Proof.
  unfold sorted_desc. intros Hs. revert n.
  induction Hs as [|x l Hs IH Hx]; intros [|n]; cbn [take];
    try constructor; [apply IH|].
  apply Forall_take. exact Hx.
Qed.

Lemma sorted_desc_slice0 n l :
  sorted_desc key l -> sorted_desc key (slice0 n l).
Proof. unfold slice0. destruct (n <? 0); apply sorted_desc_take. Qed.
End SortFacts.

Lemma slice0_nil {A : Type} (n : Z) : slice0 n ([] : list A) = [].
Proof. unfold slice0. destruct (n <? 0); apply take_nil. Qed.

Lemma slice0_length_le {A : Type} (n : Z) (l : list A) :
  0 <= n -> Z.of_nat (length (slice0 n l)) <= n.
Proof.
  intros Hn. unfold slice0.
  destruct (Z.ltb_spec n 0); [lia|]. rewrite length_take. lia.
Qed.

Example tokenize_example :
  Tokenizer.tokenizeAndNormalize "Machine Learning: the state of THE art!"
  = ["machine"; "learning"; "state"; "art"].
Proof. vm_compute. reflexivity. Qed.

(** ** Small facts about JavaScript idioms *)

Lemma int_or_zero_Some n : int_or_zero (Some n) = n.
Proof. cbn. destruct (Z.eqb_spec n 0); congruence. Qed.

Lemma num_or_zero_id x : num_or_zero x = x.
Proof. unfold num_or_zero. destruct (Req_dec_T x 0%R); congruence. Qed.

(** ** Loops that update one key of a map per round *)

Section FoldPointwise.
Context {V : Type}.
Variable g : gmap string V -> string -> gmap string V.
Variable h : string -> option V -> option V.
Hypothesis g_lookup :
  forall m a t, g m a !! t = if decide (a = t) then h t (m !! t) else m !! t.

Lemma fold_pointwise_notin (T : list string) (m : gmap string V) t :
  t ∉ T -> fold_left g T m !! t = m !! t.
Proof.
  revert m. induction T as [|a T IH]; intros m Hnot; [reflexivity|].
  cbn [fold_left]. apply not_elem_of_cons in Hnot as [Hne Hnot].
  rewrite IH by exact Hnot. rewrite g_lookup.
  destruct (decide (a = t)); congruence.
Qed.

(** Every key is visited at most once. *)
Lemma fold_pointwise_NoDup (T : list string) (m : gmap string V) t :
  NoDup T ->
  fold_left g T m !! t = if decide (t ∈ T) then h t (m !! t) else m !! t.
Proof.
  intros Hnd. revert m.
  induction Hnd as [|a T Ha Hnd IH]; intros m.
  - cbn. destruct (decide (t ∈ [])) as [Hin|]; [|reflexivity].
    by apply elem_of_nil in Hin.
  - cbn [fold_left]. destruct (decide (a = t)) as [->|Hne].
    + rewrite fold_pointwise_notin by exact Ha.
      rewrite g_lookup.
      rewrite (decide_True (P := t = t)) by reflexivity.
      rewrite decide_True by apply list_elem_of_here. reflexivity.
    + rewrite IH, g_lookup.
      rewrite (decide_False (P := a = t)) by exact Hne.
      destruct (decide (t ∈ T)) as [Hin|Hnin].
      * rewrite decide_True by (by apply list_elem_of_further). reflexivity.
      * rewrite decide_False; [reflexivity|].
        intros [?|?]%elem_of_cons; congruence.
Qed.

(** Visiting a key again changes nothing. *)
Lemma fold_pointwise_idemp (T : list string) (m : gmap string V) t :
  (forall o, h t (h t o) = h t o) ->
  fold_left g T m !! t = if decide (t ∈ T) then h t (m !! t) else m !! t.
Proof.
  intros Hidem. revert m.
  induction T as [|a T IH]; intros m.
  - cbn. destruct (decide (t ∈ [])) as [Hin|]; [|reflexivity].
    by apply elem_of_nil in Hin.
  - cbn [fold_left]. rewrite IH, g_lookup.
    destruct (decide (a = t)) as [->|Hne].
    + rewrite (decide_True (P := t ∈ t :: T)) by apply list_elem_of_here.
      destruct (decide (t ∈ T)); [apply Hidem|reflexivity].
    + destruct (decide (t ∈ T)) as [Hin|Hnin].
      * rewrite decide_True by (by apply list_elem_of_further). reflexivity.
      * rewrite decide_False; [reflexivity|].
        intros [?|?]%elem_of_cons; congruence.
Qed.
End FoldPointwise.

(** ** Stage 1: how [addDocument] and [removeDocument] change the index *)

Section Layer1Index.
Import Layer1.
Variable documentId : string.

Lemma addToken_lookup idx a t :
  addToken documentId idx a !! t
  = if decide (a = t) then Some (entryAfterAdd documentId t 1 (idx !! t))
    else idx !! t.
Proof.
  unfold addToken. rewrite lookup_insert.
  destruct (decide (a = t)) as [->|]; reflexivity.
Qed.

Lemma entryAfterAdd_again t c o :
  entryAfterAdd documentId t c (Some (entryAfterAdd documentId t 1 o)) = entryAfterAdd documentId t (1 + c) o.
Proof.
  unfold entryAfterAdd. simpl. f_equal.
  - set_solver.
  - rewrite lookup_insert_eq, int_or_zero_Some, insert_insert_eq.
    f_equal. lia.
  - do 2 f_equal. set_solver.
Qed.

Lemma occurrences_cons a t T :
  occurrences t (a :: T)
  = (if decide (a = t) then 1 else 0) + occurrences t T.
Proof.
  unfold occurrences. rewrite filter_cons.
  destruct (decide (a = t)); cbn [length]; lia.
Qed.

Lemma occurrences_notin t T : t ∉ T -> occurrences t T = 0.
Proof.
  induction T as [|a T IH]; [reflexivity|].
  intros [Hne Hnot]%not_elem_of_cons. rewrite occurrences_cons, IH by done.
  rewrite decide_False by congruence. reflexivity.
Qed.

Lemma occurrences_pos t T : t ∈ T -> 0 < occurrences t T.
Proof.
  induction T as [|a T IH]; [by intros ?%elem_of_nil|].
  rewrite occurrences_cons. unfold occurrences in *.
  intros [->|Hin]%elem_of_cons.
  - rewrite decide_True by reflexivity. lia.
  - specialize (IH Hin). destruct (decide (a = t)); lia.
Qed.

(** The index after the loop of [addDocument]. *)
Lemma fold_addToken_lookup T idx t :
  fold_left (addToken documentId) T idx !! t
  = if decide (t ∈ T)
    then Some (entryAfterAdd documentId t (occurrences t T) (idx !! t))
    else idx !! t.
Proof.
  revert idx. induction T as [|a T IH]; intros idx.
  - cbn. destruct (decide (t ∈ [])) as [Hin|]; [|reflexivity].
    by apply elem_of_nil in Hin.
  - cbn [fold_left]. rewrite IH, addToken_lookup, occurrences_cons.
    destruct (decide (a = t)) as [->|Hne].
    + rewrite (decide_True (P := t ∈ t :: T)) by apply list_elem_of_here.
      destruct (decide (t ∈ T)) as [Hin|Hnin].
      * by rewrite entryAfterAdd_again.
      * rewrite occurrences_notin by exact Hnin.
        do 2 f_equal.
    + destruct (decide (t ∈ T)) as [Hin|Hnin].
      * rewrite decide_True by (by apply list_elem_of_further).
        do 2 f_equal.
      * rewrite decide_False; [reflexivity|].
        intros [?|?]%elem_of_cons; congruence.
Qed.

Lemma removeToken_lookup idx a t :
  removeToken documentId idx a !! t
  = if decide (a = t) then idx !! t ≫= entryAfterRemove documentId else idx !! t.
Proof.
  unfold removeToken. destruct (decide (a = t)) as [->|Hne].
  - destruct (idx !! t) as [entry|] eqn:Hlook; cbn [mbind option_bind].
    + unfold entryAfterRemove.
      destruct (Nat.eqb_spec (size (documentIds entry ∖ {[documentId]})) 0)
        as [Hz|Hnz].
      * apply size_empty_inv in Hz. apply leibniz_equiv in Hz.
        rewrite decide_True by exact Hz. apply lookup_delete_eq.
      * rewrite decide_False; [apply lookup_insert_eq|].
        intros Heq. rewrite Heq, size_empty in Hnz. done.
    + exact Hlook.
  - destruct (idx !! a) as [entry|]; [|reflexivity].
    destruct (size _ =? 0)%nat.
    + by apply lookup_delete_ne.
    + by apply lookup_insert_ne.
Qed.

Lemma entryAfterRemove_idemp o :
  (o ≫= entryAfterRemove documentId) ≫= entryAfterRemove documentId = o ≫= entryAfterRemove documentId.
Proof.
  destruct o as [entry|]; [|reflexivity]. cbn [mbind option_bind].
  unfold entryAfterRemove at 2 3.
  destruct (decide (documentIds entry ∖ {[documentId]} = ∅)) as [He|Hne];
    [reflexivity|].
  cbn [mbind option_bind]. unfold entryAfterRemove.
  cbn [term documentIds termFrequency].
  assert (Hsame : documentIds entry ∖ {[documentId]} ∖ {[documentId]}
                  = documentIds entry ∖ {[documentId]}) by set_solver.
  rewrite Hsame, decide_False by exact Hne.
  do 2 f_equal. apply map_eq. intros i.
  destruct (decide (i = documentId)) as [->|Hi].
  - by rewrite !lookup_delete_eq.
  - by rewrite !lookup_delete_ne.
Qed.

(** The index after the loop of [removeDocument]. *)
Lemma fold_removeToken_lookup T idx t :
  fold_left (removeToken documentId) T idx !! t
  = if decide (t ∈ T) then idx !! t ≫= entryAfterRemove documentId else idx !! t.
Proof.
  apply (fold_pointwise_idemp (removeToken documentId)
           (fun _ o => o ≫= entryAfterRemove documentId)).
  - intros m a t'. apply removeToken_lookup.
  - intros o. apply entryAfterRemove_idemp.
Qed.

(** Taking out what was just put in. *)
Lemma entryAfterRemove_entryAfterAdd t c o :
  (forall entry, o = Some entry ->
     entry_wf entry ∧ documentId ∉ documentIds entry) ->
  entryAfterRemove documentId (entryAfterAdd documentId t c o) = o.
Proof.
  intros Ho. unfold entryAfterRemove, entryAfterAdd.
  destruct o as [entry|]; simpl.
  - destruct (Ho entry eq_refl) as [(Hdf & Hne & Hdom) Hfresh].
    assert (Hids : ({[documentId]} ∪ documentIds entry) ∖ {[documentId]}
                   = documentIds entry) by set_solver.
    rewrite Hids, decide_False by exact Hne.
    rewrite delete_insert_eq.
    assert (Htf : termFrequency entry !! documentId = None).
    { apply not_elem_of_dom. by rewrite Hdom. }
    rewrite (delete_id _ _ Htf), <- Hdf. by destruct entry.
  - cbn [documentIds].
    rewrite decide_True; [reflexivity|]. set_solver.
Qed.
End Layer1Index.

(** [addDocument] followed by [removeDocument] in stage 1, for a
    document whose id is not stored: everything is as before, except
    that [totalTerms] keeps the tokens of the document. *)
Lemma Layer1_add_remove (d : Document) (st : Layer1.State) :
  Layer1.wf st ->
  Layer1.documents st !! doc_id d = None ->
  Layer1.removeDocument (doc_id d) (Layer1.addDocument d st)
  = (true,
     {| Layer1.documents := Layer1.documents st;
        Layer1.st_index :=
          {| Layer1.index := Layer1.index (Layer1.st_index st);
             Layer1.documentCount := Layer1.documentCount (Layer1.st_index st);
             Layer1.totalTerms :=
               Layer1.totalTerms (Layer1.st_index st)
               + Z.of_nat (length (Layer1.allTokens d)) |} |}).
Proof.
  intros (Hentries & _ & Hpost) Hfresh.
  unfold Layer1.removeDocument, Layer1.addDocument. simpl.
  rewrite lookup_insert_eq. f_equal. f_equal.
  - f_equal; [|lia].
    apply map_eq. intros t.
    rewrite fold_removeToken_lookup, fold_addToken_lookup.
    destruct (decide (t ∈ Layer1.allTokens d)); [|reflexivity].
    simpl. apply entryAfterRemove_entryAfterAdd.
    intros entry Hentry. split; [by eapply Hentries|].
    intros Hin.
    assert (Hp : doc_id d ∈ Layer1.postings st t).
    { unfold Layer1.postings. by rewrite Hentry. }
    apply Hpost in Hp as (document & Hdoc & _). congruence.
  - rewrite delete_insert_eq. by apply delete_id.
Qed.

(** ** Stage 2: how [addDocument] and [removeDocument] change the
    statistics *)

Lemma uniqueTokens_spec (T : list string) :
  NoDup (Layer2.uniqueTokens T) ∧ forall t, t ∈ Layer2.uniqueTokens T <-> t ∈ T.
Proof.
  unfold Layer2.uniqueTokens.
  assert (Hgen : forall seen,
    NoDup seen ->
    NoDup (fold_left
             (fun seen token =>
                if decide (token ∈ seen) then seen else seen ++ [token])
             T seen)
    ∧ forall t,
        t ∈ fold_left
              (fun seen token =>
                 if decide (token ∈ seen) then seen else seen ++ [token])
              T seen
        <-> t ∈ seen ∨ t ∈ T).
  { induction T as [|a T IH]; intros seen Hnd; cbn [fold_left].
    - split; [exact Hnd|]. intros t. rewrite elem_of_nil. tauto.
    - destruct (decide (a ∈ seen)) as [Hin|Hnin].
      + destruct (IH seen Hnd) as [H1 H2]. split; [exact H1|].
        intros t. rewrite H2, elem_of_cons.
        split; [tauto|]. intros [?|[->|?]]; tauto.
      + assert (Hnd' : NoDup (seen ++ [a])).
        { apply NoDup_app. split; [exact Hnd|]. split.
          - intros x Hx ->%list_elem_of_singleton. done.
          - apply NoDup_singleton. }
        destruct (IH _ Hnd') as [H1 H2]. split; [exact H1|].
        intros t. rewrite H2, elem_of_app, list_elem_of_singleton, elem_of_cons.
        tauto. }
  destruct (Hgen [] (NoDup_nil_2)) as [H1 H2]. split; [exact H1|].
  intros t. rewrite H2, elem_of_nil. tauto.
Qed.

Lemma incrementDf_lookup (df : gmap string Z) a t :
  Layer2.incrementDf df a !! t
  = if decide (a = t) then Some (int_or_zero (df !! t) + 1) else df !! t.
Proof.
  unfold Layer2.incrementDf. rewrite lookup_insert.
  destruct (decide (a = t)) as [->|]; reflexivity.
Qed.

Lemma decrementDf_lookup (df : gmap string Z) a t :
  Layer2.decrementDf df a !! t
  = if decide (a = t)
    then (if 1 <? int_or_zero (df !! t)
          then Some (int_or_zero (df !! t) - 1) else None)
    else df !! t.
Proof.
  unfold Layer2.decrementDf. destruct (decide (a = t)) as [->|Hne].
  - destruct (1 <? int_or_zero (df !! t)).
    + apply lookup_insert_eq.
    + apply lookup_delete_eq.
  - destruct (1 <? int_or_zero (df !! a)).
    + by apply lookup_insert_ne.
    + by apply lookup_delete_ne.
Qed.

(** The document frequencies after the loop of [addDocument]. *)
Lemma fold_incrementDf_lookup (T : list string) (df : gmap string Z) t :
  fold_left Layer2.incrementDf (Layer2.uniqueTokens T) df !! t
  = if decide (t ∈ T) then Some (int_or_zero (df !! t) + 1) else df !! t.
Proof.
  destruct (uniqueTokens_spec T) as [Hnd Hin].
  rewrite (fold_pointwise_NoDup Layer2.incrementDf
             (fun _ o => Some (int_or_zero o + 1)))
    by (apply incrementDf_lookup || exact Hnd).
  apply decide_ext, Hin.
Qed.

(** The document frequencies after the loop of [removeDocument]. *)
Lemma fold_decrementDf_lookup (T : list string) (df : gmap string Z) t :
  fold_left Layer2.decrementDf (Layer2.uniqueTokens T) df !! t
  = if decide (t ∈ T)
    then (if 1 <? int_or_zero (df !! t)
          then Some (int_or_zero (df !! t) - 1) else None)
    else df !! t.
Proof.
  destruct (uniqueTokens_spec T) as [Hnd Hin].
  rewrite (fold_pointwise_NoDup Layer2.decrementDf
             (fun _ o => if 1 <? int_or_zero o
                         then Some (int_or_zero o - 1) else None))
    by (apply decrementDf_lookup || exact Hnd).
  apply decide_ext, Hin.
Qed.

(** [addDocument] followed by [removeDocument] in stage 2, for a
    document whose id is not stored: the state is as before. *)
Lemma Layer2_add_remove (d : Document) (st : Layer2.State) :
  Layer2.wf st ->
  Layer2.documents st !! doc_id d = None ->
  Layer2.removeDocument (doc_id d) (Layer2.addDocument d st) = (true, st).
Proof.
  intros (Hdom & Hdf & Havg) Hfresh.
  assert (Hlen : Layer2.documentLengths st !! doc_id d = None).
  { apply not_elem_of_dom. rewrite Hdom. by apply not_elem_of_dom. }
  unfold Layer2.removeDocument, Layer2.addDocument,
    Layer2.updateAverageDocumentLength. simpl.
  rewrite lookup_insert_eq. f_equal.
  rewrite !delete_insert_eq, !(delete_id _ _ Hfresh), !(delete_id _ _ Hlen).
  replace (Layer2.totalDocuments st + 1 - 1) with (Layer2.totalDocuments st)
    by lia.
  rewrite <- Havg.
  assert (Hmap :
    fold_left Layer2.decrementDf
      (Layer2.uniqueTokens (Layer2.documentTokens d))
      (fold_left Layer2.incrementDf
         (Layer2.uniqueTokens (Layer2.documentTokens d))
         (Layer2.termDocumentFrequency st))
    = Layer2.termDocumentFrequency st).
  { apply map_eq. intros t.
    rewrite fold_decrementDf_lookup, fold_incrementDf_lookup.
    destruct (decide (t ∈ Layer2.documentTokens d)); [|reflexivity].
    rewrite int_or_zero_Some.
    destruct (Layer2.termDocumentFrequency st !! t) as [k|] eqn:Hk.
    - specialize (Hdf _ _ Hk). rewrite int_or_zero_Some.
      destruct (Z.ltb_spec 1 (k + 1)); [f_equal; lia|lia].
    - reflexivity. }
  rewrite Hmap. by destruct st.
Qed.

(** The integrity of the stage-2 statistics holds in the initial state
    and is kept by every [addDocument] and every [removeDocument]. *)
Lemma Layer2_wf_init k1_opt b_opt : Layer2.wf (Layer2.init k1_opt b_opt).
Proof.
  repeat split; simpl; try done.
Qed.

Lemma Layer2_wf_addDocument d st :
  Layer2.wf st -> Layer2.wf (Layer2.addDocument d st).
Proof.
  intros (Hdom & Hdf & Havg). repeat split; simpl.
  - rewrite !dom_insert_L. by rewrite Hdom.
  - intros t k. rewrite fold_incrementDf_lookup.
    destruct (decide (t ∈ Layer2.documentTokens d)); [|apply Hdf].
    intros [= <-].
    destruct (Layer2.termDocumentFrequency st !! t) as [k|] eqn:Hk.
    + specialize (Hdf _ _ Hk). rewrite int_or_zero_Some. lia.
    + simpl. lia.
Qed.

Lemma Layer2_wf_removeDocument documentId st :
  Layer2.wf st -> Layer2.wf (Layer2.removeDocument documentId st).2.
Proof.
  intros Hwf. unfold Layer2.removeDocument.
  destruct (Layer2.documents st !! documentId) as [d|]; [|exact Hwf].
  destruct Hwf as (Hdom & Hdf & Havg). repeat split; simpl.
  - rewrite !dom_delete_L. by rewrite Hdom.
  - intros t k. rewrite fold_decrementDf_lookup.
    destruct (decide (t ∈ Layer2.documentTokens d)); [|apply Hdf].
    destruct (Z.ltb_spec 1 (int_or_zero (Layer2.termDocumentFrequency st !! t)));
      [|done].
    intros [= <-]. lia.
Qed.

(** ** Stage 1: integrity of the index *)

Lemma postings_addDocument d st t :
  Layer1.postings (Layer1.addDocument d st) t
  = if decide (t ∈ Layer1.allTokens d)
    then {[doc_id d]} ∪ Layer1.postings st t
    else Layer1.postings st t.
Proof.
  unfold Layer1.postings, Layer1.addDocument. simpl.
  rewrite fold_addToken_lookup.
  destruct (decide (t ∈ Layer1.allTokens d)); [|reflexivity].
  destruct (Layer1.index (Layer1.st_index st) !! t); reflexivity.
Qed.

Lemma postings_removeDocument documentId d st t :
  Layer1.wf st ->
  Layer1.documents st !! documentId = Some d ->
  Layer1.postings (Layer1.removeDocument documentId st).2 t
  = Layer1.postings st t ∖ {[documentId]}.
Proof.
  intros (Hentries & Hkeys & Hpost) Hd.
  unfold Layer1.removeDocument. rewrite Hd. simpl.
  unfold Layer1.postings at 1. simpl. rewrite fold_removeToken_lookup.
  destruct (decide (t ∈ Layer1.allTokens d)) as [Hin|Hnin].
  - unfold Layer1.postings.
    destruct (Layer1.index (Layer1.st_index st) !! t) as [entry|];
      simpl; [|set_solver].
    unfold Layer1.entryAfterRemove.
    destruct (decide (Layer1.documentIds entry ∖ {[documentId]} = ∅)) as [->|];
      reflexivity.
  - assert (documentId ∉ Layer1.postings st t).
    { rewrite Hpost. intros (d' & Hd' & Ht). congruence. }
    fold (Layer1.postings st t). set_solver.
Qed.

Lemma Layer1_wf_init : Layer1.wf Layer1.init.
Proof.
  split; [|split].
  - intros t entry Hl. simpl in Hl. by apply lookup_empty_Some in Hl.
  - intros x doc Hl. simpl in Hl. by apply lookup_empty_Some in Hl.
  - intros t x. unfold Layer1.postings. simpl. rewrite lookup_empty.
    split; [set_solver|].
    intros (doc & Hl & _). by apply lookup_empty_Some in Hl.
Qed.

Lemma Layer1_wf_addDocument d st :
  Layer1.wf st ->
  Layer1.documents st !! doc_id d = None ->
  Layer1.wf (Layer1.addDocument d st).
Proof.
  intros (Hentries & Hkeys & Hpost) Hfresh. split; [|split].
  - intros t entry. simpl. rewrite fold_addToken_lookup.
    destruct (decide (t ∈ Layer1.allTokens d)); [|apply Hentries].
    intros [= <-]. unfold Layer1.entry_wf, Layer1.entryAfterAdd. simpl.
    split; [reflexivity|]. split; [set_solver|].
    rewrite dom_insert_L.
    destruct (Layer1.index (Layer1.st_index st) !! t) as [entry|] eqn:He;
      simpl.
    + destruct (Hentries _ _ He) as (_ & _ & ->). reflexivity.
    + by rewrite dom_empty_L.
  - intros x doc. simpl. rewrite lookup_insert.
    destruct (decide (doc_id d = x)) as [<-|]; [by intros [= <-]|apply Hkeys].
  - intros t x. rewrite postings_addDocument. simpl.
    assert (Hold : x ∈ Layer1.postings st t -> x ≠ doc_id d).
    { intros (doc & Hdoc & _)%Hpost ->. congruence. }
    split.
    + intros Hx.
      destruct (decide (x = doc_id d)) as [->|Hne].
      * exists d. rewrite lookup_insert_eq. split; [done|].
        destruct (decide (t ∈ Layer1.allTokens d)); [done|].
        by apply Hold in Hx.
      * assert (Hx' : x ∈ Layer1.postings st t).
        { destruct (decide (t ∈ Layer1.allTokens d)); set_solver. }
        apply Hpost in Hx' as (doc & Hdoc & Ht). exists doc.
        by rewrite lookup_insert_ne.
    + intros (doc & Hdoc & Ht). rewrite lookup_insert in Hdoc.
      destruct (decide (doc_id d = x)) as [<-|Hne].
      * injection Hdoc as <-. rewrite decide_True by exact Ht. set_solver.
      * assert (x ∈ Layer1.postings st t) by (apply Hpost; eauto).
        destruct (decide (t ∈ Layer1.allTokens d)); set_solver.
Qed.

Lemma Layer1_wf_removeDocument documentId st :
  Layer1.wf st -> Layer1.wf (Layer1.removeDocument documentId st).2.
Proof.
  intros Hwf.
  destruct (Layer1.documents st !! documentId) as [d|] eqn:Hd;
    [|unfold Layer1.removeDocument; by rewrite Hd].
  pose proof (postings_removeDocument documentId d st) as Hpost'.
  destruct Hwf as (Hentries & Hkeys & Hpost). split; [|split].
  - unfold Layer1.removeDocument. rewrite Hd. simpl.
    intros t entry. rewrite fold_removeToken_lookup.
    destruct (decide (t ∈ Layer1.allTokens d)); [|apply Hentries].
    destruct (Layer1.index (Layer1.st_index st) !! t) as [old|] eqn:He;
      simpl; [|done].
    unfold Layer1.entryAfterRemove.
    destruct (decide (Layer1.documentIds old ∖ {[documentId]} = ∅)); [done|].
    intros [= <-]. unfold Layer1.entry_wf. simpl.
    split; [reflexivity|]. split; [done|].
    destruct (Hentries _ _ He) as (_ & _ & Hdom).
    by rewrite dom_delete_L, Hdom.
  - unfold Layer1.removeDocument. rewrite Hd. simpl.
    intros x doc. rewrite lookup_delete.
    destruct (decide (documentId = x)); [done|apply Hkeys].
  - intros t x. rewrite Hpost' by done.
    unfold Layer1.removeDocument. rewrite Hd. simpl.
    rewrite elem_of_difference, Hpost, lookup_delete.
    split.
    + intros [(doc & Hdoc & Ht) Hne]. exists doc.
      rewrite decide_False by set_solver. done.
    + intros (doc & Hdoc & Ht).
      destruct (decide (documentId = x)); [done|].
      split; [eauto|set_solver].
Qed.

Lemma Layer1_reachable_wf st : Layer1.reachable st -> Layer1.wf st.
Proof.
  induction 1 as [|d st _ IH Hfresh|x st _ IH].
  - apply Layer1_wf_init.
  - by apply Layer1_wf_addDocument.
  - by apply Layer1_wf_removeDocument.
Qed.

Lemma Layer2_reachable_wf st : Layer2.reachable st -> Layer2.wf st.
Proof.
  induction 1 as [k1o bo|d st _ IH|x st _ IH|k1o bo st _ IH].
  - apply Layer2_wf_init.
  - by apply Layer2_wf_addDocument.
  - by apply Layer2_wf_removeDocument.
  - exact IH.
Qed.

(** ** Add/remove round trip *)

(** C1, as amended.  For a document whose id is not stored, in a stage-1
    index and a stage-2 corpus that satisfy their integrity invariants
    (as every state reached by adding documents under fresh ids and
    removing documents does), [addDocument] followed by [removeDocument]
    of its id succeeds and restores: in stage 1 the document count, the
    whole term index (postings, term frequencies and document
    frequencies of every term) and the stored documents; in stage 2 the
    whole state, hence the document count, the average document length
    and the document frequency of every term. *)
Theorem add_remove_round_trip (d : Document)
    (s1 : Layer1.State) (s2 : Layer2.State)
    (Hwf1 : Layer1.wf s1)
    (Hfresh1 : Layer1.documents s1 !! doc_id d = None)
    (Hwf2 : Layer2.wf s2)
    (Hfresh2 : Layer2.documents s2 !! doc_id d = None) :
  let r1 := Layer1.removeDocument (doc_id d) (Layer1.addDocument d s1) in
  let r2 := Layer2.removeDocument (doc_id d) (Layer2.addDocument d s2) in
  r1.1 = true
  ∧ Layer1.documentCount (Layer1.st_index r1.2)
    = Layer1.documentCount (Layer1.st_index s1)
  ∧ Layer1.index (Layer1.st_index r1.2) = Layer1.index (Layer1.st_index s1)
  ∧ Layer1.documents r1.2 = Layer1.documents s1
  ∧ r2.1 = true
  ∧ Layer2.totalDocuments r2.2 = Layer2.totalDocuments s2
  ∧ Layer2.averageDocumentLength r2.2 = Layer2.averageDocumentLength s2
  ∧ Layer2.termDocumentFrequency r2.2 = Layer2.termDocumentFrequency s2
  ∧ r2.2 = s2.
Proof.
  intros r1 r2. subst r1 r2.
  rewrite Layer1_add_remove, Layer2_add_remove by assumption.
  simpl. repeat split; reflexivity.
Qed.

Lemma add_remove_round_trip_witness :
  let r1 := Layer1.removeDocument "d1" (Layer1.addDocument sampleD1 index2) in
  let r2 := Layer2.removeDocument "d1" (Layer2.addDocument sampleD1 corpus2) in
  r1.1 = true
  ∧ Layer1.documentCount (Layer1.st_index r1.2)
    = Layer1.documentCount (Layer1.st_index index2)
  ∧ Layer1.index (Layer1.st_index r1.2)
    = Layer1.index (Layer1.st_index index2)
  ∧ Layer1.documents r1.2 = Layer1.documents index2
  ∧ r2.1 = true
  ∧ Layer2.totalDocuments r2.2 = Layer2.totalDocuments corpus2
  ∧ Layer2.averageDocumentLength r2.2 = Layer2.averageDocumentLength corpus2
  ∧ Layer2.termDocumentFrequency r2.2 = Layer2.termDocumentFrequency corpus2
  ∧ r2.2 = corpus2.
Proof.
  apply (add_remove_round_trip sampleD1 index2 corpus2).
  - apply Layer1_wf_addDocument; [apply Layer1_wf_init|reflexivity].
  - reflexivity.
  - apply Layer2_wf_addDocument, Layer2_wf_init.
  - reflexivity.
Defined.

(** The total-terms counter of stage 1 is not part of the round trip:
    [removeDocument] leaves it as [addDocument] set it. *)
Lemma add_remove_totalTerms (d : Document) (st : Layer1.State) :
  Layer1.totalTerms
    (Layer1.st_index
       (Layer1.removeDocument (doc_id d) (Layer1.addDocument d st)).2)
  = Layer1.totalTerms (Layer1.st_index st)
    + Z.of_nat (length (Layer1.allTokens d)).
Proof.
  unfold Layer1.removeDocument, Layer1.addDocument. simpl.
  rewrite lookup_insert_eq. reflexivity.
Qed.

(** C1 as stated fails twice.  On the empty index, adding the first
    sample document and removing it leaves 6 total terms where there
    were none.  And when the id is already stored (the first sample
    document is in the index and the corpus, a second document is added
    under its id), the round trip loses the entry of the term "learning"
    in stage 1 and the lengths behind the average in stage 2. *)
Lemma add_remove_round_trip_counterexample :
  (Layer1.totalTerms (Layer1.st_index Layer1.init) = 0
   ∧ Layer1.totalTerms
       (Layer1.st_index
          (Layer1.removeDocument "d1"
             (Layer1.addDocument sampleD1 Layer1.init)).2) = 6)
  ∧ (Layer1.documentFrequency
       <$> Layer1.index (Layer1.st_index index1) !! "learning" = Some 1
     ∧ Layer1.documentFrequency
         <$> Layer1.index
               (Layer1.st_index
                  (Layer1.removeDocument "d1"
                     (Layer1.addDocument sampleD1' index1)).2)
             !! "learning" = None)
  ∧ (Layer2.averageDocumentLength corpus1 = (IZR 6 / IZR 1)%R
     ∧ Layer2.averageDocumentLength
         (Layer2.removeDocument "d1"
            (Layer2.addDocument sampleD1' corpus1)).2 = (IZR 0 / IZR 1)%R
     ∧ (IZR 6 / IZR 1)%R <> (IZR 0 / IZR 1)%R).
Proof.
  split; [split; vm_compute; reflexivity|].
  split; [split; vm_compute; reflexivity|].
  assert (H1 : Layer2.totalLength (Layer2.documentLengths corpus1) = 6)
    by (vm_compute; reflexivity).
  assert (H2 :
    Layer2.totalLength
      (Layer2.documentLengths
         (Layer2.removeDocument "d1"
            (Layer2.addDocument sampleD1' corpus1)).2) = 0)
    by (vm_compute; reflexivity).
  split; [|split].
  - change (Layer2.averageDocumentLength corpus1)
      with (IZR (Layer2.totalLength (Layer2.documentLengths corpus1))
            / IZR 1)%R.
    by rewrite H1.
  - change (Layer2.averageDocumentLength
              (Layer2.removeDocument "d1"
                 (Layer2.addDocument sampleD1' corpus1)).2)
      with (IZR (Layer2.totalLength
                   (Layer2.documentLengths
                      (Layer2.removeDocument "d1"
                         (Layer2.addDocument sampleD1' corpus1)).2))
            / IZR 1)%R.
    by rewrite H2.
  - lra.
Qed.

(** ** Adding a document whose id is already stored *)

Lemma termFrequencyOf_addDocument d st t :
  Layer1.termFrequencyOf (Layer1.addDocument d st) t (doc_id d)
  = Layer1.termFrequencyOf st t (doc_id d)
    + Layer1.occurrences t (Layer1.allTokens d).
Proof.
  unfold Layer1.termFrequencyOf, Layer1.addDocument. simpl.
  rewrite fold_addToken_lookup.
  destruct (decide (t ∈ Layer1.allTokens d)) as [Hin|Hnin].
  - simpl. rewrite lookup_insert_eq, int_or_zero_Some.
    destruct (Layer1.index (Layer1.st_index st) !! t); reflexivity.
  - rewrite occurrences_notin by exact Hnin. lia.
Qed.

Lemma documentFrequencyOf_addDocument d st t :
  Layer2.documentFrequencyOf (Layer2.addDocument d st) t
  = Layer2.documentFrequencyOf st t
    + (if decide (t ∈ Layer2.documentTokens d) then 1 else 0).
Proof.
  unfold Layer2.documentFrequencyOf, Layer2.addDocument. simpl.
  rewrite fold_incrementDf_lookup.
  destruct (decide (t ∈ Layer2.documentTokens d)).
  - by rewrite int_or_zero_Some.
  - lia.
Qed.

(** The document counts never fall below the number of stored
    documents. *)
Lemma Layer1_count_addDocument d st :
  Z.of_nat (size (Layer1.documents st))
  <= Layer1.documentCount (Layer1.st_index st) ->
  Z.of_nat (size (Layer1.documents (Layer1.addDocument d st)))
  <= Layer1.documentCount (Layer1.st_index (Layer1.addDocument d st)).
Proof.
  simpl. rewrite map_size_insert.
  destruct (Layer1.documents st !! doc_id d); simpl; lia.
Qed.

Lemma Layer1_count_removeDocument x st :
  Z.of_nat (size (Layer1.documents st))
  <= Layer1.documentCount (Layer1.st_index st) ->
  Z.of_nat (size (Layer1.documents (Layer1.removeDocument x st).2))
  <= Layer1.documentCount (Layer1.st_index (Layer1.removeDocument x st).2).
Proof.
  unfold Layer1.removeDocument.
  destruct (Layer1.documents st !! x) as [d|] eqn:Hd; simpl; [|done].
  rewrite map_size_delete, Hd. simpl.
  assert (size (Layer1.documents st) ≠ 0%nat).
  { intros ?%map_size_empty_inv. rewrite H in Hd. done. }
  lia.
Qed.

Lemma Layer2_count_addDocument d st :
  Z.of_nat (size (Layer2.documents st)) <= Layer2.totalDocuments st ->
  Z.of_nat (size (Layer2.documents (Layer2.addDocument d st)))
  <= Layer2.totalDocuments (Layer2.addDocument d st).
Proof.
  simpl. rewrite map_size_insert.
  destruct (Layer2.documents st !! doc_id d); simpl; lia.
Qed.

Lemma Layer2_count_removeDocument x st :
  Z.of_nat (size (Layer2.documents st)) <= Layer2.totalDocuments st ->
  Z.of_nat (size (Layer2.documents (Layer2.removeDocument x st).2))
  <= Layer2.totalDocuments (Layer2.removeDocument x st).2.
Proof.
  unfold Layer2.removeDocument.
  destruct (Layer2.documents st !! x) as [d|] eqn:Hd; simpl; [|done].
  rewrite map_size_delete, Hd. simpl.
  assert (size (Layer2.documents st) ≠ 0%nat).
  { intros ?%map_size_empty_inv. rewrite H in Hd. done. }
  lia.
Qed.

(** C9.  When [addDocument] receives a document whose id is already
    stored (in stage 1 and in stage 2, whose document counts are at
    least the numbers of stored documents, as they always are), both
    stages overwrite the stored document without adding one, still
    increment their document counts and add the tokens again: the term
    frequencies of stage 1 and the total-terms counter grow by the
    occurrences of the tokens, the document frequencies of stage 2 grow
    by one for every token of the document.  Afterwards each document
    count exceeds the number of distinct stored documents. *)
Theorem duplicate_add_double_counts (d : Document)
    (s1 : Layer1.State) (s2 : Layer2.State)
    (Hstored1 : is_Some (Layer1.documents s1 !! doc_id d))
    (Hstored2 : is_Some (Layer2.documents s2 !! doc_id d))
    (Hcount1 : Z.of_nat (size (Layer1.documents s1))
               <= Layer1.documentCount (Layer1.st_index s1))
    (Hcount2 : Z.of_nat (size (Layer2.documents s2))
               <= Layer2.totalDocuments s2) :
  let s1' := Layer1.addDocument d s1 in
  let s2' := Layer2.addDocument d s2 in
  (Layer1.documents s1' !! doc_id d = Some d
   ∧ dom (Layer1.documents s1') = dom (Layer1.documents s1)
   ∧ Layer2.documents s2' !! doc_id d = Some d
   ∧ dom (Layer2.documents s2') = dom (Layer2.documents s2))
  ∧ (Layer1.documentCount (Layer1.st_index s1')
     = Layer1.documentCount (Layer1.st_index s1) + 1
     ∧ Layer2.totalDocuments s2' = Layer2.totalDocuments s2 + 1)
  ∧ (Layer1.totalTerms (Layer1.st_index s1')
     = Layer1.totalTerms (Layer1.st_index s1)
       + Z.of_nat (length (Layer1.allTokens d))
     ∧ (forall t,
          Layer1.termFrequencyOf s1' t (doc_id d)
          = Layer1.termFrequencyOf s1 t (doc_id d)
            + Layer1.occurrences t (Layer1.allTokens d))
     ∧ (forall t,
          t ∈ Layer2.documentTokens d ->
          Layer2.documentFrequencyOf s2' t
          = Layer2.documentFrequencyOf s2 t + 1))
  ∧ (Z.of_nat (size (Layer1.documents s1'))
     < Layer1.documentCount (Layer1.st_index s1')
     ∧ Z.of_nat (size (Layer2.documents s2')) < Layer2.totalDocuments s2').
Proof.
  intros s1' s2'. subst s1' s2'. repeat split.
  - simpl. apply lookup_insert_eq.
  - simpl. rewrite dom_insert_L. apply elem_of_dom in Hstored1. set_solver.
  - simpl. apply lookup_insert_eq.
  - simpl. rewrite dom_insert_L. apply elem_of_dom in Hstored2. set_solver.
  - apply termFrequencyOf_addDocument.
  - intros t Ht. rewrite documentFrequencyOf_addDocument.
    by rewrite decide_True.
  - simpl. rewrite map_size_insert_Some by exact Hstored1. lia.
  - simpl. rewrite map_size_insert_Some by exact Hstored2. lia.
Qed.

Lemma duplicate_add_double_counts_witness :
  let s1' := Layer1.addDocument sampleD1 index1 in
  let s2' := Layer2.addDocument sampleD1 corpus1 in
  (Layer1.documents s1' !! "d1" = Some sampleD1
   ∧ dom (Layer1.documents s1') = dom (Layer1.documents index1)
   ∧ Layer2.documents s2' !! "d1" = Some sampleD1
   ∧ dom (Layer2.documents s2') = dom (Layer2.documents corpus1))
  ∧ (Layer1.documentCount (Layer1.st_index s1')
     = Layer1.documentCount (Layer1.st_index index1) + 1
     ∧ Layer2.totalDocuments s2' = Layer2.totalDocuments corpus1 + 1)
  ∧ (Layer1.totalTerms (Layer1.st_index s1')
     = Layer1.totalTerms (Layer1.st_index index1)
       + Z.of_nat (length (Layer1.allTokens sampleD1))
     ∧ (forall t,
          Layer1.termFrequencyOf s1' t "d1"
          = Layer1.termFrequencyOf index1 t "d1"
            + Layer1.occurrences t (Layer1.allTokens sampleD1))
     ∧ (forall t,
          t ∈ Layer2.documentTokens sampleD1 ->
          Layer2.documentFrequencyOf s2' t
          = Layer2.documentFrequencyOf corpus1 t + 1))
  ∧ (Z.of_nat (size (Layer1.documents s1'))
     < Layer1.documentCount (Layer1.st_index s1')
     ∧ Z.of_nat (size (Layer2.documents s2')) < Layer2.totalDocuments s2').
Proof.
  apply (duplicate_add_double_counts sampleD1 index1 corpus1).
  - vm_compute. eauto.
  - vm_compute. eauto.
  - vm_compute. discriminate.
  - vm_compute. discriminate.
Defined.

(** The sample document added twice to the empty index and corpus: one
    document is stored, the counts say two, and the term "learning",
    which occurs once in it, has term frequency 2 and document
    frequency 2. *)
Example duplicate_add_example :
  let s1 := Layer1.addDocument sampleD1 index1 in
  let s2 := Layer2.addDocument sampleD1 corpus1 in
  size (Layer1.documents s1) = 1%nat
  ∧ Layer1.documentCount (Layer1.st_index s1) = 2
  ∧ Layer1.termFrequencyOf s1 "learning" "d1" = 2
  ∧ size (Layer2.documents s2) = 1%nat
  ∧ Layer2.totalDocuments s2 = 2
  ∧ Layer2.documentFrequencyOf s2 "learning" = 2.
Proof. vm_compute. repeat split; reflexivity. Qed.

(** ** Removal through the service *)

Lemma Layer1_removeDocument_result x st :
  (Layer1.removeDocument x st).1 = bool_decide (is_Some (Layer1.documents st !! x))
  ∧ Layer1.documents (Layer1.removeDocument x st).2 !! x = None.
Proof.
  unfold Layer1.removeDocument.
  destruct (Layer1.documents st !! x) as [d|] eqn:Hd; simpl.
  - split; [reflexivity|apply lookup_delete_eq].
  - split; [reflexivity|exact Hd].
Qed.

Lemma Layer2_removeDocument_result x st :
  (Layer2.removeDocument x st).1 = bool_decide (is_Some (Layer2.documents st !! x))
  ∧ Layer2.documents (Layer2.removeDocument x st).2 !! x = None.
Proof.
  unfold Layer2.removeDocument.
  destruct (Layer2.documents st !! x) as [d|] eqn:Hd; simpl.
  - split; [reflexivity|apply lookup_delete_eq].
  - split; [reflexivity|exact Hd].
Qed.

(** ** Boolean search *)

Lemma elem_of_unionDocuments_acc st tokens (acc : gset string) x :
  x ∈ fold_left
        (fun result token =>
           match Layer1.index (Layer1.st_index st) !! token with
           | Some entry => result ∪ Layer1.documentIds entry
           | None => result
           end)
        tokens acc
  <-> x ∈ acc ∨ Layer1.spec_OR st tokens x.
Proof.
  unfold Layer1.spec_OR. revert acc.
  induction tokens as [|a tokens IH]; intros acc; cbn [fold_left].
  - split; [tauto|]. intros [?|(t & Ht & _)]; [done|].
    by apply elem_of_nil in Ht.
  - rewrite IH.
    assert (Hstep :
      x ∈ match Layer1.index (Layer1.st_index st) !! a with
          | Some entry => acc ∪ Layer1.documentIds entry
          | None => acc
          end
      <-> x ∈ acc ∨ x ∈ Layer1.postings st a).
    { unfold Layer1.postings.
      destruct (Layer1.index (Layer1.st_index st) !! a); set_solver. }
    rewrite Hstep. split.
    + intros [[?|?]|(t & Ht & Hx)]; [tauto| |].
      * right. exists a. split; [apply list_elem_of_here|done].
      * right. exists t. split; [by apply list_elem_of_further|done].
    + intros [?|(t & Ht & Hx)]; [tauto|].
      apply elem_of_cons in Ht as [->|Ht]; [tauto|].
      right. eauto.
Qed.

Lemma elem_of_unionDocuments st tokens x :
  x ∈ Layer1.unionDocuments st tokens <-> Layer1.spec_OR st tokens x.
Proof.
  unfold Layer1.unionDocuments. rewrite elem_of_unionDocuments_acc.
  set_solver.
Qed.

Lemma elem_of_intersectLoop st tokens (result : gset string) x :
  x ∈ Layer1.intersectLoop st result tokens
  <-> x ∈ result ∧ Layer1.spec_AND st tokens x.
Proof.
  unfold Layer1.spec_AND. revert result.
  induction tokens as [|a tokens IH]; intros result;
    cbn [Layer1.intersectLoop].
  - split; [|tauto]. intros Hx. split; [done|].
    intros t Ht. by apply elem_of_nil in Ht.
  - destruct (Layer1.index (Layer1.st_index st) !! a) as [entry|] eqn:Ha.
    + rewrite IH, elem_of_filter.
      assert (Hp : Layer1.postings st a = Layer1.documentIds entry).
      { unfold Layer1.postings. by rewrite Ha. }
      split.
      * intros [[Hin Hres] Hall]. split; [done|].
        intros t [->|Ht]%elem_of_cons; [by rewrite Hp|by apply Hall].
      * intros [Hres Hall]. split; [split; [|done]|].
        -- rewrite <- Hp. apply Hall, list_elem_of_here.
        -- intros t Ht. by apply Hall, list_elem_of_further.
    + split; [set_solver|]. intros [_ Hall].
      specialize (Hall a (list_elem_of_here _ _)).
      unfold Layer1.postings in Hall. rewrite Ha in Hall. done.
Qed.

Lemma elem_of_intersectDocuments st tokens x :
  tokens ≠ [] ->
  x ∈ Layer1.intersectDocuments st tokens <-> Layer1.spec_AND st tokens x.
Proof.
  destruct tokens as [|a tokens]; [done|]. intros _.
  unfold Layer1.intersectDocuments. rewrite elem_of_intersectLoop.
  fold (Layer1.postings st a). unfold Layer1.spec_AND. split.
  - intros [Ha Hall] t [->|Ht]%elem_of_cons; [done|by apply Hall].
  - intros Hall. split; [apply Hall, list_elem_of_here|].
    intros t Ht. by apply Hall, list_elem_of_further.
Qed.

Lemma elem_of_excludeDocuments st tokens x :
  x ∈ Layer1.excludeDocuments st tokens <-> Layer1.spec_NOT st tokens x.
Proof.
  unfold Layer1.excludeDocuments, Layer1.spec_NOT.
  rewrite elem_of_filter, elem_of_unionDocuments. unfold Layer1.spec_OR.
  split.
  - intros [Hnot Hdom]. split; [done|]. intros t Ht Hx. apply Hnot. eauto.
  - intros [Hdom Hnone]. split; [|done]. intros (t & Ht & Hx).
    by apply (Hnone t).
Qed.

(** In an index that satisfies its integrity invariant, the postings
    say what the stored documents contain: the documents [NOT] returns
    are the stored documents none of whose tokens is a query token. *)
Lemma spec_NOT_contains st tokens x :
  Layer1.wf st ->
  Layer1.spec_NOT st tokens x
  <-> exists d,
        Layer1.documents st !! x = Some d
        ∧ forall t, t ∈ tokens -> t ∉ Layer1.allTokens d.
Proof.
  intros (_ & _ & Hpost). unfold Layer1.spec_NOT. split.
  - intros [[d Hd]%elem_of_dom Hnone]. exists d. split; [done|].
    intros t Ht Hin. apply (Hnone t Ht). apply Hpost. eauto.
  - intros (d & Hd & Hnone). split; [apply elem_of_dom; eauto|].
    intros t Ht (d' & Hd' & Hin)%Hpost.
    apply (Hnone t Ht). congruence.
Qed.

Lemma booleanSearch_run config st query operator w n :
  Layer1.booleanSearch config st query operator w n
  = (inr {| l1r_documentIds :=
              match Layer1.booleanResult st query operator with
              | Some resultDocuments =>
                  slice0 (maxResultsLayer1 config) (elements resultDocuments)
              | None => []
              end;
            l1r_totalCount :=
              match Layer1.booleanResult st query operator with
              | Some resultDocuments => Z.of_nat (size resultDocuments)
              | None => 0
              end;
            l1r_executionTime := clock w (S n) - clock w n |},
     S (S n)).
Proof.
  unfold Layer1.booleanSearch.
  destruct (Layer1.booleanResult st query operator); reflexivity.
Qed.

Lemma booleanResult_nonempty st query operator :
  Tokenizer.tokenizeAndNormalize query ≠ [] ->
  Layer1.booleanResult st query operator
  = Some match operator with
         | Layer1.AND =>
             Layer1.intersectDocuments st (Tokenizer.tokenizeAndNormalize query)
         | Layer1.OR =>
             Layer1.unionDocuments st (Tokenizer.tokenizeAndNormalize query)
         | Layer1.NOT =>
             Layer1.excludeDocuments st (Tokenizer.tokenizeAndNormalize query)
         end.
Proof.
  intros HQ. unfold Layer1.booleanResult.
  destruct (Tokenizer.tokenizeAndNormalize query); [done|reflexivity].
Qed.

(** C4, as amended.  For every index state and every query,
    [booleanSearch] returns a set of documents, cut to the stage-1 cap
    and counted before the cut.  For a query without accepted token the
    set is empty, whatever the operator.  Otherwise it is: with [AND]
    exactly the documents that are in the posting set of every query
    token (none if some token has no postings), with [OR] exactly the
    documents in the posting set of some query token, and with [NOT]
    exactly the stored documents that are in the posting set of no query
    token; in an index that satisfies its integrity invariant, these
    are the stored documents that contain none of the query tokens. *)
Theorem boolean_search_sets (config : Config) (st : Layer1.State)
    (query : string) (operator : Layer1.Operator) :
  let Q := Tokenizer.tokenizeAndNormalize query in
  exists R,
    Layer1.booleanSearchYields config st query operator R
    ∧ (Q = [] -> R = ∅)
    ∧ (Q ≠ [] ->
       match operator with
       | Layer1.AND =>
           (forall x, x ∈ R <-> Layer1.spec_AND st Q x)
           ∧ ((exists t, t ∈ Q ∧ Layer1.postings st t = ∅) -> R = ∅)
       | Layer1.OR => forall x, x ∈ R <-> Layer1.spec_OR st Q x
       | Layer1.NOT =>
           (forall x, x ∈ R <-> Layer1.spec_NOT st Q x)
           ∧ (Layer1.wf st ->
              forall x,
                x ∈ R
                <-> exists d,
                      Layer1.documents st !! x = Some d
                      ∧ forall t, t ∈ Q -> t ∉ Layer1.allTokens d)
       end).
Proof.
  intros Q.
  assert (Hyields : forall R,
    default ∅ (Layer1.booleanResult st query operator) = R ->
    Layer1.booleanSearchYields config st query operator R).
  { intros R <- w n. rewrite booleanSearch_run.
    destruct (Layer1.booleanResult st query operator); eexists;
      (split; [reflexivity|]); cbn [l1r_documentIds l1r_totalCount default].
    - done.
    - by rewrite elements_empty, slice0_nil, size_empty. }
  destruct (decide (Q = [])) as [HQ|HQ].
  { exists ∅. split; [|by split].
    apply Hyields. unfold Layer1.booleanResult. fold Q. by rewrite HQ. }
  exists (match operator with
          | Layer1.AND => Layer1.intersectDocuments st Q
          | Layer1.OR => Layer1.unionDocuments st Q
          | Layer1.NOT => Layer1.excludeDocuments st Q
          end).
  split; [|split; [done|]].
  { apply Hyields. by rewrite booleanResult_nonempty. }
  intros _. destruct operator.
  - split.
    + intros x. by apply elem_of_intersectDocuments.
    + intros (t & Ht & Hempty). apply set_eq. intros x.
      rewrite elem_of_intersectDocuments by exact HQ.
      split; [|set_solver]. intros Hall. specialize (Hall t Ht).
      rewrite Hempty in Hall. done.
  - intros x. apply elem_of_unionDocuments.
  - split.
    + intros x. apply elem_of_excludeDocuments.
    + intros Hwf x. rewrite elem_of_excludeDocuments.
      by apply spec_NOT_contains.
Qed.

(** Scenarios S3 and S4 of the specification: with the two sample
    documents indexed, "machine deep" has no document under [AND] and
    both under [OR]; under [NOT] "machine" leaves the second one. *)
Example boolean_search_scenarios :
  Layer1.booleanResult index12 "machine deep" Layer1.AND = Some ∅
  ∧ Layer1.booleanResult index12 "machine deep" Layer1.OR
    = Some {[ "d1"; "d2" ]}
  ∧ Layer1.booleanResult index12 "machine" Layer1.NOT = Some {[ "d2" ]}.
Proof. repeat split; vm_compute; reflexivity. Qed.

(** C4 as stated fails twice.  A query without accepted token returns no
    document, also under [NOT]: with the first sample document indexed,
    the query "the" has no token, so that the stored document "d1"
    contains none of the query tokens, and [booleanSearch] with [NOT]
    returns nothing.  And [NOT] works on the posting sets, which need
    not say what the stored documents contain: after the second sample
    document was filed under the id of the first, the document stored
    under "d1" does not contain the token "machine", but "d1" is still
    in the posting set of "machine", and [booleanSearch] with [NOT]
    "machine" does not return it. *)
Lemma boolean_search_sets_counterexample :
  (Tokenizer.tokenizeAndNormalize "the" = []
   ∧ Layer1.documents index1 !! "d1" = Some sampleD1
   ∧ Layer1.booleanSearch default_config index1 "the" Layer1.NOT
       sampleWorld 0%nat
     = (inr {| l1r_documentIds := []; l1r_totalCount := 0;
               l1r_executionTime := 1 |}, 2%nat))
  ∧ (Tokenizer.tokenizeAndNormalize "machine" = ["machine"]
     ∧ Layer1.documents index1' !! "d1" = Some sampleD1'
     ∧ ("machine" ∉ Layer1.allTokens sampleD1')
     ∧ "d1" ∈ Layer1.postings index1' "machine"
     ∧ Layer1.booleanSearch default_config index1' "machine" Layer1.NOT
         sampleWorld 0%nat
       = (inr {| l1r_documentIds := []; l1r_totalCount := 0;
                 l1r_executionTime := 1 |}, 2%nat)).
Proof.
  assert (HQ : Tokenizer.tokenizeAndNormalize "the" = [])
    by (vm_compute; reflexivity).
  assert (HQ' : Tokenizer.tokenizeAndNormalize "machine" = ["machine"])
    by (vm_compute; reflexivity).
  split.
  - split; [exact HQ|]. split; [vm_compute; reflexivity|].
    rewrite booleanSearch_run. unfold Layer1.booleanResult. rewrite HQ.
    reflexivity.
  - split; [exact HQ'|]. split; [vm_compute; reflexivity|].
    split; [|split].
    + intros Hin%list_elem_of_In. vm_compute in Hin.
      intuition discriminate.
    + assert (Hp : Layer1.postings index1' "machine" = {[ "d1" ]})
        by (vm_compute; reflexivity).
      rewrite Hp. by apply elem_of_singleton.
    + rewrite booleanSearch_run.
      assert (Hres : Layer1.booleanResult index1' "machine" Layer1.NOT
                     = Some ∅) by (vm_compute; reflexivity).
      rewrite Hres. reflexivity.
Qed.

(** ** Stage 2: result materialization *)

Lemma truncateContent_short content :
  (String.length content <= 200)%nat ->
  Layer2.truncateContent content 200 = content.
Proof.
  intros H. unfold Layer2.truncateContent.
  by rewrite (proj2 (Nat.leb_le _ _) H).
Qed.

Lemma truncateContent_long content :
  (200 < String.length content)%nat ->
  Layer2.truncateContent content 200 = substring 0 200 content +:+ "...".
Proof.
  intros H. unfold Layer2.truncateContent.
  destruct (Nat.leb_spec (String.length content) 200); [lia|reflexivity].
Qed.

Lemma length_append (s1 s2 : string) :
  String.length (s1 +:+ s2) = (String.length s1 + String.length s2)%nat.
Proof. induction s1 as [|c s1 IH]; simpl; [reflexivity|by rewrite IH]. Qed.

Lemma length_substring_0 n (s : string) :
  (n <= String.length s)%nat -> String.length (substring 0 n s) = n.
Proof.
  revert s. induction n as [|n IH]; intros s Hn.
  - by destruct s.
  - destruct s as [|c s]; simpl in *; [lia|]. rewrite IH; lia.
Qed.

(** The excerpt of a content of more than 200 characters has 203
    characters and differs from the content. *)
Lemma truncateContent_long_length content :
  (200 < String.length content)%nat ->
  String.length (Layer2.truncateContent content 200) = 203%nat.
Proof.
  intros H. rewrite truncateContent_long, length_append by exact H.
  rewrite length_substring_0 by lia. reflexivity.
Qed.

(** A score is only pushed for a stored document. *)
Lemma termScore_stored {fl : Arith} st dl term documentId ts :
  Layer2.termScore st dl term documentId = Some ts ->
  is_Some (Layer2.documents st !! documentId).
Proof.
  unfold Layer2.termScore, Layer2.getTermFrequency.
  destruct (Layer2.documents st !! documentId); [eauto|].
  simpl. discriminate.
Qed.

Lemma fold_scoreStep_not_stored {fl : Arith} st dl documentId Q acc :
  Layer2.documents st !! documentId = None ->
  fold_left (Layer2.scoreStep st dl documentId) Q acc = acc.
Proof.
  intros Hnone. revert acc.
  induction Q as [|t Q IH]; intros acc; [reflexivity|].
  cbn [fold_left]. rewrite IH. unfold Layer2.scoreStep.
  destruct (Layer2.termScore st dl t documentId) as [ts|] eqn:Hts;
    [|reflexivity].
  apply termScore_stored in Hts as [? ?]. congruence.
Qed.

Lemma scoreDocument_stored {fl : Arith} st Q documentId score :
  score ∈ Layer2.scoreDocument st Q documentId ->
  bs_documentId score = documentId
  ∧ is_Some (Layer2.documents st !! documentId).
Proof.
  unfold Layer2.scoreDocument.
  destruct (Layer2.documents st !! documentId) as [d|] eqn:Hd.
  - destruct (fold_left _ Q _) as [total scores].
    destruct (Rlt_dec 0 total); [|by intros ?%elem_of_nil].
    intros ->%list_elem_of_singleton. eauto.
  - rewrite fold_scoreStep_not_stored by exact Hd.
    destruct (Rlt_dec 0 0) as [H|_]; [lra|]. by intros ?%elem_of_nil.
Qed.

Lemma calculateBM25Scores_stored {fl : Arith} st Q ids score :
  score ∈ Layer2.calculateBM25Scores st Q ids ->
  bs_documentId score ∈ ids
  ∧ is_Some (Layer2.documents st !! bs_documentId score).
Proof.
  unfold Layer2.calculateBM25Scores.
  rewrite list_elem_of_In, in_flat_map.
  intros (documentId & Hin & Hscore).
  apply list_elem_of_In in Hin, Hscore.
  apply scoreDocument_stored in Hscore as [-> ?]. done.
Qed.

Lemma mapM_materialize st (scores : list BM25Score) w n :
  (forall score,
      score ∈ scores -> is_Some (Layer2.documents st !! bs_documentId score)) ->
  exists results,
    mapM (Layer2.materialize st) scores w n = (inr results, n)
    ∧ Forall2
        (fun result score =>
           exists document,
             Layer2.documents st !! bs_documentId score = Some document
             ∧ result = Layer2.resultOf st document score)
        results scores.
Proof.
  induction scores as [|score scores IH]; intros Hstored.
  - exists []. split; [reflexivity|constructor].
  - destruct IH as (results & Hrun & Hall).
    { intros s Hs. apply Hstored. by apply list_elem_of_further. }
    destruct (Hstored score (list_elem_of_here _ _)) as [document Hd].
    exists (Layer2.resultOf st document score :: results). split.
    + cbn [mapM]. unfold bind at 1. unfold Layer2.materialize at 1.
      rewrite Hd. cbn [ret]. unfold bind at 1. rewrite Hrun. reflexivity.
    + constructor; [eauto|exact Hall].
Qed.

(** The scores that [search] ranks: none when the query has no accepted
    token or stage 1 passed no candidate. *)
Lemma Layer2_search_run {fl : Arith} config st request layer1Results w n :
  let ranked :=
    sort_desc bs_score
      (Layer2.calculateBM25Scores st
         (Tokenizer.tokenizeAndNormalize (req_query request))
         (l1r_documentIds layer1Results)) in
  exists results,
    Layer2.search config st request layer1Results w n
    = (inr {| l2r_results := results;
              l2r_totalCount := Z.of_nat (length ranked);
              l2r_executionTime := clock w (S n) - clock w n |},
       S (S n))
    ∧ Forall2
        (fun result score =>
           exists document,
             Layer2.documents st !! bs_documentId score = Some document
             ∧ result = Layer2.resultOf st document score)
        results (slice0 (maxResultsLayer2 config) ranked).
Proof.
  intros ranked. unfold Layer2.search.
  destruct (Tokenizer.tokenizeAndNormalize (req_query request))
    as [|t Q] eqn:HQ.
  { assert (Hnil : forall ids,
      flat_map (Layer2.scoreDocument st []) ids = []).
    { induction ids as [|i ids IH]; [reflexivity|].
      cbn [flat_map]. rewrite IH. unfold Layer2.scoreDocument.
      cbn [fold_left]. destruct (Rlt_dec 0 0); [lra|reflexivity]. }
    subst ranked. unfold Layer2.calculateBM25Scores. rewrite Hnil.
    exists []. split; [reflexivity|].
    change (sort_desc bs_score []) with (@nil BM25Score).
    rewrite slice0_nil. constructor. }
  destruct (l1r_documentIds layer1Results) as [|i ids] eqn:Hids.
  { exists []. split; [reflexivity|].
    subst ranked. cbn [Layer2.calculateBM25Scores flat_map].
    change (sort_desc bs_score []) with (@nil BM25Score).
    rewrite slice0_nil. constructor. }
  destruct (mapM_materialize st (slice0 (maxResultsLayer2 config) ranked)
              w (S n)) as (results & Hrun & Hall).
  { intros score Hscore. subst ranked.
    assert (Hin : score ∈ sort_desc bs_score
                    (Layer2.calculateBM25Scores st (t :: Q) (i :: ids))).
    { unfold slice0 in Hscore.
      destruct (_ <? 0); eapply subseteq_take; exact Hscore. }
    rewrite sort_desc_perm in Hin.
    by apply calculateBM25Scores_stored in Hin as [_ ?]. }
  exists results. split; [|exact Hall].
  cbn [length Nat.eqb orb]. unfold bind at 1. cbn [Date_now].
  unfold try_catch, bind. fold ranked. rewrite Hrun. reflexivity.
Qed.

(** C8, as amended.  [search] of stage 2 returns normally, and every
    result it returns was made from a stored document: its content field
    is the content of that document when it has at most 200 characters,
    and otherwise the first 200 characters of the content followed by
    the three characters "...". *)
Theorem materialized_content {fl : Arith} (config : Config)
    (st : Layer2.State)
    (request : SearchRequest) (layer1Results : Layer1Result)
    (w : World) (n : nat) :
  exists out n',
    Layer2.search config st request layer1Results w n = (inr out, n')
    ∧ Forall
        (fun result =>
           exists documentId document,
             Layer2.documents st !! documentId = Some document
             ∧ sr_id result = doc_id document
             ∧ sr_content result
               = if (String.length (doc_content document) <=? 200)%nat
                 then doc_content document
                 else substring 0 200 (doc_content document) +:+ "...")
        (l2r_results out).
Proof.
  destruct (Layer2_search_run config st request layer1Results w n)
    as (results & Hrun & Hall).
  eexists _, _. split; [exact Hrun|]. cbn [l2r_results].
  clear Hrun.
  induction Hall as [|result score results scores (d & Hd & ->) _ IH].
  - constructor.
  - constructor; [|exact IH].
    exists (bs_documentId score), d. split; [exact Hd|].
    split; reflexivity.
Qed.

(** C8 as stated fails on the marker.  For the stored sample document
    whose content has 201 characters, the content field of a result is
    200 characters followed by three full stops, 203 characters in all;
    the excerpt of the specification is 200 characters followed by the
    single character U+2026, 201 characters in all. *)
Lemma materialized_content_counterexample :
  Layer2.documents corpusLong !! "long" = Some sampleLong
  ∧ String.length (doc_content sampleLong) = 201%nat
  ∧ String.length (Layer2.spec_excerpt (doc_content sampleLong)) = 201%nat
  ∧ (forall score,
        sr_content (Layer2.resultOf corpusLong sampleLong score)
        = repeat_char "a" 200 +:+ "..."
        ∧ String.length
            (sr_content (Layer2.resultOf corpusLong sampleLong score))
          = 203%nat
        ∧ sr_content (Layer2.resultOf corpusLong sampleLong score)
          <> Layer2.spec_excerpt (doc_content sampleLong)).
Proof.
  split; [vm_compute; reflexivity|]. split; [vm_compute; reflexivity|].
  split; [vm_compute; reflexivity|].
  intros score. cbn [sr_content Layer2.resultOf].
  split; [vm_compute; reflexivity|]. split; [vm_compute; reflexivity|].
  vm_compute. discriminate.
Qed.

(** ** Stage 2: the BM25 score *)

(** The guarded term score of the code is the term of the formula, in
    every arithmetic. *)
Lemma termScore_machine {fl : Arith} st d t :
  Layer2.termScore st (int_or_zero (Layer2.documentLengths st !! d)) t d
  = if decide (0 < Layer2.getTermFrequency st t d
               ∧ 0 < int_or_zero (Layer2.termDocumentFrequency st !! t))
    then Some (Layer2.machine_term st d t)
    else None.
Proof.
  unfold Layer2.termScore, Layer2.machine_term, Layer2.machine_idf.
  destruct (Z.ltb_spec 0 (Layer2.getTermFrequency st t d));
    destruct (Z.ltb_spec
                0 (int_or_zero (Layer2.termDocumentFrequency st !! t)));
    cbn [andb].
  - rewrite decide_True by done. reflexivity.
  - rewrite decide_False by lia. reflexivity.
  - rewrite decide_False by lia. reflexivity.
  - rewrite decide_False by lia. reflexivity.
Qed.

(** The loop over the query tokens adds the terms of the tokens that
    pass the guard, in their order. *)
Lemma fold_scoreStep_machine {fl : Arith} st d Q acc :
  (fold_left
     (Layer2.scoreStep st (int_or_zero (Layer2.documentLengths st !! d)) d)
     Q acc).1
  = fold_left
      (fun total t => fadd total (Layer2.machine_term st d t))
      (filter
         (fun t =>
            0 < Layer2.getTermFrequency st t d
            ∧ 0 < int_or_zero (Layer2.termDocumentFrequency st !! t))
         Q)
      acc.1.
Proof.
  revert acc.
  induction Q as [|t Q IH]; intros acc; cbn [fold_left]; [reflexivity|].
  rewrite IH. unfold Layer2.scoreStep. rewrite termScore_machine.
  rewrite filter_cons.
  destruct (decide (0 < Layer2.getTermFrequency st t d
                    ∧ 0 < int_or_zero
                            (Layer2.termDocumentFrequency st !! t)));
    reflexivity.
Qed.

Lemma scoreDocument_machine {fl : Arith} st Q d :
  map (fun s => (bs_documentId s, bs_score s)) (Layer2.scoreDocument st Q d)
  = if decide (0 < Layer2.machine_score st d Q)%R
    then [(d, Layer2.machine_score st d Q)] else [].
Proof.
  unfold Layer2.scoreDocument, Layer2.machine_score.
  pose proof (fold_scoreStep_machine st d Q (0%R, [])) as Htotal.
  destruct (fold_left _ Q _) as [total scores]. cbn [fst] in Htotal.
  subst total.
  unfold decide, Rlt_decision.
  destruct (Rlt_dec 0 _); reflexivity.
Qed.

Lemma calculateBM25Scores_machine {fl : Arith} st Q ids :
  map (fun s => (bs_documentId s, bs_score s))
    (Layer2.calculateBM25Scores st Q ids)
  = map (fun d => (d, Layer2.machine_score st d Q))
      (filter (fun d => (0 < Layer2.machine_score st d Q)%R) ids).
Proof.
  unfold Layer2.calculateBM25Scores.
  induction ids as [|d ids IH]; [reflexivity|].
  cbn [flat_map]. rewrite map_app, IH, scoreDocument_machine, filter_cons.
  destruct (decide (0 < Layer2.machine_score st d Q)%R); reflexivity.
Qed.

(** Without rounding, the machine computes the score of the
    specification. *)
Lemma machine_term_exact st d t :
  Layer2.machine_term (fl := exact_arith) st d t = Layer2.spec_term st d t.
Proof.
  unfold Layer2.machine_term, Layer2.machine_idf, Layer2.spec_term,
    Layer2.spec_idf.
  cbn [fadd fsub fmul fdiv rnd fln exact_arith].
  unfold Rdiv. rewrite <- !Rmult_assoc. reflexivity.
Qed.

Lemma machine_score_exact st d Q :
  Layer2.machine_score (fl := exact_arith) st d Q = Layer2.spec_score st d Q.
Proof.
  unfold Layer2.machine_score, Layer2.spec_score.
  set (l := filter _ Q). clearbody l.
  assert (Hacc : forall acc,
    fold_left
      (fun total t =>
         fadd (fl := exact_arith) total
           (Layer2.machine_term (fl := exact_arith) st d t))
      l acc
    = (acc + foldr Rplus 0 (map (Layer2.spec_term st d) l))%R).
  { induction l as [|t l IH]; intros acc; cbn [fold_left map foldr].
    - lra.
    - rewrite IH, machine_term_exact.
      cbn [fadd rnd exact_arith]. lra. }
  rewrite Hacc. lra.
Qed.

Lemma termScore_spec st d t :
  Layer2.termScore st (int_or_zero (Layer2.documentLengths st !! d)) t d
  = if decide (0 < Layer2.getTermFrequency st t d
               ∧ 0 < int_or_zero (Layer2.termDocumentFrequency st !! t))
    then Some (Layer2.spec_term st d t)
    else None.
Proof. rewrite termScore_machine. by rewrite machine_term_exact. Qed.

Lemma fold_scoreStep_total st d Q acc :
  (fold_left
     (Layer2.scoreStep st (int_or_zero (Layer2.documentLengths st !! d)) d)
     Q acc).1
  = (acc.1 + Layer2.spec_score st d Q)%R.
Proof.
  unfold Layer2.spec_score. revert acc.
  induction Q as [|t Q IH]; intros acc; cbn [fold_left].
  - cbn. lra.
  - rewrite IH. unfold Layer2.scoreStep. rewrite termScore_spec.
    rewrite filter_cons.
    destruct (decide (0 < Layer2.getTermFrequency st t d
                      ∧ 0 < int_or_zero
                              (Layer2.termDocumentFrequency st !! t)));
      cbn [fst map foldr fadd rnd exact_arith]; lra.
Qed.

Lemma scoreDocument_spec st Q d :
  map (fun s => (bs_documentId s, bs_score s)) (Layer2.scoreDocument st Q d)
  = if decide (0 < Layer2.spec_score st d Q)%R
    then [(d, Layer2.spec_score st d Q)] else [].
Proof. rewrite scoreDocument_machine. by rewrite machine_score_exact. Qed.

Lemma calculateBM25Scores_spec st Q ids :
  map (fun s => (bs_documentId s, bs_score s))
    (Layer2.calculateBM25Scores st Q ids)
  = map (fun d => (d, Layer2.spec_score st d Q))
      (filter (fun d => (0 < Layer2.spec_score st d Q)%R) ids).
Proof.
  rewrite calculateBM25Scores_machine.
  assert (Hext : forall d,
            Layer2.machine_score (fl := exact_arith) st d Q
            = Layer2.spec_score st d Q)
    by (intros d; apply machine_score_exact).
  induction ids as [|d ids IH]; [reflexivity|].
  rewrite !filter_cons, !Hext.
  destruct (decide (0 < Layer2.spec_score st d Q)%R);
    cbn [map]; rewrite ?Hext, IH; reflexivity.
Qed.

(** C2, as amended.  In every arithmetic, [search] of stage 2 returns
    normally.  The scores it ranks are those of the candidates whose
    computed score is strictly positive, each with its computed score:
    the sum, accumulated in the order of the query over the tokens with
    [tf > 0] and [df > 0], of
    [idf * ((tf * (k1 + 1)) / (tf + k1 * (1 - b + b * (|d| / avgdl))))]
    with [idf = ln ((N - df + 0.5) / (df + 0.5))], every operation
    being that of the machine.  They are put in decreasing order of
    score, and the results are made, in that order and with these
    scores, from the first [maxResultsLayer2] of them.  Without
    rounding, the computed score is the value of the formula of the
    specification. *)
Theorem bm25_ranking {fl : Arith} (config : Config) (st : Layer2.State)
    (request : SearchRequest) (layer1Results : Layer1Result)
    (w : World) (n : nat) :
  let Q := Tokenizer.tokenizeAndNormalize (req_query request) in
  let ids := l1r_documentIds layer1Results in
  exists out n' ranked,
    Layer2.search config st request layer1Results w n = (inr out, n')
    ∧ Permutation
        (map (fun s => (bs_documentId s, bs_score s)) ranked)
        (map (fun d => (d, Layer2.machine_score st d Q))
           (filter (fun d => (0 < Layer2.machine_score st d Q)%R) ids))
    ∧ sorted_desc bs_score ranked
    ∧ Forall2
        (fun result score =>
           sr_score result = bs_score score
           ∧ exists document,
               Layer2.documents st !! bs_documentId score = Some document
               ∧ sr_id result = doc_id document)
        (l2r_results out) (slice0 (maxResultsLayer2 config) ranked)
    ∧ l2r_totalCount out = Z.of_nat (length ranked)
    ∧ (0 <= maxResultsLayer2 config ->
       Z.of_nat (length (l2r_results out)) <= maxResultsLayer2 config)
    ∧ (forall d,
          Layer2.machine_score (fl := exact_arith) st d Q
          = Layer2.spec_score st d Q).
Proof.
  intros Q ids.
  destruct (Layer2_search_run config st request layer1Results w n)
    as (results & Hrun & Hall).
  eexists _, _, _. split; [exact Hrun|]. cbn [l2r_results l2r_totalCount].
  split; [|split; [|split; [|split; [|split]]]].
  - rewrite <- calculateBM25Scores_machine.
    apply Permutation_map, sort_desc_perm.
  - apply sort_desc_sorted.
  - eapply Forall2_impl; [exact Hall|].
    intros result score (document & Hd & ->). split; [reflexivity|eauto].
  - reflexivity.
  - intros Hcap. rewrite (Forall2_length _ _ _ Hall).
    by apply slice0_length_le.
  - intros d. apply machine_score_exact.
Qed.

(** The score of the first sample document for the query "learning",
    when both sample documents are in the corpus: the term is in both,
    so that [idf = ln (0.5 / 2.5)]. *)
Lemma spec_score_learning :
  Layer2.spec_score corpus12 "d1" ["learning"] = ln (1 / 5).
Proof.
  assert (Htf : Layer2.getTermFrequency corpus12 "learning" "d1" = 1)
    by (vm_compute; reflexivity).
  assert (Hdf : Layer2.termDocumentFrequency corpus12 !! "learning" = Some 2)
    by (vm_compute; reflexivity).
  assert (Hlen : Layer2.documentLengths corpus12 !! "d1" = Some 6)
    by (vm_compute; reflexivity).
  assert (Htotal : Layer2.totalLength (Layer2.documentLengths corpus12) = 12)
    by (vm_compute; reflexivity).
  assert (Havg : Layer2.averageDocumentLength corpus12 = (IZR 12 / IZR 2)%R).
  { change (Layer2.averageDocumentLength corpus12)
      with (IZR (Layer2.totalLength (Layer2.documentLengths corpus12))
            / IZR 2)%R.
    by rewrite Htotal. }
  unfold Layer2.spec_score. rewrite filter_cons, filter_nil.
  rewrite Htf, Hdf. cbn [int_or_zero Z.eqb].
  rewrite decide_True by lia. cbn [map foldr].
  unfold Layer2.spec_term, Layer2.spec_idf.
  rewrite Htf, Hdf, Hlen, Havg. cbn [int_or_zero Z.eqb].
  change (Layer2.totalDocuments corpus12) with 2.
  change (k1 (Layer2.bm25Params corpus12)) with 1.2%R.
  change (b (Layer2.bm25Params corpus12)) with 0.75%R.
  replace ((IZR 2 - IZR 2 + 0.5) / (IZR 2 + 0.5))%R with (1 / 5)%R by lra.
  replace (IZR 1 * (1.2 + 1))%R with 2.2%R by lra.
  replace (IZR 1 + 1.2 * (1 - 0.75 + 0.75 * IZR 6 / (IZR 12 / IZR 2)))%R
    with 2.2%R by lra.
  lra.
Qed.

Lemma ln_fifth_negative : (ln (1 / 5) < 0)%R.
Proof. rewrite <- ln_1. apply ln_increasing; lra. Qed.

(** C2 as stated fails on the sign.  With both sample documents in the
    corpus, the query "learning" gives the first sample document the
    score [ln (1/5)], which is not zero; stage 2 nevertheless omits the
    candidate, and returns no result. *)
Lemma bm25_ranking_counterexample :
  Tokenizer.tokenizeAndNormalize "learning" = ["learning"]
  ∧ (Layer2.spec_score corpus12 "d1" ["learning"] < 0)%R
  ∧ Layer2.search default_config corpus12 (sampleRequest "learning")
      {| l1r_documentIds := ["d1"]; l1r_totalCount := 1;
         l1r_executionTime := 1 |} sampleWorld 0%nat
    = (inr {| l2r_results := []; l2r_totalCount := 0;
              l2r_executionTime := 1 |}, 2%nat).
Proof.
  assert (HQ : Tokenizer.tokenizeAndNormalize "learning" = ["learning"])
    by (vm_compute; reflexivity).
  pose proof ln_fifth_negative as Hneg.
  split; [exact HQ|]. split; [by rewrite spec_score_learning|].
  destruct (Layer2_search_run default_config corpus12
              (sampleRequest "learning")
              {| l1r_documentIds := ["d1"]; l1r_totalCount := 1;
                 l1r_executionTime := 1 |} sampleWorld 0%nat)
    as (results & Hrun & Hall).
  rewrite Hrun. clear Hrun. cbn [req_query sampleRequest l1r_documentIds] in *.
  rewrite HQ in *.
  assert (Hnone : Layer2.calculateBM25Scores corpus12 ["learning"] ["d1"] = []).
  { apply (map_eq_nil (fun s => (bs_documentId s, bs_score s))).
    rewrite calculateBM25Scores_spec, filter_cons, filter_nil.
    rewrite decide_False; [reflexivity|].
    rewrite spec_score_learning. lra. }
  rewrite Hnone in *.
  change (sort_desc bs_score []) with (@nil BM25Score) in *.
  rewrite slice0_nil in Hall. apply Forall2_nil_inv_r in Hall as ->.
  reflexivity.
Qed.

(** ** Stage 3: score fusion *)

Lemma cosineLoop_spec (vectorA vectorB : list R) dotProduct normA normB :
  length vectorA = length vectorB ->
  Layer3.cosineLoop vectorA vectorB (dotProduct, normA, normB)
  = ((dotProduct + Layer3.dot vectorA vectorB)%R,
     (normA + Layer3.dot vectorA vectorA)%R,
     (normB + Layer3.dot vectorB vectorB)%R).
Proof.
  revert vectorB dotProduct normA normB.
  induction vectorA as [|x vectorA IH]; intros [|y vectorB] d na nb Hlen;
    try discriminate.
  - unfold Layer3.dot. cbn. f_equal; [f_equal|]; lra.
  - cbn [Layer3.cosineLoop]. rewrite IH by (by injection Hlen).
    unfold Layer3.dot. cbn [zip_with foldr]. exact_arith.
    f_equal; [f_equal|]; ring.
Qed.

(** The loop of the code computes the cosine of the specification. *)
Lemma calculateCosineSimilarity_spec (vectorA vectorB : list R) :
  length vectorA = length vectorB ->
  Layer3.calculateCosineSimilarity vectorA vectorB
  = inr (Layer3.spec_cosine vectorA vectorB).
Proof.
  intros Hlen. unfold Layer3.calculateCosineSimilarity, Layer3.spec_cosine.
  rewrite (proj2 (Nat.eqb_eq _ _) Hlen). cbn [negb].
  rewrite cosineLoop_spec by exact Hlen. rewrite !Rplus_0_l.
  destruct (Req_dec_T (Layer3.dot vectorA vectorA) 0) as [Ha|Ha].
  { rewrite decide_True by (by left). reflexivity. }
  destruct (Req_dec_T (Layer3.dot vectorB vectorB) 0) as [Hb|Hb].
  { rewrite decide_True by (by right). reflexivity. }
  rewrite decide_False by tauto. reflexivity.
Qed.

(** The similarities [search] computes, when the stored vectors of the
    candidates have the dimension of the query embedding. *)
Lemma vectorScoresOf_run st queryEmbedding (results : list SearchResult) w n :
  (forall result embedding,
      result ∈ results ->
      Layer3.embeddings st !! sr_id result = Some embedding ->
      length (ve_vector embedding) = length queryEmbedding) ->
  exists scores,
    Layer3.vectorScoresOf st queryEmbedding results w n = (inr scores, n)
    ∧ (forall vr,
          vr ∈ scores ->
          vs_similarity vr
          = Layer3.spec_similarity st queryEmbedding (vs_documentId vr))
    ∧ (forall documentId,
          documentId ∈ map vs_documentId scores
          <-> documentId ∈ map sr_id results
              ∧ is_Some (Layer3.embeddings st !! documentId)).
Proof.
  induction results as [|result results IH]; intros Hdim.
  - exists []. split; [reflexivity|]. split.
    + intros vr Hvr. by apply elem_of_nil in Hvr.
    + intros documentId. cbn [map]. rewrite elem_of_nil. tauto.
  - destruct IH as (scores & Hrun & Hsim & Hids).
    { intros r e Hr. apply Hdim. by apply list_elem_of_further. }
    cbn [Layer3.vectorScoresOf].
    destruct (Layer3.embeddings st !! sr_id result) as [embedding|] eqn:He.
    + pose proof (Hdim result embedding (list_elem_of_here _ _) He) as Hlen.
      pose proof (calculateCosineSimilarity_spec queryEmbedding
                    (ve_vector embedding) (eq_sym Hlen)) as Hcos.
      rewrite Hcos. unfold bind. rewrite Hrun. cbn [ret].
      eexists. split; [reflexivity|]. split.
      * intros vr [->|Hvr]%elem_of_cons; [|by apply Hsim].
        cbn [vs_similarity vs_documentId]. unfold Layer3.spec_similarity.
        by rewrite He.
      * intros documentId. cbn [map vs_documentId].
        rewrite !elem_of_cons, Hids. split.
        -- intros [->|[? ?]]; [split; [by left|by rewrite He]|tauto].
        -- intros [[->|?] ?]; tauto.
    + rewrite Hrun. exists scores. split; [reflexivity|]. split; [exact Hsim|].
      intros documentId. cbn [map]. rewrite elem_of_cons, Hids. split.
      * tauto.
      * intros [[->|?] Hsome]; [|tauto]. rewrite He in Hsome.
        by destruct Hsome.
Qed.

Lemma vectorScoreMap_lookup_acc (g : string -> R)
    (vectorResults : list VectorSearchResult) (m : gmap string R) documentId :
  (forall vr, vr ∈ vectorResults -> vs_similarity vr = g (vs_documentId vr)) ->
  fold_left (fun m vr => <[vs_documentId vr := vs_similarity vr]> m)
    vectorResults m !! documentId
  = if decide (documentId ∈ map vs_documentId vectorResults)
    then Some (g documentId) else m !! documentId.
Proof.
  revert m. induction vectorResults as [|vr l IH]; intros m Hg.
  - cbn. rewrite decide_False; [reflexivity|]. apply not_elem_of_nil.
  - cbn [fold_left map]. rewrite IH.
    2:{ intros vr' Hvr'. apply Hg. by apply list_elem_of_further. }
    destruct (decide (documentId ∈ map vs_documentId l)) as [Hin|Hnin].
    + rewrite decide_True by (by apply list_elem_of_further). reflexivity.
    + rewrite lookup_insert.
      destruct (decide (vs_documentId vr = documentId)) as [<-|Hne].
      * rewrite decide_True by apply list_elem_of_here.
        f_equal. apply Hg, list_elem_of_here.
      * rewrite decide_False; [reflexivity|].
        intros [?|?]%elem_of_cons; congruence.
Qed.

(** [combineScores] gives every stage-2 result its fused score. *)
Lemma combineScores_spec st queryEmbedding results scores :
  (forall vr,
      vr ∈ scores ->
      vs_similarity vr
      = Layer3.spec_similarity st queryEmbedding (vs_documentId vr)) ->
  (forall documentId,
      documentId ∈ map vs_documentId scores
      <-> documentId ∈ map sr_id results
          ∧ is_Some (Layer3.embeddings st !! documentId)) ->
  Layer3.combineScores results scores
  = map (Layer3.spec_fused st queryEmbedding) results.
Proof.
  intros Hsim Hids. unfold Layer3.combineScores.
  apply map_ext_in. intros result Hresult.
  assert (Hscore :
    match Layer3.vectorScoreMap scores !! sr_id result with
    | Some x => num_or_zero x
    | None => 0%R
    end = Layer3.spec_similarity st queryEmbedding (sr_id result)).
  { unfold Layer3.vectorScoreMap.
    rewrite (vectorScoreMap_lookup_acc
               (Layer3.spec_similarity st queryEmbedding)) by exact Hsim.
    destruct (decide (sr_id result ∈ map vs_documentId scores)) as [Hin|Hnin].
    - apply num_or_zero_id.
    - rewrite lookup_empty. unfold Layer3.spec_similarity.
      destruct (Layer3.embeddings st !! sr_id result) eqn:He; [|reflexivity].
      exfalso. apply Hnin, Hids. split; [|by rewrite He].
      apply list_elem_of_fmap. exists result. split; [reflexivity|].
      by apply list_elem_of_In. }
  unfold Layer3.spec_fused. rewrite Hscore. reflexivity.
Qed.

Lemma spec_fused_ensureModel model st queryEmbedding result :
  Layer3.spec_fused (Layer3.ensureModel model st) queryEmbedding result
  = Layer3.spec_fused st queryEmbedding result.
Proof.
  unfold Layer3.spec_fused, Layer3.spec_similarity, Layer3.ensureModel.
  destruct (Layer3.isModelLoaded st); [reflexivity|].
  destruct (pipeline_loads model); reflexivity.
Qed.

Lemma Layer3_search_run model config st request layer2Results
    queryEmbedding w n :
  Layer3.isModelLoaded st = true ∨ pipeline_loads model = true ->
  embed model (req_query request) = Some queryEmbedding ->
  (forall result embedding,
      result ∈ l2r_results layer2Results ->
      Layer3.embeddings st !! sr_id result = Some embedding ->
      length (ve_vector embedding) = length queryEmbedding) ->
  exists out,
    Layer3.search model config st request layer2Results w n
    = (inr out, S (S n))
    ∧ l3r_results out
      = slice0 (maxResultsLayer3 config)
          (sort_desc sr_score
             (map (Layer3.spec_fused st queryEmbedding)
                (l2r_results layer2Results))).
Proof.
  intros Hmodel Hembed Hdim. unfold Layer3.search.
  assert (Hloaded : Layer3.isModelLoaded (Layer3.ensureModel model st) = true).
  { unfold Layer3.ensureModel.
    destruct (Layer3.isModelLoaded st) eqn:Hl; [exact Hl|].
    destruct Hmodel as [?| ->]; [done|reflexivity]. }
  assert (Hinit :
    (if Layer3.isModelLoaded st then ret tt
     else Layer3.initializeModel model) = ret tt).
  { destruct (Layer3.isModelLoaded st) eqn:Hl; [reflexivity|].
    unfold Layer3.initializeModel.
    destruct Hmodel as [?| ->]; [done|reflexivity]. }
  rewrite Hinit.
  destruct (l2r_results layer2Results) as [|result results] eqn:Hresults.
  { eexists. split; [reflexivity|].
    cbn [l3r_results map]. change (sort_desc sr_score []) with (@nil SearchResult).
    by rewrite slice0_nil. }
  destruct (vectorScoresOf_run (Layer3.ensureModel model st) queryEmbedding
              (result :: results) w (S n)) as (scores & Hrun & Hsim & Hids).
  { intros r e Hr He. apply (Hdim r e Hr).
    unfold Layer3.ensureModel in He.
    destruct (Layer3.isModelLoaded st); [exact He|].
    destruct (pipeline_loads model); exact He. }
  eexists. split.
  - unfold bind at 1. cbn [Date_now]. unfold try_catch.
    unfold bind at 1. cbn [ret]. cbn [length Nat.eqb].
    unfold bind at 1. unfold Layer3.createEmbedding.
    rewrite Hloaded, Hembed. cbn [negb ret].
    unfold bind at 1. rewrite Hrun.
    unfold bind at 1. cbn [Date_now ret]. reflexivity.
  - cbn [l3r_results]. do 2 f_equal.
    rewrite (combineScores_spec (Layer3.ensureModel model st) queryEmbedding).
    + apply map_ext. intros r. apply spec_fused_ensureModel.
    + intros vr Hvr. apply Hsim. by rewrite sort_desc_perm in Hvr.
    + intros documentId. rewrite <- Hids.
      by rewrite (Permutation_map vs_documentId
                    (sort_desc_perm vs_similarity scores)).
Qed.



(** ** Inversion of monadic runs *)

Lemma bind_inr {A B : Type} (m : M A) (k : A -> M B) w n b n' :
  (x <- m ;; k x) w n = (inr b, n') ->
  exists a n1, m w n = (inr a, n1) ∧ k a w n1 = (inr b, n').
Proof.
  unfold bind. destruct (m w n) as [[e|a] n1]; [discriminate|]. eauto.
Qed.

Lemma try_catch_inr {A : Type} (body : M A) handler w n a n' :
  try_catch body handler w n = (inr a, n') -> body w n = (inr a, n').
Proof.
  unfold try_catch. destruct (body w n) as [[e|a'] n1]; [discriminate|].
  done.
Qed.

Lemma ret_inr {A : Type} (a b : A) w n n' :
  ret a w n = (inr b, n') -> a = b ∧ n = n'.
Proof. unfold ret. intros [= -> ->]. done. Qed.

Lemma lift_inr {A : Type} (r : Error + A) w n a n' :
  Layer4.lift r w n = (inr a, n') -> r = inr a ∧ n = n'.
Proof. destruct r; cbn; intros [= -> ->]; done. Qed.

(** ** Stage 3 returns its results in decreasing order of score *)

Lemma Layer3_search_sorted {fl : Arith} model config st request layer2Results
    w n out n' :
  Layer3.search model config st request layer2Results w n = (inr out, n') ->
  sorted_desc sr_score (l3r_results out).
Proof.
  unfold Layer3.search. intros Hrun.
  apply bind_inr in Hrun as (startTime & n1 & _ & Hrun).
  apply try_catch_inr in Hrun.
  apply bind_inr in Hrun as (_ & n2 & _ & Hrun).
  destruct (length (l2r_results layer2Results) =? 0)%nat.
  - apply bind_inr in Hrun as (now & n3 & _ & Hrun).
    apply ret_inr in Hrun as [<- _]. constructor.
  - apply bind_inr in Hrun as (queryEmbedding & n3 & _ & Hrun).
    apply bind_inr in Hrun as (scores & n4 & _ & Hrun).
    apply bind_inr in Hrun as (now & n5 & _ & Hrun).
    apply ret_inr in Hrun as [<- _]. cbn [l3r_results].
    apply sorted_desc_slice0, sort_desc_sorted.
Qed.

(** ** Stage 4 *)

Lemma personalize_empty config userBoostOf contextBoostOf st request
    layer3Results w n :
  l3r_results layer3Results = [] ->
  Layer4.personalize config userBoostOf contextBoostOf st request
    layer3Results w n
  = (inr {| l4r_results := []; l4r_totalCount := 0;
            l4r_executionTime := clock w (S n) - clock w n;
            l4r_personalizationScore := 0 |}, S (S n)).
Proof. intros Hnil. unfold Layer4.personalize. rewrite Hnil. reflexivity. Qed.

(** The weights of stage 4 are those of the configuration. *)
Lemma Layer4_init_weights config :
  Layer4.cw_userProfile (Layer4.contextWeights (Layer4.init config))
  = userProfileWeight config
  ∧ Layer4.cw_context (Layer4.contextWeights (Layer4.init config))
    = contextWeight config
  ∧ Layer4.cw_temporal (Layer4.contextWeights (Layer4.init config))
    = temporalWeight config.
Proof. repeat split. Qed.

Lemma calculatePersonalizationScore_spec st userId context :
  Layer4.calculatePersonalizationScore st userId context
  = Rmin
      ((if truthy_str userId
        then Layer4.cw_userProfile (Layer4.contextWeights st) else 0)
       + (if bool_decide (is_Some context)
          then Layer4.cw_context (Layer4.contextWeights st) else 0)
       + Layer4.cw_temporal (Layer4.contextWeights st))%R
      1.
Proof.
  unfold Layer4.calculatePersonalizationScore.
  destruct (truthy_str userId), context; simpl; f_equal; lra.
Qed.

(** C6.  When [personalize] processes a request, on a stage-3 result
    list that is not empty (stage 4 of a search is only called on
    such a list) and with a user id that, if supplied, is not the empty
    string, the personalization score it reports is the sum of the
    applicable weights of the configuration, which stage 4 holds from
    its constructor on: the user-profile weight if a user id is
    supplied, plus the context weight if a context is supplied, plus
    the temporal weight, and at most 1. *)
Theorem personalization_score (config : Config)
    (userBoostOf : Layer4.UserProfile -> SearchResult -> Error + R)
    (contextBoostOf : SearchContext -> SearchResult -> Error + R)
    (st : Layer4.State) (request : SearchRequest)
    (layer3Results : Layer3Result) (w : World) (n : nat)
    (out : Layer4Result) (n' : nat)
    (Hweights : Layer4.contextWeights st
                = Layer4.contextWeights (Layer4.init config))
    (Hne : l3r_results layer3Results ≠ [])
    (Huser : req_userId request ≠ Some "")
    (Hrun : Layer4.personalize config userBoostOf contextBoostOf st request
              layer3Results w n = (inr out, n')) :
  l4r_personalizationScore out
  = Rmin
      ((if bool_decide (is_Some (req_userId request))
        then userProfileWeight config else 0)
       + (if bool_decide (is_Some (req_context request))
          then contextWeight config else 0)
       + temporalWeight config)%R
      1.
Proof.
  unfold Layer4.personalize in Hrun.
  destruct (l3r_results layer3Results) as [|result results]; [done|].
  cbn [length Nat.eqb] in Hrun.
  apply bind_inr in Hrun as (startTime & n1 & _ & Hrun).
  apply try_catch_inr in Hrun.
  apply bind_inr in Hrun as (r1 & n2 & _ & Hrun).
  apply bind_inr in Hrun as (r2 & n3 & _ & Hrun).
  apply bind_inr in Hrun as (r3 & n4 & _ & Hrun).
  apply bind_inr in Hrun as (now & n5 & _ & Hrun).
  apply ret_inr in Hrun as [<- _]. cbn [l4r_personalizationScore].
  rewrite calculatePersonalizationScore_spec, Hweights.
  cbn [Layer4.init Layer4.contextWeights Layer4.cw_userProfile
       Layer4.cw_context Layer4.cw_temporal].
  assert (Hsupplied : truthy_str (req_userId request)
                      = bool_decide (is_Some (req_userId request))).
  { destruct (req_userId request) as [userId|]; [|reflexivity].
    cbn [truthy_str]. destruct (decide (userId = "")) as [->|]; [done|].
    symmetry. apply bool_decide_eq_true. eauto. }
  by rewrite Hsupplied.
Qed.

Lemma personalization_score_witness :
  exists out n',
    Layer4.personalize default_config noUserBoost noContextBoost
      (Layer4.init default_config) (sampleRequestOf "learning" (Some "u1"))
      sampleLayer3 sampleWorld 0%nat = (inr out, n')
    ∧ l4r_personalizationScore out = Rmin (0.3 + 0 + 0.1) 1.
Proof.
  destruct (Layer4.personalize default_config noUserBoost noContextBoost
              (Layer4.init default_config)
              (sampleRequestOf "learning" (Some "u1"))
              sampleLayer3 sampleWorld 0%nat) as [[e|out] n'] eqn:Hrun.
  - vm_compute in Hrun. discriminate.
  - exists out, n'. split; [reflexivity|].
    apply (personalization_score default_config noUserBoost noContextBoost
             (Layer4.init default_config)
             (sampleRequestOf "learning" (Some "u1"))
             sampleLayer3 sampleWorld 0%nat out n');
      [reflexivity|discriminate|discriminate|exact Hrun].
Defined.

(** Outside these conditions: for an empty stage-3 result list
    [personalize] reports the score 0, and a user id that is the empty
    string does not count as supplied. *)
Example personalization_score_outside :
  Layer4.personalize default_config noUserBoost noContextBoost
    (Layer4.init default_config) (sampleRequest "learning")
    emptyLayer3 sampleWorld 0%nat
  = (inr {| l4r_results := []; l4r_totalCount := 0;
            l4r_executionTime := 1; l4r_personalizationScore := 0 |},
     2%nat)
  ∧ Layer4.calculatePersonalizationScore (Layer4.init default_config)
      (Some "") None = 0.1%R.
Proof.
  split; [reflexivity|].
  rewrite calculatePersonalizationScore_spec. simpl.
  rewrite Rmin_left; lra.
Qed.

(** ** Personalization without signals *)

Lemma sr_score_boosted_zero result weight boostKey relevanceKey :
  sr_score (Layer4.boosted result 0 weight boostKey relevanceKey)
  = sr_score result.
Proof. cbn [sr_score Layer4.boosted]. ring. Qed.

Lemma sorted_desc_map_same_key {A : Type} (key : A -> R) (f : A -> A) l :
  (forall x, key (f x) = key x) ->
  sorted_desc key l -> sorted_desc key (map f l).
Proof.
  intros Hkey. unfold sorted_desc.
  induction 1 as [|x l Hs IH Hx]; cbn [map]; constructor; [exact IH|].
  apply Forall_forall. intros y Hy.
  apply list_elem_of_fmap in Hy as (z & -> & Hz).
  rewrite !Hkey. rewrite Forall_forall in Hx. by apply Hx.
Qed.

Lemma slice0_map {A B : Type} (f : A -> B) n l :
  slice0 n (map f l) = map f (slice0 n l).
Proof.
  unfold slice0. rewrite length_map.
  destruct (n <? 0); symmetry; apply fmap_take.
Qed.

(** One round of the temporal phase, when the temporal boost of the
    result evaluates. *)
Lemma temporalStep_run st hour dayOfWeek result w n boost :
  Layer4.temporalBoostOf hour dayOfWeek (clock w n) result = inr boost ->
  exists n',
    Layer4.temporalStep st hour dayOfWeek result w n
    = (inr (Layer4.boosted result boost
              (Layer4.cw_temporal (Layer4.contextWeights st))
              "temporalBoost" "temporalRelevance"), n').
Proof.
  unfold Layer4.temporalBoostOf, Layer4.temporalStep.
  destruct (truthy (meta_get (sr_metadata result) "category"));
    destruct (truthy (meta_get (sr_metadata result) "createdAt")).
  - destruct (Layer4.calculateTimeOfDayBoost _ hour) as [|timeBoost];
      [discriminate|].
    destruct (Layer4.calculateDayOfWeekBoost _ dayOfWeek) as [|dayBoost];
      [discriminate|].
    unfold bind. cbn [Layer4.lift ret Date_now].
    destruct (Layer4.calculateRecencyBoost _ (clock w n)) as [|recencyBoost];
      [discriminate|].
    intros [= <-]. cbn [Layer4.lift ret]. eauto.
  - destruct (Layer4.calculateTimeOfDayBoost _ hour) as [|timeBoost];
      [discriminate|].
    destruct (Layer4.calculateDayOfWeekBoost _ dayOfWeek) as [|dayBoost];
      [discriminate|].
    intros [= <-]. unfold bind. cbn [Layer4.lift ret]. eauto.
  - unfold bind. cbn [Layer4.lift ret Date_now].
    destruct (Layer4.calculateRecencyBoost _ (clock w n)) as [|recencyBoost];
      [discriminate|].
    intros [= <-]. cbn [Layer4.lift ret]. eauto.
  - intros [= <-]. unfold bind. cbn [ret]. eauto.
Qed.

Lemma mapM_temporalStep_zero st hour dayOfWeek (results : list SearchResult)
    w n :
  (forall result,
      result ∈ results ->
      forall k,
        Layer4.temporalBoostOf hour dayOfWeek (clock w k) result = inr 0%R) ->
  exists n',
    mapM (Layer4.temporalStep st hour dayOfWeek) results w n
    = (inr (map (fun result =>
                   Layer4.boosted result 0
                     (Layer4.cw_temporal (Layer4.contextWeights st))
                     "temporalBoost" "temporalRelevance") results), n').
Proof.
  revert n. induction results as [|result results IH]; intros n Hzero.
  - exists n. reflexivity.
  - destruct (temporalStep_run st hour dayOfWeek result w n 0%R) as [n1 Hstep].
    { apply Hzero, list_elem_of_here. }
    destruct (IH n1) as [n2 Hrest].
    { intros r Hr. apply Hzero. by apply list_elem_of_further. }
    exists n2. cbn [mapM map]. unfold bind at 1. rewrite Hstep.
    unfold bind at 1. rewrite Hrest. reflexivity.
Qed.

(** The run of [personalize] on a list in decreasing order of score,
    for a request without user id and without context, when every
    temporal boost evaluates to zero. *)
Lemma personalize_no_signals_run config userBoostOf contextBoostOf st request
    layer3Results w n :
  sorted_desc sr_score (l3r_results layer3Results) ->
  truthy_str (req_userId request) = false ->
  req_context request = None ->
  (forall result,
      result ∈ l3r_results layer3Results ->
      forall k,
        Layer4.temporalBoostOf (getHours w (clock w (S n)))
          (getDay w (clock w (S n))) (clock w k) result = inr 0%R) ->
  exists out n',
    Layer4.personalize config userBoostOf contextBoostOf st request
      layer3Results w n = (inr out, n')
    ∧ l4r_results out
      = map (fun result =>
               Layer4.boosted result 0
                 (Layer4.cw_temporal (Layer4.contextWeights st))
                 "temporalBoost" "temporalRelevance")
          (slice0 (maxFinalResults config) (l3r_results layer3Results)).
Proof.
  intros Hsorted Huser Hctx Hzero.
  destruct (l3r_results layer3Results) as [|result results] eqn:Hresults.
  { eexists _, _. rewrite personalize_empty by exact Hresults.
    split; [reflexivity|]. by rewrite slice0_nil. }
  destruct (mapM_temporalStep_zero st (getHours w (clock w (S n)))
              (getDay w (clock w (S n))) (result :: results) w (S (S n))
              Hzero) as [n1 Htemporal].
  assert (Huser' :
    match req_userId request with
    | Some userId =>
        if truthy_str (Some userId)
        then Layer4.applyUserPersonalization userBoostOf st userId
               (result :: results)
        else ret (result :: results)
    | None => ret (result :: results)
    end = ret (result :: results)).
  { destruct (req_userId request); [by rewrite Huser|reflexivity]. }
  eexists _, _. split.
  - unfold Layer4.personalize. rewrite Hresults, Huser', Hctx.
    cbn [length Nat.eqb].
    unfold bind at 1. cbn [Date_now]. unfold try_catch.
    unfold bind at 1. cbn [ret]. unfold bind at 1. cbn [ret].
    unfold bind at 1. unfold Layer4.applyTemporalPersonalization.
    unfold bind at 1. cbn [Date_now].
    unfold bind at 1. cbn [Layer4.getWorld].
    rewrite Htemporal.
    unfold bind at 1. cbn [Date_now ret]. reflexivity.
  - cbn [l4r_results]. rewrite sort_desc_sorted_id.
    + apply slice0_map.
    + apply sorted_desc_map_same_key; [|exact Hsorted].
      intros r. apply sr_score_boosted_zero.
Qed.

(** C7.  For every result list that stage 3 returns, a request without
    user id (or with the empty one) and without context, and a clock
    for which the temporal boost of every result evaluates to zero,
    [personalize] returns the first [maxFinalResults] results of the
    list, in their order, each with its id, title, content and score
    unchanged. *)
Theorem personalize_no_signals {fl : Arith} (model : Embedder)
    (config : Config) (st3 : Layer3.State) (request3 : SearchRequest)
    (layer2Results : Layer2Result) (w3 : World) (n3 n3' : nat)
    (layer3Results : Layer3Result)
    (userBoostOf : Layer4.UserProfile -> SearchResult -> Error + R)
    (contextBoostOf : SearchContext -> SearchResult -> Error + R)
    (st : Layer4.State) (request : SearchRequest) (w : World) (n : nat)
    (Hstage3 : Layer3.search model config st3 request3 layer2Results w3 n3
               = (inr layer3Results, n3'))
    (Huser : truthy_str (req_userId request) = false)
    (Hctx : req_context request = None)
    (Hzero : forall result,
        result ∈ l3r_results layer3Results ->
        forall k,
          Layer4.temporalBoostOf (getHours w (clock w (S n)))
            (getDay w (clock w (S n))) (clock w k) result = inr 0%R) :
  exists out n',
    Layer4.personalize config userBoostOf contextBoostOf st request
      layer3Results w n = (inr out, n')
    ∧ Forall2
        (fun result' result =>
           sr_id result' = sr_id result
           ∧ sr_title result' = sr_title result
           ∧ sr_content result' = sr_content result
           ∧ sr_score result' = sr_score result)
        (l4r_results out)
        (slice0 (maxFinalResults config) (l3r_results layer3Results)).
Proof.
  pose proof (Layer3_search_sorted _ _ _ _ _ _ _ _ _ Hstage3) as Hsorted.
  destruct (personalize_no_signals_run config userBoostOf contextBoostOf st
              request layer3Results w n Hsorted Huser Hctx Hzero)
    as (out & n' & Hrun & Hres).
  exists out, n'. split; [exact Hrun|]. rewrite Hres.
  apply Forall2_fmap_l, Forall_Forall2_diag, Forall_forall.
  intros result _. repeat split. apply sr_score_boosted_zero.
Qed.

Lemma personalize_no_signals_witness :
  exists layer3Results out n',
    Layer3.search sampleModel default_config vectors1
      (sampleRequest "learning") sampleLayer2 sampleWorld 0%nat
    = (inr layer3Results, 2%nat)
    ∧ Layer4.personalize default_config noUserBoost noContextBoost
        (Layer4.init default_config) (sampleRequest "learning")
        layer3Results sampleWorld 0%nat = (inr out, n')
    ∧ Forall2
        (fun result' result =>
           sr_id result' = sr_id result
           ∧ sr_title result' = sr_title result
           ∧ sr_content result' = sr_content result
           ∧ sr_score result' = sr_score result)
        (l4r_results out)
        (slice0 (maxFinalResults default_config)
           (l3r_results layer3Results)).
Proof.
  destruct (Layer3_search_run sampleModel default_config vectors1
              (sampleRequest "learning") sampleLayer2 [1%R; 0%R]
              sampleWorld 0%nat) as (layer3Results & Hrun3 & Hres3).
  { left. reflexivity. }
  { reflexivity. }
  { intros result embedding Hin Hlook. cbn [sampleLayer2 l2r_results] in Hin.
    apply elem_of_cons in Hin as [->|Hin].
    - vm_compute in Hlook. injection Hlook as <-. reflexivity.
    - apply list_elem_of_singleton in Hin as ->.
      vm_compute in Hlook. discriminate. }
  exists layer3Results.
  destruct (personalize_no_signals sampleModel default_config vectors1
              (sampleRequest "learning") sampleLayer2 sampleWorld 0%nat 2%nat
              layer3Results noUserBoost noContextBoost
              (Layer4.init default_config) (sampleRequest "learning")
              sampleWorld 0%nat Hrun3 eq_refl eq_refl)
    as (out & n' & Hrun & Hall).
  { intros result Hin k. rewrite Hres3 in Hin.
    assert (Hin' : result
                   ∈ map (Layer3.spec_fused vectors1 [1%R; 0%R])
                       (l2r_results sampleLayer2)).
    { rewrite <- (sort_desc_perm sr_score).
      unfold slice0 in Hin.
      destruct (_ <? 0); eapply subseteq_take; exact Hin. }
    cbn [sampleLayer2 l2r_results map] in Hin'.
    apply elem_of_cons in Hin' as [->|Hin'];
      [|apply list_elem_of_singleton in Hin' as ->];
      vm_compute; f_equal; lra. }
  exists out, n'. split; [exact Hrun3|]. split; [exact Hrun|exact Hall].
Defined.

(** ** The service: no candidate from stage 1 *)

Lemma Layer1_search_run config st request w n :
  Layer1.search config st request w n
  = (inr (let Q := Tokenizer.tokenizeAndNormalize (req_query request) in
          {| l1r_documentIds :=
               if (length Q =? 0)%nat then []
               else slice0 (maxResultsLayer1 config)
                      (elements (Layer1.unionDocuments st Q));
             l1r_totalCount :=
               if (length Q =? 0)%nat then 0
               else Z.of_nat (size (Layer1.unionDocuments st Q));
             l1r_executionTime := clock w (S n) - clock w n |}),
     S (S n)).
Proof.
  unfold Layer1.search. cbn zeta.
  destruct (length (Tokenizer.tokenizeAndNormalize (req_query request)) =? 0)%nat;
    reflexivity.
Qed.

Lemma unionDocuments_init tokens :
  Layer1.unionDocuments Layer1.init tokens = ∅.
Proof.
  apply set_eq. intros x. rewrite elem_of_unionDocuments.
  unfold Layer1.spec_OR, Layer1.postings. cbn.
  split; [|set_solver]. intros (t & _ & Hx).
  rewrite lookup_empty in Hx. set_solver.
Qed.

(** A corpus without document has no candidate: in an index that
    satisfies its integrity invariant and stores no document, the
    posting sets are empty. *)
Lemma unionDocuments_no_document st tokens :
  Layer1.wf st -> Layer1.documents st = ∅ ->
  Layer1.unionDocuments st tokens = ∅.
Proof.
  intros (_ & _ & Hpost) Hnone. apply set_eq. intros x.
  rewrite elem_of_unionDocuments. unfold Layer1.spec_OR.
  split; [|set_solver]. intros (t & _ & (d & Hd & _)%Hpost).
  rewrite Hnone, lookup_empty in Hd. done.
Qed.

(** C5.  On a service that has been initialized, a search request whose
    stage-1 candidate set is empty (the union of the postings of its
    query tokens; on a corpus without document it always is) returns
    normally, in every arithmetic: the result list is empty, the total
    count is 0, and the layer statistics hold the result of stage 1,
    itself without document and with count 0, and for stages 2, 3 and 4
    the records with empty payloads, zero counts and zero execution
    times. *)
Theorem search_no_candidates {fl : Arith} (model : Embedder)
    (config : Config)
    (userBoostOf : Layer4.UserProfile -> SearchResult -> Error + R)
    (contextBoostOf : SearchContext -> SearchResult -> Error + R)
    (st : Service.State) (request : SearchRequest) (w : World) (n : nat)
    (Hinit : Service.isInitialized st = true)
    (Hempty : Layer1.unionDocuments (Service.layer1 st)
                (Tokenizer.tokenizeAndNormalize (req_query request)) = ∅
              ∨ (Layer1.wf (Service.layer1 st)
                 ∧ Layer1.documents (Service.layer1 st) = ∅)) :
  Service.search model config userBoostOf contextBoostOf st request w n
  = (inr {| Service.out_results := [];
            Service.out_totalCount := 0;
            Service.out_executionTime := clock w (S (S (S n))) - clock w n;
            Service.out_layerStats :=
              {| Service.ls_layer1 :=
                   {| l1r_documentIds := [];
                      l1r_totalCount := 0;
                      l1r_executionTime :=
                        clock w (S (S n)) - clock w (S n) |};
                 Service.ls_layer2 :=
                   {| l2r_results := []; l2r_totalCount := 0;
                      l2r_executionTime := 0 |};
                 Service.ls_layer3 :=
                   {| l3r_results := []; l3r_totalCount := 0;
                      l3r_executionTime := 0; l3r_vectorScores := [] |};
                 Service.ls_layer4 :=
                   {| l4r_results := []; l4r_totalCount := 0;
                      l4r_executionTime := 0;
                      l4r_personalizationScore := 0 |} |} |},
     S (S (S (S n)))).
Proof.
  assert (Hnone : Layer1.unionDocuments (Service.layer1 st)
                    (Tokenizer.tokenizeAndNormalize (req_query request))
                  = ∅).
  { destruct Hempty as [H|[Hwf Hdocs]]; [exact H|].
    by apply unionDocuments_no_document. }
  unfold Service.search. rewrite Hinit. cbn [negb].
  unfold bind at 1. cbn [Date_now]. unfold try_catch.
  unfold bind at 1. rewrite Layer1_search_run. cbn zeta.
  rewrite Hnone, elements_empty, slice0_nil, size_empty.
  assert (Hids :
    (if (length (Tokenizer.tokenizeAndNormalize (req_query request)) =? 0)%nat
     then [] else []) = @nil string) by (by destruct (_ =? _)%nat).
  assert (Hcount :
    (if (length (Tokenizer.tokenizeAndNormalize (req_query request)) =? 0)%nat
     then 0 else Z.of_nat 0) = 0) by (by destruct (_ =? _)%nat).
  rewrite Hids, Hcount. reflexivity.
Qed.

Lemma search_no_candidates_witness :
  Service.search sampleModel default_config noUserBoost noContextBoost
    sampleService (sampleRequest "quantum physics") sampleWorld 0%nat
  = (inr {| Service.out_results := [];
            Service.out_totalCount := 0;
            Service.out_executionTime :=
              clock sampleWorld 3%nat - clock sampleWorld 0%nat;
            Service.out_layerStats :=
              {| Service.ls_layer1 :=
                   {| l1r_documentIds := [];
                      l1r_totalCount := 0;
                      l1r_executionTime :=
                        clock sampleWorld 2%nat - clock sampleWorld 1%nat |};
                 Service.ls_layer2 :=
                   {| l2r_results := []; l2r_totalCount := 0;
                      l2r_executionTime := 0 |};
                 Service.ls_layer3 :=
                   {| l3r_results := []; l3r_totalCount := 0;
                      l3r_executionTime := 0; l3r_vectorScores := [] |};
                 Service.ls_layer4 :=
                   {| l4r_results := []; l4r_totalCount := 0;
                      l4r_executionTime := 0;
                      l4r_personalizationScore := 0 |} |} |},
     4%nat).
Proof.
  apply (search_no_candidates sampleModel default_config noUserBoost
           noContextBoost sampleService (sampleRequest "quantum physics")
           sampleWorld 0%nat).
  - reflexivity.
  - left. vm_compute. reflexivity.
Defined.

(** The guard that stands before the stages: on the service the
    constructor makes, [search] raises the search error with the code
    NOT_INITIALIZED, whatever the request. *)
Example search_before_initialize (request : SearchRequest) :
  Service.search sampleModel default_config noUserBoost noContextBoost
    (Service.init default_config) request sampleWorld 0%nat
  = (inl (SearchError "NOT_INITIALIZED"), 0%nat).
Proof. reflexivity. Qed.

(** The fused scores of the two sample results: the first document has
    the stored vector of the query, the second has none. *)
Example fused_score_example :
  Layer3.spec_similarity vectors1 [1%R; 0%R] "d1" = 1%R
  ∧ Layer3.spec_similarity vectors1 [1%R; 0%R] "d2" = 0%R
  ∧ sr_score (Layer3.spec_fused vectors1 [1%R; 0%R] (sampleResult "d1" 2))
    = 1.6%R
  ∧ sr_score (Layer3.spec_fused vectors1 [1%R; 0%R] (sampleResult "d2" 1))
    = 0.6%R.
Proof.
  assert (Hdot : Layer3.dot [1%R; 0%R] [1%R; 0%R] = 1%R).
  { unfold Layer3.dot. cbn. lra. }
  assert (H1 : Layer3.spec_similarity vectors1 [1%R; 0%R] "d1" = 1%R).
  { unfold Layer3.spec_similarity.
    change (Layer3.embeddings vectors1 !! "d1")
      with (Some {| ve_documentId := "d1"; ve_vector := [1%R; 0%R];
                    ve_metadata := ∅ |}).
    cbn [ve_vector]. unfold Layer3.spec_cosine. rewrite Hdot.
    rewrite decide_False by lra. rewrite sqrt_1. lra. }
  assert (H2 : Layer3.spec_similarity vectors1 [1%R; 0%R] "d2" = 0%R).
  { unfold Layer3.spec_similarity.
    change (Layer3.embeddings vectors1 !! "d2") with (@None VectorEmbedding).
    reflexivity. }
  split; [exact H1|]. split; [exact H2|].
  unfold Layer3.spec_fused. cbn [sr_score sr_id sampleResult].
  rewrite H1, H2. split; lra.
Qed.

(** ** Stage 4 returns when no boost rule throws *)

Lemma mapM_inr {A B : Type} (f : A -> M B) (P : A -> B -> Prop)
    (l : list A) w n :
  (forall x, x ∈ l -> forall k, exists y k', f x w k = (inr y, k') ∧ P x y) ->
  exists ys n', mapM f l w n = (inr ys, n') ∧ Forall2 P l ys.
Proof.
  revert n. induction l as [|x l IH]; intros n Hf.
  - exists [], n. split; [reflexivity|constructor].
  - destruct (Hf x (list_elem_of_here _ _) n) as (y & n1 & Hx & HP).
    destruct (IH n1) as (ys & n2 & Hl & HPs).
    { intros x' Hx'. apply Hf. by apply list_elem_of_further. }
    exists (y :: ys), n2. split; [|by constructor].
    cbn [mapM]. unfold bind at 1. rewrite Hx.
    unfold bind at 1. rewrite Hl. reflexivity.
Qed.

(** The two metadata fields the temporal phase reads are those the
    result had when it entered stage 4. *)
Lemma temporalBoostOf_same_fields hour dayOfWeek now result result' :
  meta_get (sr_metadata result') "category"
  = meta_get (sr_metadata result) "category" ->
  meta_get (sr_metadata result') "createdAt"
  = meta_get (sr_metadata result) "createdAt" ->
  Layer4.temporalBoostOf hour dayOfWeek now result'
  = Layer4.temporalBoostOf hour dayOfWeek now result.
Proof.
  intros Hcategory Hcreated. unfold Layer4.temporalBoostOf.
  by rewrite Hcategory, Hcreated.
Qed.

Lemma meta_get_boosted result boost weight boostKey relevanceKey key :
  key ≠ boostKey -> key ≠ relevanceKey ->
  meta_get (sr_metadata
              (Layer4.boosted result boost weight boostKey relevanceKey)) key
  = meta_get (sr_metadata result) key.
Proof.
  intros H1 H2. unfold meta_get. cbn [sr_metadata Layer4.boosted].
  by rewrite !lookup_insert_ne.
Qed.

(** [personalize] returns normally when the boost rules of the user and
    context phases give a value for every result, and the temporal
    boost of every incoming result evaluates (its category names no
    method of objects, its creation time, if any, is a date). *)
Lemma personalize_returns config userBoostOf contextBoostOf st request
    layer3Results w n :
  (forall profile result, exists x, userBoostOf profile result = inr x) ->
  (forall context result, exists x, contextBoostOf context result = inr x) ->
  (forall result,
      result ∈ l3r_results layer3Results ->
      forall hour dayOfWeek now,
        exists x,
          Layer4.temporalBoostOf hour dayOfWeek now result = inr x) ->
  exists out n',
    Layer4.personalize config userBoostOf contextBoostOf st request
      layer3Results w n = (inr out, n').
Proof.
  intros Huser Hcontext Htemporal.
  destruct (l3r_results layer3Results) as [|r0 rs] eqn:Hresults.
  { eexists _, _. by apply personalize_empty. }
  set (same := fun result result' : SearchResult =>
         meta_get (sr_metadata result') "category"
         = meta_get (sr_metadata result) "category"
         ∧ meta_get (sr_metadata result') "createdAt"
           = meta_get (sr_metadata result) "createdAt").
  assert (Hphase1 : exists r1 n1,
    match req_userId request with
    | Some userId =>
        if truthy_str (Some userId)
        then Layer4.applyUserPersonalization userBoostOf st userId (r0 :: rs)
        else ret (r0 :: rs)
    | None => ret (r0 :: rs)
    end w (S n) = (inr r1, n1) ∧ Forall2 same (r0 :: rs) r1).
  { assert (Hret : exists r1 n1,
              ret (r0 :: rs) w (S n) = (inr r1, n1)
              ∧ Forall2 same (r0 :: rs) r1).
    { eexists _, _. split; [reflexivity|].
      apply Forall_Forall2_diag, Forall_forall. by intros. }
    destruct (req_userId request) as [userId|]; [|exact Hret].
    destruct (truthy_str (Some userId)); [|exact Hret].
    unfold Layer4.applyUserPersonalization.
    destruct (Layer4.getUserProfile st userId) as [profile|]; [|exact Hret].
    apply mapM_inr. intros result _ k.
    destruct (Huser profile result) as [x Hx].
    eexists _, _. split.
    - unfold bind. rewrite Hx. reflexivity.
    - split; by apply meta_get_boosted. }
  destruct Hphase1 as (r1 & n1 & Hrun1 & Hsame1).
  assert (Hphase2 : exists r2 n2,
    match req_context request with
    | Some context =>
        Layer4.applyContextualPersonalization contextBoostOf st r1 context
    | None => ret r1
    end w n1 = (inr r2, n2) ∧ Forall2 same r1 r2).
  { destruct (req_context request) as [context|].
    - apply mapM_inr. intros result _ k.
      destruct (Hcontext context result) as [x Hx].
      eexists _, _. split.
      + unfold bind. rewrite Hx. reflexivity.
      + split; by apply meta_get_boosted.
    - eexists _, _. split; [reflexivity|].
      apply Forall_Forall2_diag, Forall_forall. by intros. }
  destruct Hphase2 as (r2 & n2 & Hrun2 & Hsame2).
  assert (Hdefined : forall result,
    result ∈ r2 ->
    forall hour dayOfWeek now,
      exists x, Layer4.temporalBoostOf hour dayOfWeek now result = inr x).
  { intros result2 Hin2 hour dayOfWeek now.
    apply list_elem_of_lookup in Hin2 as [i Hi2].
    destruct (Forall2_lookup_r _ _ _ _ _ Hsame2 Hi2)
      as (result1 & Hi1 & Hs2).
    destruct (Forall2_lookup_r _ _ _ _ _ Hsame1 Hi1)
      as (result & Hi & Hs1).
    destruct (Htemporal result (list_elem_of_lookup_2 _ _ _ Hi)
                hour dayOfWeek now) as [x Hx].
    exists x. rewrite <- Hx. destruct Hs1, Hs2.
    apply temporalBoostOf_same_fields; congruence. }
  destruct (mapM_inr
              (Layer4.temporalStep st (getHours w (clock w n2))
                 (getDay w (clock w n2)))
              (fun _ _ => True) r2 w (S n2)) as (r3 & n3 & Hrun3 & _).
  { intros result Hin k.
    destruct (Hdefined result Hin (getHours w (clock w n2))
                (getDay w (clock w n2)) (clock w k)) as [x Hx].
    destruct (temporalStep_run st _ _ result w k x Hx) as [k' Hstep].
    eauto. }
  eexists _, _. unfold Layer4.personalize. rewrite Hresults.
  cbn [length Nat.eqb].
  unfold bind at 1. cbn [Date_now]. unfold try_catch.
  unfold bind at 1. rewrite Hrun1.
  unfold bind at 1. rewrite Hrun2.
  unfold bind at 1. unfold Layer4.applyTemporalPersonalization.
  unfold bind at 1. cbn [Date_now].
  unfold bind at 1. cbn [Layer4.getWorld]. rewrite Hrun3.
  unfold bind at 1. cbn [Date_now ret]. reflexivity.
Qed.

(** ** Stage 2: the quotients and logarithms of the score are defined

    In every state reached from the constructor, a query term that
    passes the guard [tf > 0 && df > 0] for a document has a document
    frequency between 1 and the document count, and the average
    document length is positive: the logarithm of the score is taken of
    a positive number, and the length is divided by a positive
    number. *)

Lemma documentFrequencyOf_removeDocument x d st t :
  Layer2.documents st !! x = Some d ->
  Layer2.documentFrequencyOf (Layer2.removeDocument x st).2 t
  = if decide (t ∈ Layer2.documentTokens d)
    then (if 1 <? Layer2.documentFrequencyOf st t
          then Layer2.documentFrequencyOf st t - 1 else 0)
    else Layer2.documentFrequencyOf st t.
Proof.
  intros Hd. unfold Layer2.removeDocument. rewrite Hd.
  unfold Layer2.documentFrequencyOf. simpl.
  rewrite fold_decrementDf_lookup.
  destruct (decide (t ∈ Layer2.documentTokens d)); [|reflexivity].
  destruct (1 <? int_or_zero (Layer2.termDocumentFrequency st !! t));
    [apply int_or_zero_Some|reflexivity].
Qed.

Lemma map_size_insert_le {V : Type} (m : gmap string V) i x :
  (size (<[i:=x]> m) <= S (size m))%nat.
Proof. rewrite map_size_insert. destruct (m !! i); simpl; lia. Qed.

Lemma map_size_delete_le {V : Type} (m : gmap string V) i :
  (size (delete i m) <= size m)%nat.
Proof. rewrite map_size_delete. destruct (m !! i); simpl; lia. Qed.

Lemma map_size_delete_Some_succ {V : Type} (m : gmap string V) i x :
  m !! i = Some x -> size m = S (size (delete i m)).
Proof.
  intros Hi. rewrite map_size_delete, Hi. simpl.
  assert (size m ≠ 0%nat); [|lia].
  intros Hz%map_size_empty_inv. rewrite Hz in Hi. done.
Qed.

Lemma Layer2_bounded_init k1_opt b_opt :
  Layer2.bounded (Layer2.init k1_opt b_opt).
Proof.
  split; [|split].
  - intros x d Hd. simpl in Hd. by apply lookup_empty_Some in Hd.
  - intros t. unfold Layer2.withToken, Layer2.documentFrequencyOf. simpl.
    rewrite map_filter_empty, map_size_empty, lookup_empty. done.
  - intros t. unfold Layer2.withoutToken, Layer2.documentFrequencyOf. simpl.
    rewrite map_filter_empty, map_size_empty, lookup_empty. done.
Qed.

Lemma Layer2_bounded_addDocument d st :
  Layer2.bounded st -> Layer2.bounded (Layer2.addDocument d st).
Proof.
  intros (Hlen & Hwith & Hwithout). split; [|split].
  - intros x doc. simpl. rewrite !lookup_insert.
    destruct (decide (doc_id d = x)); [by intros [= <-]|apply Hlen].
  - intros t. rewrite documentFrequencyOf_addDocument.
    specialize (Hwith t). unfold Layer2.withToken in *. simpl.
    rewrite map_filter_insert. cbn [snd].
    destruct (decide (t ∈ Layer2.documentTokens d)).
    + pose proof (map_size_insert_le
                    (filter (fun kv : string * Document =>
                               t ∈ Layer2.documentTokens kv.2)
                       (Layer2.documents st)) (doc_id d) d). lia.
    + rewrite map_filter_delete.
      pose proof (map_size_delete_le
                    (filter (fun kv : string * Document =>
                               t ∈ Layer2.documentTokens kv.2)
                       (Layer2.documents st)) (doc_id d)). lia.
  - intros t. rewrite documentFrequencyOf_addDocument.
    specialize (Hwithout t). unfold Layer2.withoutToken in *. simpl.
    rewrite map_filter_insert. cbn [snd].
    destruct (decide (t ∈ Layer2.documentTokens d)) as [Hin|Hnin].
    + rewrite decide_False by (by intros ?).
      rewrite map_filter_delete.
      pose proof (map_size_delete_le
                    (filter (fun kv : string * Document =>
                               t ∉ Layer2.documentTokens kv.2)
                       (Layer2.documents st)) (doc_id d)). lia.
    + rewrite decide_True by exact Hnin.
      pose proof (map_size_insert_le
                    (filter (fun kv : string * Document =>
                               t ∉ Layer2.documentTokens kv.2)
                       (Layer2.documents st)) (doc_id d) d). lia.
Qed.

Lemma Layer2_bounded_removeDocument x st :
  Layer2.bounded st -> Layer2.bounded (Layer2.removeDocument x st).2.
Proof.
  intros Hb.
  destruct (Layer2.documents st !! x) as [d|] eqn:Hd;
    [|unfold Layer2.removeDocument; by rewrite Hd].
  pose proof (fun t => documentFrequencyOf_removeDocument x d st t Hd) as Hdf.
  destruct Hb as (Hlen & Hwith & Hwithout).
  assert (Hdocs : Layer2.documents (Layer2.removeDocument x st).2
                  = delete x (Layer2.documents st)).
  { unfold Layer2.removeDocument. by rewrite Hd. }
  assert (Hlens : Layer2.documentLengths (Layer2.removeDocument x st).2
                  = delete x (Layer2.documentLengths st)).
  { unfold Layer2.removeDocument. by rewrite Hd. }
  assert (Htotal : Layer2.totalDocuments (Layer2.removeDocument x st).2
                   = Layer2.totalDocuments st - 1).
  { unfold Layer2.removeDocument. by rewrite Hd. }
  split; [|split].
  - intros y doc. rewrite Hdocs, Hlens, !lookup_delete.
    destruct (decide (x = y)); [done|apply Hlen].
  - intros t. rewrite Hdf. specialize (Hwith t).
    unfold Layer2.withToken in *. rewrite Hdocs, map_filter_delete.
    destruct (decide (t ∈ Layer2.documentTokens d)) as [Hin|Hnin].
    + assert (Hx : filter (fun kv : string * Document =>
                             t ∈ Layer2.documentTokens kv.2)
                     (Layer2.documents st) !! x = Some d).
      { by apply map_lookup_filter_Some. }
      apply map_size_delete_Some_succ in Hx.
      destruct (Z.ltb_spec 1 (Layer2.documentFrequencyOf st t)); lia.
    + assert (Hx : filter (fun kv : string * Document =>
                             t ∈ Layer2.documentTokens kv.2)
                     (Layer2.documents st) !! x = None).
      { apply map_lookup_filter_None. right. intros d' Hd'.
        rewrite Hd in Hd'. by injection Hd' as <-. }
      by rewrite (delete_id _ _ Hx).
  - intros t. rewrite Hdf, Htotal. specialize (Hwithout t).
    specialize (Hwith t).
    unfold Layer2.withoutToken, Layer2.withToken in *.
    rewrite Hdocs, map_filter_delete.
    destruct (decide (t ∈ Layer2.documentTokens d)) as [Hin|Hnin].
    + assert (Hx : filter (fun kv : string * Document =>
                             t ∉ Layer2.documentTokens kv.2)
                     (Layer2.documents st) !! x = None).
      { apply map_lookup_filter_None. right. intros d' Hd'.
        rewrite Hd in Hd'. injection Hd' as <-. by intros ?. }
      rewrite (delete_id _ _ Hx).
      assert (Hx' : filter (fun kv : string * Document =>
                              t ∈ Layer2.documentTokens kv.2)
                      (Layer2.documents st) !! x = Some d).
      { by apply map_lookup_filter_Some. }
      apply map_size_delete_Some_succ in Hx'.
      destruct (Z.ltb_spec 1 (Layer2.documentFrequencyOf st t)); lia.
    + assert (Hx : filter (fun kv : string * Document =>
                             t ∉ Layer2.documentTokens kv.2)
                     (Layer2.documents st) !! x = Some d).
      { by apply map_lookup_filter_Some. }
      apply map_size_delete_Some_succ in Hx. lia.
Qed.

Lemma Layer2_reachable_bounded st : Layer2.reachable st -> Layer2.bounded st.
Proof.
  induction 1 as [k1o bo|d st _ IH|x st _ IH|k1o bo st _ IH].
  - apply Layer2_bounded_init.
  - by apply Layer2_bounded_addDocument.
  - by apply Layer2_bounded_removeDocument.
  - exact IH.
Qed.

Lemma totalLength_insert (lengths : gmap string Z) i x :
  lengths !! i = None ->
  Layer2.totalLength (<[i:=x]> lengths) = Layer2.totalLength lengths + x.
Proof.
  intros Hi. unfold Layer2.totalLength.
  rewrite map_fold_insert_L; [reflexivity| |exact Hi].
  intros. lia.
Qed.

Lemma totalLength_lookup_le (lengths : gmap string Z) :
  (forall i x, lengths !! i = Some x -> 0 <= x) ->
  0 <= Layer2.totalLength lengths
  ∧ forall i x, lengths !! i = Some x -> x <= Layer2.totalLength lengths.
Proof.
  induction lengths as [|j y m Hj IH] using map_ind; intros Hpos.
  - split; [done|]. intros i x Hx. by apply lookup_empty_Some in Hx.
  - rewrite totalLength_insert by exact Hj.
    destruct IH as [IH0 IH1].
    { intros i x Hx. apply (Hpos i x).
      rewrite lookup_insert_ne; [exact Hx|]. intros ->. congruence. }
    pose proof (Hpos j y (lookup_insert_eq _ _ _)) as Hy.
    split; [lia|]. intros i x. rewrite lookup_insert.
    destruct (decide (j = i)); [intros [= <-]; lia|].
    intros Hx. specialize (IH1 i x Hx). lia.
Qed.

Lemma Layer2_reachable_defined st term documentId :
  Layer2.reachable st ->
  0 < Layer2.getTermFrequency st term documentId ->
  1 <= Layer2.documentFrequencyOf st term <= Layer2.totalDocuments st
  ∧ (0 < (IZR (Layer2.totalDocuments st)
          - IZR (Layer2.documentFrequencyOf st term) + 0.5)
         / (IZR (Layer2.documentFrequencyOf st term) + 0.5))%R
  ∧ (0 < Layer2.averageDocumentLength st)%R.
Proof.
  intros Hreach Htf.
  destruct (Layer2_reachable_wf st Hreach) as (Hdom & _ & Havg).
  destruct (Layer2_reachable_bounded st Hreach) as (Hlen & Hwith & Hwithout).
  unfold Layer2.getTermFrequency in Htf.
  destruct (Layer2.documents st !! documentId) as [d|] eqn:Hd; [|lia].
  assert (Hin : term ∈ Layer2.documentTokens d).
  { destruct (filter (fun token => token = term) (Layer2.documentTokens d))
      as [|t l] eqn:Hf; [simpl in Htf; lia|].
    assert (Ht : t ∈ filter (fun token => token = term)
                   (Layer2.documentTokens d))
      by (rewrite Hf; apply list_elem_of_here).
    apply list_elem_of_filter in Ht as [-> ?]. done. }
  assert (Hdf : 1 <= Layer2.documentFrequencyOf st term
                <= Layer2.totalDocuments st).
  { specialize (Hwith term). specialize (Hwithout term).
    assert (Hx : Layer2.withToken st term !! documentId = Some d).
    { unfold Layer2.withToken. by apply map_lookup_filter_Some. }
    apply map_size_delete_Some_succ in Hx. lia. }
  split; [exact Hdf|]. split.
  - apply Rdiv_lt_0_compat.
    + assert (IZR (Layer2.documentFrequencyOf st term)
              <= IZR (Layer2.totalDocuments st))%R by (apply IZR_le; lia).
      lra.
    + assert (1 <= IZR (Layer2.documentFrequencyOf st term))%R
        by (apply IZR_le; lia).
      lra.
  - rewrite Havg. unfold Layer2.averageOf.
    destruct (Z.eqb_spec (Layer2.totalDocuments st) 0); [lia|].
    destruct (totalLength_lookup_le (Layer2.documentLengths st)) as [_ Hle].
    { intros i x Hx.
      assert (Hi : i ∈ dom (Layer2.documents st)).
      { rewrite <- Hdom. apply elem_of_dom. eauto. }
      apply elem_of_dom in Hi as [doc Hdoc].
      rewrite (Hlen i doc Hdoc) in Hx. injection Hx as <-. lia. }
    specialize (Hle _ _ (Hlen _ _ Hd)).
    assert (1 <= length (Layer2.documentTokens d))%nat.
    { destruct (Layer2.documentTokens d); [by apply elem_of_nil in Hin|].
      simpl. lia. }
    apply Rdiv_lt_0_compat; apply IZR_lt; lia.
Qed.

Lemma termScore_denominator_positive st term documentId :
  Layer2.reachable st ->
  0 < Layer2.getTermFrequency st term documentId ->
  (0 <= k1 (Layer2.bm25Params st))%R ->
  (0 <= b (Layer2.bm25Params st) <= 1)%R ->
  (0 < IZR (Layer2.getTermFrequency st term documentId)
       + k1 (Layer2.bm25Params st)
         * (1 - b (Layer2.bm25Params st)
            + b (Layer2.bm25Params st)
              * (IZR (int_or_zero (Layer2.documentLengths st !! documentId))
                 / Layer2.averageDocumentLength st)))%R.
Proof.
  intros Hreach Htf Hk1 Hb.
  destruct (Layer2_reachable_defined st term documentId Hreach Htf)
    as (_ & _ & Havg).
  destruct (Layer2_reachable_bounded st Hreach) as (Hlen & _ & _).
  assert (Hdl : (0 <= IZR (int_or_zero
                             (Layer2.documentLengths st !! documentId)))%R).
  { apply IZR_le. unfold Layer2.getTermFrequency in Htf.
    destruct (Layer2.documents st !! documentId) as [d|] eqn:Hd; [|lia].
    rewrite (Hlen _ _ Hd), int_or_zero_Some. lia. }
  assert (Hx : (0 <= IZR (int_or_zero
                            (Layer2.documentLengths st !! documentId))
                     / Layer2.averageDocumentLength st)%R).
  { apply Rmult_le_pos; [exact Hdl|]. left. by apply Rinv_0_lt_compat. }
  assert (Hbx : (0 <= b (Layer2.bm25Params st)
                      * (IZR (int_or_zero
                                (Layer2.documentLengths st !! documentId))
                         / Layer2.averageDocumentLength st))%R).
  { apply Rmult_le_pos; [lra|exact Hx]. }
  assert (Hk : (0 <= k1 (Layer2.bm25Params st)
                     * (1 - b (Layer2.bm25Params st)
                        + b (Layer2.bm25Params st)
                          * (IZR (int_or_zero
                                    (Layer2.documentLengths st !! documentId))
                             / Layer2.averageDocumentLength st)))%R).
  { apply Rmult_le_pos; [exact Hk1|lra]. }
  assert (0 < IZR (Layer2.getTermFrequency st term documentId))%R
    by (apply IZR_lt; lia).
  lra.
Qed.

(** * Further properties of the code *)
(** ** Stage 1: what the index holds *)

(** X3.  [search] of stage 1 returns what [booleanSearch] returns for
    the query of the request and the operator [OR], the default one:
    the same result, or the same exception, after the same number of
    clock readings. *)
Theorem search_is_boolean_or (config : Config) (st : Layer1.State)
    (request : SearchRequest) (w : World) (n : nat) :
  Layer1.search config st request w n
  = Layer1.booleanSearch config st (req_query request) Layer1.OR w n.
Proof.
  unfold Layer1.search, Layer1.booleanSearch, Layer1.booleanResult.
  cbn zeta.
  destruct (length (Tokenizer.tokenizeAndNormalize (req_query request)) =? 0)%nat;
    reflexivity.
Qed.

Lemma termFrequencyOf_addDocument_other d st t x :
  x ≠ doc_id d ->
  Layer1.termFrequencyOf (Layer1.addDocument d st) t x
  = Layer1.termFrequencyOf st t x.
Proof.
  intros Hne. unfold Layer1.termFrequencyOf, Layer1.addDocument. simpl.
  rewrite fold_addToken_lookup.
  destruct (decide (t ∈ Layer1.allTokens d)); [|reflexivity].
  simpl. rewrite lookup_insert_ne by congruence.
  destruct (Layer1.index (Layer1.st_index st) !! t); reflexivity.
Qed.

Lemma termFrequencyOf_removeDocument_other x d st t y :
  Layer1.documents st !! x = Some d ->
  y ≠ x ->
  Layer1.termFrequencyOf (Layer1.removeDocument x st).2 t y
  = if decide (t ∈ Layer1.allTokens d
               ∧ Layer1.postings st t ∖ {[x]} = ∅)
    then 0 else Layer1.termFrequencyOf st t y.
Proof.
  intros Hd Hne. unfold Layer1.termFrequencyOf, Layer1.removeDocument.
  rewrite Hd. simpl. rewrite fold_removeToken_lookup.
  unfold Layer1.postings.
  destruct (decide (t ∈ Layer1.allTokens d)) as [Hin|Hnin].
  - destruct (Layer1.index (Layer1.st_index st) !! t) as [entry|]; simpl.
    + unfold Layer1.entryAfterRemove.
      destruct (decide (Layer1.documentIds entry ∖ {[x]} = ∅)) as [He|He].
      * rewrite decide_True by done. reflexivity.
      * rewrite decide_False by (intros [_ ?]; done). simpl.
        by rewrite lookup_delete_ne.
    + by destruct (decide _).
  - rewrite decide_False by (intros [? _]; done). reflexivity.
Qed.

Lemma termFrequencyOf_removeDocument_same x st t :
  Layer1.termFrequencyOf (Layer1.removeDocument x st).2 t x
  = match Layer1.documents st !! x with
    | Some d =>
        if decide (t ∈ Layer1.allTokens d) then 0
        else Layer1.termFrequencyOf st t x
    | None => Layer1.termFrequencyOf st t x
    end.
Proof.
  unfold Layer1.termFrequencyOf, Layer1.removeDocument.
  destruct (Layer1.documents st !! x) as [d|]; [|reflexivity].
  simpl. rewrite fold_removeToken_lookup.
  destruct (decide (t ∈ Layer1.allTokens d)); [|reflexivity].
  destruct (Layer1.index (Layer1.st_index st) !! t) as [entry|]; simpl;
    [|reflexivity].
  unfold Layer1.entryAfterRemove.
  destruct (decide (Layer1.documentIds entry ∖ {[x]} = ∅)); [reflexivity|].
  simpl. by rewrite lookup_delete_eq.
Qed.

(** The term frequencies of the index are the numbers of occurrences
    in the stored documents, and the document counter is the number of
    stored documents. *)
Lemma Layer1_reachable_counts st :
  Layer1.reachable st ->
  Layer1.documentCount (Layer1.st_index st)
  = Z.of_nat (size (Layer1.documents st))
  ∧ forall t x,
      Layer1.termFrequencyOf st t x
      = match Layer1.documents st !! x with
        | Some d => Layer1.occurrences t (Layer1.allTokens d)
        | None => 0
        end.
Proof.
  induction 1 as [|d st Hreach [IHn IHtf] Hfresh|x st Hreach [IHn IHtf]].
  - split; [reflexivity|]. intros t x. reflexivity.
  - split.
    + simpl. rewrite map_size_insert_None by exact Hfresh. lia.
    + intros t x. destruct (decide (x = doc_id d)) as [->|Hne].
      * rewrite termFrequencyOf_addDocument. simpl.
        rewrite lookup_insert_eq, IHtf, Hfresh. lia.
      * rewrite termFrequencyOf_addDocument_other by exact Hne.
        simpl. rewrite lookup_insert_ne by congruence. apply IHtf.
  - pose proof (Layer1_reachable_wf _ Hreach) as (Hentries & Hkeys & Hpost).
    destruct (Layer1.documents st !! x) as [d|] eqn:Hd;
      [|unfold Layer1.removeDocument; rewrite Hd; split; assumption].
    split.
    + unfold Layer1.removeDocument. rewrite Hd. simpl.
      rewrite IHn.
      pose proof (map_size_delete_Some_succ _ _ _ Hd). lia.
    + intros t y. destruct (decide (y = x)) as [->|Hne].
      * rewrite termFrequencyOf_removeDocument_same, Hd.
        unfold Layer1.removeDocument. rewrite Hd. simpl.
        rewrite lookup_delete_eq.
        destruct (decide (t ∈ Layer1.allTokens d)) as [|Hnin]; [reflexivity|].
        rewrite IHtf, Hd. by apply occurrences_notin.
      * rewrite (termFrequencyOf_removeDocument_other x d) by done.
        unfold Layer1.removeDocument at 1. rewrite Hd. simpl.
        rewrite lookup_delete_ne by congruence.
        destruct (decide _) as [[Hin Hempty]|_]; [|apply IHtf].
        destruct (Layer1.documents st !! y) as [dy|] eqn:Hy; [|reflexivity].
        symmetry. apply occurrences_notin. intros Hty.
        assert (Hp : y ∈ Layer1.postings st t) by (apply Hpost; eauto).
        set_solver.
Qed.

Lemma elem_of_dom_withToken st t x :
  x ∈ dom (Layer1.withToken st t)
  <-> exists d, Layer1.documents st !! x = Some d ∧ t ∈ Layer1.allTokens d.
Proof.
  unfold Layer1.withToken. rewrite elem_of_dom. split.
  - intros [d Hd]. apply map_lookup_filter_Some in Hd. eauto.
  - intros (d & Hd & Ht). exists d. by apply map_lookup_filter_Some.
Qed.

Lemma postings_withToken st t :
  Layer1.wf st -> Layer1.postings st t = dom (Layer1.withToken st t).
Proof.
  intros (_ & _ & Hpost). apply set_eq. intros x.
  by rewrite Hpost, elem_of_dom_withToken.
Qed.

(** X1.  In every state reached from the constructor by adding
    documents under ids that are not stored and by removing documents,
    the index is exact.  The document counter is the number of stored
    documents.  The index has an entry for a token exactly when a
    stored document has the token; the posting set of the entry is the
    set of the ids of the stored documents that have the token, its
    document frequency is their number, and the term frequency it
    holds for such a document is the number of occurrences of the token
    among the tokens of the document (no frequency is held for any
    other id). *)
Theorem index_exact (st : Layer1.State) (Hreach : Layer1.reachable st) :
  Layer1.documentCount (Layer1.st_index st)
  = Z.of_nat (size (Layer1.documents st))
  ∧ forall token,
      match Layer1.index (Layer1.st_index st) !! token with
      | None => Layer1.withToken st token = ∅
      | Some entry =>
          Layer1.withToken st token ≠ ∅
          ∧ Layer1.documentIds entry = dom (Layer1.withToken st token)
          ∧ Layer1.documentFrequency entry
            = Z.of_nat (size (Layer1.withToken st token))
          ∧ forall documentId,
              Layer1.termFrequency entry !! documentId
              = (fun document =>
                   Layer1.occurrences token (Layer1.allTokens document))
                <$> Layer1.withToken st token !! documentId
      end.
Proof.
  destruct (Layer1_reachable_counts st Hreach) as [Hn Htf].
  pose proof (Layer1_reachable_wf st Hreach) as Hwf.
  split; [exact Hn|]. intros t.
  pose proof (postings_withToken st t Hwf) as Hpost.
  unfold Layer1.postings in Hpost.
  destruct (Layer1.index (Layer1.st_index st) !! t) as [entry|] eqn:He.
  - destruct Hwf as (Hentries & _ & _).
    destruct (Hentries _ _ He) as (Hdf & Hne & Hdom).
    split; [|split; [exact Hpost|split]].
    + intros Hempty. rewrite Hempty, dom_empty_L in Hpost. done.
    + by rewrite Hdf, Hpost, size_dom.
    + intros x. specialize (Htf t x).
      unfold Layer1.termFrequencyOf in Htf. rewrite He in Htf. simpl in Htf.
      destruct (Layer1.withToken st t !! x) as [d|] eqn:Hx; simpl.
      * apply map_lookup_filter_Some in Hx as [Hd Ht]. simpl in Ht.
        rewrite Hd in Htf.
        destruct (Layer1.termFrequency entry !! x) as [v|] eqn:Hv.
        -- rewrite int_or_zero_Some in Htf. by rewrite Htf.
        -- simpl in Htf. pose proof (occurrences_pos _ _ Ht). lia.
      * apply not_elem_of_dom. rewrite Hdom, Hpost.
        by apply not_elem_of_dom.
  - apply dom_empty_inv_L. by rewrite <- Hpost.
Qed.

Lemma index_exact_witness :
  Layer1.documentCount (Layer1.st_index index12)
  = Z.of_nat (size (Layer1.documents index12))
  ∧ forall token,
      match Layer1.index (Layer1.st_index index12) !! token with
      | None => Layer1.withToken index12 token = ∅
      | Some entry =>
          Layer1.withToken index12 token ≠ ∅
          ∧ Layer1.documentIds entry = dom (Layer1.withToken index12 token)
          ∧ Layer1.documentFrequency entry
            = Z.of_nat (size (Layer1.withToken index12 token))
          ∧ forall documentId,
              Layer1.termFrequency entry !! documentId
              = (fun document =>
                   Layer1.occurrences token (Layer1.allTokens document))
                <$> Layer1.withToken index12 token !! documentId
      end.
Proof.
  apply (index_exact index12).
  apply Layer1.reachable_add; [|vm_compute; reflexivity].
  apply Layer1.reachable_add; [|vm_compute; reflexivity].
  apply Layer1.reachable_init.
Defined.

(** ** Stage 1: what a search returns *)

Lemma unionDocuments_matching st tokens :
  Layer1.wf st ->
  Layer1.unionDocuments st tokens = dom (Layer1.matching st tokens).
Proof.
  intros (_ & _ & Hpost). apply set_eq. intros x.
  rewrite elem_of_unionDocuments. unfold Layer1.spec_OR, Layer1.matching.
  rewrite elem_of_dom. split.
  - intros (t & Ht & Hx). apply Hpost in Hx as (d & Hd & Htd).
    exists d. apply map_lookup_filter_Some. split; [exact Hd|].
    apply Exists_exists. eauto.
  - intros [d Hd]. apply map_lookup_filter_Some in Hd as [Hd Hex].
    apply Exists_exists in Hex as (t & Ht & Htd). simpl in Htd.
    exists t. split; [exact Ht|]. apply Hpost. eauto.
Qed.

Lemma slice0_all {A : Type} (n : Z) (l : list A) :
  Z.of_nat (length l) <= n -> slice0 n l = l.
Proof.
  intros Hle. unfold slice0.
  destruct (Z.ltb_spec n 0); [lia|]. apply take_ge. lia.
Qed.

Lemma slice0_sublist {A : Type} (n : Z) (l : list A) : sublist (slice0 n l) l.
Proof.
  unfold slice0. destruct (n <? 0); apply sublist_take.
Qed.

(** X2.  In an index that satisfies its integrity invariant, [search]
    returns normally; the total count it reports is the number of
    stored documents that have at least one of the accepted tokens of
    the query; the ids it returns are pairwise different ids of such
    documents, and all of them when their number does not exceed
    [maxResultsLayer1]. *)
Theorem layer1_search_sound (config : Config) (st : Layer1.State)
    (request : SearchRequest) (w : World) (n : nat)
    (Hwf : Layer1.wf st) :
  let Q := Tokenizer.tokenizeAndNormalize (req_query request) in
  exists out n',
    Layer1.search config st request w n = (inr out, n')
    ∧ l1r_totalCount out = Z.of_nat (size (Layer1.matching st Q))
    ∧ NoDup (l1r_documentIds out)
    ∧ (forall x,
          x ∈ l1r_documentIds out ->
          exists document,
            Layer1.documents st !! x = Some document
            ∧ exists token, token ∈ Q ∧ token ∈ Layer1.allTokens document)
    ∧ (l1r_totalCount out <= maxResultsLayer1 config ->
       forall x document token,
         Layer1.documents st !! x = Some document ->
         token ∈ Q -> token ∈ Layer1.allTokens document ->
         x ∈ l1r_documentIds out).
Proof.
  intros Q. eexists _, _. split; [apply Layer1_search_run|].
  fold Q. cbn [l1r_totalCount l1r_documentIds].
  rewrite (unionDocuments_matching st Q Hwf).
  assert (Hmatch : forall x,
    x ∈ dom (Layer1.matching st Q)
    <-> exists document,
          Layer1.documents st !! x = Some document
          ∧ exists token, token ∈ Q ∧ token ∈ Layer1.allTokens document).
  { intros x. unfold Layer1.matching. rewrite elem_of_dom. split.
    - intros [d Hd]. apply map_lookup_filter_Some in Hd as [Hd Hex].
      apply Exists_exists in Hex as (t & Ht & Htd). eauto.
    - intros (d & Hd & t & Ht & Htd). exists d.
      apply map_lookup_filter_Some. split; [exact Hd|].
      apply Exists_exists. eauto. }
  destruct (Nat.eqb_spec (length Q) 0) as [Hz|Hnz].
  - assert (Hempty : Layer1.matching st Q = ∅).
    { apply nil_length_inv in Hz. rewrite Hz. unfold Layer1.matching.
      apply map_empty. intros x. apply map_lookup_filter_None. right.
      intros d _ Hex. by apply Exists_nil in Hex. }
    rewrite Hempty, map_size_empty.
    split; [reflexivity|]. split; [constructor|].
    split; [by intros x ?%elem_of_nil|].
    intros _ x d t Hd Ht Htd.
    assert (Hx : x ∈ dom (Layer1.matching st Q)) by (apply Hmatch; eauto).
    rewrite Hempty, dom_empty_L in Hx. set_solver.
  - rewrite size_dom. split; [reflexivity|].
    pose proof (slice0_sublist (maxResultsLayer1 config)
                  (elements (dom (Layer1.matching st Q)))) as Hsub.
    split; [|split].
    + eapply sublist_NoDup; [|exact Hsub]. apply NoDup_elements.
    + intros x Hx. apply Hmatch, elem_of_elements.
      eapply sublist_subseteq; [exact Hsub|exact Hx].
    + intros Hcap x d t Hd Ht Htd.
      rewrite slice0_all.
      * apply elem_of_elements, Hmatch. eauto.
      * rewrite <- size_dom in Hcap. exact Hcap.
Qed.

Lemma layer1_search_sound_witness :
  let Q := Tokenizer.tokenizeAndNormalize (req_query (sampleRequest "machine")) in
  exists out n',
    Layer1.search default_config index12 (sampleRequest "machine")
      sampleWorld 0%nat
    = (inr out, n')
    ∧ l1r_totalCount out = Z.of_nat (size (Layer1.matching index12 Q))
    ∧ NoDup (l1r_documentIds out)
    ∧ (forall x,
          x ∈ l1r_documentIds out ->
          exists document,
            Layer1.documents index12 !! x = Some document
            ∧ exists token, token ∈ Q ∧ token ∈ Layer1.allTokens document)
    ∧ (l1r_totalCount out <= maxResultsLayer1 default_config ->
       forall x document token,
         Layer1.documents index12 !! x = Some document ->
         token ∈ Q -> token ∈ Layer1.allTokens document ->
         x ∈ l1r_documentIds out).
Proof.
  apply (layer1_search_sound default_config index12 (sampleRequest "machine")
           sampleWorld 0%nat).
  apply Layer1_wf_addDocument; [|vm_compute; reflexivity].
  apply Layer1_wf_addDocument; [apply Layer1_wf_init|vm_compute; reflexivity].
Defined.

(** X4.  In an index that satisfies its integrity invariant, and for
    every list of tokens, the documents of the conjunction are among
    those of the disjunction, and the documents of the disjunction and
    those of the negation split the stored documents in two: no id is
    in both sets, and every stored id is in one of them. *)
Theorem boolean_operators_partition (st : Layer1.State)
    (tokens : list string) (Hwf : Layer1.wf st) :
  Layer1.intersectDocuments st tokens ⊆ Layer1.unionDocuments st tokens
  ∧ Layer1.unionDocuments st tokens ## Layer1.excludeDocuments st tokens
  ∧ Layer1.unionDocuments st tokens ∪ Layer1.excludeDocuments st tokens
    = dom (Layer1.documents st).
Proof.
  split; [|split].
  - destruct tokens as [|a tokens]; [set_solver|].
    intros x Hx. apply elem_of_intersectDocuments in Hx; [|done].
    apply elem_of_unionDocuments. exists a.
    split; [apply list_elem_of_here|apply Hx, list_elem_of_here].
  - intros x Hor Hnot. apply elem_of_unionDocuments in Hor as (t & Ht & Hx).
    apply elem_of_excludeDocuments in Hnot as [_ Hnone].
    by apply (Hnone t).
  - apply set_eq. intros x. rewrite elem_of_union. split.
    + intros [Hor|Hnot].
      * apply elem_of_unionDocuments in Hor as (t & Ht & Hx).
        destruct Hwf as (_ & _ & Hpost).
        apply Hpost in Hx as (d & Hd & _). by apply elem_of_dom.
      * by apply elem_of_excludeDocuments in Hnot as [? _].
    + intros Hdom.
      destruct (decide (x ∈ Layer1.unionDocuments st tokens)) as [|Hnor];
        [by left|right].
      unfold Layer1.excludeDocuments. by apply elem_of_filter.
Qed.

Lemma boolean_operators_partition_witness :
  Layer1.intersectDocuments index12 ["machine"; "deep"]
  ⊆ Layer1.unionDocuments index12 ["machine"; "deep"]
  ∧ Layer1.unionDocuments index12 ["machine"; "deep"]
    ## Layer1.excludeDocuments index12 ["machine"; "deep"]
  ∧ Layer1.unionDocuments index12 ["machine"; "deep"]
    ∪ Layer1.excludeDocuments index12 ["machine"; "deep"]
    = dom (Layer1.documents index12).
Proof.
  apply (boolean_operators_partition index12 ["machine"; "deep"]).
  apply Layer1_wf_addDocument; [|vm_compute; reflexivity].
  apply Layer1_wf_addDocument; [apply Layer1_wf_init|vm_compute; reflexivity].
Defined.

(** X5.  [getDocument] reads back the document that [addDocument]
    stored under its id, and nothing under an id that [removeDocument]
    was called with; neither operation changes what is read under
    another id.  [removeDocument] returns [true] exactly when
    [getDocument] found a document under the id. *)
Theorem getDocument_addDocument_removeDocument (st : Layer1.State)
    (document : Document) (removed documentId : string) :
  Layer1.getDocument (Layer1.addDocument document st) documentId
  = (if decide (documentId = doc_id document) then Some document
     else Layer1.getDocument st documentId)
  ∧ Layer1.getDocument (Layer1.removeDocument removed st).2 documentId
    = (if decide (documentId = removed) then None
       else Layer1.getDocument st documentId)
  ∧ (Layer1.removeDocument removed st).1
    = bool_decide (is_Some (Layer1.getDocument st removed)).
Proof.
  unfold Layer1.getDocument. split; [|split].
  - unfold Layer1.addDocument. simpl. rewrite lookup_insert.
    destruct (decide (doc_id document = documentId)) as [<-|Hne].
    + by rewrite decide_True.
    + by rewrite decide_False.
  - unfold Layer1.removeDocument.
    destruct (Layer1.documents st !! removed) as [d|] eqn:Hd; simpl.
    + rewrite lookup_delete.
      destruct (decide (removed = documentId)) as [<-|Hne].
      * by rewrite decide_True.
      * by rewrite decide_False.
    + destruct (decide (documentId = removed)) as [->|]; [exact Hd|done].
  - apply Layer1_removeDocument_result.
Qed.

(** ** The normalizer *)

Lemma filter_chars_word s c :
  In c (list_ascii_of_string (Tokenizer.filter_chars Tokenizer.is_word_char s)) ->
  Tokenizer.is_word_char c = true.
Proof.
  induction s as [|a s IH]; [intros []|].
  cbn [Tokenizer.filter_chars].
  destruct (Tokenizer.is_word_char a) eqn:Ha; [|exact IH].
  cbn [list_ascii_of_string]. intros [<-|Hin]; [exact Ha|by apply IH].
Qed.

(** X6.  Every token that [tokenizeAndNormalize] returns has at least
    three characters, all of them word characters (letters, digits and
    the underscore), and is not a stop word. *)
Theorem tokenizeAndNormalize_tokens (text token : string)
    (Hin : token ∈ Tokenizer.tokenizeAndNormalize text) :
  (3 <= String.length token)%nat
  ∧ (token ∉ Tokenizer.stopWords)
  ∧ forall c,
      In c (list_ascii_of_string token) -> Tokenizer.is_word_char c = true.
Proof.
  unfold Tokenizer.tokenizeAndNormalize in Hin.
  apply list_elem_of_filter in Hin as [Hkeep Hin].
  apply andb_true_iff in Hkeep as [Hlen Hstop].
  apply Nat.ltb_lt in Hlen. apply negb_true_iff in Hstop.
  unfold Tokenizer.isStopWord in Hstop. apply bool_decide_eq_false in Hstop.
  split; [lia|]. split; [exact Hstop|].
  apply list_elem_of_fmap in Hin as (raw & -> & _).
  intros c. apply filter_chars_word.
Qed.

Lemma tokenizeAndNormalize_tokens_witness :
  (3 <= String.length "machine")%nat
  ∧ ("machine" ∉ Tokenizer.stopWords)
  ∧ forall c,
      In c (list_ascii_of_string "machine") ->
      Tokenizer.is_word_char c = true.
Proof.
  apply (tokenizeAndNormalize_tokens "Machine Learning: the state of THE art!"
           "machine").
  vm_compute. apply list_elem_of_here.
Defined.

(** ** Stage 2: what the statistics count *)

Lemma Layer2_fresh_reachable st :
  Layer2.reachable_fresh st -> Layer2.reachable st.
Proof.
  induction 1.
  - apply Layer2.reachable_init.
  - by apply Layer2.reachable_add.
  - by apply Layer2.reachable_remove.
  - by apply Layer2.reachable_params.
Qed.

Lemma Layer2_fresh_count st :
  Layer2.reachable_fresh st ->
  Layer2.totalDocuments st = Z.of_nat (size (Layer2.documents st)).
Proof.
  induction 1 as [k1o bo|d st _ IH Hfresh|x st _ IH|k1o bo st _ IH].
  - reflexivity.
  - simpl. rewrite map_size_insert_None by exact Hfresh. lia.
  - unfold Layer2.removeDocument.
    destruct (Layer2.documents st !! x) as [d|] eqn:Hd; [|exact IH].
    simpl. pose proof (map_size_delete_Some_succ _ _ _ Hd). lia.
  - exact IH.
Qed.

Lemma size_withToken_withoutToken st t :
  (size (Layer2.withToken st t) + size (Layer2.withoutToken st t))%nat
  = size (Layer2.documents st).
Proof.
  unfold Layer2.withToken, Layer2.withoutToken.
  rewrite <- map_size_disj_union by apply map_disjoint_filter_complement.
  by rewrite map_filter_union_complement.
Qed.

Lemma Layer2_documentLengths st :
  Layer2.reachable st ->
  Layer2.documentLengths st
  = (fun document => Z.of_nat (length (Layer2.documentTokens document)))
    <$> Layer2.documents st.
Proof.
  intros Hreach.
  destruct (Layer2_reachable_wf st Hreach) as (Hdom & _ & _).
  destruct (Layer2_reachable_bounded st Hreach) as (Hlen & _ & _).
  apply map_eq. intros i. rewrite lookup_fmap.
  destruct (Layer2.documents st !! i) as [d|] eqn:Hd; simpl.
  - by apply Hlen.
  - apply not_elem_of_dom. rewrite Hdom. by apply not_elem_of_dom.
Qed.

(** X7.  In every state of stage 2 reached from the constructor when
    no document is added under an id that is stored, the statistics
    that [getStats] reports are exact: the document count is the number
    of stored documents, the average document length is the number of
    tokens of the stored documents divided by their number (0 when
    nothing is stored), and a document frequency is held for exactly
    the tokens of the stored documents, each with the number of stored
    documents that have the token. *)
Theorem bm25_statistics_exact (st : Layer2.State)
    (Hfresh : Layer2.reachable_fresh st) :
  let stats := Layer2.getStats st in
  Layer2.stats_totalDocuments stats = Z.of_nat (size (Layer2.documents st))
  ∧ Layer2.stats_averageDocumentLength stats
    = (if decide (Layer2.documents st = ∅) then 0%R
       else (IZR (Layer2.storedTokens st)
             / IZR (Z.of_nat (size (Layer2.documents st))))%R)
  ∧ forall token,
      Layer2.termDocumentFrequency st !! token
      = if decide (Layer2.withToken st token = ∅) then None
        else Some (Z.of_nat (size (Layer2.withToken st token))).
Proof.
  pose proof (Layer2_fresh_reachable st Hfresh) as Hreach.
  pose proof (Layer2_fresh_count st Hfresh) as Hn.
  destruct (Layer2_reachable_wf st Hreach) as (Hdom & Hdf & Havg).
  destruct (Layer2_reachable_bounded st Hreach) as (Hlen & Hwith & Hwithout).
  cbn zeta. unfold Layer2.getStats. simpl.
  split; [exact Hn|]. split.
  - rewrite Havg. unfold Layer2.averageOf, Layer2.storedTokens.
    rewrite <- (Layer2_documentLengths st Hreach), Hn.
    destruct (decide (Layer2.documents st = ∅)) as [He|Hne].
    + rewrite He, map_size_empty. reflexivity.
    + destruct (Z.eqb_spec (Z.of_nat (size (Layer2.documents st))) 0)
        as [Hz|]; [|reflexivity].
      exfalso. apply Hne, map_size_empty_inv. lia.
  - intros t. specialize (Hwith t). specialize (Hwithout t).
    pose proof (size_withToken_withoutToken st t) as Hsplit.
    assert (Hexact : Layer2.documentFrequencyOf st t
                     = Z.of_nat (size (Layer2.withToken st t))) by lia.
    unfold Layer2.documentFrequencyOf in Hexact.
    destruct (Layer2.termDocumentFrequency st !! t) as [df|] eqn:Ht.
    + specialize (Hdf _ _ Ht). rewrite int_or_zero_Some in Hexact.
      rewrite decide_False; [by rewrite Hexact|].
      intros He. rewrite He, map_size_empty in Hexact. lia.
    + simpl in Hexact. rewrite decide_True; [reflexivity|].
      apply map_size_empty_inv. lia.
Qed.

Lemma bm25_statistics_exact_witness :
  let stats := Layer2.getStats corpus12 in
  Layer2.stats_totalDocuments stats
  = Z.of_nat (size (Layer2.documents corpus12))
  ∧ Layer2.stats_averageDocumentLength stats
    = (if decide (Layer2.documents corpus12 = ∅) then 0%R
       else (IZR (Layer2.storedTokens corpus12)
             / IZR (Z.of_nat (size (Layer2.documents corpus12))))%R)
  ∧ forall token,
      Layer2.termDocumentFrequency corpus12 !! token
      = if decide (Layer2.withToken corpus12 token = ∅) then None
        else Some (Z.of_nat (size (Layer2.withToken corpus12 token))).
Proof.
  apply (bm25_statistics_exact corpus12).
  apply Layer2.fresh_add; [|vm_compute; reflexivity].
  apply Layer2.fresh_add; [|vm_compute; reflexivity].
  apply Layer2.fresh_init.
Defined.

(** ** Stage 2: the sign of a BM25 term score *)

Lemma ln_pos_iff x : (0 < x)%R -> (0 < ln x)%R <-> (1 < x)%R.
Proof.
  intros Hx. split.
  - intros Hln. destruct (Rlt_dec 1 x) as [|Hle]; [done|].
    assert (ln x <= ln 1)%R as Hl.
    { destruct (Req_dec_T x 1) as [->|Hne]; [lra|].
      left. apply ln_increasing; lra. }
    rewrite ln_1 in Hl. lra.
  - intros H1. rewrite <- ln_1. apply ln_increasing; lra.
Qed.

Lemma termScore_sign st term documentId ts :
  Layer2.reachable st ->
  (0 <= k1 (Layer2.bm25Params st))%R ->
  (0 <= b (Layer2.bm25Params st) <= 1)%R ->
  Layer2.termScore st
    (int_or_zero (Layer2.documentLengths st !! documentId)) term documentId
  = Some ts ->
  (0 < ts)%R
  <-> 2 * Layer2.documentFrequencyOf st term < Layer2.totalDocuments st.
Proof.
  intros Hreach Hk1 Hb. unfold Layer2.termScore.
  destruct (Z.ltb_spec 0 (Layer2.getTermFrequency st term documentId))
    as [Htf|]; [|discriminate].
  destruct (Z.ltb_spec 0 (int_or_zero (Layer2.termDocumentFrequency st !! term)))
    as [Hdf|]; [|discriminate].
  cbn [andb]. intros [= <-].
  pose proof (termScore_denominator_positive st term documentId Hreach Htf
                Hk1 Hb) as Hden.
  destruct (Layer2_reachable_defined st term documentId Hreach Htf)
    as ([Hdf1 HdfN] & Hq & _).
  unfold Layer2.documentFrequencyOf in *.
  set (df := int_or_zero (Layer2.termDocumentFrequency st !! term)) in *.
  set (N := Layer2.totalDocuments st) in *.
  set (tf := Layer2.getTermFrequency st term documentId) in *.
  set (den := (IZR tf + _)%R) in *.
  set (q := ((IZR N - IZR df + 0.5) / (IZR df + 0.5))%R) in *.
  assert (Hnum : (0 < IZR tf * (k1 (Layer2.bm25Params st) + 1))%R).
  { apply Rmult_lt_0_compat; [apply IZR_lt; lia|lra]. }
  assert (Hfrac : (0 < IZR tf * (k1 (Layer2.bm25Params st) + 1) / den)%R)
    by (by apply Rdiv_lt_0_compat).
  assert (Hdfpos : (0 < IZR df + 0.5)%R).
  { assert (1 <= IZR df)%R by (apply IZR_le; lia). lra. }
  assert (Hq1 : (1 < q)%R <-> 2 * df < N).
  { unfold q. split.
    - intros H1. apply (Rmult_lt_compat_r (IZR df + 0.5)) in H1; [|done].
      unfold Rdiv in H1. rewrite Rmult_assoc, Rinv_l in H1 by lra.
      apply lt_IZR. rewrite mult_IZR. lra.
    - intros Hlt. apply IZR_lt in Hlt. rewrite mult_IZR in Hlt.
      apply (Rmult_lt_reg_r (IZR df + 0.5)); [done|].
      unfold Rdiv. rewrite Rmult_assoc, Rinv_l by lra. lra. }
  rewrite <- Hq1, <- (ln_pos_iff q Hq). split.
  - intros Hts. destruct (Rlt_dec 0 (ln q)) as [|Hle]; [done|].
    assert (ln q * (IZR tf * (k1 (Layer2.bm25Params st) + 1) / den) <= 0)%R.
    { assert (0 <= - ln q)%R by lra.
      assert (0 <= - ln q * (IZR tf * (k1 (Layer2.bm25Params st) + 1) / den))%R
        by (apply Rmult_le_pos; lra).
      lra. }
    lra.
  - intros Hln. by apply Rmult_lt_0_compat.
Qed.

(** X8.  In every state of stage 2 reached from the constructor, with
    parameters [k1 >= 0] and [0 <= b <= 1], the score that a query term
    adds for a stored document that has it is strictly positive exactly
    when the term is in fewer than half of the documents
    ([2 * df < N]); a term that is in half of the documents or more
    adds nothing or takes away from the score of the document. *)
Theorem bm25_term_score_sign (st : Layer2.State) (term documentId : string)
    (ts : R)
    (Hreach : Layer2.reachable st)
    (Hk1 : (0 <= k1 (Layer2.bm25Params st))%R)
    (Hb : (0 <= b (Layer2.bm25Params st) <= 1)%R)
    (Hscore : Layer2.termScore st
                (int_or_zero (Layer2.documentLengths st !! documentId))
                term documentId
              = Some ts) :
  ((0 < ts)%R
   <-> 2 * Layer2.documentFrequencyOf st term < Layer2.totalDocuments st)
  ∧ ((ts <= 0)%R
     <-> Layer2.totalDocuments st <= 2 * Layer2.documentFrequencyOf st term).
Proof.
  pose proof (termScore_sign st term documentId ts Hreach Hk1 Hb Hscore)
    as Hsign.
  split; [exact Hsign|]. split.
  - intros Hle. destruct (Z.le_gt_cases (Layer2.totalDocuments st)
                            (2 * Layer2.documentFrequencyOf st term))
      as [|Hgt]; [done|].
    apply Hsign in Hgt. lra.
  - intros Hle. destruct (Rle_dec ts 0) as [|Hnle]; [done|].
    assert (0 < ts)%R as Hpos by lra. apply Hsign in Hpos. lia.
Qed.

Lemma bm25_term_score_sign_witness :
  exists ts,
    ((0 < ts)%R
     <-> 2 * Layer2.documentFrequencyOf corpus12 "learning"
         < Layer2.totalDocuments corpus12)
    ∧ ((ts <= 0)%R
       <-> Layer2.totalDocuments corpus12
           <= 2 * Layer2.documentFrequencyOf corpus12 "learning").
Proof.
  destruct (Layer2.termScore corpus12
              (int_or_zero (Layer2.documentLengths corpus12 !! "d1"))
              "learning" "d1") as [ts|] eqn:Hts;
    [|vm_compute in Hts; discriminate].
  exists ts.
  apply (bm25_term_score_sign corpus12 "learning" "d1" ts).
  - apply Layer2.reachable_add, Layer2.reachable_add, Layer2.reachable_init.
  - simpl. lra.
  - simpl. lra.
  - exact Hts.
Defined.

(** ** Stage 2: query terms that most documents have *)

Lemma spec_score_nonpos st d Q :
  Layer2.reachable st ->
  (0 <= k1 (Layer2.bm25Params st))%R ->
  (0 <= b (Layer2.bm25Params st) <= 1)%R ->
  (forall t,
      t ∈ Q -> 0 < Layer2.documentFrequencyOf st t ->
      Layer2.totalDocuments st <= 2 * Layer2.documentFrequencyOf st t) ->
  (Layer2.spec_score st d Q <= 0)%R.
Proof.
  intros Hreach Hk1 Hb Hcommon. unfold Layer2.spec_score.
  induction Q as [|t Q IH]; [cbn; lra|].
  rewrite filter_cons.
  assert (IH' := IH (fun t' Ht' =>
                        Hcommon t' (list_elem_of_further _ _ _ Ht'))).
  destruct (decide (0 < Layer2.getTermFrequency st t d
                    ∧ 0 < int_or_zero (Layer2.termDocumentFrequency st !! t)))
    as [[Htf Hdf]|]; [|exact IH'].
  cbn [map foldr].
  pose proof (termScore_spec st d t) as Hts.
  rewrite decide_True in Hts by done.
  pose proof (termScore_sign st t d _ Hreach Hk1 Hb Hts) as Hsign.
  specialize (Hcommon t (list_elem_of_here _ _) Hdf).
  destruct (Rlt_dec 0 (Layer2.spec_term st d t)) as [Hpos|Hnpos].
  - apply Hsign in Hpos. lia.
  - lra.
Qed.

Lemma Layer2_search_nothing config st request layer1Results w n :
  (forall d,
      (Layer2.spec_score st d
         (Tokenizer.tokenizeAndNormalize (req_query request)) <= 0)%R) ->
  Layer2.search config st request layer1Results w n
  = (inr {| l2r_results := []; l2r_totalCount := 0;
            l2r_executionTime := clock w (S n) - clock w n |},
     S (S n)).
Proof.
  intros Hnonpos.
  assert (Hnone : forall ids,
    Layer2.calculateBM25Scores st
      (Tokenizer.tokenizeAndNormalize (req_query request)) ids = []).
  { intros ids. apply (map_eq_nil (fun s => (bs_documentId s, bs_score s))).
    rewrite calculateBM25Scores_spec.
    induction ids as [|d ids IH]; [reflexivity|].
    rewrite filter_cons. specialize (Hnonpos d).
    rewrite decide_False by lra. exact IH. }
  destruct (Layer2_search_run config st request layer1Results w n)
    as (results & Hrun & Hall).
  rewrite Hnone in Hrun, Hall.
  change (sort_desc bs_score []) with (@nil BM25Score) in Hrun, Hall.
  rewrite slice0_nil in Hall. apply Forall2_nil_inv_r in Hall. subst results.
  exact Hrun.
Qed.

(** X9.  In every state of stage 2 reached from the constructor, with
    parameters [k1 >= 0] and [0 <= b <= 1]: when every token of the
    query that has a document frequency is in half of the documents or
    more ([N <= 2 * df]), [search] returns no result and the total
    count 0, whatever candidates stage 1 passed. *)
Theorem bm25_common_terms_rank_nothing (config : Config) (st : Layer2.State)
    (request : SearchRequest) (layer1Results : Layer1Result)
    (w : World) (n : nat)
    (Hreach : Layer2.reachable st)
    (Hk1 : (0 <= k1 (Layer2.bm25Params st))%R)
    (Hb : (0 <= b (Layer2.bm25Params st) <= 1)%R)
    (Hcommon : forall token,
        token ∈ Tokenizer.tokenizeAndNormalize (req_query request) ->
        0 < Layer2.documentFrequencyOf st token ->
        Layer2.totalDocuments st <= 2 * Layer2.documentFrequencyOf st token) :
  exists out n',
    Layer2.search config st request layer1Results w n = (inr out, n')
    ∧ l2r_results out = []
    ∧ l2r_totalCount out = 0.
Proof.
  eexists _, _. split.
  - apply Layer2_search_nothing. intros d.
    by apply spec_score_nonpos.
  - split; reflexivity.
Qed.

Lemma bm25_common_terms_rank_nothing_witness :
  exists out n',
    Layer2.search default_config corpus12 (sampleRequest "learning")
      {| l1r_documentIds := ["d1"; "d2"]; l1r_totalCount := 2;
         l1r_executionTime := 0 |}
      sampleWorld 0%nat
    = (inr out, n')
    ∧ l2r_results out = []
    ∧ l2r_totalCount out = 0.
Proof.
  apply (bm25_common_terms_rank_nothing default_config corpus12
           (sampleRequest "learning")).
  - apply Layer2.reachable_add, Layer2.reachable_add, Layer2.reachable_init.
  - simpl. lra.
  - simpl. lra.
  - intros token Hin _.
    assert (token = "learning") as ->.
    { vm_compute in Hin. by apply list_elem_of_singleton in Hin. }
    vm_compute. discriminate.
Defined.

(** ** Stage 2: the TF-IDF ranking *)

Lemma getTermFrequency_le_length st term documentId :
  Layer2.reachable st ->
  Layer2.getTermFrequency st term documentId
  <= int_or_zero (Layer2.documentLengths st !! documentId).
Proof.
  intros Hreach.
  destruct (Layer2_reachable_bounded st Hreach) as (Hlen & _ & _).
  unfold Layer2.getTermFrequency.
  destruct (Layer2.documents st !! documentId) as [d|] eqn:Hd.
  - rewrite (Hlen _ _ Hd), int_or_zero_Some.
    apply inj_le, length_filter.
  - destruct (Layer2.documentLengths st !! documentId) as [x|] eqn:Hx;
      [|simpl; lia].
    destruct (Layer2_reachable_wf st Hreach) as (Hdom & _ & _).
    assert (documentId ∈ dom (Layer2.documents st)) as Hin.
    { rewrite <- Hdom. apply elem_of_dom. eauto. }
    apply elem_of_dom in Hin as [? ?]. congruence.
Qed.

Lemma tfidfTermScore_sign st term documentId :
  Layer2.reachable st ->
  match Layer2.tfidfTermScore st
          (int_or_zero (Layer2.documentLengths st !! documentId))
          term documentId with
  | Some ts =>
      0 < Layer2.getTermFrequency st term documentId
      ∧ (0 <= ts)%R
      ∧ ((0 < ts)%R
         <-> Layer2.documentFrequencyOf st term < Layer2.totalDocuments st)
  | None => ~ 0 < Layer2.getTermFrequency st term documentId
  end.
Proof.
  intros Hreach. unfold Layer2.tfidfTermScore. exact_arith.
  pose proof (getTermFrequency_le_length st term documentId Hreach) as Hle.
  destruct (Z.ltb_spec 0 (Layer2.getTermFrequency st term documentId))
    as [Htf|Htf]; [|cbn [andb]; lia].
  destruct (Layer2_reachable_defined st term documentId Hreach Htf)
    as ([Hdf1 HdfN] & _ & _).
  unfold Layer2.documentFrequencyOf in *.
  set (df := int_or_zero (Layer2.termDocumentFrequency st !! term)) in *.
  set (N := Layer2.totalDocuments st) in *.
  set (tf := Layer2.getTermFrequency st term documentId) in *.
  set (dl := int_or_zero (Layer2.documentLengths st !! documentId)) in *.
  destruct (Z.ltb_spec 0 df) as [_|]; [|lia]. cbn [andb].
  split; [exact Htf|].
  assert (Hntf : (0 < IZR tf / IZR dl)%R).
  { apply Rdiv_lt_0_compat; apply IZR_lt; lia. }
  assert (Hdfpos : (0 < IZR df)%R) by (apply IZR_lt; lia).
  assert (Hq : (0 < IZR N / IZR df)%R).
  { apply Rdiv_lt_0_compat; [apply IZR_lt; lia|exact Hdfpos]. }
  assert (Hq1 : (1 < IZR N / IZR df)%R <-> df < N).
  { split.
    - intros H1. apply (Rmult_lt_compat_r (IZR df)) in H1; [|done].
      unfold Rdiv in H1. rewrite Rmult_assoc, Rinv_l in H1 by lra.
      apply lt_IZR. lra.
    - intros Hlt. apply IZR_lt in Hlt.
      apply (Rmult_lt_reg_r (IZR df)); [done|].
      unfold Rdiv. rewrite Rmult_assoc, Rinv_l by lra. lra. }
  assert (Hln : (0 <= ln (IZR N / IZR df))%R).
  { destruct (Z.eq_dec df N) as [->|Hne].
    - unfold Rdiv. rewrite Rinv_r by lra. rewrite ln_1. lra.
    - left. apply ln_pos_iff; [exact Hq|]. apply Hq1. lia. }
  split.
  - apply Rmult_le_pos; lra.
  - rewrite <- Hq1, <- (ln_pos_iff _ Hq). split.
    + intros Hts. destruct Hln as [|Hz]; [done|].
      rewrite <- Hz, Rmult_0_r in Hts. lra.
    + intros Hpos. by apply Rmult_lt_0_compat.
Qed.

(** A stored document has a query term that not every document has. *)
Lemma fold_tfidfStep st documentId Q acc :
  Layer2.reachable st ->
  let r :=
    fold_left
      (Layer2.tfidfStep st
         (int_or_zero (Layer2.documentLengths st !! documentId)) documentId)
      Q acc in
  (acc.1 <= r.1)%R
  ∧ ((acc.1 < r.1)%R
     <-> Exists
           (fun t =>
              0 < Layer2.getTermFrequency st t documentId
              ∧ Layer2.documentFrequencyOf st t < Layer2.totalDocuments st)
           Q).
Proof.
  intros Hreach. revert acc.
  induction Q as [|t Q IH]; intros acc; cbn [fold_left].
  - split; [lra|]. split; [lra|]. intros H. by apply Exists_nil in H.
  - cbn zeta in IH.
    pose proof (tfidfTermScore_sign st t documentId Hreach) as Hsign.
    change (Layer2.tfidfStep st
              (int_or_zero (Layer2.documentLengths st !! documentId))
              documentId acc t)
      with (match Layer2.tfidfTermScore st
                    (int_or_zero (Layer2.documentLengths st !! documentId))
                    t documentId with
            | Some ts => ((acc.1 + ts)%R, Layer2.setProperty t ts acc.2)
            | None => acc
            end).
    destruct (Layer2.tfidfTermScore st _ t documentId) as [ts|].
    + destruct Hsign as (Htf & Hnn & Hpos).
      destruct (IH ((acc.1 + ts)%R, Layer2.setProperty t ts acc.2)) as [IHle IHlt].
      cbn [fst] in IHle, IHlt. split; [lra|].
      rewrite Exists_cons, <- IHlt. split.
      * intros Hlt. destruct (Rlt_dec 0 ts) as [Hts|Hts]; [|right; lra].
        left. split; [exact Htf|by apply Hpos].
      * intros [[_ Hts%Hpos]|Hlt]; lra.
    + destruct (IH acc) as [IHle IHlt]. split; [exact IHle|].
      rewrite Exists_cons, <- IHlt. tauto.
Qed.

Lemma tfidfDocument_spec st Q documentId :
  Layer2.reachable st ->
  let keep :=
    Exists
      (fun t =>
         0 < Layer2.getTermFrequency st t documentId
         ∧ Layer2.documentFrequencyOf st t < Layer2.totalDocuments st)
      Q in
  (keep ->
   exists score,
     Layer2.tfidfDocument st Q documentId = [score]
     ∧ bs_documentId score = documentId
     ∧ (0 < bs_score score)%R
     ∧ is_Some (Layer2.documents st !! documentId))
  ∧ (~ keep -> Layer2.tfidfDocument st Q documentId = []).
Proof.
  intros Hreach keep.
  destruct (fold_tfidfStep st documentId Q (0%R, []) Hreach) as [Hle Hlt].
  unfold Layer2.tfidfDocument.
  destruct (fold_left _ Q _) as [total scores]. cbn [fst] in Hle, Hlt.
  fold keep in Hlt. split.
  - intros Hkeep. apply Hlt in Hkeep as Hpos.
    destruct (Rlt_dec 0 total); [|done].
    eexists. split; [reflexivity|]. repeat split; [done|].
    apply Exists_exists in Hkeep as (t & _ & Htf & _).
    unfold Layer2.getTermFrequency in Htf.
    destruct (Layer2.documents st !! documentId); [eauto|lia].
  - intros Hnot. destruct (Rlt_dec 0 total) as [Hpos|]; [|reflexivity].
    by apply Hlt in Hpos.
Qed.

Lemma calculateTFIDFScores_spec st Q ids :
  Layer2.reachable st ->
  map bs_documentId (Layer2.calculateTFIDFScores st Q ids)
  = filter
      (fun d =>
         Exists
           (fun t =>
              0 < Layer2.getTermFrequency st t d
              ∧ Layer2.documentFrequencyOf st t < Layer2.totalDocuments st)
           Q)
      ids
  ∧ Forall
      (fun score =>
         (0 < bs_score score)%R
         ∧ is_Some (Layer2.documents st !! bs_documentId score))
      (Layer2.calculateTFIDFScores st Q ids).
Proof.
  intros Hreach. unfold Layer2.calculateTFIDFScores.
  induction ids as [|d ids [IHmap IHall]]; [split; [reflexivity|constructor]|].
  cbn [flat_map]. rewrite map_app, IHmap, filter_cons.
  destruct (tfidfDocument_spec st Q d Hreach) as [Hkeep Hdrop].
  destruct (decide (Exists _ Q)) as [Hex|Hnex].
  - destruct (Hkeep Hex) as (score & -> & Hid & Hpos & Hstored).
    cbn [map app]. rewrite Hid. split; [reflexivity|].
    constructor; [|exact IHall]. by rewrite Hid.
  - rewrite (Hdrop Hnex). split; [reflexivity|exact IHall].
Qed.

Lemma mapM_tfidfMaterialize st (scores : list BM25Score) w n :
  (forall score,
      score ∈ scores -> is_Some (Layer2.documents st !! bs_documentId score)) ->
  exists results,
    mapM (Layer2.tfidfMaterialize st) scores w n = (inr results, n)
    ∧ Forall2
        (fun result score =>
           exists document,
             Layer2.documents st !! bs_documentId score = Some document
             ∧ result = Layer2.tfidfResultOf st document score)
        results scores.
Proof.
  induction scores as [|score scores IH]; intros Hstored.
  - exists []. split; [reflexivity|constructor].
  - destruct IH as (results & Hrun & Hall).
    { intros s Hs. apply Hstored. by apply list_elem_of_further. }
    destruct (Hstored score (list_elem_of_here _ _)) as [document Hd].
    exists (Layer2.tfidfResultOf st document score :: results). split.
    + cbn [mapM]. unfold bind at 1. unfold Layer2.tfidfMaterialize at 1.
      rewrite Hd. cbn [ret]. unfold bind at 1. rewrite Hrun. reflexivity.
    + constructor; [eauto|exact Hall].
Qed.

Lemma calculateTFIDF_run config st request layer1Results w n :
  Layer2.reachable st ->
  let ranked :=
    sort_desc bs_score
      (Layer2.calculateTFIDFScores st
         (Tokenizer.tokenizeAndNormalize (req_query request))
         (l1r_documentIds layer1Results)) in
  exists results,
    Layer2.calculateTFIDF config st request layer1Results w n
    = (inr {| l2r_results := results;
              l2r_totalCount := Z.of_nat (length ranked);
              l2r_executionTime := clock w (S n) - clock w n |},
       S (S n))
    ∧ Forall2
        (fun result score =>
           exists document,
             Layer2.documents st !! bs_documentId score = Some document
             ∧ result = Layer2.tfidfResultOf st document score)
        results (slice0 (maxResultsLayer2 config) ranked).
Proof.
  intros Hreach ranked. unfold Layer2.calculateTFIDF.
  destruct (Tokenizer.tokenizeAndNormalize (req_query request))
    as [|t Q] eqn:HQ.
  { assert (Hnil : forall ids,
      flat_map (Layer2.tfidfDocument st []) ids = []).
    { induction ids as [|i ids IH]; [reflexivity|].
      cbn [flat_map]. rewrite IH. unfold Layer2.tfidfDocument.
      cbn [fold_left]. destruct (Rlt_dec 0 0); [lra|reflexivity]. }
    subst ranked. unfold Layer2.calculateTFIDFScores. rewrite Hnil.
    exists []. split; [reflexivity|].
    change (sort_desc bs_score []) with (@nil BM25Score).
    rewrite slice0_nil. constructor. }
  destruct (l1r_documentIds layer1Results) as [|i ids] eqn:Hids.
  { exists []. split; [reflexivity|].
    subst ranked. cbn [Layer2.calculateTFIDFScores flat_map].
    change (sort_desc bs_score []) with (@nil BM25Score).
    rewrite slice0_nil. constructor. }
  destruct (mapM_tfidfMaterialize st
              (slice0 (maxResultsLayer2 config) ranked) w (S n))
    as (results & Hrun & Hall).
  { intros score Hscore. subst ranked.
    assert (Hin : score ∈ sort_desc bs_score
                    (Layer2.calculateTFIDFScores st (t :: Q) (i :: ids))).
    { eapply sublist_subseteq; [apply slice0_sublist|exact Hscore]. }
    rewrite sort_desc_perm in Hin.
    destruct (calculateTFIDFScores_spec st (t :: Q) (i :: ids) Hreach)
      as [_ Hstored].
    rewrite Forall_forall in Hstored. by apply Hstored. }
  exists results. split; [|exact Hall].
  cbn [length Nat.eqb orb]. unfold bind at 1. cbn [Date_now].
  unfold try_catch, bind. fold ranked. rewrite Hrun. reflexivity.
Qed.

(** X10.  In every state of stage 2 reached from the constructor,
    [calculateTFIDF] returns normally.  It ranks exactly the candidates
    that have a query token which not every document has
    ([tf > 0] and [df < N]), each with a strictly positive score, in
    decreasing order of score; the results are made, in that order and
    with these scores, from the first [maxResultsLayer2] of them, and
    the total count is the number of ranked candidates. *)
Theorem tfidf_ranking (config : Config) (st : Layer2.State)
    (request : SearchRequest) (layer1Results : Layer1Result)
    (w : World) (n : nat)
    (Hreach : Layer2.reachable st) :
  let Q := Tokenizer.tokenizeAndNormalize (req_query request) in
  let ids := l1r_documentIds layer1Results in
  exists out n' ranked,
    Layer2.calculateTFIDF config st request layer1Results w n = (inr out, n')
    ∧ Permutation (map bs_documentId ranked)
        (filter
           (fun d =>
              Exists
                (fun t =>
                   0 < Layer2.getTermFrequency st t d
                   ∧ Layer2.documentFrequencyOf st t
                     < Layer2.totalDocuments st)
                Q)
           ids)
    ∧ Forall (fun score => (0 < bs_score score)%R) ranked
    ∧ sorted_desc bs_score ranked
    ∧ Forall2
        (fun result score =>
           sr_score result = bs_score score
           ∧ exists document,
               Layer2.documents st !! bs_documentId score = Some document
               ∧ sr_id result = doc_id document)
        (l2r_results out) (slice0 (maxResultsLayer2 config) ranked)
    ∧ l2r_totalCount out = Z.of_nat (length ranked).
Proof.
  intros Q ids.
  destruct (calculateTFIDFScores_spec st Q ids Hreach) as [Hmap Hall].
  destruct (calculateTFIDF_run config st request layer1Results w n Hreach)
    as (results & Hrun & Hres).
  eexists _, _, _. split; [exact Hrun|].
  cbn [l2r_results l2r_totalCount]. fold Q ids.
  split; [|split; [|split; [|split]]].
  - rewrite <- Hmap. apply Permutation_map, sort_desc_perm.
  - rewrite sort_desc_perm.
    eapply Forall_impl; [exact Hall|]. by intros ? [? _].
  - apply sort_desc_sorted.
  - eapply Forall2_impl; [exact Hres|].
    intros result score (document & Hd & ->). split; [reflexivity|eauto].
  - reflexivity.
Qed.

Lemma tfidf_ranking_witness :
  let Q := Tokenizer.tokenizeAndNormalize (req_query (sampleRequest "machine")) in
  let ids := ["d1"; "d2"] in
  exists out n' ranked,
    Layer2.calculateTFIDF default_config corpus12 (sampleRequest "machine")
      {| l1r_documentIds := ["d1"; "d2"]; l1r_totalCount := 2;
         l1r_executionTime := 0 |}
      sampleWorld 0%nat
    = (inr out, n')
    ∧ Permutation (map bs_documentId ranked)
        (filter
           (fun d =>
              Exists
                (fun t =>
                   0 < Layer2.getTermFrequency corpus12 t d
                   ∧ Layer2.documentFrequencyOf corpus12 t
                     < Layer2.totalDocuments corpus12)
                Q)
           ids)
    ∧ Forall (fun score => (0 < bs_score score)%R) ranked
    ∧ sorted_desc bs_score ranked
    ∧ Forall2
        (fun result score =>
           sr_score result = bs_score score
           ∧ exists document,
               Layer2.documents corpus12 !! bs_documentId score
               = Some document
               ∧ sr_id result = doc_id document)
        (l2r_results out) (slice0 (maxResultsLayer2 default_config) ranked)
    ∧ l2r_totalCount out = Z.of_nat (length ranked).
Proof.
  apply (tfidf_ranking default_config corpus12 (sampleRequest "machine")
           {| l1r_documentIds := ["d1"; "d2"]; l1r_totalCount := 2;
              l1r_executionTime := 0 |} sampleWorld 0%nat).
  apply Layer2.reachable_add, Layer2.reachable_add, Layer2.reachable_init.
Defined.

(** ** Stage 3: the cosine similarity *)

Lemma dot_cons x y a b :
  Layer3.dot (x :: a) (y :: b) = (x * y + Layer3.dot a b)%R.
Proof. reflexivity. Qed.

Lemma dot_comm a b : Layer3.dot a b = Layer3.dot b a.
Proof.
  revert b. induction a as [|x a IH]; intros [|y b]; try reflexivity.
  rewrite !dot_cons, IH. ring.
Qed.

Lemma dot_self_nonneg a : (0 <= Layer3.dot a a)%R.
Proof.
  induction a as [|x a IH]; [unfold Layer3.dot; cbn; lra|].
  rewrite dot_cons. nra.
Qed.

Lemma dot_self_zero a :
  Layer3.dot a a = 0%R <-> Forall (fun x => x = 0%R) a.
Proof.
  induction a as [|x a IH]; [split; [constructor|reflexivity]|].
  rewrite dot_cons, Forall_cons. pose proof (dot_self_nonneg a).
  split.
  - intros Hz. assert (x * x = 0)%R as Hx by nra.
    assert (Layer3.dot a a = 0)%R as Ha by nra.
    split; [nra|by apply IH].
  - intros [-> Ha%IH]. rewrite Ha. ring.
Qed.

(** The inequality of Cauchy and Schwarz. *)
Lemma dot_cauchy_schwarz a b :
  (Layer3.dot a b * Layer3.dot a b
   <= Layer3.dot a a * Layer3.dot b b)%R.
Proof.
  revert b. induction a as [|x a IH]; intros [|y b].
  - unfold Layer3.dot. cbn. lra.
  - unfold Layer3.dot at 1 2 3. cbn. lra.
  - pose proof (dot_self_nonneg (x :: a)).
    unfold Layer3.dot at 1 2 4. cbn. lra.
  - rewrite !dot_cons. specialize (IH b).
    pose proof (dot_self_nonneg a) as HA.
    pose proof (dot_self_nonneg b) as HB.
    set (D := Layer3.dot a b) in *.
    set (A := Layer3.dot a a) in *.
    set (B := Layer3.dot b b) in *.
    assert (Hmix : (2 * D * x * y <= A * y * y + B * x * x)%R).
    { destruct (Req_dec_T A 0) as [HA0|HA0].
      - assert (D = 0)%R as -> by nra. rewrite HA0. nra.
      - assert (0 < A)%R as HApos by lra.
        apply (Rmult_le_reg_l A); [exact HApos|].
        pose proof (Rle_0_sqr (D * x - A * y)) as Hsq. unfold Rsqr in Hsq.
        nra. }
    nra.
Qed.

Lemma spec_cosine_comm a b :
  Layer3.spec_cosine a b = Layer3.spec_cosine b a.
Proof.
  unfold Layer3.spec_cosine. rewrite (dot_comm b a).
  destruct (decide (Layer3.dot a a = 0%R ∨ Layer3.dot b b = 0%R)) as [H|H].
  - rewrite decide_True by tauto. reflexivity.
  - rewrite decide_False by tauto. f_equal. ring.
Qed.

Lemma spec_cosine_range a b :
  (-1 <= Layer3.spec_cosine a b <= 1)%R.
Proof.
  unfold Layer3.spec_cosine.
  destruct (decide _) as [|Hnz]; [lra|].
  pose proof (dot_self_nonneg a) as HA.
  pose proof (dot_self_nonneg b) as HB.
  pose proof (dot_cauchy_schwarz a b) as HCS.
  set (D := Layer3.dot a b) in *.
  set (A := Layer3.dot a a) in *.
  set (B := Layer3.dot b b) in *.
  assert (0 < A)%R by (destruct (Req_dec_T A 0); [tauto|lra]).
  assert (0 < B)%R by (destruct (Req_dec_T B 0); [tauto|lra]).
  assert (Hs : (0 < sqrt A * sqrt B)%R).
  { apply Rmult_lt_0_compat; by apply sqrt_lt_R0. }
  assert (Hsq : (sqrt A * sqrt B * (sqrt A * sqrt B) = A * B)%R).
  { replace (sqrt A * sqrt B * (sqrt A * sqrt B))%R
      with ((sqrt A * sqrt A) * (sqrt B * sqrt B))%R by ring.
    rewrite !sqrt_sqrt by lra. reflexivity. }
  set (s := (sqrt A * sqrt B)%R) in *.
  assert (-s <= D <= s)%R as [Hlo Hhi] by nra.
  split.
  - apply (Rmult_le_reg_r s); [exact Hs|].
    unfold Rdiv. rewrite Rmult_assoc, Rinv_l by lra. lra.
  - apply (Rmult_le_reg_r s); [exact Hs|].
    unfold Rdiv. rewrite Rmult_assoc, Rinv_l by lra. lra.
Qed.

(** Without rounding, the similarity lies between -1 and 1. *)
Lemma calculateCosineSimilarity_exact_range (vectorA vectorB : list R)
    (similarity : R) :
  Layer3.calculateCosineSimilarity vectorA vectorB = inr similarity ->
  (-1 <= similarity <= 1)%R.
Proof.
  destruct (decide (length vectorA = length vectorB)) as [Hlen|Hlen].
  - rewrite (calculateCosineSimilarity_spec _ _ Hlen).
    intros [= <-]. apply spec_cosine_range.
  - unfold Layer3.calculateCosineSimilarity.
    by destruct (Nat.eqb_spec (length vectorA) (length vectorB)).
Qed.

(** Without rounding, the similarity of a vector with itself is 1,
    except for a vector whose components are all zero, for which it
    is 0. *)
Lemma calculateCosineSimilarity_exact_self (vector : list R) :
  Layer3.calculateCosineSimilarity vector vector
  = inr (if decide (Forall (fun x => x = 0%R) vector) then 0%R else 1%R).
Proof.
  rewrite calculateCosineSimilarity_spec by reflexivity. f_equal.
  unfold Layer3.spec_cosine.
  destruct (decide (Forall (fun x => x = 0%R) vector)) as [Hz|Hnz].
  - rewrite decide_True; [reflexivity|]. left. by apply dot_self_zero.
  - assert (Layer3.dot vector vector ≠ 0%R) as Hne
      by (by rewrite dot_self_zero).
    rewrite decide_False by tauto.
    rewrite sqrt_sqrt by apply dot_self_nonneg. by apply Rinv_r.
Qed.

Lemma fmul_comm {fl : Arith} (x y : R) : fmul x y = fmul y x.
Proof. unfold fmul. by rewrite Rmult_comm. Qed.

(** Swapping the two vectors swaps the two norms of the loop. *)
Lemma cosineLoop_swap {fl : Arith} (vectorA vectorB : list R)
    (dotProduct normA normB : R) :
  length vectorA = length vectorB ->
  Layer3.cosineLoop vectorB vectorA (dotProduct, normB, normA)
  = let '(d, a, b) :=
      Layer3.cosineLoop vectorA vectorB (dotProduct, normA, normB) in
    (d, b, a).
Proof.
  revert vectorB dotProduct normA normB.
  induction vectorA as [|x vectorA IH];
    intros [|y vectorB] dotProduct normA normB Hlen; try discriminate.
  - reflexivity.
  - cbn [Layer3.cosineLoop]. rewrite (fmul_comm y x).
    apply IH. by injection Hlen.
Qed.

Lemma calculateCosineSimilarity_cases {fl : Arith}
    (vectorA vectorB : list R) :
  match Layer3.calculateCosineSimilarity vectorA vectorB with
  | inl _ => length vectorA ≠ length vectorB
  | inr similarity =>
      length vectorA = length vectorB
      ∧ Layer3.calculateCosineSimilarity vectorB vectorA = inr similarity
  end.
Proof.
  unfold Layer3.calculateCosineSimilarity.
  destruct (Nat.eqb_spec (length vectorA) (length vectorB)) as [Hlen|Hlen];
    cbn [negb]; [|exact Hlen].
  rewrite <- Hlen, Nat.eqb_refl. cbn [negb].
  rewrite (cosineLoop_swap vectorA vectorB 0 0 0 Hlen).
  destruct (Layer3.cosineLoop vectorA vectorB (0%R, 0%R, 0%R))
    as [[dotProduct normA] normB].
  destruct (Req_dec_T normA 0), (Req_dec_T normB 0);
    (split; [reflexivity|]); try reflexivity.
  by rewrite fmul_comm.
Qed.

(** X11.  In every arithmetic, [calculateCosineSimilarity] throws
    exactly when the two vectors have different lengths; otherwise it
    returns a number, and the same number when the two vectors are
    swapped. *)
Theorem cosine_similarity_symmetric {fl : Arith} (vectorA vectorB : list R) :
  match Layer3.calculateCosineSimilarity vectorA vectorB with
  | inl _ => length vectorA ≠ length vectorB
  | inr similarity =>
      length vectorA = length vectorB
      ∧ Layer3.calculateCosineSimilarity vectorB vectorA = inr similarity
  end.
Proof. apply calculateCosineSimilarity_cases. Qed.

(** ** Stage 3: the searches over the whole store *)

Lemma ranked_results {A : Type} (key : A -> R) (ident : A -> string)
    (limit : Z) (l : list A) :
  let results := slice0 limit (sort_desc key l) in
  sorted_desc key results
  ∧ (NoDup (map ident l) -> NoDup (map ident results))
  ∧ (forall r, r ∈ results -> r ∈ l)
  ∧ (0 <= limit -> Z.of_nat (length results) <= limit)
  ∧ (Z.of_nat (length l) <= limit -> forall r, r ∈ l -> r ∈ results).
Proof.
  intros results. subst results.
  pose proof (sort_desc_perm key l) as Hperm.
  pose proof (slice0_sublist limit (sort_desc key l)) as Hsub.
  split; [apply sorted_desc_slice0, sort_desc_sorted|].
  split; [|split; [|split]].
  - intros Hnd. eapply sublist_NoDup; [|apply (fmap_sublist ident), Hsub].
    change (NoDup (ident <$> sort_desc key l)). by rewrite Hperm.
  - intros r Hr. rewrite <- Hperm.
    eapply sublist_subseteq; [exact Hsub|exact Hr].
  - apply slice0_length_le.
  - intros Hall r Hr. rewrite slice0_all.
    + by rewrite Hperm.
    + by rewrite sort_desc_length.
Qed.

Lemma similaritiesExcept_inr {fl : Arith} documentId sourceVector entries
    similarities :
  Layer3.similaritiesExcept documentId sourceVector entries
  = inr similarities ->
  Forall2
    (fun vr (kv : string * VectorEmbedding) =>
       vs_documentId vr = kv.1
       ∧ vs_vector vr = ve_vector kv.2
       ∧ Layer3.calculateCosineSimilarity sourceVector (ve_vector kv.2)
         = inr (vs_similarity vr))
    similarities
    (filter (fun kv : string * VectorEmbedding => kv.1 ≠ documentId) entries).
Proof.
  revert similarities.
  induction entries as [|[id embedding] entries IH]; intros similarities.
  - intros [= <-]. constructor.
  - cbn [Layer3.similaritiesExcept]. rewrite filter_cons. cbn [fst].
    destruct (decide (id = documentId)) as [->|Hne].
    + rewrite decide_False by (intros H; by apply H). apply IH.
    + rewrite decide_True by exact Hne.
      destruct (Layer3.calculateCosineSimilarity sourceVector
                  (ve_vector embedding)) as [e|similarity] eqn:Hcos;
        [discriminate|].
      destruct (Layer3.similaritiesExcept documentId sourceVector entries)
        as [e|rest]; [discriminate|].
      intros [= <-]. constructor; [|by apply IH].
      repeat split. exact Hcos.
Qed.

Lemma similaritiesExcept_inl {fl : Arith} documentId sourceVector entries e :
  Layer3.similaritiesExcept documentId sourceVector entries = inl e ->
  exists id embedding,
    (id, embedding) ∈ entries ∧ id ≠ documentId
    ∧ length (ve_vector embedding) ≠ length sourceVector.
Proof.
  revert e.
  induction entries as [|[id embedding] entries IH]; intros e;
    [discriminate|].
  cbn [Layer3.similaritiesExcept].
  destruct (decide (id = documentId)) as [->|Hne].
  - intros Hrest. destruct (IH e Hrest) as (i & em & Hin & Hi).
    exists i, em. split; [by apply list_elem_of_further|exact Hi].
  - pose proof (calculateCosineSimilarity_cases sourceVector (ve_vector embedding))
      as Hc.
    destruct (Layer3.calculateCosineSimilarity sourceVector
                (ve_vector embedding)) as [e'|s].
    + intros _. exists id, embedding.
      split; [apply list_elem_of_here|split; [exact Hne|congruence]].
    + destruct (Layer3.similaritiesExcept documentId sourceVector entries)
        as [e'|rest] eqn:Hr; [|discriminate].
      intros _. destruct (IH e' eq_refl) as (i & em & Hin & Hi).
      exists i, em. split; [by apply list_elem_of_further|exact Hi].
Qed.

(** X13.  [findSimilarDocuments] throws (a [LayerError] of stage 3)
    exactly when no vector is stored for the document, or the stored
    vector of another document has another dimension.  Otherwise it
    returns, in decreasing order of similarity, at most [limit]
    entries (for a [limit] that is not negative), each for another
    stored document, with the vector of that document and its cosine
    similarity to the vector of the source document; no document
    occurs twice, the source document never occurs, and every other
    stored document occurs when [limit] is at least the number of
    stored vectors. *)
Theorem findSimilarDocuments_spec {fl : Arith} (st : Layer3.State)
    (documentId : string) (limit : Z) :
  match Layer3.findSimilarDocuments st documentId limit with
  | inl e =>
      e = LayerError "Layer3"
      ∧ (Layer3.getEmbedding st documentId = None
         ∨ exists source id embedding,
             Layer3.getEmbedding st documentId = Some source
             ∧ id ≠ documentId
             ∧ Layer3.getEmbedding st id = Some embedding
             ∧ length (ve_vector embedding) ≠ length (ve_vector source))
  | inr results =>
      exists source,
        Layer3.getEmbedding st documentId = Some source
        ∧ sorted_desc vs_similarity results
        ∧ NoDup (map vs_documentId results)
        ∧ (forall r,
              r ∈ results ->
              vs_documentId r ≠ documentId
              ∧ exists embedding,
                  Layer3.getEmbedding st (vs_documentId r) = Some embedding
                  ∧ vs_vector r = ve_vector embedding
                  ∧ Layer3.calculateCosineSimilarity (ve_vector source)
                      (ve_vector embedding)
                    = inr (vs_similarity r))
        ∧ (0 <= limit -> Z.of_nat (length results) <= limit)
        ∧ (Z.of_nat (size (Layer3.embeddings st)) <= limit ->
           forall id,
             id ≠ documentId ->
             is_Some (Layer3.getEmbedding st id) ->
             id ∈ map vs_documentId results)
        ∧ (forall id embedding,
              id ≠ documentId ->
              Layer3.getEmbedding st id = Some embedding ->
              length (ve_vector embedding) = length (ve_vector source))
  end.
Proof.
  unfold Layer3.findSimilarDocuments, Layer3.getEmbedding.
  destruct (Layer3.embeddings st !! documentId) as [source|] eqn:Hsrc;
    [|split; [reflexivity|by left]].
  destruct (Layer3.similaritiesExcept documentId (ve_vector source)
              (map_to_list (Layer3.embeddings st)))
    as [e|similarities] eqn:Hsim.
  - split; [reflexivity|]. right.
    apply similaritiesExcept_inl in Hsim as (id & embedding & Hin & Hne & Hlen).
    apply elem_of_map_to_list in Hin. eauto 10.
  - apply similaritiesExcept_inr in Hsim.
    set (kept := filter (fun kv : string * VectorEmbedding => kv.1 ≠ documentId)
                   (map_to_list (Layer3.embeddings st))) in *.
    assert (Hids : map vs_documentId similarities = kept.*1).
    { clearbody kept. induction Hsim as [|vr kv ? ? (Hid & _) _ IH];
        [reflexivity|]. cbn [map fmap list_fmap]. by rewrite Hid, IH. }
    assert (Hnd : NoDup (map vs_documentId similarities)).
    { rewrite Hids.
      apply (sublist_NoDup _ ((map_to_list (Layer3.embeddings st)).*1));
        [apply NoDup_fst_map_to_list
        |apply (fmap_sublist fst), sublist_filter]. }
    assert (Hlen : (length similarities
                    <= size (Layer3.embeddings st))%nat).
    { rewrite <- length_map_to_list.
      rewrite (Forall2_length _ _ _ Hsim). apply length_filter. }
    destruct (ranked_results vs_similarity vs_documentId limit similarities)
      as (Hsorted & Hnodup & Hsub & Hcap & Hall).
    exists source. split; [reflexivity|]. split; [exact Hsorted|].
    split; [by apply Hnodup|]. split; [|split; [exact Hcap|split]].
    + intros r Hr%Hsub.
      apply list_elem_of_lookup in Hr as [k Hk].
      destruct (Forall2_lookup_l _ _ _ k r Hsim Hk)
        as ([id embedding] & Hkv & Hid & Hvec & Hcos).
      cbn [fst snd] in Hid, Hvec, Hcos.
      assert (Hin : (id, embedding) ∈ kept)
        by (eapply list_elem_of_lookup_2; exact Hkv).
      apply list_elem_of_filter in Hin as [Hne Hin]. cbn [fst] in Hne.
      apply elem_of_map_to_list in Hin.
      rewrite Hid. split; [exact Hne|]. exists embedding. by rewrite Hin.
    + intros Hlimit id Hne [embedding Hid].
      assert (Hin : (id, embedding) ∈ kept).
      { apply list_elem_of_filter. split; [exact Hne|].
        by apply elem_of_map_to_list. }
      assert (Hin' : id ∈ map vs_documentId similarities).
      { rewrite Hids. apply list_elem_of_fmap. by exists (id, embedding). }
      apply list_elem_of_fmap in Hin' as (r & -> & Hr).
      apply list_elem_of_fmap. exists r. split; [reflexivity|].
      apply Hall; [lia|exact Hr].
    + intros id embedding Hne Hid.
      assert (Hin : (id, embedding) ∈ kept).
      { apply list_elem_of_filter. split; [exact Hne|].
        by apply elem_of_map_to_list. }
      apply list_elem_of_lookup in Hin as [k Hk].
      destruct (Forall2_lookup_r _ _ _ k _ Hsim Hk) as (r & _ & _ & _ & Hcos).
      cbn [snd] in Hcos.
      pose proof (calculateCosineSimilarity_cases (ve_vector source)
                    (ve_vector embedding)) as Hc.
      rewrite Hcos in Hc. by destruct Hc as [-> _].
Qed.



Lemma embeddings_ensureModel model st :
  Layer3.embeddings (Layer3.ensureModel model st) = Layer3.embeddings st.
Proof.
  unfold Layer3.ensureModel. destruct (Layer3.isModelLoaded st); [reflexivity|].
  destruct (pipeline_loads model); reflexivity.
Qed.



(** ** Stage 3: the similarity matrix *)

Lemma mapE_inr {A B : Type} (f : A -> Error + B) (l : list A) r :
  mapE f l = inr r -> Forall2 (fun x y => f x = inr y) l r.
Proof.
  revert r. induction l as [|x l IH]; intros r.
  - intros [= <-]. constructor.
  - cbn [mapE]. destruct (f x) as [e|y] eqn:Hx; [discriminate|].
    destruct (mapE f l) as [e|ys]; [discriminate|].
    intros [= <-]. constructor; [exact Hx|by apply IH].
Qed.

Lemma mapE_inl {A B : Type} (f : A -> Error + B) (l : list A) e :
  mapE f l = inl e -> exists x, x ∈ l ∧ f x = inl e.
Proof.
  induction l as [|x l IH]; [discriminate|].
  cbn [mapE]. destruct (f x) as [e'|y] eqn:Hx.
  - intros [= <-]. exists x. split; [apply list_elem_of_here|exact Hx].
  - destruct (mapE f l) as [e'|ys]; [|discriminate].
    intros [= <-]. destruct (IH eq_refl) as (x' & Hin & Hx').
    exists x'. split; [by apply list_elem_of_further|exact Hx'].
Qed.

Lemma mapE_seq_lookup {B : Type} (f : nat -> Error + B) (len : nat) r :
  mapE f (seq 0 len) = inr r ->
  length r = len
  ∧ forall i y, r !! i = Some y -> (i < len)%nat ∧ f i = inr y.
Proof.
  intros Hr%mapE_inr.
  pose proof (Forall2_length _ _ _ Hr) as Hlen. rewrite length_seq in Hlen.
  split; [done|]. intros i y Hy.
  assert (Hi : (i < len)%nat).
  { apply lookup_lt_Some in Hy. lia. }
  split; [exact Hi|].
  destruct (Forall2_lookup_r _ _ _ i y Hr Hy) as (x & Hx & Hfx).
  apply lookup_seq in Hx as [-> _]. exact Hfx.
Qed.

(** X15.  [calculateSimilarityMatrix] works on the vectors of the ids
    that have a stored vector.  It throws exactly when two of these
    vectors, at different positions, have different dimensions.
    Otherwise the matrix is square, with one row and one column for
    each of these vectors; its diagonal holds 1, every other entry is
    what [calculateCosineSimilarity] returns for the two vectors of its
    position, and the matrix is symmetric.  This holds in every
    arithmetic. *)
Theorem calculateSimilarityMatrix_spec {fl : Arith} (st : Layer3.State)
    (documentIds : list string) :
  let vectors := Layer3.storedVectors st documentIds in
  match Layer3.calculateSimilarityMatrix st documentIds with
  | inl _ =>
      exists i j vi vj,
        i ≠ j ∧ vectors !! i = Some vi ∧ vectors !! j = Some vj
        ∧ length vi ≠ length vj
  | inr matrix =>
      length matrix = length vectors
      ∧ (forall i j vi vj,
            vectors !! i = Some vi -> vectors !! j = Some vj ->
            length vi = length vj)
      ∧ forall i row,
          matrix !! i = Some row ->
          length row = length vectors
          ∧ row !! i = Some 1%R
          ∧ forall j x,
              row !! j = Some x ->
              (i ≠ j ->
               exists vi vj,
                 vectors !! i = Some vi ∧ vectors !! j = Some vj
                 ∧ Layer3.calculateCosineSimilarity vi vj = inr x)
              ∧ exists row', matrix !! j = Some row' ∧ row' !! i = Some x
  end.
Proof.
  intros vectors. unfold Layer3.calculateSimilarityMatrix. fold vectors.
  set (entry := fun i j : nat =>
         if (i =? j)%nat then inr 1%R
         else Layer3.calculateCosineSimilarity (default [] (vectors !! i))
                (default [] (vectors !! j))).
  change (Layer3.matrixRow vectors)
    with (fun i => mapE (entry i) (seq 0 (length vectors))).
  destruct (mapE _ (seq 0 (length vectors))) as [e|matrix] eqn:Hm.
  - apply mapE_inl in Hm as (i & Hi & Hrow).
    apply mapE_inl in Hrow as (j & Hj & Hij).
    apply elem_of_seq in Hi, Hj. unfold entry in Hij.
    destruct (Nat.eqb_spec i j) as [|Hne]; [discriminate|].
    destruct (lookup_lt_is_Some_2 vectors i) as [vi Hvi]; [lia|].
    destruct (lookup_lt_is_Some_2 vectors j) as [vj Hvj]; [lia|].
    rewrite Hvi, Hvj in Hij. simpl in Hij.
    pose proof (calculateCosineSimilarity_cases vi vj) as Hc. rewrite Hij in Hc.
    exists i, j, vi, vj. done.
  - apply mapE_seq_lookup in Hm as [Hlen Hrows].
    split; [exact Hlen|]. split.
    { intros i j vi vj Hvi Hvj.
      destruct (decide (i = j)) as [->|Hne]; [congruence|].
      destruct (lookup_lt_is_Some_2 matrix i) as [row Hrow].
      { apply lookup_lt_Some in Hvi. lia. }
      destruct (Hrows i row Hrow) as [_ Hri].
      apply mapE_seq_lookup in Hri as [Hrlen Hcols].
      destruct (lookup_lt_is_Some_2 row j) as [x Hx].
      { apply lookup_lt_Some in Hvj. lia. }
      destruct (Hcols j x Hx) as [_ Hij]. unfold entry in Hij.
      destruct (Nat.eqb_spec i j) as [|_]; [done|].
      rewrite Hvi, Hvj in Hij. simpl in Hij.
      pose proof (calculateCosineSimilarity_cases vi vj) as Hc. rewrite Hij in Hc.
      by destruct Hc. }
    intros i row Hrow.
    destruct (Hrows i row Hrow) as [Hi Hri].
    apply mapE_seq_lookup in Hri as [Hrlen Hcols].
    split; [exact Hrlen|]. split.
    + destruct (lookup_lt_is_Some_2 row i) as [x Hx]; [lia|].
      destruct (Hcols i x Hx) as [_ Hxi]. unfold entry in Hxi.
      rewrite Nat.eqb_refl in Hxi. by injection Hxi as <-.
    + intros j x Hx. destruct (Hcols j x Hx) as [Hj Hij].
      destruct (lookup_lt_is_Some_2 matrix j) as [row' Hrow']; [lia|].
      destruct (Hrows j row' Hrow') as [_ Hrj].
      apply mapE_seq_lookup in Hrj as [Hrlen' Hcols'].
      destruct (lookup_lt_is_Some_2 row' i) as [y Hy]; [lia|].
      destruct (Hcols' i y Hy) as [_ Hji].
      unfold entry in Hij, Hji. rewrite (Nat.eqb_sym j i) in Hji.
      destruct (Nat.eqb_spec i j) as [->|Hne].
      * injection Hij as <-. injection Hji as <-.
        split; [done|]. exists row'. done.
      * pose proof (calculateCosineSimilarity_cases (default [] (vectors !! i))
                      (default [] (vectors !! j))) as Hc.
        rewrite Hij in Hc. destruct Hc as (_ & Hsym).
        split.
        -- intros _.
           destruct (lookup_lt_is_Some_2 vectors i) as [vi Hvi]; [lia|].
           destruct (lookup_lt_is_Some_2 vectors j) as [vj Hvj]; [lia|].
           exists vi, vj. rewrite Hvi, Hvj in Hij. done.
        -- exists row'. split; [exact Hrow'|]. rewrite Hy. congruence.
Qed.

(** ** Stage 3: when the re-ranking throws *)

Lemma vectorScoresOf_cases {fl : Arith} st queryEmbedding
    (results : list SearchResult) w n :
  match Layer3.vectorScoresOf st queryEmbedding results w n with
  | (inl e, n') =>
      n' = n
      ∧ exists result embedding,
          result ∈ results
          ∧ Layer3.embeddings st !! sr_id result = Some embedding
          ∧ length (ve_vector embedding) ≠ length queryEmbedding
  | (inr scores, n') =>
      n' = n
      ∧ Forall2
          (fun result vr =>
             vs_documentId vr = sr_id result
             ∧ exists embedding,
                 Layer3.embeddings st !! sr_id result = Some embedding
                 ∧ vs_vector vr = ve_vector embedding
                 ∧ Layer3.calculateCosineSimilarity queryEmbedding
                     (ve_vector embedding)
                   = inr (vs_similarity vr))
          (filter
             (fun result => is_Some (Layer3.embeddings st !! sr_id result))
             results)
          scores
      ∧ forall result embedding,
          result ∈ results ->
          Layer3.embeddings st !! sr_id result = Some embedding ->
          length (ve_vector embedding) = length queryEmbedding
  end.
Proof.
  induction results as [|result results IH].
  - cbn. split; [reflexivity|]. split; [constructor|].
    intros r e Hr. by apply elem_of_nil in Hr.
  - cbn [Layer3.vectorScoresOf]. rewrite filter_cons.
    destruct (Layer3.embeddings st !! sr_id result) as [embedding|] eqn:He.
    + rewrite decide_True by eauto.
      pose proof (calculateCosineSimilarity_cases queryEmbedding
                    (ve_vector embedding)) as Hc.
      destruct (Layer3.calculateCosineSimilarity queryEmbedding
                  (ve_vector embedding)) as [e|similarity] eqn:Hcos.
      * cbn [throw]. split; [reflexivity|].
        exists result, embedding.
        split; [apply list_elem_of_here|]. split; [exact He|congruence].
      * unfold bind.
        destruct (Layer3.vectorScoresOf st queryEmbedding results w n)
          as [[e|scores] n'].
        -- destruct IH as (-> & r & em & Hr & Hem & Hlen).
           split; [reflexivity|]. exists r, em.
           split; [by apply list_elem_of_further|done].
        -- destruct IH as (-> & Hscores & Hdim). cbn [ret].
           split; [reflexivity|]. split.
           ++ constructor; [|exact Hscores].
              split; [reflexivity|]. exists embedding. by rewrite He.
           ++ intros r em [->|Hr]%elem_of_cons Hem.
              ** destruct Hc as [Hlen _]. congruence.
              ** by apply (Hdim r).
    + rewrite decide_False by (by intros [? ?]).
      destruct (Layer3.vectorScoresOf st queryEmbedding results w n)
        as [[e|scores] n'].
      * destruct IH as (-> & r & em & Hr & Hem & Hlen).
        split; [reflexivity|]. exists r, em.
        split; [by apply list_elem_of_further|done].
      * destruct IH as (-> & Hscores & Hdim).
        split; [reflexivity|]. split; [exact Hscores|].
        intros r em [->|Hr]%elem_of_cons Hem; [congruence|].
        by apply (Hdim r).
Qed.

Lemma sorted_desc_map {A : Type} (key : A -> R) (l : list A) :
  sorted_desc key l -> sorted_desc (fun x : R => x) (map key l).
Proof.
  unfold sorted_desc. induction 1 as [|x l _ IH Hall]; [constructor|].
  cbn [map]. constructor; [exact IH|].
  apply Forall_fmap. exact Hall.
Qed.

Lemma length_combineScores {fl : Arith} bm25Results vectorResults :
  length (Layer3.combineScores bm25Results vectorResults)
  = length bm25Results.
Proof. unfold Layer3.combineScores. apply length_map. Qed.

(** X16.  In every arithmetic, [search] of stage 3 throws (a
    [LayerError] of stage 3) exactly when the model is not loaded and
    cannot be loaded (even if stage 2 passed no result), or, stage 2
    having passed results, the model gives no embedding for the query
    or the stored vector of one of these results has another dimension
    than the query embedding.  When it returns, the total count is the
    number of results that stage 2 passed, and the vector scores are,
    in decreasing order, what [calculateCosineSimilarity] returns for
    the query embedding and the stored vector of each result that has
    one (one score for each such result, none when stage 2 passed no
    result). *)
Theorem layer3_search_outcome {fl : Arith} (model : Embedder)
    (config : Config) (st : Layer3.State) (request : SearchRequest)
    (layer2Results : Layer2Result) (w : World) (n : nat) :
  let candidates := l2r_results layer2Results in
  let embedded :=
    filter (fun result => is_Some (Layer3.getEmbedding st (sr_id result)))
      candidates in
  match (Layer3.search model config st request layer2Results w n).1 with
  | inl e =>
      e = LayerError "Layer3"
      ∧ ((Layer3.isModelLoaded st = false ∧ pipeline_loads model = false)
         ∨ (candidates ≠ []
            ∧ (embed model (req_query request) = None
               ∨ exists queryEmbedding result embedding,
                   embed model (req_query request) = Some queryEmbedding
                   ∧ result ∈ candidates
                   ∧ Layer3.getEmbedding st (sr_id result) = Some embedding
                   ∧ length (ve_vector embedding) ≠ length queryEmbedding)))
  | inr out =>
      (Layer3.isModelLoaded st = true ∨ pipeline_loads model = true)
      ∧ l3r_totalCount out = Z.of_nat (length candidates)
      ∧ sorted_desc (fun x : R => x) (l3r_vectorScores out)
      ∧ length (l3r_vectorScores out) = length embedded
      ∧ (candidates ≠ [] ->
         exists queryEmbedding similarities,
           embed model (req_query request) = Some queryEmbedding
           ∧ (forall result embedding,
                 result ∈ candidates ->
                 Layer3.getEmbedding st (sr_id result) = Some embedding ->
                 length (ve_vector embedding) = length queryEmbedding)
           ∧ Forall2
               (fun result similarity =>
                  exists embedding,
                    Layer3.getEmbedding st (sr_id result) = Some embedding
                    ∧ Layer3.calculateCosineSimilarity queryEmbedding
                        (ve_vector embedding)
                      = inr similarity)
               embedded similarities
           ∧ Permutation (l3r_vectorScores out) similarities)
  end.
Proof.
  intros candidates embedded. subst embedded.
  unfold Layer3.search, Layer3.getEmbedding.
  unfold bind at 1. cbn [Date_now]. unfold try_catch.
  subst candidates.
  remember (l2r_results layer2Results) as candidates eqn:Hcand. clear Hcand.
  set (embedded :=
         filter (fun result => is_Some (Layer3.embeddings st !! sr_id result))
           candidates).
  assert (Hrun : forall st1,
    Layer3.isModelLoaded st1 = true ->
    Layer3.embeddings st1 = Layer3.embeddings st ->
    match
      (match
         (if (length candidates =? 0)%nat
          then
            now <- Date_now ;;
            ret {| l3r_results := []; l3r_totalCount := 0;
                   l3r_executionTime := now - clock w n;
                   l3r_vectorScores := [] |}
          else
            queryEmbedding <-
              Layer3.createEmbedding model st1 (req_query request) ;;
            scores <- Layer3.vectorScoresOf st1 queryEmbedding candidates ;;
            let vectorScores := sort_desc vs_similarity scores in
            let combinedResults :=
              sort_desc sr_score
                (Layer3.combineScores candidates vectorScores) in
            let limitedResults :=
              slice0 (maxResultsLayer3 config) combinedResults in
            now <- Date_now ;;
            ret {| l3r_results := limitedResults;
                   l3r_totalCount := Z.of_nat (length combinedResults);
                   l3r_executionTime := now - clock w n;
                   l3r_vectorScores := map vs_similarity vectorScores |})
           w (S n)
       with
       | (inr a, n') => (inr a, n')
       | (inl _, n') => (inl (LayerError "Layer3"), n')
       end).1
    with
    | inl e =>
        e = LayerError "Layer3"
        ∧ (candidates ≠ []
           ∧ (embed model (req_query request) = None
              ∨ exists queryEmbedding result embedding,
                  embed model (req_query request) = Some queryEmbedding
                  ∧ result ∈ candidates
                  ∧ Layer3.embeddings st !! sr_id result = Some embedding
                  ∧ length (ve_vector embedding) ≠ length queryEmbedding))
    | inr out =>
        l3r_totalCount out = Z.of_nat (length candidates)
        ∧ sorted_desc (fun x : R => x) (l3r_vectorScores out)
        ∧ length (l3r_vectorScores out) = length embedded
        ∧ (candidates ≠ [] ->
           exists queryEmbedding similarities,
             embed model (req_query request) = Some queryEmbedding
             ∧ (forall result embedding,
                   result ∈ candidates ->
                   Layer3.embeddings st !! sr_id result = Some embedding ->
                   length (ve_vector embedding) = length queryEmbedding)
             ∧ Forall2
                 (fun result similarity =>
                    exists embedding,
                      Layer3.embeddings st !! sr_id result = Some embedding
                      ∧ Layer3.calculateCosineSimilarity queryEmbedding
                          (ve_vector embedding)
                        = inr similarity)
                 embedded similarities
             ∧ Permutation (l3r_vectorScores out) similarities)
    end).
  { intros st1 Hloaded1 Hstore.
    destruct (decide (candidates = [])) as [Hnil|Hne].
    { subst embedded. rewrite Hnil. cbn.
      split; [reflexivity|]. split; [constructor|]. split; [reflexivity|].
      done. }
    replace (length candidates =? 0)%nat with false
      by (by destruct candidates).
    unfold bind at 1. unfold Layer3.createEmbedding.
    rewrite Hloaded1. cbn [negb].
    destruct (embed model (req_query request)) as [queryEmbedding|]
      eqn:Hembed; [|cbn [throw fst]; split; [reflexivity|]; split;
                     [exact Hne|by left]].
    cbn [ret]. unfold bind at 1.
    pose proof (vectorScoresOf_cases st1 queryEmbedding candidates w (S n))
      as Hscores.
    rewrite Hstore in Hscores. fold embedded in Hscores.
    destruct (Layer3.vectorScoresOf st1 queryEmbedding candidates w (S n))
      as [[e|scores] n'].
    - destruct Hscores as (_ & r & em & Hr & Hem & Hlen). cbn [fst].
      split; [reflexivity|]. split; [exact Hne|]. right.
      exists queryEmbedding, r, em. done.
    - destruct Hscores as (-> & Hall & Hdim).
      unfold bind. cbn [Date_now ret fst l3r_totalCount l3r_vectorScores].
      split; [by rewrite sort_desc_length, length_combineScores|].
      split; [apply sorted_desc_map, sort_desc_sorted|].
      split.
      { rewrite length_map, sort_desc_length.
        symmetry. eapply Forall2_length, Hall. }
      intros _. exists queryEmbedding, (map vs_similarity scores).
      split; [reflexivity|]. split; [exact Hdim|]. split.
      + apply Forall2_fmap_r. eapply Forall2_impl; [exact Hall|].
        intros result vr (_ & embedding & Hem & _ & Hcos).
        exists embedding. done.
      + apply Permutation_map, sort_desc_perm. }
  destruct (Layer3.isModelLoaded st) eqn:Hloaded.
  - unfold bind at 1. cbn [ret].
    specialize (Hrun (Layer3.ensureModel model st)).
    destruct (_.1) as [e|out].
    + destruct Hrun as [-> Hcause];
        [unfold Layer3.ensureModel; by rewrite Hloaded
        |apply embeddings_ensureModel|].
      split; [reflexivity|by right].
    + split; [by left|]. apply Hrun;
        [unfold Layer3.ensureModel; by rewrite Hloaded
        |apply embeddings_ensureModel].
  - unfold Layer3.initializeModel.
    destruct (pipeline_loads model) eqn:Hpipe.
    + unfold bind at 1. cbn [ret].
      specialize (Hrun (Layer3.ensureModel model st)).
      destruct (_.1) as [e|out].
      * destruct Hrun as [-> Hcause];
          [unfold Layer3.ensureModel; by rewrite Hloaded, Hpipe
          |apply embeddings_ensureModel|].
        split; [reflexivity|by right].
      * split; [by right|]. apply Hrun;
          [unfold Layer3.ensureModel; by rewrite Hloaded, Hpipe
          |apply embeddings_ensureModel].
    + unfold bind at 1. cbn [throw fst]. split; [reflexivity|by left].
Qed.

(** ** Stage 3: storing and removing a vector *)

(** X17.  When [addDocument] of stage 3 returns, the model gave a
    vector for the text of the document (title, a space, content);
    [getEmbedding] then finds that vector under the id of the document,
    the entries of the other ids are as before, and [removeEmbedding]
    on the id returns [true] and leaves no entry under it.  When
    [addDocument] throws (a [LayerError] of stage 3), the store is as
    before. *)
Theorem embedding_round_trip (model : Embedder) (document : Document)
    (st : Layer3.State) :
  let r := Layer3.addDocument model document st in
  match r.2 with
  | inr _ =>
      exists vector embedding,
        embed model (doc_title document +:+ " " +:+ doc_content document)
        = Some vector
        ∧ Layer3.getEmbedding r.1 (doc_id document) = Some embedding
        ∧ ve_documentId embedding = doc_id document
        ∧ ve_vector embedding = vector
        ∧ (forall id,
              id ≠ doc_id document ->
              Layer3.getEmbedding r.1 id = Layer3.getEmbedding st id)
        ∧ (Layer3.removeEmbedding (doc_id document) r.1).1 = true
        ∧ Layer3.getEmbedding
            (Layer3.removeEmbedding (doc_id document) r.1).2
            (doc_id document)
          = None
  | inl e =>
      e = LayerError "Layer3"
      ∧ forall id, Layer3.getEmbedding r.1 id = Layer3.getEmbedding st id
  end.
Proof.
  cbn zeta. unfold Layer3.addDocument, Layer3.getEmbedding.
  destruct (negb (Layer3.isModelLoaded (Layer3.ensureModel model st))).
  { cbn [fst snd]. split; [reflexivity|]. intros id.
    by rewrite embeddings_ensureModel. }
  destruct (embed model (doc_title document +:+ " " +:+ doc_content document))
    as [vector|].
  - cbn [fst snd Layer3.embeddings Layer3.removeEmbedding].
    eexists vector, _. split; [reflexivity|].
    rewrite lookup_insert_eq. split; [reflexivity|].
    split; [reflexivity|]. split; [reflexivity|]. split.
    + intros id Hne. rewrite lookup_insert_ne by congruence.
      by rewrite embeddings_ensureModel.
    + split.
      * apply bool_decide_eq_true. eauto.
      * apply lookup_delete_eq.
  - cbn [fst snd]. split; [reflexivity|]. intros id.
    by rewrite embeddings_ensureModel.
Qed.

(** ** Stage 4: the temporal boost *)

(** The conversion to a property key throws nothing but a
    [TypeError]. *)
Lemma propertyKey_error (v : JsValue) (e : Error) :
  Layer4.propertyKey v = inl e -> e = JsError.
Proof.
  revert v e. fix IH 1.
  intros [| |b|x|s|ms|xs|fields] e; cbn [Layer4.propertyKey];
    try discriminate.
  - induction xs as [|x rest IHrest]; [discriminate|].
    assert (Hfirst : forall e',
      match x with
      | JsUndefined | JsNull => inr (Some "")
      | _ => Layer4.propertyKey x
      end = inl e' -> e' = JsError).
    { pose proof (IH x) as Hx. intros e'.
      destruct x; try discriminate; apply Hx. }
    destruct rest as [|y rest]; [apply Hfirst|].
    destruct (match x with
              | JsUndefined | JsNull => inr (Some "")
              | _ => Layer4.propertyKey x
              end) as [e1|k1] eqn:Hx.
    + intros [= <-]. by apply Hfirst.
    + destruct ((fix join (xs : list JsValue) : Error + option string :=
                   match xs with
                   | [] => inr (Some "")
                   | x :: rest =>
                       let first :=
                         match x with
                         | JsUndefined | JsNull => inr (Some "")
                         | _ => Layer4.propertyKey x
                         end in
                       match rest with
                       | [] => first
                       | _ :: _ =>
                           match first, join rest with
                           | inl e, _ => inl e
                           | inr _, inl e => inl e
                           | inr _, inr _ => inr None
                           end
                       end
                   end) (y :: rest)) as [e2|k2] eqn:Hrest; [|discriminate].
      intros [= <-]. by apply IHrest.
  - destruct (bool_decide _); [|discriminate]. by intros [= <-].
Qed.

Lemma tableBoost_cases table category value boost :
  match Layer4.tableBoost table category value boost with
  | inl e => e = JsError ∧ Layer4.keyThrows category
  | inr x => (x = boost ∨ x = 0%R) ∧ ¬ Layer4.keyThrows category
  end.
Proof.
  unfold Layer4.tableBoost, Layer4.keyThrows.
  destruct (Layer4.propertyKey category) as [e|[c|]] eqn:Hkey.
  - split; [by apply (propertyKey_error category)|done].
  - destruct (bool_decide (c ∈ Layer4.prototypeKeys)) eqn:Hc.
    + apply bool_decide_eq_true in Hc. done.
    + apply bool_decide_eq_false in Hc.
      split; [|exact Hc].
      destruct (bool_decide (value ∈ _)); [left|right]; reflexivity.
  - split; [by right|tauto].
Qed.

Lemma calculateRecencyBoost_cases createdAt now :
  match Layer4.calculateRecencyBoost createdAt now with
  | inl e => e = JsError ∧ forall ms, createdAt ≠ JsDate ms
  | inr x => (0 <= x <= 0.1)%R
  end.
Proof.
  unfold Layer4.calculateRecencyBoost. destruct createdAt; try done.
  repeat destruct (Rlt_dec _ _); lra.
Qed.

(** Values that are converted before they name an entry: the array
    that holds one string names what the string names. *)
Example tableBoost_array_of_one :
  Layer4.calculateTimeOfDayBoost (JsArr [JsStr "news"]) 7 = inr 0.05%R
  ∧ Layer4.calculateTimeOfDayBoost (JsArr [JsStr "constructor"]) 7
    = inl JsError
  ∧ Layer4.calculateTimeOfDayBoost (JsObj [("toString", JsNull)]) 7
    = inl JsError
  ∧ Layer4.calculateTimeOfDayBoost (JsObj [("name", JsStr "news")]) 7
    = inr 0%R
  ∧ Layer4.calculateTimeOfDayBoost (JsArr [JsStr "news"; JsStr "work"]) 7
    = inr 0%R.
Proof.
  unfold Layer4.calculateTimeOfDayBoost, Layer4.tableBoost.
  cbn [Layer4.propertyKey].
  repeat split; vm_compute; reflexivity.
Qed.

(** X18.  The temporal boost of a result throws exactly when the
    category of the result is truthy and names, once converted to a
    property key, a property that every object inherits
    ([constructor], [toString], ...; so the string ["constructor"] and
    the array that holds it) or cannot be converted (an object with an
    own property [toString]), or when the result carries a [createdAt]
    that is truthy and not a date.  Otherwise it lies between 0 and
    0.18 (0.05 for the hour, 0.03 for the day, 0.1 for recency). *)
Theorem temporal_boost_range (hour dayOfWeek now : Z)
    (result : SearchResult) :
  let category := meta_get (sr_metadata result) "category" in
  let createdAt := meta_get (sr_metadata result) "createdAt" in
  match Layer4.temporalBoostOf hour dayOfWeek now result with
  | inl e =>
      e = JsError
      ∧ ((truthy category = true ∧ Layer4.keyThrows category)
         ∨ (truthy createdAt = true ∧ forall ms, createdAt ≠ JsDate ms))
  | inr boost =>
      (0 <= boost <= 0.18)%R
      ∧ ¬ (truthy category = true ∧ Layer4.keyThrows category)
      ∧ (truthy createdAt = true -> exists ms, createdAt = JsDate ms)
  end.
Proof.
  cbn zeta. unfold Layer4.temporalBoostOf.
  unfold Layer4.calculateTimeOfDayBoost, Layer4.calculateDayOfWeekBoost.
  set (category := meta_get (sr_metadata result) "category").
  set (createdAt := meta_get (sr_metadata result) "createdAt").
  pose proof (tableBoost_cases Layer4.timePreferences category hour 0.05)
    as Htime.
  pose proof (tableBoost_cases Layer4.dayPreferences category dayOfWeek 0.03)
    as Hday.
  pose proof (calculateRecencyBoost_cases createdAt now) as Hrecency.
  assert (Hdate : forall x,
    Layer4.calculateRecencyBoost createdAt now = inr x ->
    exists ms, createdAt = JsDate ms).
  { unfold Layer4.calculateRecencyBoost. destruct createdAt; try done.
    eauto. }
  destruct (truthy category) eqn:Hcat.
  - destruct (Layer4.tableBoost Layer4.timePreferences category hour 0.05)
      as [e|timeBoost] eqn:Ht.
    { destruct Htime as [-> Hproto]. split; [reflexivity|by left]. }
    destruct (Layer4.tableBoost Layer4.dayPreferences category dayOfWeek 0.03)
      as [e|dayBoost].
    { destruct Hday as [-> Hproto]. split; [reflexivity|by left]. }
    destruct Htime as [Htime Hok], Hday as [Hday _].
    destruct (truthy createdAt) eqn:Hcr.
    + destruct (Layer4.calculateRecencyBoost createdAt now)
        as [e|recencyBoost] eqn:Hr.
      { destruct Hrecency as [-> Hnd]. split; [reflexivity|by right]. }
      split; [destruct Htime, Hday; lra|]. split; [tauto|].
      intros _. by apply (Hdate recencyBoost).
    + split; [destruct Htime, Hday; lra|]. split; [tauto|done].
  - destruct (truthy createdAt) eqn:Hcr.
    + destruct (Layer4.calculateRecencyBoost createdAt now)
        as [e|recencyBoost] eqn:Hr.
      { destruct Hrecency as [-> Hnd]. split; [reflexivity|by right]. }
      split; [lra|]. split; [by intros [? _]|].
      intros _. by apply (Hdate recencyBoost).
    + split; [lra|]. split; [by intros [? _]|done].
Qed.

(** ** Stage 4: a creation time that is not a date *)

Lemma mapM_inr_inv {A B : Type} (f : A -> M B) (l : list A) w n ys n' :
  mapM f l w n = (inr ys, n') ->
  Forall2 (fun x y => exists k k', f x w k = (inr y, k')) l ys.
Proof.
  revert n ys n'. induction l as [|x l IH]; intros n ys n' Hrun.
  - injection Hrun as <- _. by apply Forall2_nil.
  - cbn [mapM] in Hrun. unfold bind at 1 in Hrun.
    destruct (f x w n) as [[e|y] n1] eqn:Hx; [discriminate Hrun|].
    unfold bind at 1 in Hrun.
    destruct (mapM f l w n1) as [[e|ys'] n2] eqn:Hl; [discriminate Hrun|].
    injection Hrun as <- _. apply Forall2_cons.
    split; [eauto|by eapply IH].
Qed.

Lemma mapM_throws {A B : Type} (f : A -> M B) (l : list A) w n x :
  x ∈ l ->
  (forall k, exists e k', f x w k = (inl e, k')) ->
  exists e n', mapM f l w n = (inl e, n').
Proof.
  intros Hin Hx. revert n.
  induction l as [|a l IH]; intros n; [by apply elem_of_nil in Hin|].
  cbn [mapM]. unfold bind at 1.
  destruct (f a w n) as [[e|y] n1] eqn:Ha; [eauto|].
  apply elem_of_cons in Hin as [->|Hin].
  - destruct (Hx n) as (e & k' & He). congruence.
  - unfold bind at 1. destruct (IH Hin n1) as (e & n2 & ->). eauto.
Qed.

Lemma Forall2_same_field_elem {A : Type} (field : A -> JsValue)
    (l l' : list A) x :
  Forall2 (fun a a' => field a' = field a) l l' ->
  x ∈ l -> exists x', x' ∈ l' ∧ field x' = field x.
Proof.
  induction 1 as [|a a' l l' Ha _ IH]; [by intros ?%elem_of_nil|].
  intros [->|Hin]%elem_of_cons.
  - exists a'. split; [apply list_elem_of_here|exact Ha].
  - destruct (IH Hin) as (x' & Hx' & Hf).
    exists x'. split; [by apply list_elem_of_further|exact Hf].
Qed.

Lemma boosted_phase_createdAt (rule : SearchResult -> Error + R)
    (weight : R) (boostKey relevanceKey : string)
    (results results' : list SearchResult) w n n' :
  "createdAt" ≠ boostKey -> "createdAt" ≠ relevanceKey ->
  mapM
    (fun result =>
       boost <- Layer4.lift (rule result) ;;
       ret (Layer4.boosted result boost weight boostKey relevanceKey))
    results w n
  = (inr results', n') ->
  Forall2
    (fun r r' =>
       meta_get (sr_metadata r') "createdAt"
       = meta_get (sr_metadata r) "createdAt")
    results results'.
Proof.
  intros H1 H2 Hrun. apply mapM_inr_inv in Hrun.
  eapply Forall2_impl; [exact Hrun|].
  intros r r' (k & k' & Hr). unfold bind in Hr.
  destruct (rule r) as [e|x]; cbn [Layer4.lift throw ret] in Hr;
    [discriminate|].
  injection Hr as <- _. by apply meta_get_boosted.
Qed.

Lemma temporalStep_createdAt_throws st hour dayOfWeek result w n :
  truthy (meta_get (sr_metadata result) "createdAt") = true ->
  (forall ms, meta_get (sr_metadata result) "createdAt" ≠ JsDate ms) ->
  exists e n', Layer4.temporalStep st hour dayOfWeek result w n = (inl e, n').
Proof.
  intros Htruthy Hnodate. unfold Layer4.temporalStep. rewrite Htruthy.
  unfold bind at 1.
  destruct ((if truthy (meta_get (sr_metadata result) "category")
             then Layer4.lift _ else ret 0%R) w n) as [[e|timeBoost] n1];
    [eauto|].
  unfold bind at 1.
  destruct ((if truthy (meta_get (sr_metadata result) "category")
             then Layer4.lift _ else ret 0%R) w n1) as [[e|dayBoost] n2];
    [eauto|].
  unfold bind at 1. unfold bind at 1. cbn [Date_now].
  destruct (Layer4.calculateRecencyBoost _ (clock w n2)) as [e|x] eqn:Hrec.
  - cbn [Layer4.lift throw]. eauto.
  - exfalso. unfold Layer4.calculateRecencyBoost in Hrec.
    destruct (meta_get (sr_metadata result) "createdAt") eqn:Hc;
      try discriminate Hrec.
    by eapply Hnodate.
Qed.

Lemma Forall2_same_refl {A : Type} (field : A -> JsValue) (l : list A) :
  Forall2 (fun a a' => field a' = field a) l l.
Proof. apply Forall_Forall2_diag, Forall_forall. reflexivity. Qed.

Lemma applyUserPersonalization_createdAt userBoostOf st userId results
    results' w n n' :
  Layer4.applyUserPersonalization userBoostOf st userId results w n
  = (inr results', n') ->
  Forall2
    (fun r r' =>
       meta_get (sr_metadata r') "createdAt"
       = meta_get (sr_metadata r) "createdAt")
    results results'.
Proof.
  unfold Layer4.applyUserPersonalization.
  destruct (Layer4.getUserProfile st userId) as [profile|].
  - by apply boosted_phase_createdAt.
  - intros [= <- _]. apply Forall2_same_refl.
Qed.

Lemma applyContextualPersonalization_createdAt contextBoostOf st results
    context results' w n n' :
  Layer4.applyContextualPersonalization contextBoostOf st results context
    w n
  = (inr results', n') ->
  Forall2
    (fun r r' =>
       meta_get (sr_metadata r') "createdAt"
       = meta_get (sr_metadata r) "createdAt")
    results results'.
Proof.
  unfold Layer4.applyContextualPersonalization.
  by apply boosted_phase_createdAt.
Qed.

(** X19.  When one of the results that stage 3 passes carries, in its
    metadata, a [createdAt] that is truthy and not a date (a string
    such as a JSON document holds, a number), [personalize] throws a
    [LayerError] of stage 4, whatever the request and the other
    results: the recency rule calls [getTime] on the value. *)
Theorem personalize_createdAt_not_date (config : Config)
    (userBoostOf : Layer4.UserProfile -> SearchResult -> Error + R)
    (contextBoostOf : SearchContext -> SearchResult -> Error + R)
    (st : Layer4.State) (request : SearchRequest)
    (layer3Results : Layer3Result) (w : World) (n : nat)
    (result : SearchResult)
    (Hin : result ∈ l3r_results layer3Results)
    (Htruthy : truthy (meta_get (sr_metadata result) "createdAt") = true)
    (Hnodate : forall ms,
        meta_get (sr_metadata result) "createdAt" ≠ JsDate ms) :
  exists n',
    Layer4.personalize config userBoostOf contextBoostOf st request
      layer3Results w n
    = (inl (LayerError "Layer4"), n').
Proof.
  unfold Layer4.personalize. unfold bind at 1. cbn [Date_now].
  unfold try_catch.
  destruct (l3r_results layer3Results) as [|r0 rs] eqn:Hresults;
    [by apply elem_of_nil in Hin|].
  cbn [length Nat.eqb]. rewrite <- Hresults in *. clear Hresults r0 rs.
  unfold bind at 1.
  destruct ((match req_userId request with
             | Some userId =>
                 if truthy_str (Some userId)
                 then Layer4.applyUserPersonalization userBoostOf st userId
                        (l3r_results layer3Results)
                 else ret (l3r_results layer3Results)
             | None => ret (l3r_results layer3Results)
             end) w (S n)) as [[e|rs1] n1] eqn:Hphase1; [eauto|].
  assert (Hsame1 : Forall2
            (fun r r' =>
               meta_get (sr_metadata r') "createdAt"
               = meta_get (sr_metadata r) "createdAt")
            (l3r_results layer3Results) rs1).
  { destruct (req_userId request) as [userId|].
    - destruct (truthy_str (Some userId)).
      + by eapply applyUserPersonalization_createdAt.
      + injection Hphase1 as <- _. apply Forall2_same_refl.
    - injection Hphase1 as <- _. apply Forall2_same_refl. }
  unfold bind at 1.
  destruct ((match req_context request with
             | Some context =>
                 Layer4.applyContextualPersonalization contextBoostOf st
                   rs1 context
             | None => ret rs1
             end) w n1) as [[e|rs2] n2] eqn:Hphase2; [eauto|].
  assert (Hsame2 : Forall2
            (fun r r' =>
               meta_get (sr_metadata r') "createdAt"
               = meta_get (sr_metadata r) "createdAt")
            rs1 rs2).
  { destruct (req_context request) as [context|].
    - by eapply applyContextualPersonalization_createdAt.
    - injection Hphase2 as <- _. apply Forall2_same_refl. }
  destruct (Forall2_same_field_elem
              (fun r => meta_get (sr_metadata r) "createdAt")
              _ _ result Hsame1 Hin) as (r1 & Hr1 & Hf1).
  destruct (Forall2_same_field_elem
              (fun r => meta_get (sr_metadata r) "createdAt")
              _ _ r1 Hsame2 Hr1) as (r2 & Hr2 & Hf2).
  cbn beta in Hf1, Hf2.
  unfold bind at 1. unfold Layer4.applyTemporalPersonalization.
  unfold bind at 1. cbn [Date_now]. unfold bind at 1.
  cbn [Layer4.getWorld].
  destruct (mapM_throws
              (Layer4.temporalStep st (getHours w (clock w n2))
                 (getDay w (clock w n2)))
              rs2 w (S n2) r2 Hr2) as (e & n3 & ->); [|eauto].
  intros k. apply temporalStep_createdAt_throws.
  - by rewrite Hf2, Hf1.
  - intros ms. rewrite Hf2, Hf1. apply Hnodate.
Qed.

Lemma personalize_createdAt_not_date_witness :
  exists n',
    Layer4.personalize default_config noUserBoost noContextBoost
      (Layer4.init default_config) (sampleRequest "learning")
      {| l3r_results :=
           [ {| sr_id := "d1"; sr_title := "Machine Learning";
                sr_content := ""; sr_url := None; sr_score := 1;
                sr_metadata := {[ "createdAt" := JsStr "2024-01-01" ]} |} ];
         l3r_totalCount := 1; l3r_executionTime := 0;
         l3r_vectorScores := [] |}
      sampleWorld 0%nat
    = (inl (LayerError "Layer4"), n').
Proof.
  apply (personalize_createdAt_not_date default_config noUserBoost
           noContextBoost (Layer4.init default_config)
           (sampleRequest "learning") _ sampleWorld 0%nat
           {| sr_id := "d1"; sr_title := "Machine Learning";
              sr_content := ""; sr_url := None; sr_score := 1;
              sr_metadata := {[ "createdAt" := JsStr "2024-01-01" ]} |}).
  - apply list_elem_of_here.
  - vm_compute. reflexivity.
  - intros ms. vm_compute. discriminate.
Defined.

(** ** Stage 4: the user profiles *)

Lemma updateUserProfile_run st userId profile w n :
  Layer4.updateUserProfile st userId profile w n
  = (inr {| Layer4.userProfiles :=
              <[userId :=
                  Layer4.spreadProfile
                    (default (Layer4.blankProfile userId (clock w n))
                       (Layer4.getUserProfile st userId))
                    profile]> (Layer4.userProfiles st);
            Layer4.contextWeights := Layer4.contextWeights st |},
     S n).
Proof. reflexivity. Qed.

(** X20.  [updateUserProfile] reads the clock once and always returns.
    Afterwards a profile is stored under the user id, and the profiles
    of the other users are as before.  Each top-level property of the
    stored profile is the one the update gives, if it gives one, and
    otherwise the one of the profile stored before; only when no
    profile was stored before, the properties that the update leaves
    out are empty and [lastUpdated] is the time of the call.  So the
    [lastUpdated] of an existing profile changes only when the update
    gives one. *)
Theorem updateUserProfile_spec (st : Layer4.State) (userId : string)
    (profile : Layer4.ProfileUpdate) (w : World) (n : nat) :
  exists st' stored,
    Layer4.updateUserProfile st userId profile w n = (inr st', S n)
    ∧ Layer4.getUserProfile st' userId = Some stored
    ∧ (forall other,
          other ≠ userId ->
          Layer4.getUserProfile st' other = Layer4.getUserProfile st other)
    ∧ Layer4.contextWeights st' = Layer4.contextWeights st
    ∧ Layer4.up_lastUpdated stored
      = match Layer4.pu_lastUpdated profile,
              Layer4.getUserProfile st userId with
        | Some given, _ => given
        | None, Some existing => Layer4.up_lastUpdated existing
        | None, None => clock w n
        end
    ∧ Layer4.up_userId stored
      = match Layer4.pu_userId profile, Layer4.getUserProfile st userId with
        | Some given, _ => given
        | None, Some existing => Layer4.up_userId existing
        | None, None => userId
        end
    ∧ (Layer4.up_clickHistory stored, Layer4.up_searchHistory stored,
       Layer4.up_timeSpent stored)
      = match Layer4.pu_behavior profile,
              Layer4.getUserProfile st userId with
        | Some given, _ => given
        | None, Some existing =>
            (Layer4.up_clickHistory existing,
             Layer4.up_searchHistory existing, Layer4.up_timeSpent existing)
        | None, None => ([], [], ∅)
        end
    ∧ (Layer4.up_categories stored, Layer4.up_languages stored,
       Layer4.up_topics stored)
      = match Layer4.pu_preferences profile,
              Layer4.getUserProfile st userId with
        | Some given, _ => given
        | None, Some existing =>
            (Layer4.up_categories existing, Layer4.up_languages existing,
             Layer4.up_topics existing)
        | None, None => ([], [], [])
        end.
Proof.
  eexists _, _. split; [apply updateUserProfile_run|].
  unfold Layer4.getUserProfile. cbn [Layer4.userProfiles].
  split; [apply lookup_insert_eq|]. split.
  { intros other Hne. by apply lookup_insert_ne. }
  split; [reflexivity|].
  destruct profile as [uid prefs beh demo last].
  cbn [Layer4.spreadProfile Layer4.pu_lastUpdated Layer4.pu_userId
       Layer4.pu_behavior Layer4.pu_preferences Layer4.up_lastUpdated
       Layer4.up_userId Layer4.up_clickHistory Layer4.up_searchHistory
       Layer4.up_timeSpent Layer4.up_categories Layer4.up_languages
       Layer4.up_topics].
  destruct (Layer4.userProfiles st !! userId) as [existing|];
    destruct uid, last, beh as [[[? ?] ?]|], prefs as [[[? ?] ?]|];
    repeat split.
Qed.

Lemma lastN_length {A : Type} (k : nat) (l : list A) :
  length (Layer4.lastN k l) = Nat.min k (length l).
Proof. unfold Layer4.lastN. rewrite length_drop. lia. Qed.

Lemma lastN_last {A : Type} (k : nat) (l : list A) x :
  (0 < k)%nat -> last (Layer4.lastN k (l ++ [x])) = Some x.
Proof.
  intros Hk. unfold Layer4.lastN. rewrite length_app. cbn [length].
  rewrite drop_app_le by lia. apply last_snoc.
Qed.

Lemma spreadProfile_asUpdate base profile :
  Layer4.spreadProfile base (Layer4.asUpdate profile) = profile.
Proof. by destruct profile. Qed.

Lemma recordUserBehavior_run st userId action w n :
  let existing := Layer4.getUserProfile st userId in
  let n1 := match existing with Some _ => n | None => S n end in
  let profile :=
    default
      (Layer4.spreadProfile (Layer4.blankProfile userId (clock w n))
         {| Layer4.pu_userId := Some userId;
            Layer4.pu_preferences := Some ([], [], []);
            Layer4.pu_behavior := Some ([], [], ∅);
            Layer4.pu_demographics := None;
            Layer4.pu_lastUpdated := None |})
      existing in
  Layer4.recordUserBehavior st userId action w n
  = (inr {| Layer4.userProfiles :=
              <[userId := Layer4.recordOn profile action]>
                (Layer4.userProfiles st);
            Layer4.contextWeights := Layer4.contextWeights st |},
     S n1).
Proof.
  cbn zeta. unfold Layer4.recordUserBehavior.
  destruct (Layer4.getUserProfile st userId) as [existing|] eqn:He.
  - unfold bind at 1. cbn [ret]. rewrite He.
    rewrite updateUserProfile_run. unfold Layer4.getUserProfile.
    cbn [Layer4.userProfiles Layer4.contextWeights default].
    rewrite spreadProfile_asUpdate, insert_insert_eq. reflexivity.
  - unfold bind at 1. rewrite updateUserProfile_run.
    unfold Layer4.getUserProfile at 1.
    cbn [Layer4.userProfiles Layer4.contextWeights].
    rewrite lookup_insert_eq. rewrite updateUserProfile_run.
    cbn [Layer4.userProfiles Layer4.contextWeights].
    rewrite spreadProfile_asUpdate, !insert_insert_eq, He. reflexivity.
Qed.

Lemma lastN_all {A : Type} (k : nat) (l : list A) :
  (length l <= k)%nat -> Layer4.lastN k l = l.
Proof.
  intros Hle. unfold Layer4.lastN.
  replace (length l - k)%nat with 0%nat by lia. apply drop_0.
Qed.

Lemma lastN_sublist {A : Type} (k : nat) (l : list A) :
  sublist (Layer4.lastN k l) l.
Proof. apply sublist_drop. Qed.

(** X21.  For a user without stored profile, or whose stored profile
    has the shape that the type [UserProfile] declares (with a search
    history of arbitrary values): [recordUserBehavior] with the action
    [search] always returns, after one clock reading for a user with a
    stored profile and two for another one, whatever value the data
    gives as query ([undefined] when it gives none).  Afterwards the
    profile of the
    user holds the last 50 entries of its former search history
    followed by that value: the value is the last entry, and the
    history has at most 50 entries.  The user id and [lastUpdated] of a
    profile that was stored are as before: recording a search does not
    refresh [lastUpdated]. *)
Theorem recordUserBehavior_search (st : Layer4.State) (userId : string)
    (query : JsValue) (w : World) (n : nat) :
  let before :=
    match Layer4.getUserProfile st userId with
    | Some existing => Layer4.up_searchHistory existing
    | None => []
    end in
  exists st' stored,
    Layer4.recordUserBehavior st userId (Layer4.search query) w n
    = (inr st',
       match Layer4.getUserProfile st userId with
       | Some _ => S n
       | None => S (S n)
       end)
    ∧ Layer4.getUserProfile st' userId = Some stored
    ∧ Layer4.up_searchHistory stored = Layer4.lastN 50 (before ++ [query])
    ∧ last (Layer4.up_searchHistory stored) = Some query
    ∧ (length (Layer4.up_searchHistory stored) <= 50)%nat
    ∧ (forall existing,
          Layer4.getUserProfile st userId = Some existing ->
          Layer4.up_userId stored = Layer4.up_userId existing
          ∧ Layer4.up_lastUpdated stored = Layer4.up_lastUpdated existing).
Proof.
  intros before. eexists _, _. split.
  { rewrite recordUserBehavior_run. f_equal.
    by destruct (Layer4.getUserProfile st userId). }
  unfold Layer4.getUserProfile at 1. cbn [Layer4.userProfiles].
  split; [apply lookup_insert_eq|].
  assert (Hhistory :
    Layer4.up_searchHistory
      (Layer4.recordOn
         (default
            (Layer4.spreadProfile (Layer4.blankProfile userId (clock w n))
               {| Layer4.pu_userId := Some userId;
                  Layer4.pu_preferences := Some ([], [], []);
                  Layer4.pu_behavior := Some ([], [], ∅);
                  Layer4.pu_demographics := None;
                  Layer4.pu_lastUpdated := None |})
            (Layer4.getUserProfile st userId))
         (Layer4.search query))
    = Layer4.lastN 50 (before ++ [query])).
  { subst before. cbn [Layer4.recordOn Layer4.up_searchHistory].
    destruct (Layer4.getUserProfile st userId) as [existing|];
      cbn [from_option Datatypes.id Layer4.spreadProfile Layer4.pu_behavior
           Layer4.up_searchHistory].
    - destruct (Nat.ltb_spec 50 (length (Layer4.up_searchHistory existing
                                         ++ [query]))); [reflexivity|].
      symmetry. by apply lastN_all.
    - reflexivity. }
  split; [exact Hhistory|]. rewrite Hhistory.
  split; [apply lastN_last; lia|].
  split; [rewrite lastN_length; lia|].
  intros existing He. rewrite He. repeat split.
Qed.

(** X22.  For a document id that is a string and a user without
    stored profile, or whose stored profile has the shape that the
    type [UserProfile] declares (a click history of strings),
    [recordUserBehavior] with the action [click] always returns.
    Afterwards the click history of the user holds the document.  A
    document that was in the history leaves it unchanged
    (it is not moved to the end); another one is appended, and the
    history is cut to its last 100 entries.  So a history without
    repetition stays without repetition, and a history of at most 100
    entries stays within 100.  Recording the same click once more
    leaves every stored profile as it is. *)
Theorem recordUserBehavior_click (st : Layer4.State)
    (userId documentId : string) (w : World) (n : nat) :
  let before :=
    match Layer4.getUserProfile st userId with
    | Some existing => Layer4.up_clickHistory existing
    | None => []
    end in
  exists st' n' stored,
    Layer4.recordUserBehavior st userId (Layer4.click documentId) w n
    = (inr st', n')
    ∧ Layer4.getUserProfile st' userId = Some stored
    ∧ Layer4.up_clickHistory stored
      = (if bool_decide (documentId ∈ before) then before
         else Layer4.lastN 100 (before ++ [documentId]))
    ∧ documentId ∈ Layer4.up_clickHistory stored
    ∧ (NoDup before -> NoDup (Layer4.up_clickHistory stored))
    ∧ ((length before <= 100)%nat ->
       (length (Layer4.up_clickHistory stored) <= 100)%nat)
    ∧ (forall k,
          exists st'' k',
            Layer4.recordUserBehavior st' userId (Layer4.click documentId)
              w k
            = (inr st'', k')
            ∧ Layer4.userProfiles st'' = Layer4.userProfiles st').
Proof.
  intros before. eexists _, _, _. split; [apply recordUserBehavior_run|].
  unfold Layer4.getUserProfile at 1. cbn [Layer4.userProfiles].
  split; [apply lookup_insert_eq|].
  set (profile :=
         default
           (Layer4.spreadProfile (Layer4.blankProfile userId (clock w n))
              {| Layer4.pu_userId := Some userId;
                 Layer4.pu_preferences := Some ([], [], []);
                 Layer4.pu_behavior := Some ([], [], ∅);
                 Layer4.pu_demographics := None;
                 Layer4.pu_lastUpdated := None |})
           (Layer4.getUserProfile st userId)).
  assert (Hbefore : Layer4.up_clickHistory profile = before).
  { subst profile before.
    by destruct (Layer4.getUserProfile st userId). }
  assert (Hhistory :
    Layer4.up_clickHistory (Layer4.recordOn profile (Layer4.click documentId))
    = (if bool_decide (documentId ∈ before) then before
       else Layer4.lastN 100 (before ++ [documentId]))).
  { cbn [Layer4.recordOn Layer4.up_clickHistory]. rewrite Hbefore.
    destruct (bool_decide (documentId ∈ before)); [reflexivity|].
    destruct (Nat.ltb_spec 100 (length (before ++ [documentId])));
      [reflexivity|].
    symmetry. by apply lastN_all. }
  assert (Hin : documentId
                ∈ Layer4.up_clickHistory
                    (Layer4.recordOn profile (Layer4.click documentId))).
  { rewrite Hhistory.
    destruct (bool_decide (documentId ∈ before)) eqn:Hd.
    - by apply bool_decide_eq_true in Hd.
    - apply list_elem_of_lookup.
      exists (pred (length (Layer4.lastN 100 (before ++ [documentId])))).
      rewrite <- last_lookup. apply lastN_last. lia. }
  split; [exact Hhistory|]. split; [exact Hin|].
  split; [|split].
  - intros Hnd. rewrite Hhistory.
    destruct (bool_decide (documentId ∈ before)) eqn:Hd; [exact Hnd|].
    apply bool_decide_eq_false in Hd.
    eapply sublist_NoDup; [|apply lastN_sublist].
    apply NoDup_app. split; [exact Hnd|]. split.
    + intros x Hx ->%list_elem_of_singleton. done.
    + apply NoDup_singleton.
  - intros Hlen. rewrite Hhistory.
    destruct (bool_decide (documentId ∈ before)); [exact Hlen|].
    rewrite lastN_length. lia.
  - intros k. eexists _, _. split; [apply recordUserBehavior_run|].
    unfold Layer4.getUserProfile. cbn [Layer4.userProfiles].
    rewrite lookup_insert_eq. cbn [from_option Datatypes.id].
    rewrite insert_insert_eq. f_equal.
    set (stored := Layer4.recordOn profile (Layer4.click documentId)) in *.
    cbn [Layer4.recordOn]. rewrite bool_decide_eq_true_2 by exact Hin.
    by destruct stored.
Qed.

(** ** Stage 4: the boost rules of the user-profile phase *)

Lemma fold_words_ge (step : R) (text : string) (words : list string) acc :
  (0 <= step)%R ->
  (acc <= fold_left
            (fun boost word =>
               if Layer4.includes text word then (boost + step)%R else boost)
            words acc)%R.
Proof.
  intros Hstep. revert acc.
  induction words as [|word words IH]; intros acc; cbn [fold_left]; [lra|].
  eapply Rle_trans; [|apply IH].
  destruct (Layer4.includes text word); lra.
Qed.

Lemma fold_words_hit (step : R) (text : string) (words : list string) acc
    word :
  (0 <= step)%R ->
  word ∈ words -> Layer4.includes text word = true ->
  (acc + step
   <= fold_left
        (fun boost word =>
           if Layer4.includes text word then (boost + step)%R else boost)
        words acc)%R.
Proof.
  intros Hstep Hin Hword. revert acc.
  induction words as [|a words IH]; intros acc;
    [by apply elem_of_nil in Hin|].
  cbn [fold_left]. apply elem_of_cons in Hin as [->|Hin].
  - rewrite Hword. by apply fold_words_ge.
  - eapply Rle_trans; [|by apply IH].
    destruct (Layer4.includes text a); lra.
Qed.

Lemma fold_queries_ge (step : R) (text : string) (queries : list string)
    acc :
  (0 <= step)%R ->
  (acc <= fold_left
            (fun boost query =>
               fold_left
                 (fun boost word =>
                    if Layer4.includes text word then (boost + step)%R
                    else boost)
                 (Layer4.splitOnSpace "" (Tokenizer.toLowerCase query)) boost)
            queries acc)%R.
Proof.
  intros Hstep. revert acc.
  induction queries as [|query queries IH]; intros acc; cbn [fold_left];
    [lra|].
  eapply Rle_trans; [|apply IH]. by apply fold_words_ge.
Qed.

Lemma keywordBoost_nonneg step text queries :
  (0 <= step)%R -> (0 <= Layer4.keywordBoost step text queries)%R.
Proof. intros Hstep. by apply fold_queries_ge. Qed.

Lemma keywordBoost_hit step text queries query word :
  (0 <= step)%R ->
  query ∈ queries ->
  word ∈ Layer4.splitOnSpace "" (Tokenizer.toLowerCase query) ->
  Layer4.includes text word = true ->
  (step <= Layer4.keywordBoost step text queries)%R.
Proof.
  intros Hstep Hquery Hword Hincl. unfold Layer4.keywordBoost.
  assert (Hgen : forall acc,
    (acc + step
     <= fold_left
          (fun boost query =>
             fold_left
               (fun boost word =>
                  if Layer4.includes text word then (boost + step)%R
                  else boost)
               (Layer4.splitOnSpace "" (Tokenizer.toLowerCase query)) boost)
          queries acc)%R).
  { induction queries as [|a queries IH]; intros acc;
      [by apply elem_of_nil in Hquery|].
    cbn [fold_left]. apply elem_of_cons in Hquery as [->|Hquery].
    - eapply Rle_trans; [|by apply fold_queries_ge].
      by apply (fold_words_hit step text _ acc word).
    - eapply Rle_trans; [|by apply IH].
      pose proof (fold_words_ge step text
                    (Layer4.splitOnSpace "" (Tokenizer.toLowerCase a)) acc
                    Hstep). lra. }
  specialize (Hgen 0%R). lra.
Qed.

Lemma includes_empty text : Layer4.includes text "" = true.
Proof. by destruct text. Qed.

Lemma stringsOf_Some values queries :
  Layer4.stringsOf values = Some queries <-> values = map JsStr queries.
Proof.
  revert queries. induction values as [|v values IH]; intros queries.
  - cbn. split; [intros [= <-]; reflexivity|].
    destruct queries; [reflexivity|discriminate].
  - cbn [Layer4.stringsOf].
    destruct v; try (split; [discriminate|destruct queries; discriminate]).
    destruct (Layer4.stringsOf values) as [qs|] eqn:Hqs; cbn.
    + split.
      * intros [= <-]. cbn [map]. f_equal. by apply IH.
      * destruct queries as [|q queries]; [discriminate|].
        intros [= -> Hrest]. apply IH in Hrest. congruence.
    + split; [discriminate|].
      destruct queries as [|q queries]; [discriminate|].
      intros [= -> Hrest]. apply IH in Hrest. discriminate.
Qed.

Lemma stringsOf_None values :
  Layer4.stringsOf values = None <->
  exists v, v ∈ values ∧ forall s, v ≠ JsStr s.
Proof.
  induction values as [|v values IH].
  - cbn. split; [discriminate|]. intros (v & Hv & _).
    by apply elem_of_nil in Hv.
  - cbn [Layer4.stringsOf].
    assert (Hother : (forall s, v ≠ JsStr s) ->
                     exists v', v' ∈ v :: values ∧ forall s, v' ≠ JsStr s).
    { intros Hv. exists v. split; [apply list_elem_of_here|exact Hv]. }
    destruct v; try (split; [intros _; by apply Hother|done]).
    destruct (Layer4.stringsOf values) as [qs|] eqn:Hqs; cbn.
    + split; [discriminate|].
      intros (v & [->|Hv]%elem_of_cons & Hns); [by destruct (Hns s)|].
      assert (Some qs = None) by (apply IH; eauto). discriminate.
    + split; [|done]. intros _.
      destruct IH as [IH _]. destruct (IH eq_refl) as (v & Hv & Hns).
      exists v. split; [by apply list_elem_of_further|exact Hns].
Qed.

Lemma calculateSearchHistoryBoost_range (result : SearchResult)
    (searchHistory : list JsValue) :
  match Layer4.calculateSearchHistoryBoost result searchHistory with
  | inl e =>
      e = JsError ∧ exists v, v ∈ searchHistory ∧ forall s, v ≠ JsStr s
  | inr boost => (0 <= boost <= 0.2)%R
  end.
Proof.
  unfold Layer4.calculateSearchHistoryBoost.
  destruct (length searchHistory =? 0)%nat; [lra|].
  destruct (Layer4.stringsOf searchHistory) as [queries|] eqn:Hq.
  - pose proof (keywordBoost_nonneg 0.05 (Layer4.resultText result) queries)
      as Hnn.
    split; [apply Rmin_glb; lra|apply Rmin_r].
  - split; [reflexivity|by apply stringsOf_None].
Qed.

(** X23.  The search-history boost of a result, for a history that is
    an array of arbitrary values, throws exactly when the history holds
    an entry that is not a string (for instance the
    [undefined] that a search without query has left there).
    Otherwise it lies between 0 and 0.2, and is 0 for an empty history.
    A history of strings that holds the empty query gives every result
    at least 0.05: the empty query splits into one empty word, which
    every text includes. *)
Theorem search_history_boost_range (result : SearchResult)
    (searchHistory : list JsValue) :
  match Layer4.calculateSearchHistoryBoost result searchHistory with
  | inl e =>
      e = JsError ∧ exists v, v ∈ searchHistory ∧ forall s, v ≠ JsStr s
  | inr boost =>
      (0 <= boost <= 0.2)%R
      ∧ (forall v, v ∈ searchHistory -> exists s, v = JsStr s)
      ∧ (searchHistory = [] -> boost = 0%R)
      ∧ (JsStr "" ∈ searchHistory -> (0.05 <= boost)%R)
  end.
Proof.
  pose proof (calculateSearchHistoryBoost_range result searchHistory)
    as Hrange.
  unfold Layer4.calculateSearchHistoryBoost in *.
  destruct searchHistory as [|v values].
  { cbn. split; [lra|]. split; [|split; [done|]].
    - intros v Hv. by apply elem_of_nil in Hv.
    - intros Hin. by apply elem_of_nil in Hin. }
  cbn [length Nat.eqb] in *.
  destruct (Layer4.stringsOf (v :: values)) as [queries|] eqn:Hq;
    [|exact Hrange].
  split; [exact Hrange|].
  apply stringsOf_Some in Hq. split; [|split; [done|]].
  - intros x Hx. rewrite Hq in Hx.
    apply list_elem_of_fmap in Hx as (q & -> & _). eauto.
  - intros Hin. rewrite Hq in Hin.
    apply list_elem_of_fmap in Hin as (q & [= <-] & Hin).
    apply Rmin_glb; [|lra].
    apply (keywordBoost_hit 0.05 _ _ "" ""); [lra|exact Hin| |].
    + apply list_elem_of_here.
    + apply includes_empty.
Qed.

Lemma someTag_cases interest tags :
  match Layer4.someTag interest tags with
  | inl e => e = JsError ∧ exists tag, tag ∈ tags ∧ forall s, tag ≠ JsStr s
  | inr _ => True
  end.
Proof.
  induction tags as [|tag tags IH]; [done|].
  cbn [Layer4.someTag].
  assert (Hother : (forall s, tag ≠ JsStr s) ->
                   JsError = JsError
                   ∧ exists tag', tag' ∈ tag :: tags ∧ forall s, tag' ≠ JsStr s).
  { intros Hns. split; [reflexivity|]. exists tag.
    split; [apply list_elem_of_here|exact Hns]. }
  destruct tag; try (by apply Hother).
  destruct (Layer4.includes _ _); [done|].
  destruct (Layer4.someTag interest tags) as [e|matched]; [|done].
  destruct IH as (-> & tag & Htag & Hns). split; [reflexivity|].
  exists tag. split; [by apply list_elem_of_further|exact Hns].
Qed.

(** Tags that make [calculateInterestMatch] throw: not an array, or an
    array with an element that is not a string. *)
Lemma countMatches_cases userInterests resultTags :
  match Layer4.countMatches userInterests resultTags with
  | inl e =>
      e = JsError ∧ userInterests ≠ [] ∧ ¬ Layer4.stringTags resultTags
  | inr count => (count <= length userInterests)%nat
  end.
Proof.
  induction userInterests as [|interest rest IH]; [cbn; lia|].
  cbn [Layer4.countMatches].
  destruct resultTags;
    try (split; [reflexivity|split; [done|by intros (xs & [=] & _)]]).
  pose proof (someTag_cases interest xs) as Htag.
  destruct (Layer4.someTag interest xs) as [e|matched].
  { destruct Htag as (-> & tag & Hin & Hns).
    split; [reflexivity|]. split; [done|].
    intros (ys & [= <-] & Hall).
    rewrite Forall_forall in Hall. destruct (Hall tag Hin) as [s Hs].
    by destruct (Hns s). }
  destruct (Layer4.countMatches rest (JsArr xs)) as [e|count].
  - destruct IH as (-> & _ & Hns). done.
  - cbn [length]. destruct matched; lia.
Qed.

Lemma calculateInterestMatch_cases userInterests resultTags :
  match Layer4.calculateInterestMatch userInterests resultTags with
  | inl e =>
      e = JsError ∧ userInterests ≠ [] ∧ ¬ Layer4.stringTags resultTags
  | inr x => (0 <= x <= 1)%R
  end.
Proof.
  unfold Layer4.calculateInterestMatch.
  pose proof (countMatches_cases userInterests resultTags) as Hc.
  destruct (Layer4.countMatches userInterests resultTags) as [e|count];
    [exact Hc|].
  assert (Hcount : (0 <= IZR (Z.of_nat count)
                    <= IZR (Z.of_nat (length userInterests)))%R).
  { split; apply IZR_le; lia. }
  pose proof (Rmax_l (IZR (Z.of_nat (length userInterests))) 1) as Hl.
  pose proof (Rmax_r (IZR (Z.of_nat (length userInterests))) 1) as Hr.
  set (m := Rmax (IZR (Z.of_nat (length userInterests))) 1) in *.
  split.
  - apply Rmult_le_pos; [lra|]. left. apply Rinv_0_lt_compat. lra.
  - apply (Rmult_le_reg_r m); [lra|].
    unfold Rdiv. rewrite Rmult_assoc, Rinv_l by lra. lra.
Qed.

Lemma calculateAgeMatch_cases userAge ageGroup :
  match Layer4.calculateAgeMatch userAge ageGroup with
  | inl e => e = JsError ∧ Layer4.keyThrows ageGroup
  | inr x => (0 <= x <= 1)%R ∧ ¬ Layer4.keyThrows ageGroup
  end.
Proof.
  unfold Layer4.calculateAgeMatch, Layer4.keyThrows.
  destruct (Layer4.propertyKey ageGroup) as [e|[group|]] eqn:Hkey.
  - split; [by apply (propertyKey_error ageGroup)|done].
  - destruct (bool_decide (group ∈ Layer4.prototypeKeys)) eqn:Hg.
    + apply bool_decide_eq_true in Hg. done.
    + apply bool_decide_eq_false in Hg. split; [|exact Hg].
      destruct (default _ _) as [min max].
      repeat destruct (Rle_dec _ _); lra.
  - split; [|tauto]. repeat destruct (Rle_dec _ _); lra.
Qed.

Lemma calculateDemographicsBoost_cases result userProfile :
  match Layer4.calculateDemographicsBoost result userProfile with
  | inl e => e = JsError ∧ Layer4.demographicsThrow userProfile result
  | inr x => (0 <= x <= 0.25)%R
  end.
Proof.
  unfold Layer4.calculateDemographicsBoost, Layer4.demographicsThrow.
  set (ageGroup := meta_get (sr_metadata result) "ageGroup").
  set (tags := meta_get (sr_metadata result) "tags").
  assert (Hage :
    match
      (match Layer4.up_age userProfile with
       | Some age =>
           if negb (bool_decide (age = 0%R)) && truthy ageGroup
           then
             match Layer4.calculateAgeMatch age ageGroup with
             | inl e => inl e
             | inr ageMatch => inr (0 + ageMatch * 0.1)%R
             end
           else inr 0%R
       | None => inr 0%R
       end)
    with
    | inl e =>
        e = JsError
        ∧ exists age,
            Layer4.up_age userProfile = Some age ∧ age ≠ 0%R
            ∧ truthy ageGroup = true ∧ Layer4.keyThrows ageGroup
    | inr x => (0 <= x <= 0.1)%R
    end).
  { destruct (Layer4.up_age userProfile) as [age|]; [|lra].
    destruct (bool_decide (age = 0%R)) eqn:Hzero; cbn [negb andb]; [lra|].
    apply bool_decide_eq_false in Hzero.
    destruct (truthy ageGroup) eqn:Htruthy; [|lra].
    pose proof (calculateAgeMatch_cases age ageGroup) as Hm.
    destruct (Layer4.calculateAgeMatch age ageGroup) as [e|x].
    - destruct Hm as [-> Hkey]. split; [reflexivity|]. exists age. done.
    - destruct Hm as [Hm _]. lra. }
  destruct (match Layer4.up_age userProfile with
            | Some _ => _ | None => _ end) as [e|boost].
  { destruct Hage as [-> ?]. split; [reflexivity|by left]. }
  destruct (Layer4.up_interests userProfile) as [interests|]; [|lra].
  destruct (truthy tags) eqn:Htags; [|lra].
  pose proof (calculateInterestMatch_cases interests tags) as Hm.
  destruct (Layer4.calculateInterestMatch interests tags) as [e|x].
  - destruct Hm as (-> & Hne & Hns). split; [reflexivity|]. right.
    exists interests. done.
  - lra.
Qed.

(** X24.  For a profile that has the shape that the type
    [UserProfile] declares (with a search history of arbitrary
    values), the boost that the user-profile phase gives a result lies
    between 0 and 0.9 when the rule returns (0.2 for a preferred
    category, 0.15 for a clicked document, up to 0.2 for the search
    history, up to 0.1 for the time spent, up to 0.25 for the
    demographics).  When the rule throws, the search history of the
    profile holds an entry that is not a string, or the profile has an
    age other than 0 and the age group of the result is truthy and
    names an inherited property or cannot be converted to a property
    key, or the profile has a non-empty list of interests and the tags
    of the result are truthy and not an array of strings. *)
Theorem user_boost_range (userProfile : Layer4.UserProfile)
    (result : SearchResult) :
  match Layer4.userBoost userProfile result with
  | inl e =>
      e = JsError
      ∧ ((exists v,
             v ∈ Layer4.up_searchHistory userProfile
             ∧ forall s, v ≠ JsStr s)
         ∨ Layer4.demographicsThrow userProfile result)
  | inr boost => (0 <= boost <= 0.9)%R
  end.
Proof.
  unfold Layer4.userBoost.
  pose proof (calculateSearchHistoryBoost_range result
                (Layer4.up_searchHistory userProfile)) as Hhistory.
  destruct (Layer4.calculateSearchHistoryBoost result
              (Layer4.up_searchHistory userProfile))
    as [e|searchHistoryBoost].
  { destruct Hhistory as [-> Hns]. split; [reflexivity|by left]. }
  pose proof (calculateDemographicsBoost_cases result userProfile) as Hdemo.
  destruct (Layer4.calculateDemographicsBoost result userProfile)
    as [e|demographicsBoost].
  { destruct Hdemo as [-> Hcause]. split; [reflexivity|by right]. }
  set (timeSpent :=
         num_or_zero
           (default 0%R (Layer4.up_timeSpent userProfile !! sr_id result))).
  assert (Htime :
    forall x,
      (0 <= (if Rlt_dec 0 timeSpent
             then x + Rmin (timeSpent / 1000) 0.1 else x) - x <= 0.1)%R).
  { intros x. destruct (Rlt_dec 0 timeSpent) as [Hpos|]; [|lra].
    pose proof (Rmin_r (timeSpent / 1000) 0.1).
    assert (0 <= Rmin (timeSpent / 1000) 0.1)%R
      by (apply Rmin_glb; lra).
    lra. }
  match goal with
  | |- (0 <= (if Rlt_dec 0 timeSpent then ?x + _ else _) + _ <= _)%R =>
      specialize (Htime x);
      assert (0 <= x <= 0.55)%R
  end.
  { destruct (truthy _ && _);
      destruct (bool_decide (sr_id result ∈ _)); lra. }
  lra.
Qed.

Lemma recordOn_click_elem (profile : Layer4.UserProfile)
    (documentId : string) :
  documentId
  ∈ Layer4.up_clickHistory (Layer4.recordOn profile (Layer4.click documentId)).
Proof.
  cbn [Layer4.recordOn Layer4.up_clickHistory].
  destruct (bool_decide (documentId ∈ Layer4.up_clickHistory profile))
    eqn:Hd; [by apply bool_decide_eq_true in Hd|].
  set (history := Layer4.up_clickHistory profile ++ [documentId]).
  assert (Hlast : last (Layer4.lastN 100 history) = Some documentId).
  { apply lastN_last. lia. }
  assert (Hgoal : documentId ∈ Layer4.lastN 100 history).
  { apply list_elem_of_lookup.
    exists (pred (length (Layer4.lastN 100 history))).
    by rewrite <- last_lookup. }
  destruct (Nat.ltb_spec 100 (length history)); [exact Hgoal|].
  by rewrite (lastN_all 100 history) in Hgoal.
Qed.

(** X25.  After [recordUserBehavior] has recorded a click of a user on
    the document of a result, the boost that the user-profile phase
    gives this result for the profile of the user is at least 0.15
    (when the rule returns). *)
Theorem recorded_click_boosts (st : Layer4.State) (userId : string)
    (result : SearchResult) (w : World) (n : nat) :
  exists st' n' stored,
    Layer4.recordUserBehavior st userId (Layer4.click (sr_id result)) w n
    = (inr st', n')
    ∧ Layer4.getUserProfile st' userId = Some stored
    ∧ match Layer4.userBoost stored result with
      | inl _ => True
      | inr boost => (0.15 <= boost)%R
      end.
Proof.
  eexists _, _, _. split; [apply recordUserBehavior_run|].
  unfold Layer4.getUserProfile at 1. cbn [Layer4.userProfiles].
  split; [apply lookup_insert_eq|].
  match goal with
  | |- context [Layer4.recordOn ?p _] => set (profile := p)
  end.
  pose proof (recordOn_click_elem profile (sr_id result)) as Hin.
  set (stored := Layer4.recordOn profile (Layer4.click (sr_id result))) in *.
  unfold Layer4.userBoost.
  pose proof (calculateSearchHistoryBoost_range result
                (Layer4.up_searchHistory stored)) as Hhistory.
  destruct (Layer4.calculateSearchHistoryBoost result
              (Layer4.up_searchHistory stored))
    as [e|searchHistoryBoost]; [done|].
  pose proof (calculateDemographicsBoost_cases result stored) as Hdemo.
  destruct (Layer4.calculateDemographicsBoost result stored)
    as [e|demographicsBoost]; [done|].
  rewrite (bool_decide_eq_true_2 _ Hin).
  set (timeSpent :=
         num_or_zero (default 0%R (Layer4.up_timeSpent stored !! sr_id result))).
  assert (0 <= Rmin (timeSpent / 1000) 0.1 \/ ~ (0 < timeSpent))%R as Htime.
  { destruct (Rlt_dec 0 timeSpent); [left; apply Rmin_glb; lra|by right]. }
  destruct (Rlt_dec 0 timeSpent); destruct (truthy _ && _);
    destruct Htime; lra.
Qed.

(** ** The service: what holds in every state it reaches *)

Lemma Layer1_documents_removeDocument x st :
  Layer1.documents (Layer1.removeDocument x st).2
  = delete x (Layer1.documents st).
Proof.
  unfold Layer1.removeDocument.
  destruct (Layer1.documents st !! x) as [d|] eqn:Hd; [reflexivity|].
  cbn [snd]. symmetry. by apply delete_id.
Qed.

Lemma Layer2_documents_removeDocument x st :
  Layer2.documents (Layer2.removeDocument x st).2
  = delete x (Layer2.documents st).
Proof.
  unfold Layer2.removeDocument.
  destruct (Layer2.documents st !! x) as [d|] eqn:Hd; [reflexivity|].
  cbn [snd]. symmetry. by apply delete_id.
Qed.

Lemma Layer2_bm25Params_removeDocument x st :
  Layer2.bm25Params (Layer2.removeDocument x st).2 = Layer2.bm25Params st.
Proof.
  unfold Layer2.removeDocument.
  by destruct (Layer2.documents st !! x).
Qed.

(** ** The service: removing a document *)




(** A concrete failed removal: the id is known to stage 1 only; the call
    returns [false] and stage 1 has lost the document. *)
Example service_removeDocument_partial :
  let st :=
    {| Service.layer1 := index1;
       Service.layer2 := Layer2.init None None;
       Service.layer3 := Layer3.init default_config;
       Service.layer4 := Layer4.init default_config;
       Service.isInitialized := true |} in
  Layer1.documents (Service.layer1 st) !! "d1" = Some sampleD1
  ∧ (Service.removeDocument "d1" st).1 = false
  ∧ Layer1.documents (Service.layer1 (Service.removeDocument "d1" st).2)
    = ∅.
Proof. vm_compute. repeat split; reflexivity. Qed.


Lemma Layer3_addDocument_cases model document st :
  let r := Layer3.addDocument model document st in
  (Layer3.isModelLoaded st = true -> Layer3.isModelLoaded r.1 = true)
  ∧ match r.2 with
    | inl e =>
        e = LayerError "Layer3"
        ∧ Layer3.embeddings r.1 = Layer3.embeddings st
    | inr _ =>
        Layer3.isModelLoaded r.1 = true
        ∧ exists embedding,
            ve_documentId embedding = doc_id document
            ∧ embed model (doc_title document +:+ " " +:+ doc_content document)
              = Some (ve_vector embedding)
            ∧ Layer3.embeddings r.1
              = <[doc_id document := embedding]> (Layer3.embeddings st)
    end.
Proof.
  unfold Layer3.addDocument, Layer3.ensureModel.
  destruct (Layer3.isModelLoaded st) eqn:Hloaded;
    [|destruct (pipeline_loads model)];
    cbn [Layer3.setLoaded Layer3.isModelLoaded negb]; rewrite ?Hloaded;
    cbn [negb]; try done;
    (destruct (embed model _) as [vector|] eqn:Hembed; cbn;
     [|by rewrite ?Hloaded]);
    (split; [done|]); (split; [by rewrite ?Hloaded|]);
    (eexists; split; [|split; [|reflexivity]]; reflexivity).
Qed.

Lemma Service_behavior_run st userId action w n st' n' :
  Service.recordUserBehavior st userId action w n = (inr st', n') ->
  exists l4, st' = Service.withLayer4 st l4.
Proof.
  unfold Service.recordUserBehavior, bind.
  destruct (Layer4.recordUserBehavior (Service.layer4 st) userId action w n)
    as [[e|l4] k]; [discriminate|].
  cbn [ret]. intros [= <- _]. by exists l4.
Qed.

Lemma Service_profile_run st userId profile w n st' n' :
  Service.updateUserProfile st userId profile w n = (inr st', n') ->
  exists l4, st' = Service.withLayer4 st l4.
Proof.
  unfold Service.updateUserProfile, bind.
  destruct (Layer4.updateUserProfile (Service.layer4 st) userId profile w n)
    as [[e|l4] k]; [discriminate|].
  cbn [ret]. intros [= <- _]. by exists l4.
Qed.

Lemma Service_reachable_inv model config st :
  Service.reachable model config st ->
  Layer1.reachable (Service.layer1 st)
  ∧ Layer2.reachable_fresh (Service.layer2 st)
  ∧ Layer1.documents (Service.layer1 st)
    = Layer2.documents (Service.layer2 st)
  ∧ dom (Layer3.embeddings (Service.layer3 st))
    ⊆ dom (Layer1.documents (Service.layer1 st))
  ∧ (Service.isInitialized st = true ->
     Layer3.isModelLoaded (Service.layer3 st) = true)
  ∧ Layer2.bm25Params (Service.layer2 st) = {| k1 := 1.2; b := 0.75 |}.
Proof.
  induction 1
    as [|st _ IH|document st _ IH Hfresh|documentId st _ IH
       |userId action w n st st' n' _ IH Hrun
       |userId profile w n st st' n' _ IH Hrun].
  - split; [apply Layer1.reachable_init|].
    split; [apply Layer2.fresh_init|]. by cbn.
  - unfold Service.initialize. destruct (pipeline_loads model); [|exact IH].
    destruct IH as (H1 & H2 & H12 & H3 & _ & Hp). cbn. done.
  - destruct IH as (H1 & H2 & H12 & H3 & Hinit & Hp).
    unfold Layer1.getDocument in Hfresh.
    pose proof (Layer3_addDocument_cases model document (Service.layer3 st))
      as [Hkeep Hcases].
    unfold Service.addDocument.
    destruct (Layer3.addDocument model document (Service.layer3 st))
      as [l3 outcome].
    cbn [fst snd Service.layer1 Service.layer2 Service.layer3
         Service.isInitialized] in *.
    split; [by apply Layer1.reachable_add|].
    split; [apply Layer2.fresh_add; [exact H2|by rewrite <- H12]|].
    split; [cbn; by rewrite H12|].
    split; [|split; [tauto|exact Hp]].
    cbn [Layer1.addDocument Layer1.documents]. rewrite dom_insert.
    destruct outcome as [e|[]].
    + destruct Hcases as [_ ->]. set_solver.
    + destruct Hcases as (_ & embedding & _ & _ & ->).
      rewrite dom_insert. set_solver.
  - destruct IH as (H1 & H2 & H12 & H3 & Hinit & Hp).
    unfold Service.removeDocument.
    pose proof (Layer1_documents_removeDocument documentId (Service.layer1 st))
      as Hd1.
    pose proof (Layer2_documents_removeDocument documentId (Service.layer2 st))
      as Hd2.
    pose proof (Layer2_bm25Params_removeDocument documentId
                  (Service.layer2 st)) as Hp2.
    pose proof (Layer1.reachable_remove documentId _ H1) as Hr1.
    pose proof (Layer2.fresh_remove documentId _ H2) as Hr2.
    destruct (Layer1.removeDocument documentId (Service.layer1 st))
      as [b1 l1].
    destruct (Layer2.removeDocument documentId (Service.layer2 st))
      as [b2 l2].
    cbn [fst snd Service.layer1 Service.layer2 Service.layer3
         Service.isInitialized Layer3.removeEmbedding Layer3.embeddings
         Layer3.isModelLoaded] in *.
    split; [exact Hr1|]. split; [exact Hr2|].
    split; [by rewrite Hd1, Hd2, H12|].
    split; [|split; [exact Hinit|by rewrite Hp2]].
    rewrite Hd1, !dom_delete. set_solver.
  - apply Service_behavior_run in Hrun as [l4 ->]. exact IH.
  - apply Service_profile_run in Hrun as [l4 ->]. exact IH.
Qed.

(** X26.  In every state the service reaches, stages 1 and 2 hold the
    same documents, and every id that has a vector in stage 3 is the
    id of a stored document (a document whose embedding failed has
    none).  The statistics agree accordingly: [totalDocuments] of
    stage 1 and of stage 2 are both the number of stored documents,
    and [totalEmbeddings] does not exceed it.  Once [initialize] has
    succeeded, the embedding model stays loaded. *)
Theorem service_stages_consistent (model : Embedder) (config : Config)
    (st : Service.State) (Hreach : Service.reachable model config st) :
  let stats := Service.getStats st in
  Layer1.documents (Service.layer1 st) = Layer2.documents (Service.layer2 st)
  ∧ dom (Layer3.embeddings (Service.layer3 st))
    ⊆ dom (Layer1.documents (Service.layer1 st))
  ∧ Layer1.stats_totalDocuments (Service.stats_layer1 stats)
    = Z.of_nat (size (Layer1.documents (Service.layer1 st)))
  ∧ Layer2.stats_totalDocuments (Service.stats_layer2 stats)
    = Z.of_nat (size (Layer1.documents (Service.layer1 st)))
  ∧ Layer3.stats_totalEmbeddings (Service.stats_layer3 stats)
    <= Z.of_nat (size (Layer1.documents (Service.layer1 st)))
  ∧ (Service.stats_isInitialized stats = true ->
     Layer3.stats_isModelLoaded (Service.stats_layer3 stats) = true).
Proof.
  destruct (Service_reachable_inv model config st Hreach)
    as (H1 & H2 & H12 & H3 & Hinit & _).
  cbn. split; [exact H12|]. split; [exact H3|].
  split; [by apply Layer1_reachable_counts|].
  split; [rewrite H12; by apply Layer2_fresh_count|].
  split; [|exact Hinit].
  apply inj_le. rewrite <- !size_dom. by apply subseteq_size.
Qed.

Lemma service_stages_consistent_witness :
  let st :=
    (Service.addDocument sampleModel sampleD1
       (Service.init default_config)).1 in
  let stats := Service.getStats st in
  Layer1.documents (Service.layer1 st) = Layer2.documents (Service.layer2 st)
  ∧ dom (Layer3.embeddings (Service.layer3 st))
    ⊆ dom (Layer1.documents (Service.layer1 st))
  ∧ Layer1.stats_totalDocuments (Service.stats_layer1 stats)
    = Z.of_nat (size (Layer1.documents (Service.layer1 st)))
  ∧ Layer2.stats_totalDocuments (Service.stats_layer2 stats)
    = Z.of_nat (size (Layer1.documents (Service.layer1 st)))
  ∧ Layer3.stats_totalEmbeddings (Service.stats_layer3 stats)
    <= Z.of_nat (size (Layer1.documents (Service.layer1 st)))
  ∧ (Service.stats_isInitialized stats = true ->
     Layer3.stats_isModelLoaded (Service.stats_layer3 stats) = true).
Proof.
  apply (service_stages_consistent sampleModel default_config).
  apply Service.reachable_add; [apply Service.reachable_init|].
  reflexivity.
Defined.

(** ** The service: small corpora *)

Lemma Service_search_stage2_nothing model config userBoostOf contextBoostOf
    st request w n :
  Service.isInitialized st = true ->
  (forall d,
      (Layer2.spec_score (Service.layer2 st) d
         (Tokenizer.tokenizeAndNormalize (req_query request)) <= 0)%R) ->
  exists out n',
    Service.search model config userBoostOf contextBoostOf st request w n
    = (inr out, n')
    ∧ Service.out_results out = []
    ∧ Service.out_totalCount out = 0
    ∧ l2r_results (Service.ls_layer2 (Service.out_layerStats out)) = [].
Proof.
  intros Hinit Hnonpos.
  unfold Service.search. rewrite Hinit. cbn [negb].
  unfold bind at 1. cbn [Date_now]. unfold try_catch.
  unfold bind at 1. rewrite Layer1_search_run. cbn zeta.
  match goal with
  | |- context [l1r_documentIds ?r] => set (layer1Result := r)
  end.
  destruct (length (l1r_documentIds layer1Result) =? 0)%nat.
  { eexists _, _. split; [reflexivity|]. by cbn. }
  unfold bind at 1.
  rewrite (Layer2_search_nothing config (Service.layer2 st) request
             layer1Result w (S (S (S n))) Hnonpos).
  cbn [l2r_results length Nat.eqb].
  eexists _, _. split; [reflexivity|]. by cbn.
Qed.

(** X27.  In every state the service reaches after [initialize] has
    succeeded, and as long as it holds at most two documents, [search]
    returns no result for any request: with one or two documents every
    term is in half of the documents or more, so that no BM25 score is
    positive and stage 2 keeps nothing. *)
Theorem search_small_corpus_empty (model : Embedder) (config : Config)
    (userBoostOf : Layer4.UserProfile -> SearchResult -> Error + R)
    (contextBoostOf : SearchContext -> SearchResult -> Error + R)
    (st : Service.State) (request : SearchRequest) (w : World) (n : nat)
    (Hreach : Service.reachable model config st)
    (Hinit : Service.isInitialized st = true)
    (Hsmall : (size (Layer1.documents (Service.layer1 st)) <= 2)%nat) :
  exists out n',
    Service.search model config userBoostOf contextBoostOf st request w n
    = (inr out, n')
    ∧ Service.out_results out = []
    ∧ Service.out_totalCount out = 0.
Proof.
  destruct (Service_reachable_inv model config st Hreach)
    as (_ & H2 & H12 & _ & _ & Hp).
  destruct (Service_search_stage2_nothing model config userBoostOf
              contextBoostOf st request w n Hinit)
    as (out & n' & Hrun & Hres & Hcount & _).
  - intros d. apply spec_score_nonpos.
    + by apply Layer2_fresh_reachable.
    + rewrite Hp. cbn. lra.
    + rewrite Hp. cbn. lra.
    + intros t _ Hdf. rewrite (Layer2_fresh_count _ H2), <- H12. lia.
  - by exists out, n'.
Qed.

Lemma search_small_corpus_empty_witness :
  exists out n',
    Service.search sampleModel default_config noUserBoost noContextBoost
      (Service.addDocument sampleModel sampleD2
         (Service.addDocument sampleModel sampleD1
            (Service.initialize sampleModel
               (Service.init default_config)).1).1).1
      (sampleRequest "neural networks") sampleWorld 0%nat
    = (inr out, n')
    ∧ Service.out_results out = []
    ∧ Service.out_totalCount out = 0.
Proof.
  apply (search_small_corpus_empty sampleModel default_config).
  - apply Service.reachable_add; [|reflexivity].
    apply Service.reachable_add; [|reflexivity].
    apply Service.reachable_initialize, Service.reachable_init.
  - reflexivity.
  - vm_compute. lia.
Defined.

(** ** The service: health and initialization *)

(** X28.  [healthCheck] does not read [isInitialized], and
    [addDocument] loads the embedding model without setting it.  On a
    service that was constructed and given one document, without
    [initialize], [healthCheck] reports healthy while [search] throws
    the error NOT_INITIALIZED.  On a service that was constructed and
    initialized, [healthCheck] reports unhealthy (no document is
    stored) while [search] returns normally. *)
Theorem health_and_initialization (model : Embedder) (config : Config)
    (userBoostOf : Layer4.UserProfile -> SearchResult -> Error + R)
    (contextBoostOf : SearchContext -> SearchResult -> Error + R)
    (document : Document) (request : SearchRequest) (w : World) (n : nat)
    (Hloads : pipeline_loads model = true) :
  let added := (Service.addDocument model document (Service.init config)).1 in
  let initialized := (Service.initialize model (Service.init config)).1 in
  Service.health_status (Service.healthCheck added) = Service.healthy
  ∧ Service.search model config userBoostOf contextBoostOf added request w n
    = (inl (SearchError "NOT_INITIALIZED"), n)
  ∧ Service.health_status (Service.healthCheck initialized)
    = Service.unhealthy
  ∧ exists out n',
      Service.search model config userBoostOf contextBoostOf initialized
        request w n
      = (inr out, n')
      ∧ Service.out_results out = [].
Proof.
  intros added initialized.
  assert (Hadded :
    Service.isInitialized added = false
    ∧ Layer1.documentCount (Layer1.st_index (Service.layer1 added)) = 1
    ∧ Layer2.totalDocuments (Service.layer2 added) = 1
    ∧ Layer3.isModelLoaded (Service.layer3 added) = true).
  { subst added. unfold Service.addDocument.
    pose proof (Layer3_addDocument_cases model document
                  (Service.layer3 (Service.init config))) as [_ Hcases].
    unfold Layer3.addDocument, Layer3.ensureModel in *.
    cbn [Service.init Service.layer3 Layer3.init Layer3.isModelLoaded] in *.
    rewrite Hloads in *.
    cbn [Layer3.setLoaded Layer3.isModelLoaded negb] in *.
    destruct (embed model _); by cbn. }
  destruct Hadded as (Hinit & Hcount1 & Hcount2 & Hloaded).
  split; [|split; [|split]].
  - unfold Service.healthCheck, Service.getStats. cbn.
    by rewrite Hcount1, Hcount2, Hloaded.
  - unfold Service.search. by rewrite Hinit.
  - subst initialized. unfold Service.initialize. by rewrite Hloads.
  - destruct (Service_search_stage2_nothing model config userBoostOf
                contextBoostOf initialized request w n)
      as (out & n' & Hrun & Hres & _).
    + subst initialized. unfold Service.initialize. by rewrite Hloads.
    + intros d. apply spec_score_nonpos.
      * subst initialized. unfold Service.initialize. rewrite Hloads.
        apply Layer2.reachable_init.
      * subst initialized. unfold Service.initialize. rewrite Hloads.
        cbn. lra.
      * subst initialized. unfold Service.initialize. rewrite Hloads.
        cbn. lra.
      * subst initialized. unfold Service.initialize. rewrite Hloads.
        intros t _ Hdf. cbn in Hdf. unfold Layer2.documentFrequencyOf in Hdf.
        cbn in Hdf. rewrite lookup_empty in Hdf. cbn in Hdf. lia.
    + by exists out, n'.
Qed.

Lemma health_and_initialization_witness :
  let added :=
    (Service.addDocument sampleModel sampleD1
       (Service.init default_config)).1 in
  let initialized :=
    (Service.initialize sampleModel (Service.init default_config)).1 in
  Service.health_status (Service.healthCheck added) = Service.healthy
  ∧ Service.search sampleModel default_config noUserBoost noContextBoost
      added (sampleRequest "learning") sampleWorld 0%nat
    = (inl (SearchError "NOT_INITIALIZED"), 0%nat)
  ∧ Service.health_status (Service.healthCheck initialized)
    = Service.unhealthy
  ∧ exists out n',
      Service.search sampleModel default_config noUserBoost noContextBoost
        initialized (sampleRequest "learning") sampleWorld 0%nat
      = (inr out, n')
      ∧ Service.out_results out = [].
Proof.
  apply (health_and_initialization sampleModel default_config noUserBoost
           noContextBoost sampleD1 (sampleRequest "learning") sampleWorld
           0%nat).
  reflexivity.
Defined.

(** ** The service: a document whose embedding fails *)

Lemma Service_addDocuments_app model before rest st0 st :
  Service.addDocuments model before st0 = (st, inr tt) ->
  Service.addDocuments model (before ++ rest) st0
  = Service.addDocuments model rest st.
Proof.
  revert st0. induction before as [|d before IH]; intros st0 Hrun.
  - cbn in Hrun. by injection Hrun as ->.
  - cbn [Service.addDocuments app] in *.
    destruct (Service.addDocument model d st0) as [st1 [e|[]]];
      [discriminate|].
    by apply IH.
Qed.

(** X29.  [addDocument] is not undone when stage 3 throws (the model
    does not load, or gives no embedding for the text): the call
    throws the error ADD_DOCUMENT_ERROR, yet stages 1 and 2 hold the
    document afterwards and the vector store is as before.  If the id
    had no vector, a later [removeDocument] of the id returns [false]
    although it removes the document from stages 1 and 2.
    [addDocuments] stops at such a document: the documents listed
    after it reach no stage. *)
Theorem addDocument_failure_not_undone (model : Embedder)
    (document : Document) (st : Service.State) (e : Error)
    (Hfail : (Layer3.addDocument model document (Service.layer3 st)).2
             = inl e) :
  let r := Service.addDocument model document st in
  r.2 = inl (SearchError "ADD_DOCUMENT_ERROR")
  ∧ Layer1.getDocument (Service.layer1 r.1) (doc_id document)
    = Some document
  ∧ Layer2.documents (Service.layer2 r.1) !! doc_id document
    = Some document
  ∧ Layer3.embeddings (Service.layer3 r.1)
    = Layer3.embeddings (Service.layer3 st)
  ∧ (Layer3.getEmbedding (Service.layer3 st) (doc_id document) = None ->
     let removed := Service.removeDocument (doc_id document) r.1 in
     removed.1 = false
     ∧ Layer1.getDocument (Service.layer1 removed.2) (doc_id document)
       = None
     ∧ Layer2.documents (Service.layer2 removed.2) !! doc_id document
       = None)
  ∧ (forall before rest st0,
        Service.addDocuments model before st0 = (st, inr tt) ->
        Service.addDocuments model (before ++ document :: rest) st0
        = (r.1, inl (SearchError "ADD_DOCUMENT_ERROR"))).
Proof.
  intros r.
  pose proof (Layer3_addDocument_cases model document (Service.layer3 st))
    as [_ Hcases].
  cbn zeta in Hcases. rewrite Hfail in Hcases. destruct Hcases as [_ Hemb].
  assert (Hr : r = ({| Service.layer1 :=
                         Layer1.addDocument document (Service.layer1 st);
                       Service.layer2 :=
                         Layer2.addDocument document (Service.layer2 st);
                       Service.layer3 :=
                         (Layer3.addDocument model document
                            (Service.layer3 st)).1;
                       Service.layer4 := Service.layer4 st;
                       Service.isInitialized := Service.isInitialized st |},
                    inl (SearchError "ADD_DOCUMENT_ERROR"))).
  { subst r. unfold Service.addDocument.
    destruct (Layer3.addDocument model document (Service.layer3 st))
      as [l3 outcome].
    cbn [snd] in Hfail. by subst outcome. }
  assert (H1 : Layer1.documents (Service.layer1 r.1) !! doc_id document
               = Some document).
  { rewrite Hr. cbn. apply lookup_insert_eq. }
  assert (H2 : Layer2.documents (Service.layer2 r.1) !! doc_id document
               = Some document).
  { rewrite Hr. cbn. apply lookup_insert_eq. }
  assert (H3 : Layer3.embeddings (Service.layer3 r.1)
               = Layer3.embeddings (Service.layer3 st)).
  { rewrite Hr. exact Hemb. }
  split; [by rewrite Hr|]. split; [exact H1|]. split; [exact H2|].
  split; [exact H3|]. split.
  - intros Hnone removed. subst removed. unfold Layer3.getEmbedding in Hnone.
    unfold Service.removeDocument.
    pose proof (Layer1_removeDocument_result (doc_id document)
                  (Service.layer1 r.1)) as [_ Hd1].
    pose proof (Layer2_removeDocument_result (doc_id document)
                  (Service.layer2 r.1)) as [_ Hd2].
    destruct (Layer1.removeDocument (doc_id document) (Service.layer1 r.1))
      as [b1 l1].
    destruct (Layer2.removeDocument (doc_id document) (Service.layer2 r.1))
      as [b2 l2].
    cbn [fst snd Layer3.removeEmbedding Service.layer1 Service.layer2] in *.
    split; [|by split].
    rewrite H3, Hnone. rewrite bool_decide_eq_false_2 by (by intros [? ?]).
    by rewrite !andb_false_r.
  - intros before rest st0 Hrun.
    rewrite (Service_addDocuments_app model before _ st0 st Hrun).
    cbn [Service.addDocuments]. fold r. rewrite Hr. reflexivity.
Qed.

Lemma addDocument_failure_not_undone_witness :
  let model := {| pipeline_loads := true; embed := fun _ => None |} in
  let st := Service.init default_config in
  let r := Service.addDocument model sampleD1 st in
  r.2 = inl (SearchError "ADD_DOCUMENT_ERROR")
  ∧ Layer1.getDocument (Service.layer1 r.1) (doc_id sampleD1)
    = Some sampleD1
  ∧ Layer2.documents (Service.layer2 r.1) !! doc_id sampleD1
    = Some sampleD1
  ∧ Layer3.embeddings (Service.layer3 r.1)
    = Layer3.embeddings (Service.layer3 st)
  ∧ (Layer3.getEmbedding (Service.layer3 st) (doc_id sampleD1) = None ->
     let removed := Service.removeDocument (doc_id sampleD1) r.1 in
     removed.1 = false
     ∧ Layer1.getDocument (Service.layer1 removed.2) (doc_id sampleD1)
       = None
     ∧ Layer2.documents (Service.layer2 removed.2) !! doc_id sampleD1
       = None)
  ∧ (forall before rest st0,
        Service.addDocuments model before st0 = (st, inr tt) ->
        Service.addDocuments model (before ++ sampleD1 :: rest) st0
        = (r.1, inl (SearchError "ADD_DOCUMENT_ERROR"))).
Proof.
  apply (addDocument_failure_not_undone
           {| pipeline_loads := true; embed := fun _ => None |} sampleD1
           (Service.init default_config) (LayerError "Layer3")).
  reflexivity.
Defined.

(** ** The service: removing several documents *)

Lemma Service_removeDocuments_acc ids st count :
  fold_left
    (fun (acc : Z * Service.State) documentId =>
       let '(success, st1) := Service.removeDocument documentId acc.2 in
       (if success then acc.1 + 1 else acc.1, st1))
    ids (count, st)
  = (count + (Service.removeDocuments ids st).1,
     (Service.removeDocuments ids st).2).
Proof.
  unfold Service.removeDocuments. revert st count.
  induction ids as [|d ids IH]; intros st count; cbn [fold_left fst snd].
  - f_equal. lia.
  - destruct (Service.removeDocument d st) as [success st1].
    rewrite IH. rewrite (IH st1 (if success then 0 + 1 else 0)).
    cbn [fst snd]. f_equal. destruct success; lia.
Qed.

Lemma Service_removeDocuments_cons d ids st :
  Service.removeDocuments (d :: ids) st
  = ((if (Service.removeDocument d st).1 then 1 else 0)
     + (Service.removeDocuments ids (Service.removeDocument d st).2).1,
     (Service.removeDocuments ids (Service.removeDocument d st).2).2).
Proof.
  unfold Service.removeDocuments at 1. cbn [fold_left fst snd].
  destruct (Service.removeDocument d st) as [success st1].
  rewrite Service_removeDocuments_acc. cbn [fst snd].
  by destruct success.
Qed.

Lemma Service_removeDocuments_inv ids st :
  Layer1.documents (Service.layer1 st) = Layer2.documents (Service.layer2 st) ->
  dom (Layer3.embeddings (Service.layer3 st))
  ⊆ dom (Layer1.documents (Service.layer1 st)) ->
  let r := Service.removeDocuments ids st in
  r.1 = Z.of_nat (size (dom (Layer3.embeddings (Service.layer3 st))
                        ∩ list_to_set ids))
  ∧ (forall id,
        Layer1.documents (Service.layer1 r.2) !! id
        = if decide (id ∈ ids) then None
          else Layer1.documents (Service.layer1 st) !! id)
  ∧ (forall id,
        Layer2.documents (Service.layer2 r.2) !! id
        = if decide (id ∈ ids) then None
          else Layer2.documents (Service.layer2 st) !! id)
  ∧ (forall id,
        Layer3.embeddings (Service.layer3 r.2) !! id
        = if decide (id ∈ ids) then None
          else Layer3.embeddings (Service.layer3 st) !! id).
Proof.
  revert st. induction ids as [|d ids IH]; intros st H12 H3 r.
  - subst r. cbn. split; [|done].
    replace (dom (Layer3.embeddings (Service.layer3 st)) ∩ ∅)
      with (∅ : gset string) by set_solver.
    by rewrite size_empty.
  - subst r. rewrite Service_removeDocuments_cons. cbn [fst snd].
    pose proof (Layer1_documents_removeDocument d (Service.layer1 st)) as Hd1.
    pose proof (Layer2_documents_removeDocument d (Service.layer2 st)) as Hd2.
    pose proof (Layer1_removeDocument_result d (Service.layer1 st))
      as [Hb1 _].
    pose proof (Layer2_removeDocument_result d (Service.layer2 st))
      as [Hb2 _].
    unfold Service.removeDocument in *.
    destruct (Layer1.removeDocument d (Service.layer1 st)) as [b1 l1].
    destruct (Layer2.removeDocument d (Service.layer2 st)) as [b2 l2].
    cbn [fst snd Layer3.removeEmbedding] in *.
    match goal with
    | |- context [Service.removeDocuments ids ?s] => set (st1 := s)
    end.
    destruct (IH st1) as (Hcount & Hl1 & Hl2 & Hl3).
    { subst st1. cbn. by rewrite Hd1, Hd2, H12. }
    { subst st1. cbn. rewrite Hd1, !dom_delete. set_solver. }
    subst st1.
    cbn [Service.layer1 Service.layer2 Service.layer3 Layer3.embeddings]
      in *.
    split; [|split; [|split]].
    + rewrite Hcount, dom_delete_L. subst b1 b2.
      set (E := dom (Layer3.embeddings (Service.layer3 st))) in *.
      destruct (decide (d ∈ E)) as [Hin|Hnin].
      * assert (Hin1 : is_Some (Layer1.documents (Service.layer1 st) !! d))
          by (apply elem_of_dom; set_solver).
        assert (Hin2 : is_Some (Layer2.documents (Service.layer2 st) !! d))
          by (by rewrite <- H12).
        assert (Hin3 : is_Some (Layer3.embeddings (Service.layer3 st) !! d))
          by (by apply elem_of_dom).
        rewrite !bool_decide_eq_true_2 by done. cbn [andb].
        replace (E ∩ list_to_set (d :: ids))
          with ({[d]} ∪ (E ∖ {[d]}) ∩ list_to_set ids : gset string).
        2:{ apply set_eq. intros x. rewrite list_to_set_cons.
            destruct (decide (x = d)); set_solver. }
        assert (Hsize :
          size ({[d]} ∪ (E ∖ {[d]}) ∩ list_to_set ids : gset string)
          = S (size ((E ∖ {[d]}) ∩ list_to_set ids : gset string))).
        { rewrite size_union by set_solver. by rewrite size_singleton. }
        rewrite Hsize. lia.
      * assert (Hnone : ~ is_Some
                          (Layer3.embeddings (Service.layer3 st) !! d)).
        { intros Hs. by apply Hnin, elem_of_dom. }
        rewrite (bool_decide_eq_false_2 _ Hnone), !andb_false_r.
        replace (E ∩ list_to_set (d :: ids))
          with ((E ∖ {[d]}) ∩ list_to_set ids : gset string).
        2:{ apply set_eq. intros x. rewrite list_to_set_cons.
            destruct (decide (x = d)); set_solver. }
        lia.
    + intros id. rewrite Hl1, Hd1.
      destruct (decide (id = d)) as [->|Hne].
      * rewrite lookup_delete_eq.
        rewrite (decide_True (P := d ∈ d :: ids)) by apply list_elem_of_here.
        by destruct (decide (d ∈ ids)).
      * rewrite lookup_delete_ne by done.
        destruct (decide (id ∈ ids)) as [Hi|Hi].
        -- rewrite decide_True; [done|by apply list_elem_of_further].
        -- rewrite decide_False; [done|].
           intros [?|?]%elem_of_cons; done.
    + intros id. rewrite Hl2, Hd2.
      destruct (decide (id = d)) as [->|Hne].
      * rewrite lookup_delete_eq.
        rewrite (decide_True (P := d ∈ d :: ids)) by apply list_elem_of_here.
        by destruct (decide (d ∈ ids)).
      * rewrite lookup_delete_ne by done.
        destruct (decide (id ∈ ids)) as [Hi|Hi].
        -- rewrite decide_True; [done|by apply list_elem_of_further].
        -- rewrite decide_False; [done|].
           intros [?|?]%elem_of_cons; done.
    + intros id. rewrite Hl3.
      destruct (decide (id = d)) as [->|Hne].
      * rewrite lookup_delete_eq.
        rewrite (decide_True (P := d ∈ d :: ids)) by apply list_elem_of_here.
        by destruct (decide (d ∈ ids)).
      * rewrite lookup_delete_ne by done.
        destruct (decide (id ∈ ids)) as [Hi|Hi].
        -- rewrite decide_True; [done|by apply list_elem_of_further].
        -- rewrite decide_False; [done|].
           intros [?|?]%elem_of_cons; done.
Qed.

(** X30.  In every state the service reaches, [removeDocuments]
    returns the number of different ids of its list that have a vector
    in stage 3: an id listed twice counts once, and a stored document
    whose embedding failed is removed without being counted.
    Afterwards no id of the list is stored in any stage, and what the
    stages hold under the other ids is unchanged. *)
Theorem removeDocuments_count (model : Embedder) (config : Config)
    (documentIds : list string) (st : Service.State)
    (Hreach : Service.reachable model config st) :
  let r := Service.removeDocuments documentIds st in
  r.1 = Z.of_nat (size (dom (Layer3.embeddings (Service.layer3 st))
                        ∩ list_to_set documentIds))
  ∧ (forall id,
        Layer1.getDocument (Service.layer1 r.2) id
        = if decide (id ∈ documentIds) then None
          else Layer1.getDocument (Service.layer1 st) id)
  ∧ (forall id,
        Layer2.documents (Service.layer2 r.2) !! id
        = if decide (id ∈ documentIds) then None
          else Layer2.documents (Service.layer2 st) !! id)
  ∧ (forall id,
        Layer3.getEmbedding (Service.layer3 r.2) id
        = if decide (id ∈ documentIds) then None
          else Layer3.getEmbedding (Service.layer3 st) id).
Proof.
  destruct (Service_reachable_inv model config st Hreach)
    as (_ & _ & H12 & H3 & _).
  by apply Service_removeDocuments_inv.
Qed.

Lemma removeDocuments_count_witness :
  let st :=
    (Service.addDocument sampleModel sampleD1
       (Service.init default_config)).1 in
  let r := Service.removeDocuments ["d1"; "d1"; "d2"] st in
  r.1 = Z.of_nat (size (dom (Layer3.embeddings (Service.layer3 st))
                        ∩ list_to_set ["d1"; "d1"; "d2"]))
  ∧ (forall id,
        Layer1.getDocument (Service.layer1 r.2) id
        = if decide (id ∈ ["d1"; "d1"; "d2"]) then None
          else Layer1.getDocument (Service.layer1 st) id)
  ∧ (forall id,
        Layer2.documents (Service.layer2 r.2) !! id
        = if decide (id ∈ ["d1"; "d1"; "d2"]) then None
          else Layer2.documents (Service.layer2 st) !! id)
  ∧ (forall id,
        Layer3.getEmbedding (Service.layer3 r.2) id
        = if decide (id ∈ ["d1"; "d1"; "d2"]) then None
          else Layer3.getEmbedding (Service.layer3 st) id).
Proof.
  apply (removeDocuments_count sampleModel default_config
           ["d1"; "d1"; "d2"]).
  apply Service.reachable_add; [apply Service.reachable_init|].
  reflexivity.
Defined.
